(** * Bedrock knowledge-base cleaners: call sequencing, retries and polling

    A shallow embedding of the two cleaner scripts
    ([delete_bedrock_kbs.py], [delete_bedrock_kbs_v2.py]) and of the
    status-polling loops of [kb_test.py].

    The scripts are sequences of calls against the provider's client.  The
    client is modelled as a deterministic oracle that answers each call from
    the history of everything the process has done so far; a run of a
    function produces a result (a value or a raised exception) and the trace
    of events it appended to that history.

    Conventions.
    - Exceptions come from the calls to the client and from [input] only;
      [print] and [time.sleep] return.  The alarm of [TimeoutHandler] shows
      as a call that raises [TimeoutError].
    - The records of the provider are well formed: the keys the scripts
      read are there.
    - Sleeps and clocks are in milliseconds; the clock reads that only
      serve the "Completed in" line and the time stamp of debug lines are
      not events.
    - A message is an event with its arguments, not the formatted text.
    - A loop is a recursive function over what it iterates on; an [int] is
      a [Z]. *)

From Stdlib Require Import List String Ascii ZArith Lia Bool Arith.
Import ListNotations.
Open Scope string_scope.
Open Scope list_scope.

(* ================================================================= *)
(** ** Strings: [str.lower] and the [in] operator *)

(** [str.lower()] restricted to the ASCII letters (bytes outside 'A'..'Z'
    are left alone). *)
Definition lower_ascii (c : ascii) : ascii :=
  let n := nat_of_ascii c in
  if (65 <=? n)%nat && (n <=? 90)%nat then ascii_of_nat (n + 32) else c.

Fixpoint lower (s : string) : string :=
  match s with
  | EmptyString => EmptyString
  | String c s' => String (lower_ascii c) (lower s')
  end.

(** [sub in s] *)
Fixpoint contains (sub s : string) : bool :=
  String.prefix sub s ||
  match s with
  | EmptyString => false
  | String _ s' => contains sub s'
  end.

(* ================================================================= *)
(** ** Exceptions, provider records, events *)

(** [botocore.exceptions.ClientError]: [e.response['Error']], and the
    operation name and the note on retries that [str(e)] prints. *)
Record client_error := mkClientError {
  error_code : string;
  error_message : string;
  operation_name : string;
  retry_info : string
}.

(** [str(e)] of a [ClientError], after botocore's message template. *)
Definition str_client_error (e : client_error) : string :=
  ("An error occurred (" ++ error_code e ++ ") when calling the "
     ++ operation_name e ++ " operation" ++ retry_info e ++ ": "
     ++ error_message e)%string.

Inductive exn :=
| ClientError (e : client_error)
| NoCredentialsError
| TimeoutError
| KeyboardInterrupt
| ValueError
| ZeroDivisionError
| OtherException (what : string)
| SystemExit (code : Z).

(** [isinstance(e, Exception)]: [KeyboardInterrupt] and [SystemExit] derive
    from [BaseException] only. *)
Definition is_Exception (e : exn) : bool :=
  match e with
  | KeyboardInterrupt | SystemExit _ => false
  | _ => true
  end.

Record KbSummary := mkKb {
  knowledgeBaseId : string;
  kb_name : string;
  kb_status : string
}.

Record DsSummary := mkDs {
  dataSourceId : string;
  ds_name : string
}.

(** The part of [get_data_source]'s response that is sent back on update;
    the configuration is opaque to the scripts. *)
Record DataSource := mkDataSource {
  src_name : string;
  dataSourceConfiguration : string
}.

Inductive Call :=
| CCreateClient (region : string)
| CTestListKnowledgeBases                       (* list_knowledge_bases(maxResults=1) *)
| CListKnowledgeBasesPage
| CListDataSourcesPage (kb_id : string)
| CGetDataSource (kb_id ds_id : string)
| CUpdateDataSource (kb_id ds_id name config policy : string)
| CDeleteDataSource (kb_id ds_id : string)
| CDeleteKnowledgeBase (kb_id : string).

Inductive Outcome := Ok | Raised (e : exn).

Inductive Msg :=
| MsgNoCredentials | MsgCredentialsHelp
| MsgClientInitError (e : client_error) | MsgCheckPermissions
| MsgListing (region : string)
| MsgFound (n : nat)
| MsgKbLine (i : Z) (kb : KbSummary)
| MsgListError (e : client_error)
| MsgPaginationError (e : exn)
| MsgListTimeout
| MsgListDsError (kb_id : string) (e : client_error)
| MsgListDsTimeout (kb_id : string)
| MsgPolicyUpdated (ds_id : string)
| MsgPolicyUpdateFailed (ds_id : string) (e : client_error)
| MsgPolicyUpdateTimeout (ds_id : string)
| MsgDsDeleted (ds_id : string)
| MsgVectorStoreRetry (attempt : Z)
| MsgDsTimeoutRetry (attempt : Z)
| MsgDsTimeoutFailed (ds_id : string)
| MsgDsDeleteFailed (ds_id text : string)
| MsgDryRun (name kb_id : string)
| MsgDeletingKb (name kb_id : string)
| MsgFoundDs (n : nat)
| MsgDeletingDs (name ds_id : string)
| MsgContinuing
| MsgWaitingDs
| MsgKbDeleted (name : string)
| MsgKbRetry (attempt : Z) | MsgKbRetryError (text : string)
| MsgKbTimeoutRetry (attempt : Z)
| MsgKbTimeoutFailed (name : string) (max_retries : Z)
| MsgKbFailed (name : string) (max_retries : Z) | MsgKbFinalError (text : string)
| MsgNoKbs
| MsgWarning (n : nat) | MsgCannotUndo
| MsgCancelled
| MsgStarting (n : nat)
| MsgBatches (batch_size : Z)
| MsgBatch (number first last : Z) (total : nat)
| MsgProcessing (i : Z) (total : nat) (name : string)
| MsgCompleted
| MsgWaitBatch
| MsgSummary
| MsgSuccessful (n : Z)
| MsgFailed (n : Z)
| MsgSuccessRate (successes total : Z)
| MsgHint (k : nat)
| MsgBanner
| MsgRegionsHeader
| MsgRegion (name : string)
| MsgDebugEnabled
| MsgDebug (text : string)
| MsgInterrupted
| MsgUnexpected (e : exn)
| MsgTraceback.

(** Sleeps are in milliseconds. *)
Inductive Event :=
| EvCall (c : Call) (o : Outcome)
| EvInput (answer : exn + string)
| EvSleep (ms : Z)
| EvPrint (m : Msg).

Definition History := list Event.

(** The calls that change something at the provider. *)
Definition is_mutating (ev : Event) : bool :=
  match ev with
  | EvCall (CUpdateDataSource _ _ _ _ _) _
  | EvCall (CDeleteDataSource _ _) _
  | EvCall (CDeleteKnowledgeBase _) _ => true
  | _ => false
  end.

Definition is_ds_delete (ev : Event) : bool :=
  match ev with EvCall (CDeleteDataSource _ _) _ => true | _ => false end.

Definition is_kb_delete (ev : Event) : bool :=
  match ev with EvCall (CDeleteKnowledgeBase _) _ => true | _ => false end.

Definition is_policy_update (ev : Event) : bool :=
  match ev with EvCall (CUpdateDataSource _ _ _ _ _) _ => true | _ => false end.

Definition count (p : Event -> bool) (t : list Event) : nat :=
  List.length (filter p t).

(** A paginator yields pages and may raise after some of them. *)
Definition Pages (A : Type) : Type := (list (list A) * option exn)%type.

(** The provider (or a mock of it) and the terminal, as an oracle over the
    history of the process. *)
Record Client := mkClient {
  cl_create_client : string -> History -> exn + unit;
  cl_test_list_knowledge_bases : History -> exn + unit;
  cl_paginate_knowledge_bases : History -> Pages KbSummary;
  cl_paginate_data_sources : string -> History -> Pages DsSummary;
  cl_get_data_source : string -> string -> History -> exn + DataSource;
  cl_update_data_source :
    string -> string -> string -> string -> string -> History -> exn + unit;
  cl_delete_data_source : string -> string -> History -> exn + unit;
  cl_delete_knowledge_base : string -> History -> exn + unit;
  cl_input : History -> exn + string
}.

(* ================================================================= *)
(** ** The monad of runs *)

(** A computation reads the history so far and returns a value or a raised
    exception together with the events it appended. *)
Definition M (A : Type) : Type := History -> (exn + A) * list Event.

Definition ret {A} (a : A) : M A := fun _ => (inr a, []).

Definition raise {A} (e : exn) : M A := fun _ => (inl e, []).

Definition bind {A B} (m : M A) (f : A -> M B) : M B :=
  fun h =>
    match m h with
    | (inl e, t1) => (inl e, t1)
    | (inr a, t1) =>
        match f a (h ++ t1) with
        | (r, t2) => (r, t1 ++ t2)
        end
    end.

Notation "x <- m ;; k" := (bind m (fun x => k))
  (at level 61, m at next level, right associativity).
Notation "m ;; k" := (bind m (fun _ => k))
  (at level 61, right associativity).

(** [try: m except ...: handler] *)
Definition catch {A} (m : M A) (handler : exn -> M A) : M A :=
  fun h =>
    match m h with
    | (inr a, t1) => (inr a, t1)
    | (inl e, t1) =>
        match handler e (h ++ t1) with
        | (r, t2) => (r, t1 ++ t2)
        end
    end.

Definition emit (ev : Event) : M unit := fun _ => (inr tt, [ev]).

Definition print (m : Msg) : M unit := emit (EvPrint m).

Definition sleep (ms : Z) : M unit := emit (EvSleep ms).

Definition when (b : bool) (m : M unit) : M unit := if b then m else ret tt.

Definition outcome_of {A} (r : exn + A) : Outcome :=
  match r with inl e => Raised e | inr _ => Ok end.

(** One call to the client: the oracle answers from the history, the call
    and its outcome go on the trace. *)
Definition call {A} (c : Call) (answer : History -> exn + A) : M A :=
  fun h => (answer h, [EvCall c (outcome_of (answer h))]).

(** [for x in xs: body(x)] *)
Fixpoint for_each {A} (xs : list A) (body : A -> M unit) : M unit :=
  match xs with
  | [] => ret tt
  | x :: rest => body x ;; for_each rest body
  end.

(** [enumerate(xs, start)] *)
Fixpoint enumerate {A} (start : Z) (xs : list A) : list (Z * A) :=
  match xs with
  | [] => []
  | x :: rest => (start, x) :: enumerate (start + 1) rest
  end.

(** [range(n)] *)
Definition range (n : Z) : list Z :=
  map Z.of_nat (seq 0 (Z.to_nat n)).

(** [for page in paginator.paginate(...)]: one read per page; [per_page]
    is the loop body after the page has been added to the result. *)
Fixpoint paginate_from {A} (c : Call) (per_page : Z -> M unit)
    (page_num : Z) (pages : list (list A)) (failure : option exn)
    (acc : list A) : M (list A) :=
  match pages with
  | [] =>
      match failure with
      | Some e => emit (EvCall c (Raised e)) ;; raise e
      | None => ret acc
      end
  | page :: rest =>
      emit (EvCall c Ok) ;;
      per_page page_num ;;
      paginate_from c per_page (page_num + 1) rest failure (acc ++ page)
  end.

Definition paginate {A} (c : Call) (stream : History -> Pages A)
    (per_page : Z -> M unit) : M (list A) :=
  fun h => paginate_from c per_page 1 (fst (stream h)) (snd (stream h)) [] h.

(** [try: m] with the outcome handed to the [except] clauses. *)
Definition try_ {A} (m : M A) : M (exn + A) :=
  fun h => (inr (fst (m h)), snd (m h)).

(** [input(prompt)] *)
Definition input (cl : Client) : M string :=
  fun h => (cl_input cl h, [EvInput (cl_input cl h)]).

Definition is_empty {A} (l : list A) : bool :=
  match l with [] => true | _ => false end.

(** What the interpreter reports to the parent process once [main] is
    over: 0 when it returns, the argument of [sys.exit], 1 after the
    traceback of an uncaught [Exception], and 130 (death by SIGINT) after an
    uncaught [KeyboardInterrupt] (CPython 3.8 and later). *)
Definition exit_status (r : exn + unit) : Z :=
  match r with
  | inr _ => 0
  | inl (SystemExit code) => code
  | inl KeyboardInterrupt => 130
  | inl _ => 1
  end.

(** The confirmation block of [delete_all_knowledge_bases], the same in
    both scripts; [false] is its early [return]. *)
Definition confirm_deletion (cl : Client) (dry_run confirm : bool)
    (found : nat) : M bool :=
  if negb dry_run && negb confirm then
    print (MsgWarning found) ;;
    print MsgCannotUndo ;;
    response <- input cl ;;
    if String.eqb response "DELETE" then ret true
    else print MsgCancelled ;; ret false
  else ret true.

(* ================================================================= *)
(** ** delete_bedrock_kbs.py *)

Module V1.

(** The fields of [self]. *)
Record BedrockKBCleaner := mkCleaner {
  region : string;
  dry_run : bool
}.

(** Command-line arguments after [parse_args]. *)
Record Args := mkArgs {
  arg_region : string;
  arg_dry_run : bool;
  arg_confirm : bool;
  arg_list_regions : bool
}.

Section Cleaner.

Variable cl : Client.

(** [BedrockKBCleaner.__init__] *)
Definition __init__ (region : string) (dry_run : bool)
    : M BedrockKBCleaner :=
  catch
    (call (CCreateClient region) (cl_create_client cl region) ;;
     ret (mkCleaner region dry_run))
    (fun e =>
       match e with
       | NoCredentialsError =>
           print MsgNoCredentials ;;
           print MsgCredentialsHelp ;;
           raise (SystemExit 1)
       | _ => raise e
       end).

Variable self : BedrockKBCleaner.

Definition list_knowledge_bases : M (list KbSummary) :=
  catch
    (print (MsgListing (region self)) ;;
     knowledge_bases <-
       paginate CListKnowledgeBasesPage (cl_paginate_knowledge_bases cl)
         (fun _ => ret tt) ;;
     print (MsgFound (List.length knowledge_bases)) ;;
     for_each (enumerate 1 knowledge_bases)
       (fun ikb => print (MsgKbLine (fst ikb) (snd ikb))) ;;
     ret knowledge_bases)
    (fun e =>
       match e with
       | ClientError ce => print (MsgListError ce) ;; ret []
       | _ => raise e
       end).

Definition list_data_sources (kb_id : string) : M (list DsSummary) :=
  catch
    (paginate (CListDataSourcesPage kb_id) (cl_paginate_data_sources cl kb_id)
       (fun _ => ret tt))
    (fun e =>
       match e with
       | ClientError ce => print (MsgListDsError kb_id ce) ;; ret []
       | _ => raise e
       end).

Definition update_data_source_deletion_policy (kb_id data_source_id : string)
    : M bool :=
  catch
    (data_source <-
       call (CGetDataSource kb_id data_source_id)
         (cl_get_data_source cl kb_id data_source_id) ;;
     call
       (CUpdateDataSource kb_id data_source_id (src_name data_source)
          (dataSourceConfiguration data_source) "RETAIN")
       (cl_update_data_source cl kb_id data_source_id (src_name data_source)
          (dataSourceConfiguration data_source) "RETAIN") ;;
     print (MsgPolicyUpdated data_source_id) ;;
     ret true)
    (fun e =>
       match e with
       | ClientError ce =>
           print (MsgPolicyUpdateFailed data_source_id ce) ;; ret false
       | _ => raise e
       end).

(** The body of [for attempt in range(max_retries)] in
    [delete_data_source], over the attempts still to come. *)
Fixpoint delete_data_source_attempts (kb_id data_source_id : string)
    (max_retries : Z) (attempts : list Z) : M bool :=
  match attempts with
  | [] => ret false
  | attempt :: rest =>
      r <- try_ (call (CDeleteDataSource kb_id data_source_id)
                   (cl_delete_data_source cl kb_id data_source_id)) ;;
      match r with
      | inr _ => print (MsgDsDeleted data_source_id) ;; ret true
      | inl (ClientError e) =>
          let error_message := error_message e in
          if contains "vector store" (lower error_message)
             && (attempt <? max_retries - 1)%Z
          then
            print (MsgVectorStoreRetry (attempt + 1)) ;;
            update_data_source_deletion_policy kb_id data_source_id ;;
            sleep 2000 ;;
            delete_data_source_attempts kb_id data_source_id max_retries rest
          else
            print (MsgDsDeleteFailed data_source_id error_message) ;;
            ret false
      | inl e => raise e
      end
  end.

Definition delete_data_source (kb_id data_source_id : string)
    (max_retries : Z) : M bool :=
  delete_data_source_attempts kb_id data_source_id max_retries
    (range max_retries).

(** The retry loop at the end of [delete_knowledge_base]. *)
Fixpoint delete_knowledge_base_attempts (kb_id kb_name : string)
    (max_retries : Z) (attempts : list Z) : M bool :=
  match attempts with
  | [] => ret false
  | attempt :: rest =>
      r <- try_ (call (CDeleteKnowledgeBase kb_id)
                   (cl_delete_knowledge_base cl kb_id)) ;;
      match r with
      | inr _ => print (MsgKbDeleted kb_name) ;; ret true
      | inl (ClientError e) =>
          if (attempt <? max_retries - 1)%Z
          then
            print (MsgKbRetry (attempt + 1)) ;;
            print (MsgKbRetryError (error_message e)) ;;
            sleep 10000 ;;
            delete_knowledge_base_attempts kb_id kb_name max_retries rest
          else
            print (MsgKbFailed kb_name max_retries) ;;
            print (MsgKbFinalError (error_message e)) ;;
            ret false
      | inl e => raise e
      end
  end.

Definition delete_knowledge_base (kb_id kb_name : string) (max_retries : Z)
    : M bool :=
  if dry_run self then
    print (MsgDryRun kb_name kb_id) ;; ret true
  else
    print (MsgDeletingKb kb_name kb_id) ;;
    data_sources <- list_data_sources kb_id ;;
    when (negb (is_empty data_sources))
      (print (MsgFoundDs (List.length data_sources)) ;;
       for_each data_sources
         (fun ds =>
            print (MsgDeletingDs (ds_name ds) (dataSourceId ds)) ;;
            deleted <- delete_data_source kb_id (dataSourceId ds) 3 ;;
            when (negb deleted) (print MsgContinuing))) ;;
    when (negb (is_empty data_sources))
      (print MsgWaitingDs ;; sleep 5000) ;;
    delete_knowledge_base_attempts kb_id kb_name max_retries
      (range max_retries).

(** The loop over [enumerate(knowledge_bases, 1)], threading the two
    counters. *)
Fixpoint process_knowledge_bases (total : nat) (items : list (Z * KbSummary))
    (success_count failure_count : Z) : M (Z * Z) :=
  match items with
  | [] => ret (success_count, failure_count)
  | (i, kb) :: rest =>
      print (MsgProcessing i total (kb_name kb)) ;;
      deleted <- delete_knowledge_base (knowledgeBaseId kb) (kb_name kb) 3 ;;
      let success_count := if deleted then (success_count + 1)%Z else success_count in
      let failure_count := if deleted then failure_count else (failure_count + 1)%Z in
      when (negb (dry_run self) && (i <? Z.of_nat total)%Z) (sleep 2000) ;;
      process_knowledge_bases total rest success_count failure_count
  end.

(** [delete_all_knowledge_bases] from the announcement of the deletion to
    the summary. *)
Definition delete_listed (knowledge_bases : list KbSummary) : M unit :=
  print (MsgStarting (List.length knowledge_bases)) ;;
  counts <-
    process_knowledge_bases (List.length knowledge_bases)
      (enumerate 1 knowledge_bases) 0 0 ;;
  print MsgSummary ;;
  print (MsgSuccessful (fst counts)) ;;
  print (MsgFailed (snd counts)) ;;
  when (0 <? snd counts)%Z
    (print (MsgHint 0) ;; print (MsgHint 1) ;; print (MsgHint 2) ;;
     print (MsgHint 3)).

Definition delete_all_knowledge_bases (confirm : bool) : M unit :=
  knowledge_bases <- list_knowledge_bases ;;
  if is_empty knowledge_bases then
    print MsgNoKbs
  else
    go_on <- confirm_deletion cl (dry_run self) confirm
               (List.length knowledge_bases) ;;
    if negb go_on then ret tt
    else delete_listed knowledge_bases.

End Cleaner.

Definition regions : list string :=
  ["us-east-1"; "us-west-2"; "eu-west-1"; "eu-central-1";
   "ap-southeast-1"; "ap-northeast-1"; "ca-central-1"].

Definition main (cl : Client) (args : Args) : M unit :=
  if arg_list_regions args then
    print MsgRegionsHeader ;;
    for_each regions (fun region => print (MsgRegion region))
  else
    print MsgBanner ;;
    cleaner <- __init__ cl (arg_region args) (arg_dry_run args) ;;
    delete_all_knowledge_bases cl cleaner (arg_confirm args).

End V1.

(* ================================================================= *)
(** ** delete_bedrock_kbs_v2.py *)

(** [range(start, stop, step)]; a zero step raises. *)
Fixpoint range_up (fuel : nat) (start stop step : Z) : list Z :=
  match fuel with
  | O => []
  | S fuel' =>
      if (start <? stop)%Z
      then start :: range_up fuel' (start + step) stop step
      else []
  end.

Fixpoint range_down (fuel : nat) (start stop step : Z) : list Z :=
  match fuel with
  | O => []
  | S fuel' =>
      if (stop <? start)%Z
      then start :: range_down fuel' (start + step) stop step
      else []
  end.

Definition range_step (start stop step : Z) : exn + list Z :=
  if (step =? 0)%Z then inl ValueError
  else if (0 <? step)%Z
       then inr (range_up (Z.to_nat (stop - start)) start stop step)
       else inr (range_down (Z.to_nat (start - stop)) start stop step).

(** [xs[a:b]] for the indices the batch loop produces ([0 <= a], [0 <= b]). *)
Definition slice {A} (xs : list A) (a b : Z) : list A :=
  firstn (Z.to_nat b - Z.to_nat a) (skipn (Z.to_nat a) xs).

Module V2.

Record BedrockKBCleanerV2 := mkCleaner {
  region : string;
  dry_run : bool;
  debug : bool
}.

Record Args := mkArgs {
  arg_region : string;
  arg_dry_run : bool;
  arg_confirm : bool;
  arg_debug : bool;
  arg_batch_size : Z
}.

Section Cleaner.

Variable cl : Client.

(** [BedrockKBCleanerV2.__init__]: the client is created and the connection
    tested with one listing call. *)
Definition __init__ (region : string) (dry_run debug : bool)
    : M BedrockKBCleanerV2 :=
  catch
    (call (CCreateClient region) (cl_create_client cl region) ;;
     call CTestListKnowledgeBases (cl_test_list_knowledge_bases cl) ;;
     ret (mkCleaner region dry_run debug))
    (fun e =>
       match e with
       | NoCredentialsError =>
           print MsgNoCredentials ;;
           print MsgCredentialsHelp ;;
           raise (SystemExit 1)
       | ClientError ce =>
           print (MsgClientInitError ce) ;;
           print MsgCheckPermissions ;;
           raise (SystemExit 1)
       | _ => raise e
       end).

Variable self : BedrockKBCleanerV2.

Definition debug_print (message : string) : M unit :=
  when (debug self) (print (MsgDebug message)).

Definition list_knowledge_bases : M (list KbSummary) :=
  catch
    (print (MsgListing (region self)) ;;
     r <- try_
            (paginate CListKnowledgeBasesPage (cl_paginate_knowledge_bases cl)
               (fun page_num =>
                  debug_print "Processing page" ;;
                  when (1 <? page_num)%Z (sleep 500))) ;;
     match r with
     | inl e =>
         if is_Exception e
         then print (MsgPaginationError e) ;; ret []
         else raise e
     | inr knowledge_bases =>
         print (MsgFound (List.length knowledge_bases)) ;;
         for_each (enumerate 1 knowledge_bases)
           (fun ikb => print (MsgKbLine (fst ikb) (snd ikb))) ;;
         ret knowledge_bases
     end)
    (fun e =>
       match e with
       | TimeoutError => print MsgListTimeout ;; ret []
       | ClientError ce => print (MsgListError ce) ;; ret []
       | _ => raise e
       end).

Definition list_data_sources_with_timeout (kb_id : string)
    : M (list DsSummary) :=
  catch
    (debug_print "Listing data sources" ;;
     data_sources <-
       paginate (CListDataSourcesPage kb_id)
         (cl_paginate_data_sources cl kb_id) (fun _ => ret tt) ;;
     debug_print "Found data sources" ;;
     ret data_sources)
    (fun e =>
       match e with
       | TimeoutError => print (MsgListDsTimeout kb_id) ;; ret []
       | ClientError ce => print (MsgListDsError kb_id ce) ;; ret []
       | _ => raise e
       end).

Definition update_data_source_deletion_policy_with_timeout
    (kb_id data_source_id : string) : M bool :=
  catch
    (debug_print "Updating deletion policy" ;;
     data_source <-
       call (CGetDataSource kb_id data_source_id)
         (cl_get_data_source cl kb_id data_source_id) ;;
     call
       (CUpdateDataSource kb_id data_source_id (src_name data_source)
          (dataSourceConfiguration data_source) "RETAIN")
       (cl_update_data_source cl kb_id data_source_id (src_name data_source)
          (dataSourceConfiguration data_source) "RETAIN") ;;
     print (MsgPolicyUpdated data_source_id) ;;
     ret true)
    (fun e =>
       match e with
       | TimeoutError =>
           print (MsgPolicyUpdateTimeout data_source_id) ;; ret false
       | ClientError ce =>
           print (MsgPolicyUpdateFailed data_source_id ce) ;; ret false
       | _ => raise e
       end).

Fixpoint delete_data_source_attempts (kb_id data_source_id : string)
    (max_retries : Z) (attempts : list Z) : M bool :=
  match attempts with
  | [] => ret false
  | attempt :: rest =>
      r <- try_ (debug_print "Attempting to delete data source" ;;
                 call (CDeleteDataSource kb_id data_source_id)
                   (cl_delete_data_source cl kb_id data_source_id)) ;;
      match r with
      | inr _ => print (MsgDsDeleted data_source_id) ;; ret true
      | inl TimeoutError =>
          if (attempt <? max_retries - 1)%Z
          then
            print (MsgDsTimeoutRetry (attempt + 1)) ;;
            sleep 5000 ;;
            delete_data_source_attempts kb_id data_source_id max_retries rest
          else
            print (MsgDsTimeoutFailed data_source_id) ;; ret false
      | inl (ClientError e) =>
          let error_message := str_client_error e in
          if contains "vector store" (lower error_message)
             && (attempt <? max_retries - 1)%Z
          then
            print (MsgVectorStoreRetry (attempt + 1)) ;;
            update_data_source_deletion_policy_with_timeout
              kb_id data_source_id ;;
            sleep 3000 ;;
            delete_data_source_attempts kb_id data_source_id max_retries rest
          else
            print (MsgDsDeleteFailed data_source_id error_message) ;;
            ret false
      | inl e => raise e
      end
  end.

Definition delete_data_source_with_timeout (kb_id data_source_id : string)
    (max_retries : Z) : M bool :=
  delete_data_source_attempts kb_id data_source_id max_retries
    (range max_retries).

Fixpoint delete_knowledge_base_attempts (kb_id kb_name : string)
    (max_retries : Z) (attempts : list Z) : M bool :=
  match attempts with
  | [] => ret false
  | attempt :: rest =>
      r <- try_ (debug_print "Attempting to delete KB" ;;
                 call (CDeleteKnowledgeBase kb_id)
                   (cl_delete_knowledge_base cl kb_id)) ;;
      match r with
      | inr _ => print (MsgKbDeleted kb_name) ;; ret true
      | inl TimeoutError =>
          if (attempt <? max_retries - 1)%Z
          then
            print (MsgKbTimeoutRetry (attempt + 1)) ;;
            sleep 15000 ;;
            delete_knowledge_base_attempts kb_id kb_name max_retries rest
          else
            print (MsgKbTimeoutFailed kb_name max_retries) ;; ret false
      | inl (ClientError e) =>
          let error_message := str_client_error e in
          if (attempt <? max_retries - 1)%Z
          then
            print (MsgKbRetry (attempt + 1)) ;;
            print (MsgKbRetryError error_message) ;;
            sleep 15000 ;;
            delete_knowledge_base_attempts kb_id kb_name max_retries rest
          else
            print (MsgKbFailed kb_name max_retries) ;;
            print (MsgKbFinalError error_message) ;;
            ret false
      | inl e => raise e
      end
  end.

Definition delete_knowledge_base_with_timeout (kb_id kb_name : string)
    (max_retries : Z) : M bool :=
  if dry_run self then
    print (MsgDryRun kb_name kb_id) ;; ret true
  else
    print (MsgDeletingKb kb_name kb_id) ;;
    data_sources <- list_data_sources_with_timeout kb_id ;;
    when (negb (is_empty data_sources))
      (print (MsgFoundDs (List.length data_sources)) ;;
       for_each data_sources
         (fun ds =>
            print (MsgDeletingDs (ds_name ds) (dataSourceId ds)) ;;
            deleted <-
              delete_data_source_with_timeout kb_id (dataSourceId ds) 3 ;;
            when (negb deleted) (print MsgContinuing))) ;;
    when (negb (is_empty data_sources))
      (print MsgWaitingDs ;; sleep 8000) ;;
    delete_knowledge_base_attempts kb_id kb_name max_retries
      (range max_retries).

(** [for i, kb in enumerate(batch)] *)
Fixpoint process_batch (total : nat) (batch_start : Z) (batch_len : nat)
    (items : list (Z * KbSummary)) (success_count failure_count : Z)
    : M (Z * Z) :=
  match items with
  | [] => ret (success_count, failure_count)
  | (i, kb) :: rest =>
      let overall_index := (batch_start + i + 1)%Z in
      print (MsgProcessing overall_index total (kb_name kb)) ;;
      deleted <-
        delete_knowledge_base_with_timeout (knowledgeBaseId kb) (kb_name kb) 3 ;;
      when deleted (print MsgCompleted) ;;
      let success_count := if deleted then (success_count + 1)%Z else success_count in
      let failure_count := if deleted then failure_count else (failure_count + 1)%Z in
      when (i <? Z.of_nat batch_len - 1)%Z (sleep 2000) ;;
      process_batch total batch_start batch_len rest success_count failure_count
  end.

(** [for batch_start in range(0, len(knowledge_bases), batch_size)] *)
Fixpoint process_batches (knowledge_bases : list KbSummary) (batch_size : Z)
    (starts : list Z) (success_count failure_count : Z) : M (Z * Z) :=
  match starts with
  | [] => ret (success_count, failure_count)
  | batch_start :: rest =>
      let total := List.length knowledge_bases in
      let batch_end := Z.min (batch_start + batch_size) (Z.of_nat total) in
      let batch := slice knowledge_bases batch_start batch_end in
      print (MsgBatch (batch_start / batch_size + 1) (batch_start + 1)
               batch_end total) ;;
      counts <-
        process_batch total batch_start (List.length batch)
          (enumerate 0 batch) success_count failure_count ;;
      when (batch_end <? Z.of_nat total)%Z
        (print MsgWaitBatch ;; sleep 10000) ;;
      process_batches knowledge_bases batch_size rest (fst counts) (snd counts)
  end.

(** [delete_all_knowledge_bases] from the announcement of the deletion to
    the summary. *)
Definition delete_listed (knowledge_bases : list KbSummary) (batch_size : Z)
    : M unit :=
  print (MsgStarting (List.length knowledge_bases)) ;;
  print (MsgBatches batch_size) ;;
  starts <-
    match range_step 0 (Z.of_nat (List.length knowledge_bases)) batch_size with
    | inl e => raise e
    | inr starts => ret starts
    end ;;
  counts <- process_batches knowledge_bases batch_size starts 0 0 ;;
  let success_count := fst counts in
  let failure_count := snd counts in
  print MsgSummary ;;
  print (MsgSuccessful success_count) ;;
  print (MsgFailed failure_count) ;;
  (if (success_count + failure_count =? 0)%Z
   then raise ZeroDivisionError
   else print (MsgSuccessRate success_count
                 (success_count + failure_count))) ;;
  when (0 <? failure_count)%Z
    (print (MsgHint 0) ;; print (MsgHint 1) ;; print (MsgHint 2) ;;
     print (MsgHint 3) ;; print (MsgHint 4)).

Definition delete_all_knowledge_bases (confirm : bool) (batch_size : Z)
    : M unit :=
  knowledge_bases <- list_knowledge_bases ;;
  if is_empty knowledge_bases then
    print MsgNoKbs
  else
    go_on <- confirm_deletion cl (dry_run self) confirm
               (List.length knowledge_bases) ;;
    if negb go_on then ret tt
    else delete_listed knowledge_bases batch_size.

End Cleaner.

(** The [except] clauses of [main]. *)
Definition on_failure (args : Args) (e : exn) : M unit :=
  match e with
  | KeyboardInterrupt =>
      print MsgInterrupted ;;
      raise (SystemExit 1)
  | _ =>
      if is_Exception e then
        print (MsgUnexpected e) ;;
        when (arg_debug args) (print MsgTraceback) ;;
        raise (SystemExit 1)
      else raise e
  end.

Definition main (cl : Client) (args : Args) : M unit :=
  print MsgBanner ;;
  when (arg_debug args) (print MsgDebugEnabled) ;;
  cleaner <-
    __init__ cl (arg_region args) (arg_dry_run args) (arg_debug args) ;;
  catch
    (delete_all_knowledge_bases cl cleaner (arg_confirm args)
       (arg_batch_size args))
    (on_failure args).

End V2.

(* ================================================================= *)
(** ** kb_test.py: the status-polling loops *)

Module KbTest.

(** A polled resource: the answer of the "get" call at each poll.  The
    clock counts milliseconds; a poll takes the time the provider takes. *)
Record Resource := mkResource {
  get_status : nat -> exn + string;
  latency : nat -> Z
}.

(** A [while] loop is run with a bound on its iterations: [Running] is a
    loop that has not left after that many. *)
Inductive Poll :=
| Returned
| Raise (e : exn)
| Running.

Record Run := mkRun {
  result : Poll;
  polls : nat;          (* "get" calls issued *)
  slept : Z             (* total of the [time.sleep] calls, in ms *)
}.

Section Loops.

Variable r : Resource.

(** [wait_for_kb_active]: [while True], left on "ACTIVE" or "FAILED". *)
Fixpoint wait_for_kb_active (fuel : nat) (polls : nat) (slept : Z) : Run :=
  match fuel with
  | O => mkRun Running polls slept
  | S fuel' =>
      match get_status r polls with
      | inl e => mkRun (Raise e) (S polls) slept
      | inr status =>
          if String.eqb status "ACTIVE" then mkRun Returned (S polls) slept
          else if String.eqb status "FAILED"
               then mkRun (Raise (OtherException "Knowledge Base creation FAILED."))
                      (S polls) slept
               else wait_for_kb_active fuel' (S polls) (slept + 5000)
      end
  end.

(** The inner loop of [enable_code_interpreter]:
    [while status != "ENABLED"], starting from [status = ""]. *)
Fixpoint enable_code_interpreter_loop (fuel : nat) (status : string) (polls : nat)
    (slept : Z) : Run :=
  if String.eqb status "ENABLED" then mkRun Returned polls slept
  else
    match fuel with
    | O => mkRun Running polls slept
    | S fuel' =>
        match get_status r polls with
        | inl e => mkRun (Raise e) (S polls) slept
        | inr status' =>
            enable_code_interpreter_loop fuel' status' (S polls)
              (slept + 2000)
        end
    end.

(** [wait_for_agent_status]: [for attempt in range(max_retries)]; a failing
    "get" counts as status "UNKNOWN". *)
Fixpoint wait_for_agent_status_attempts (expected_status : string)
    (interval : Z) (attempts : list Z) (polls : nat) (slept : Z) : Run :=
  match attempts with
  | [] => mkRun (Raise TimeoutError) polls slept
  | _ :: rest =>
      match
        match get_status r polls with
        | inl e => if is_Exception e then inr "UNKNOWN" else inl e
        | inr status => inr status
        end
      with
      | inl e => mkRun (Raise e) (S polls) slept
      | inr current_status =>
          if String.eqb current_status expected_status
          then mkRun Returned (S polls) slept
          else if existsb (String.eqb current_status)
                    ["FAILED"; "DELETING"; "DELETED"]
               then mkRun
                      (Raise (OtherException
                                ("Agent reached terminal state: "
                                   ++ current_status)%string))
                      (S polls) slept
               else wait_for_agent_status_attempts expected_status interval
                      rest (S polls) (slept + interval)
      end
  end.

Definition wait_for_agent_status (expected_status : string)
    (max_retries interval : Z) : Run :=
  wait_for_agent_status_attempts expected_status interval (range max_retries)
    0 0.

(** [wait_for_alias_ready]: [while True] with a wall-clock check;
    [elapsed] is [time.time() - start_time] in ms. *)
Fixpoint wait_for_alias_ready (fuel : nat) (timeout : Z) (elapsed : Z)
    (polls : nat) (slept : Z) : Run :=
  match fuel with
  | O => mkRun Running polls slept
  | S fuel' =>
      let elapsed := (elapsed + Z.max 0 (latency r polls))%Z in
      match get_status r polls with
      | inl e => mkRun (Raise e) (S polls) slept
      | inr status =>
          if existsb (String.eqb status) ["READY"; "PREPARED"]
          then mkRun Returned (S polls) slept
          else if String.eqb status "FAILED"
               then mkRun (Raise (OtherException "Alias creation failed."))
                      (S polls) slept
               else if (timeout <? elapsed)%Z
                    then mkRun (Raise TimeoutError) (S polls) slept
                    else wait_for_alias_ready fuel' timeout (elapsed + 5000)
                           (S polls) (slept + 5000)
      end
  end.

End Loops.

End KbTest.

(* ================================================================= *)
(** ** Mock clients *)

Module Mock.

Definition vector_store_error : client_error :=
  mkClientError "ValidationException"
    "Unable to delete data from vector store" "DeleteDataSource" "".

Definition access_denied : client_error :=
  mkClientError "AccessDeniedException" "not authorized" "ListKnowledgeBases"
    "".

Definition kb1 : KbSummary := mkKb "KB1" "first" "ACTIVE".
Definition kb2 : KbSummary := mkKb "KB2" "second" "ACTIVE".
Definition kb3 : KbSummary := mkKb "KB3" "third" "ACTIVE".
Definition ds1 : DsSummary := mkDs "DS1" "docs".
Definition ds2 : DsSummary := mkDs "DS2" "more-docs".

(** A provider on which every call succeeds: it lists [kbs], gives every
    knowledge base the data sources [dss], and the terminal answers
    [answer]. *)
Definition healthy (kbs : list KbSummary) (dss : list DsSummary)
    (answer : string) : Client :=
  {| cl_create_client := fun _ _ => inr tt;
     cl_test_list_knowledge_bases := fun _ => inr tt;
     cl_paginate_knowledge_bases := fun _ => ([kbs], None);
     cl_paginate_data_sources := fun _ _ => ([dss], None);
     cl_get_data_source := fun _ _ _ => inr (mkDataSource "docs" "{s3}");
     cl_update_data_source := fun _ _ _ _ _ _ => inr tt;
     cl_delete_data_source := fun _ _ _ => inr tt;
     cl_delete_knowledge_base := fun _ _ => inr tt;
     cl_input := fun _ => inr answer |}.

(** As [healthy], but the first [failures] deletion calls for a data source
    fail with the vector-store error. *)
Definition flaky_vector_store (failures : nat) (kbs : list KbSummary)
    (dss : list DsSummary) : Client :=
  {| cl_create_client := fun _ _ => inr tt;
     cl_test_list_knowledge_bases := fun _ => inr tt;
     cl_paginate_knowledge_bases := fun _ => ([kbs], None);
     cl_paginate_data_sources := fun _ _ => ([dss], None);
     cl_get_data_source := fun _ _ _ => inr (mkDataSource "docs" "{s3}");
     cl_update_data_source := fun _ _ _ _ _ _ => inr tt;
     cl_delete_data_source := fun _ _ h =>
       if (count is_ds_delete h <? failures)%nat
       then inl (ClientError vector_store_error) else inr tt;
     cl_delete_knowledge_base := fun _ _ => inr tt;
     cl_input := fun _ => inr "DELETE" |}.

(** As [flaky_vector_store], and reading the data source back fails too. *)
Definition unreadable_data_source (failures : nat) (kbs : list KbSummary)
    (dss : list DsSummary) : Client :=
  {| cl_create_client := fun _ _ => inr tt;
     cl_test_list_knowledge_bases := fun _ => inr tt;
     cl_paginate_knowledge_bases := fun _ => ([kbs], None);
     cl_paginate_data_sources := fun _ _ => ([dss], None);
     cl_get_data_source := fun _ _ _ =>
       inl (ClientError (mkClientError "ThrottlingException" "slow down"
                           "GetDataSource" ""));
     cl_update_data_source := fun _ _ _ _ _ _ => inr tt;
     cl_delete_data_source := fun _ _ h =>
       if (count is_ds_delete h <? failures)%nat
       then inl (ClientError vector_store_error) else inr tt;
     cl_delete_knowledge_base := fun _ _ => inr tt;
     cl_input := fun _ => inr "DELETE" |}.

(** As [healthy], but the knowledge base [stubborn] can never be deleted. *)
Definition stubborn_kb (stubborn : string) (kbs : list KbSummary)
    (dss : list DsSummary) : Client :=
  {| cl_create_client := fun _ _ => inr tt;
     cl_test_list_knowledge_bases := fun _ => inr tt;
     cl_paginate_knowledge_bases := fun _ => ([kbs], None);
     cl_paginate_data_sources := fun _ _ => ([dss], None);
     cl_get_data_source := fun _ _ _ => inr (mkDataSource "docs" "{s3}");
     cl_update_data_source := fun _ _ _ _ _ _ => inr tt;
     cl_delete_data_source := fun _ _ _ => inr tt;
     cl_delete_knowledge_base := fun kb _ =>
       if String.eqb kb stubborn
       then inl (ClientError (mkClientError "ConflictException"
                                "still in use" "DeleteKnowledgeBase" ""))
       else inr tt;
     cl_input := fun _ => inr "DELETE" |}.

(** As [healthy], but the first [failures] deletion calls for a knowledge
    base fail. *)
Definition flaky_kb_delete (failures : nat) (kbs : list KbSummary)
    (dss : list DsSummary) : Client :=
  {| cl_create_client := fun _ _ => inr tt;
     cl_test_list_knowledge_bases := fun _ => inr tt;
     cl_paginate_knowledge_bases := fun _ => ([kbs], None);
     cl_paginate_data_sources := fun _ _ => ([dss], None);
     cl_get_data_source := fun _ _ _ => inr (mkDataSource "docs" "{s3}");
     cl_update_data_source := fun _ _ _ _ _ _ => inr tt;
     cl_delete_data_source := fun _ _ _ => inr tt;
     cl_delete_knowledge_base := fun _ h =>
       if (count is_kb_delete h <? failures)%nat
       then inl (ClientError (mkClientError "ConflictException"
                                "still in use" "DeleteKnowledgeBase" ""))
       else inr tt;
     cl_input := fun _ => inr "DELETE" |}.

(** A provider whose listing of knowledge bases raises [e] at once. *)
Definition failing_listing (e : exn) : Client :=
  {| cl_create_client := fun _ _ => inr tt;
     cl_test_list_knowledge_bases := fun _ => inl e;
     cl_paginate_knowledge_bases := fun _ => ([], Some e);
     cl_paginate_data_sources := fun _ _ => ([], None);
     cl_get_data_source := fun _ _ _ => inr (mkDataSource "docs" "{s3}");
     cl_update_data_source := fun _ _ _ _ _ _ => inr tt;
     cl_delete_data_source := fun _ _ _ => inr tt;
     cl_delete_knowledge_base := fun _ _ => inr tt;
     cl_input := fun _ => inr "DELETE" |}.

(** No credentials: creating the client raises. *)
Definition no_credentials : Client :=
  {| cl_create_client := fun _ _ => inl NoCredentialsError;
     cl_test_list_knowledge_bases := fun _ => inl NoCredentialsError;
     cl_paginate_knowledge_bases := fun _ => ([], Some NoCredentialsError);
     cl_paginate_data_sources := fun _ _ => ([], None);
     cl_get_data_source := fun _ _ _ => inr (mkDataSource "docs" "{s3}");
     cl_update_data_source := fun _ _ _ _ _ _ => inr tt;
     cl_delete_data_source := fun _ _ _ => inr tt;
     cl_delete_knowledge_base := fun _ _ => inr tt;
     cl_input := fun _ => inr "DELETE" |}.

(** A resource that stays in one status for ever. *)
Definition stuck (status : string) : KbTest.Resource :=
  {| KbTest.get_status := fun _ => inr status;
     KbTest.latency := fun _ => 0%Z |}.

(** A resource that reaches [final] at poll number [k]. *)
Definition settles (k : nat) (before final : string) : KbTest.Resource :=
  {| KbTest.get_status := fun n => inr (if (n <? k)%nat then before else final);
     KbTest.latency := fun _ => 100%Z |}.

End Mock.

(* ================================================================= *)
(** ** kb_test.py: strings *)

(** [s.split(sep)] for a separator of one character: never empty. *)
Fixpoint split (sep : ascii) (s : string) : list string :=
  match s with
  | EmptyString => [EmptyString]
  | String c s' =>
      if Ascii.eqb c sep then EmptyString :: split sep s'
      else
        match split sep s' with
        | [] => [String c EmptyString]
        | part :: parts => String c part :: parts
        end
  end.

(** The parsing of a collection ARN that [create_vector_index] and
    [wait_for_index_ready] share: [parts[3]] of the split on colons is the
    region ([None] stands for its [IndexError]), the last piece of the split
    on slashes the name of the endpoint. *)
Definition endpoint_of (collection_arn : string) : option (string * string) :=
  match nth_error (split ":" collection_arn) 3 with
  | None => None
  | Some region =>
      let endpoint_name := last (split "/" collection_arn) EmptyString in
      Some (region,
            (endpoint_name ++ "." ++ region ++ ".aoss.amazonaws.com")%string)
  end.

(** A [str] whose characters matter, as opposed to [bytes]: the list of its
    code points. *)
Definition str := list N.

(** [ch.isspace()], the white space of [str.strip()]: the controls from tab
    to carriage return and from the file to the unit separator, the space,
    NEL, the no-break space, the Ogham space mark, the spaces from the en
    quad to the hair space, the line and the paragraph separator, the narrow
    no-break, the medium mathematical and the ideographic space. *)
Definition is_space (c : N) : bool :=
  ((9 <=? c) && (c <=? 13) || (28 <=? c) && (c <=? 32)
   || (c =? 133) || (c =? 160) || (c =? 5760)
   || (8192 <=? c) && (c <=? 8202)
   || (c =? 8232) || (c =? 8233) || (c =? 8239) || (c =? 8287)
   || (c =? 12288))%N.

Fixpoint lstrip (s : str) : str :=
  match s with
  | [] => []
  | c :: s' => if is_space c then lstrip s' else s
  end.

(** [s.strip()] *)
Definition strip (s : str) : str :=
  rev (lstrip (rev (lstrip s))).

(** Whether the character [c] occurs in [s]. *)
Fixpoint occurs (c : ascii) (s : string) : bool :=
  match s with
  | EmptyString => false
  | String c' s' => Ascii.eqb c' c || occurs c s'
  end.

(** How often the character [c] occurs in [s]. *)
Fixpoint occurrences (c : ascii) (s : string) : nat :=
  match s with
  | EmptyString => 0
  | String c' s' => (if Ascii.eqb c' c then 1 else 0) + occurrences c s'
  end.

(* ================================================================= *)
(** ** kb_test.py: the script against its clients

    The steps of [kb_test.py] as runs against an oracle for its clients,
    for the web and for the clock.  A run appends to a log the calls with
    their outcomes and durations, the sleeps and the printed lines; the
    clock is the time the events of the log took.  Exceptions come from the
    calls, from [time.sleep] with a negative length, from [json.dumps] and
    from the [raise] statements of the script; [print] returns.  A [while]
    loop runs for a given number of iterations at most. *)

Module Script.

(** *** What the clients return *)

Record AccessPolicySummary := mkAccessPolicy {
  ap_name : string;
  policyVersion : string
}.

Record CollectionSummary := mkCollection {
  col_name : string;
  col_status : string;
  col_arn : string
}.

(** An item of the list that [response.json()] gives: an object with its
    "index" entry, if it has one, or something that is no object. *)
Inductive JsonItem :=
| NotAnObject
| Object (index : option string).

(** An HTTP response: [json] is what [response.json()] gives, [None] when it
    raises or gives nothing to iterate over. *)
Record Response := mkResponse {
  status_code : Z;
  text : string;
  json : option (list JsonItem)
}.

(** [any(idx.get("index") == index_name for idx in index_info)] under
    [except Exception: pass]: the search ends at the first match, and without
    one at the first item that is no object. *)
Fixpoint lists_index (index_name : string) (index_info : list JsonItem)
    : bool :=
  match index_info with
  | [] => false
  | NotAnObject :: _ => false
  | Object (Some name) :: rest =>
      String.eqb name index_name || lists_index index_name rest
  | Object None :: rest => lists_index index_name rest
  end.

Record IngestionJob := mkIngestionJob {
  job_status : string;
  failureReasons : list string
}.

(** A retrieved chunk: its text and its metadata, with the defaults of the
    script for missing keys. *)
Record Chunk := mkChunk {
  chunk_text : str;
  chunk_metadata : string
}.

(** The response of [invoke_agent]: the stream under "completion", if that
    key is there (the bytes of the chunk of each event, [None] for an event
    without them, and the exception that ends the iteration, if any), and the
    text under "completionResponse", if that key is there. *)
Record AgentResponse := mkAgentResponse {
  completion : option (list (option string) * option exn);
  completionResponse : option (option str)
}.

Inductive Op :=
| CreateSecurityPolicy (name type : string)
| CreateAccessPolicy (name : string)
| ListAccessPolicies
| UpdateAccessPolicy (name version : string)
| CreateCollection (name : string)
| ListCollections
| GetCredentials
| Put (url : string)
| Get (url : string)
| StartIngestionJob (kb_id ds_id : string)
| GetIngestionJob (kb_id ds_id job_id : string)
| RuntimeClient
| Retrieve (kb_id : string)
| InvokeAgent (agent_id alias_id question : string)
| ActionGroupClient
| CreateAgentActionGroup (agent_id signature name : string)
| GetAgentActionGroup (agent_id action_group_id : string)
| PrepareAgent (agent_id : string)
| GetAgent (agent_id : string).

Inductive Line :=
| LEnsuring
| LEncryptionCreated | LEncryptionExists
| LNetworkCreated | LNetworkExists
| LDataCreated | LDataExists | LDataUpdated | LNoChanges | LCouldNotFind
| LCreatingCollection (name : string)
| LCollectionExists | LCollectionActive | LWaitingCollection
| LCreatingIndex (index_name : string)
| LIndexCreated | LIndexExists
| LIndexException (e : exn)
| LWaitingIndex (index_name : string)
| LIndexAvailable
| LIndexNotReady (status : Z)
| LStartingIngestion
| LIngestionStarted (job_id : string)
| LIngestionStatus (state : string)
| LIngestionComplete | LCheckingReasons
| LFailureReasons (reasons : list string)
| LRetrieving
| LRetrieved (n : nat)
| LChunk (i : Z) | LChunkText (excerpt : str)
| LChunkMetadata (metadata : string)
| LRetrieveError (e : exn)
| LIngestionFailed | LFailureReasonsHeader
| LAsking (question : string)
| LRawResponse
| LAgentResponse
| LText (answer : str)
| LUnexpectedStructure | LDump
| LStreamError (e : exn) | LErrorDetails
| LGeneralError (e : exn)
| LEnabling
| LActionGroupExists (name : string)
| LWaitingActionGroup (label : string)
| LActionGroupStatus (label status : string)
| LActionGroupsReady
| LRePrepared
| LWaitingAgent (agent_id expected_status : string)
| LAgentStatus (status : string)
| LAgentReached (expected_status : string).

(** A call with its outcome and the time it took, a sleep, a printed line;
    times are in milliseconds. *)
Inductive Ev :=
| Did (op : Op) (o : Outcome) (took : Z)
| Slept (ms : Z)
| Said (l : Line).

Definition Log := list Ev.

(** The clients, the web and the clock, as an oracle over what the script
    has done so far.  [is_stream_error] tells the instances of
    [EventStreamError], [has_error_response] those that have the attribute
    the script looks for; [serializable] and [serializable_details] tell
    whether [json.dumps] takes the response and the details of the error;
    [decode] is [bytes.decode("utf-8", errors="replace")]. *)
Record World := mkWorld {
  create_security_policy : string -> string -> Log -> exn + unit;
  create_access_policy : string -> Log -> exn + unit;
  list_access_policies : Log -> exn + list AccessPolicySummary;
  update_access_policy : string -> string -> Log -> exn + unit;
  aoss_create_collection : string -> Log -> exn + unit;
  list_collections : Log -> exn + list CollectionSummary;
  get_frozen_credentials : Log -> exn + unit;
  requests_put : string -> Log -> exn + Response;
  requests_get : string -> Log -> exn + Response;
  start_ingestion_job : string -> string -> Log -> exn + string;
  get_ingestion_job : string -> string -> string -> Log -> exn + IngestionJob;
  runtime_client : Log -> exn + unit;
  retrieve : string -> Log -> exn + list Chunk;
  runtime_invoke_agent :
    string -> string -> string -> Log -> exn + AgentResponse;
  action_group_client : Log -> exn + unit;
  create_agent_action_group :
    string -> string -> string -> Log -> exn + string;
  get_agent_action_group : string -> string -> Log -> exn + string;
  prepare_agent : string -> Log -> exn + unit;
  get_agent : string -> Log -> exn + option string;
  duration : Op -> Log -> Z;
  is_stream_error : exn -> bool;
  has_error_response : exn -> bool;
  serializable : AgentResponse -> bool;
  serializable_details : exn -> bool;
  decode : string -> str
}.

(** *** Runs of the script *)

(** A step of the script ends with a value, with a raised exception, or
    not within the iterations allowed to its loops ([Spin]). *)
Inductive Res (A : Type) :=
| Val (a : A)
| Exc (e : exn)
| Spin.

Arguments Val {A} a.
Arguments Exc {A} e.
Arguments Spin {A}.

Definition Act (A : Type) : Type := Log -> Res A * list Ev.

Definition ret {A} (a : A) : Act A := fun _ => (Val a, []).

Definition raise {A} (e : exn) : Act A := fun _ => (Exc e, []).

Definition spin {A} : Act A := fun _ => (Spin, []).

Definition bind {A B} (m : Act A) (f : A -> Act B) : Act B :=
  fun log =>
    match m log with
    | (Val a, t1) =>
        match f a (log ++ t1) with
        | (r, t2) => (r, t1 ++ t2)
        end
    | (Exc e, t1) => (Exc e, t1)
    | (Spin, t1) => (Spin, t1)
    end.

(** [try: m except: handler], the handler re-raising what its clauses do not
    match. *)
Definition catch {A} (m : Act A) (handler : exn -> Act A) : Act A :=
  fun log =>
    match m log with
    | (Exc e, t1) =>
        match handler e (log ++ t1) with
        | (r, t2) => (r, t1 ++ t2)
        end
    | other => other
    end.

Definition emit (ev : Ev) : Act unit := fun _ => (Val tt, [ev]).

Definition print (l : Line) : Act unit := emit (Said l).

(** [time.sleep] refuses a negative length. *)
Definition sleep (ms : Z) : Act unit :=
  if (ms <? 0)%Z then raise ValueError else emit (Slept ms).

Definition when (b : bool) (m : Act unit) : Act unit :=
  if b then m else ret tt.

Definition res_of {A} (r : exn + A) : Res A :=
  match r with inl e => Exc e | inr a => Val a end.

(** The time the events of a log took. *)
Fixpoint elapsed (log : Log) : Z :=
  match log with
  | [] => 0
  | Did _ _ took :: log' => took + elapsed log'
  | Slept ms :: log' => ms + elapsed log'
  | Said _ :: log' => elapsed log'
  end.

(** [time.time()], counted from the start of the script. *)
Definition time : Act Z := fun log => (Val (elapsed log), []).

Section Calls.

Variable w : World.

(** One call: the oracle answers from the log; the call, its outcome and
    the time it took go on the trace.  No call takes negative time. *)
Definition call {A} (op : Op) (answer : Log -> exn + A) : Act A :=
  fun log =>
    (res_of (answer log),
     [Did op (outcome_of (answer log)) (Z.max 0 (duration w op log))]).

End Calls.

Fixpoint for_each {A} (xs : list A) (body : A -> Act unit) : Act unit :=
  match xs with
  | [] => ret tt
  | x :: rest => bind (body x) (fun _ => for_each rest body)
  end.

(** [except aoss.exceptions.ConflictException]: the class botocore makes for
    the error code of that name. *)
Definition is_conflict (e : exn) : bool :=
  match e with
  | ClientError ce => String.eqb (error_code ce) "ConflictException"
  | _ => false
  end.

End Script.

Declare Scope act_scope.
Delimit Scope act_scope with act.

Notation "x <- m ;; k" := (Script.bind m (fun x => k))
  (at level 61, m at next level, right associativity) : act_scope.
Notation "m ;; k" := (Script.bind m (fun _ => k))
  (at level 61, right associativity) : act_scope.

Module KbScript.

Import Script.
#[local] Open Scope act_scope.

Section Steps.

Variable w : World.

(** [except Exception as e: handler] *)
Definition except_Exception {A} (m : Act A) (handler : exn -> Act A) : Act A :=
  catch m (fun e => if is_Exception e then handler e else raise e).

(** [for policy in existing: if policy["name"] == policy_name: ...; break] *)
Definition current_version_of (policy_name : string)
    (existing : list AccessPolicySummary) : option string :=
  match find (fun policy => String.eqb (ap_name policy) policy_name) existing
  with
  | Some policy => Some (policyVersion policy)
  | None => None
  end.

Definition ensure_opensearch_policies : Act unit :=
  print LEnsuring ;;
  catch
    (call w (CreateSecurityPolicy "encryption-policy-genai" "encryption")
       (create_security_policy w "encryption-policy-genai" "encryption") ;;
     print LEncryptionCreated)
    (fun e => if is_conflict e then print LEncryptionExists else raise e) ;;
  catch
    (call w (CreateSecurityPolicy "network-policy-genai" "network")
       (create_security_policy w "network-policy-genai" "network") ;;
     print LNetworkCreated)
    (fun e => if is_conflict e then print LNetworkExists else raise e) ;;
  let policy_name := "data-policy-test-genai-1" in
  catch
    (call w (CreateAccessPolicy policy_name)
       (create_access_policy w policy_name) ;;
     print LDataCreated)
    (fun e =>
       if is_conflict e then
         print LDataExists ;;
         existing <- call w ListAccessPolicies (list_access_policies w) ;;
         match current_version_of policy_name existing with
         | Some current_version =>
             if String.eqb current_version "" then print LCouldNotFind
             else
               catch
                 (call w (UpdateAccessPolicy policy_name current_version)
                    (update_access_policy w policy_name current_version) ;;
                  print LDataUpdated)
                 (fun e' =>
                    match e' with
                    | ClientError ce =>
                        if String.eqb (error_code ce) "ValidationException"
                        then
                          if contains "No changes detected"
                               (str_client_error ce)
                          then print LNoChanges
                          else raise e'
                        else raise e'
                    | _ => raise e'
                    end)
         | None => print LCouldNotFind
         end
       else raise e).

Definition create_vector_index (collection_name index_name : string)
    : Act unit :=
  print (LCreatingIndex index_name) ;;
  collections <- call w ListCollections (list_collections w) ;;
  match
    find (fun col => String.eqb (col_name col) collection_name) collections
  with
  | None =>
      raise (OtherException
               ("Collection ARN not found for " ++ collection_name)%string)
  | Some col =>
      let collection_arn := col_arn col in
      if String.eqb collection_arn ""
      then raise (OtherException
                    ("Collection ARN not found for " ++ collection_name)%string)
      else
        match endpoint_of collection_arn with
        | None =>
            raise (OtherException
                     "Failed to parse endpoint from ARN: list index out of range")
        | Some (region, endpoint) =>
            let url := ("https://" ++ endpoint ++ "/" ++ index_name)%string in
            except_Exception
              (call w GetCredentials (get_frozen_credentials w) ;;
               response <- call w (Put url) (requests_put w url) ;;
               if (status_code response =? 200)%Z then print LIndexCreated
               else if (status_code response =? 400)%Z
                       && contains "resource_already_exists_exception"
                            (text response)
                    then print LIndexExists
                    else raise (OtherException
                                  ("Failed to create vector index: "
                                     ++ text response)%string))
              (fun e => print (LIndexException e))
        end
  end.

(** The [while True] of [create_collection]: left with the ARN of the first
    collection of that name that is ACTIVE. *)
Fixpoint create_collection_loop (fuel : nat) (name : string) : Act string :=
  match fuel with
  | O => spin
  | S fuel' =>
      resp <- call w ListCollections (list_collections w) ;;
      match
        find (fun col =>
                String.eqb (col_name col) name
                && String.eqb (col_status col) "ACTIVE") resp
      with
      | Some col => print LCollectionActive ;; ret (col_arn col)
      | None =>
          print LWaitingCollection ;;
          sleep 10000 ;;
          create_collection_loop fuel' name
      end
  end.

Definition create_collection (fuel : nat) (name : string) : Act string :=
  print (LCreatingCollection name) ;;
  catch
    (call w (CreateCollection name) (aoss_create_collection w name))
    (fun e => if is_conflict e then print LCollectionExists else raise e) ;;
  collection_arn <- create_collection_loop fuel name ;;
  create_vector_index name "genai-index" ;;
  ret collection_arn.

(** The [while time.time() - start_time < timeout] of
    [wait_for_index_ready]; it raises [TimeoutError] when the condition
    fails. *)
Fixpoint wait_for_index_ready_loop (fuel : nat) (url index_name : string)
    (timeout interval start_time : Z) : Act unit :=
  match fuel with
  | O => spin
  | S fuel' =>
      now <- time ;;
      if (now - start_time <? timeout)%Z then
        response <- call w (Get url) (requests_get w url) ;;
        if (status_code response =? 200)%Z
           && match json response with
              | Some index_info => lists_index index_name index_info
              | None => false
              end
        then print LIndexAvailable
        else
          print (LIndexNotReady (status_code response)) ;;
          sleep interval ;;
          wait_for_index_ready_loop fuel' url index_name timeout interval
            start_time
      else raise TimeoutError
  end.

Definition wait_for_index_ready (fuel : nat)
    (collection_arn index_name : string) (timeout interval : Z) : Act unit :=
  print (LWaitingIndex index_name) ;;
  match endpoint_of collection_arn with
  | None => raise (OtherException "list index out of range")
  | Some (region, endpoint) =>
      let url :=
        ("https://" ++ endpoint ++ "/_cat/indices/" ++ index_name
           ++ "?format=json")%string in
      call w GetCredentials (get_frozen_credentials w) ;;
      start_time <- time ;;
      wait_for_index_ready_loop fuel url index_name timeout interval
        start_time
  end.

(** The [while True] of [start_ingestion]: left with the job once its
    status is COMPLETE or FAILED. *)
Fixpoint start_ingestion_loop (fuel : nat)
    (kb_id data_source_id job_id : string) : Act IngestionJob :=
  match fuel with
  | O => spin
  | S fuel' =>
      status <-
        call w (GetIngestionJob kb_id data_source_id job_id)
          (get_ingestion_job w kb_id data_source_id job_id) ;;
      let state := job_status status in
      print (LIngestionStatus state) ;;
      if existsb (String.eqb state) ["COMPLETE"; "FAILED"] then ret status
      else
        sleep 10000 ;;
        start_ingestion_loop fuel' kb_id data_source_id job_id
  end.

Definition start_ingestion (fuel : nat) (kb_id data_source_id : string)
    : Act unit :=
  print LStartingIngestion ;;
  job_id <-
    call w (StartIngestionJob kb_id data_source_id)
      (start_ingestion_job w kb_id data_source_id) ;;
  print (LIngestionStarted job_id) ;;
  status <- start_ingestion_loop fuel kb_id data_source_id job_id ;;
  if String.eqb (job_status status) "COMPLETE" then
    print LIngestionComplete ;;
    print LCheckingReasons ;;
    print (LFailureReasons (failureReasons status)) ;;
    print LRetrieving ;;
    call w RuntimeClient (runtime_client w) ;;
    except_Exception
      (chunks <- call w (Retrieve kb_id) (retrieve w kb_id) ;;
       print (LRetrieved (List.length chunks)) ;;
       for_each (enumerate 1 (firstn 5 chunks))
         (fun ichunk =>
            let text := firstn 300 (chunk_text (snd ichunk)) in
            print (LChunk (fst ichunk)) ;;
            print (LChunkText (strip text)) ;;
            print (LChunkMetadata (chunk_metadata (snd ichunk)))))
      (fun e => print (LRetrieveError e))
  else
    print LIngestionFailed ;;
    print LFailureReasonsHeader ;;
    print (LFailureReasons (failureReasons status)) ;;
    raise (OtherException "Ingestion failed.").

(** [for event in response["completion"]]: the text of the chunks so far,
    each decoded on its own, or the exception that ends the iteration. *)
Fixpoint read_completion (events : list (option string))
    (failure : option exn) (full_response : str) : Act str :=
  match events with
  | [] =>
      match failure with
      | Some e => raise e
      | None => ret full_response
      end
  | event :: rest =>
      match event with
      | Some chunk_bytes =>
          if String.eqb chunk_bytes ""
          then read_completion rest failure full_response
          else read_completion rest failure
                 (full_response ++ decode w chunk_bytes)
      | None => read_completion rest failure full_response
      end
  end.

(** The two [except] clauses of [invoke_agent]:
    [except botocore.exceptions.EventStreamError] and [except Exception]. *)
Definition invoke_agent_handler (e : exn) : Act str :=
  if is_stream_error w e then
    print (LStreamError e) ;;
    when (has_error_response w e)
      (print LErrorDetails ;;
       if serializable_details w e then print LDump
       else raise (OtherException "Object is not JSON serializable")) ;;
    ret []
  else if is_Exception e then
    print (LGeneralError e) ;;
    ret []
  else raise e.

Definition invoke_agent (agent_id alias_id question : string) : Act str :=
  print (LAsking question) ;;
  call w RuntimeClient (runtime_client w) ;;
  catch
    (response <-
       call w (InvokeAgent agent_id alias_id question)
         (runtime_invoke_agent w agent_id alias_id question) ;;
     print LRawResponse ;;
     match completion response with
     | Some (events, failure) =>
         full_response <- read_completion events failure [] ;;
         print LAgentResponse ;;
         print (LText (strip full_response)) ;;
         ret (strip full_response)
     | None =>
         match completionResponse response with
         | Some found =>
             let output := match found with Some t => t | None => [] end in
             print LAgentResponse ;;
             print (LText (strip output)) ;;
             ret (strip output)
         | None =>
             print LUnexpectedStructure ;;
             (if serializable w response then print LDump
              else raise (OtherException "Object is not JSON serializable")) ;;
             ret []
         end
     end)
    invoke_agent_handler.

(** [wait_for_agent_status] within the script: the body of
    [for attempt in range(max_retries)] over the attempts still to come. *)
Fixpoint wait_for_agent_status_attempts (agent_id expected_status : string)
    (interval : Z) (attempts : list Z) : Act unit :=
  match attempts with
  | [] => raise TimeoutError
  | _ :: rest =>
      current_status <-
        except_Exception
          (response <- call w (GetAgent agent_id) (get_agent w agent_id) ;;
           ret (match response with Some s => s | None => "UNKNOWN" end))
          (fun _ => ret "UNKNOWN") ;;
      print (LAgentStatus current_status) ;;
      if String.eqb current_status expected_status
      then print (LAgentReached expected_status)
      else if existsb (String.eqb current_status)
                ["FAILED"; "DELETING"; "DELETED"]
           then raise (OtherException
                         ("Agent reached terminal state: "
                            ++ current_status)%string)
           else
             sleep interval ;;
             wait_for_agent_status_attempts agent_id expected_status interval
               rest
  end.

Definition wait_for_agent_status (agent_id expected_status : string)
    (max_retries interval : Z) : Act unit :=
  print (LWaitingAgent agent_id expected_status) ;;
  wait_for_agent_status_attempts agent_id expected_status interval
    (range max_retries).

(** [create_action_group], local to [enable_code_interpreter]; [None] is
    its result for a group that is there already. *)
Definition create_action_group (agent_id signature name : string)
    : Act (option string) :=
  catch
    (action_group_id <-
       call w (CreateAgentActionGroup agent_id signature name)
         (create_agent_action_group w agent_id signature name) ;;
     ret (Some action_group_id))
    (fun e =>
       match e with
       | ClientError ce =>
           if contains "ConflictException" (str_client_error ce)
           then print (LActionGroupExists name) ;; ret None
           else raise e
       | _ => raise e
       end).

(** [while status != "ENABLED"] *)
Fixpoint wait_action_group (fuel : nat) (agent_id ag_id label status : string)
    : Act unit :=
  if String.eqb status "ENABLED" then ret tt
  else
    match fuel with
    | O => spin
    | S fuel' =>
        status' <-
          call w (GetAgentActionGroup agent_id ag_id)
            (get_agent_action_group w agent_id ag_id) ;;
        print (LActionGroupStatus label status') ;;
        sleep 2000 ;;
        wait_action_group fuel' agent_id ag_id label status'
    end.

Definition enable_code_interpreter (fuel : nat) (agent_id : string)
    : Act unit :=
  print LEnabling ;;
  call w ActionGroupClient (action_group_client w) ;;
  user_input_id <-
    create_action_group agent_id "AMAZON.UserInput" "UserInputAction" ;;
  code_interp_id <-
    create_action_group agent_id "AMAZON.CodeInterpreter"
      "CodeInterpreterAction" ;;
  for_each [(user_input_id, "UserInput"); (code_interp_id, "CodeInterpreter")]
    (fun group =>
       match fst group with
       | None => ret tt
       | Some ag_id =>
           print (LWaitingActionGroup (snd group)) ;;
           wait_action_group fuel agent_id ag_id (snd group) ""
       end) ;;
  print LActionGroupsReady ;;
  call w (PrepareAgent agent_id) (prepare_agent w agent_id) ;;
  wait_for_agent_status agent_id "PREPARED" 60 5000 ;;
  print LRePrepared.

End Steps.

End KbScript.

(* ================================================================= *)
(** ** Properties of runs *)

(** Every event a computation appends satisfies [P], from any history. *)
Definition emits {A} (P : Event -> Prop) (m : M A) : Prop :=
  forall h, Forall P (snd (m h)).

(** No event of class [p] is appended. *)
Definition avoids {A} (p : Event -> bool) (m : M A) : Prop :=
  emits (fun ev => p ev = false) m.

Definition is_input (ev : Event) : bool :=
  match ev with EvInput _ => true | _ => false end.

Definition is_summary (ev : Event) : bool :=
  match ev with
  | EvPrint (MsgSuccessful _) | EvPrint (MsgFailed _) => true
  | _ => false
  end.

(** Where a message is printed. *)
Inductive MsgKind :=
| KStartup      (* [__init__] and [main] *)
| KListing      (* [list_knowledge_bases] *)
| KDebug        (* [debug_print] *)
| KPrompt       (* the confirmation block *)
| KPerKb        (* the deletion of one knowledge base *)
| KItem         (* the loop over knowledge bases *)
| KBatch        (* the loop over batches *)
| KRun.         (* announcement and summary *)

Definition msg_kind (m : Msg) : MsgKind :=
  match m with
  | MsgNoCredentials | MsgCredentialsHelp | MsgClientInitError _
  | MsgCheckPermissions | MsgBanner | MsgRegionsHeader | MsgRegion _
  | MsgDebugEnabled | MsgInterrupted | MsgUnexpected _ | MsgTraceback =>
      KStartup
  | MsgListing _ | MsgFound _ | MsgKbLine _ _ | MsgListError _
  | MsgPaginationError _ | MsgListTimeout => KListing
  | MsgDebug _ => KDebug
  | MsgWarning _ | MsgCannotUndo | MsgCancelled => KPrompt
  | MsgProcessing _ _ _ | MsgCompleted => KItem
  | MsgBatch _ _ _ _ | MsgWaitBatch => KBatch
  | MsgNoKbs | MsgStarting _ | MsgBatches _ | MsgSummary | MsgSuccessful _
  | MsgFailed _ | MsgSuccessRate _ _ | MsgHint _ => KRun
  | _ => KPerKb
  end.

(** The batch that starts at [batch_start]. *)
Definition batch_at (kbs : list KbSummary) (batch_size batch_start : Z)
    : list KbSummary :=
  slice kbs batch_start
    (Z.min (batch_start + batch_size) (Z.of_nat (List.length kbs))).

(** *** Pacing of the batches

    What a trace shows of the batching: the start of a group (the "Processing
    batch" line), the start of an item (the "[i/N] Processing" line) and the
    delay between groups (the only sleep of ten seconds in the second
    cleaner). *)
Inductive Mark := GroupStart | Item | Delay.

Definition mark_of (ev : Event) : option Mark :=
  match ev with
  | EvPrint (MsgBatch _ _ _ _) => Some GroupStart
  | EvPrint (MsgProcessing _ _ _) => Some Item
  | EvSleep ms => if (ms =? 10000)%Z then Some Delay else None
  | _ => None
  end.

Definition is_mark (ev : Event) : bool :=
  match mark_of ev with Some _ => true | None => false end.

Fixpoint pacing (t : list Event) : list Mark :=
  match t with
  | [] => []
  | ev :: t' =>
      match mark_of ev with
      | Some m => m :: pacing t'
      | None => pacing t'
      end
  end.

(** Groups of the given sizes processed one after the other, with a delay
    between consecutive groups and none after the last. *)
Fixpoint paced (sizes : list nat) : list Mark :=
  match sizes with
  | [] => []
  | n :: rest =>
      GroupStart :: repeat Item n
        ++ match rest with
           | [] => []
           | _ :: _ => Delay :: paced rest
           end
  end.

(** ceil(t/b) *)
Definition ceil_div (t b : nat) : nat := (t + b - 1) / b.

(** The pacing the batch loop produces over the given starts. *)
Fixpoint pacing_of_starts (kbs : list KbSummary) (batch_size : Z)
    (starts : list Z) : list Mark :=
  match starts with
  | [] => []
  | batch_start :: rest =>
      GroupStart :: repeat Item (List.length (batch_at kbs batch_size batch_start))
        ++ (if (Z.min (batch_start + batch_size) (Z.of_nat (List.length kbs))
                <? Z.of_nat (List.length kbs))%Z
            then [Delay] else [])
        ++ pacing_of_starts kbs batch_size rest
  end.

(** Bounds on the number of events of class [p] a computation appends: at
    most [n] in any run, at least [n] in any run that returns. *)
Definition at_most {A} (p : Event -> bool) (n : nat) (m : M A) : Prop :=
  forall h, count p (snd (m h)) <= n.

Definition at_least {A} (p : Event -> bool) (n : nat) (m : M A) : Prop :=
  forall h a, fst (m h) = inr a -> n <= count p (snd (m h)).

Definition is_deletion (ev : Event) : bool :=
  is_ds_delete ev || is_kb_delete ev.

(** A deletion call that raised. *)
Definition failed_deletion (ev : Event) : bool :=
  match ev with
  | EvCall (CDeleteDataSource _ _) (Raised _)
  | EvCall (CDeleteKnowledgeBase _) (Raised _) => true
  | _ => false
  end.

(** When none of its deletion calls fails, [m] returns [a] and its deletion
    calls are exactly [calls], in that order. *)
Definition clean_run {A} (m : M A) (a : A) (calls : list Event) : Prop :=
  forall h,
    count failed_deletion (snd (m h)) = 0 ->
    fst (m h) = inr a /\ filter is_deletion (snd (m h)) = calls.

(** *** The shape of [delete_knowledge_base]

    Both scripts enumerate the data sources, delete each of them, wait, and
    then delete the knowledge base; they differ in the parts only. *)
Section ChildrenFirstShape.

Variable kb_id : string.
Variable enumerate_sources : M (list DsSummary).
Variable delete_source : string -> M bool.
Variable wait : M unit.
Variable delete_parent : M bool.

(** The body of [for ds in data_sources]. *)
Definition delete_one (ds : DsSummary) : M unit :=
  print (MsgDeletingDs (ds_name ds) (dataSourceId ds)) ;;
  deleted <- delete_source (dataSourceId ds) ;;
  when (negb deleted) (print MsgContinuing).

Definition delete_children (data_sources : list DsSummary) : M unit :=
  when (negb (is_empty data_sources))
    (print (MsgFoundDs (List.length data_sources)) ;;
     for_each data_sources delete_one).

Definition children_first (announce : Msg) : M bool :=
  print announce ;;
  data_sources <- enumerate_sources ;;
  delete_children data_sources ;;
  when (negb (is_empty data_sources)) wait ;;
  delete_parent.

Definition source_calls (data_sources : list DsSummary) : list Event :=
  map (fun ds => EvCall (CDeleteDataSource kb_id (dataSourceId ds)) Ok)
    data_sources.

End ChildrenFirstShape.

(** *** The retry rounds of a data-source deletion *)

Definition is_call (ev : Event) : bool :=
  match ev with EvCall _ _ => true | _ => false end.

(** The calls of a trace, in order. *)
Definition calls (t : list Event) : list Event := filter is_call t.

(** The test each script applies to the [ClientError] of a failed deletion:
    the first on [e.response['Error']['Message']], the second on [str(e)]. *)
Definition vector_store_v1 (e : client_error) : bool :=
  contains "vector store" (lower (error_message e)).

Definition vector_store_v2 (e : client_error) : bool :=
  contains "vector store" (lower (str_client_error e)).

(** The exceptions the policy update catches. *)
Definition handled_v1 (e : exn) : bool :=
  match e with ClientError _ => true | _ => false end.

Definition handled_v2 (e : exn) : bool :=
  match e with ClientError _ | TimeoutError => true | _ => false end.

Section RetryGrammar.

Variable kb_id ds_id : string.
Variable max_retries : Z.
Variable vector_store : client_error -> bool.
Variable handled : exn -> bool.
Variable retry_timeouts : bool.

(** Whether control comes back after a call with this outcome. *)
Definition comes_back (o : Outcome) : bool :=
  match o with Ok => true | Raised e => handled e end.

(** The calls of one policy update, and whether control comes back to the
    retry loop: the data source is read and, if the read succeeded, updated
    once with the policy RETAIN; a failed read leaves no update call. *)
Inductive policy_update : list Event -> bool -> Prop :=
| pu_updated (d : DataSource) (o : Outcome) :
    policy_update
      [EvCall (CGetDataSource kb_id ds_id) Ok;
       EvCall (CUpdateDataSource kb_id ds_id (src_name d)
                 (dataSourceConfiguration d) "RETAIN") o]
      (comes_back o)
| pu_unread (e : exn) :
    policy_update [EvCall (CGetDataSource kb_id ds_id) (Raised e)]
      (handled e).

(** An outcome of the deletion call after which attempt number [attempt]
    is the last: success, an error that is not retried, or any error on
    the last attempt. *)
Definition final_outcome (attempt : Z) (o : Outcome) : Prop :=
  match o with
  | Raised (ClientError e) =>
      vector_store e = false \/ (max_retries - 1 <= attempt)%Z
  | Raised TimeoutError =>
      retry_timeouts = false \/ (max_retries - 1 <= attempt)%Z
  | _ => True
  end.

(** The calls of [delete_data_source] from attempt number [attempt] on. *)
Inductive retry_rounds : Z -> list Event -> Prop :=
| rr_last (attempt : Z) (o : Outcome) :
    final_outcome attempt o ->
    retry_rounds attempt [EvCall (CDeleteDataSource kb_id ds_id) o]
| rr_round (attempt : Z) (e : client_error) (update rest : list Event) :
    vector_store e = true ->
    (attempt < max_retries - 1)%Z ->
    policy_update update true ->
    retry_rounds (attempt + 1) rest ->
    retry_rounds attempt
      (EvCall (CDeleteDataSource kb_id ds_id) (Raised (ClientError e))
         :: update ++ rest)
| rr_aborted (attempt : Z) (e : client_error) (update : list Event) :
    vector_store e = true ->
    (attempt < max_retries - 1)%Z ->
    policy_update update false ->
    retry_rounds attempt
      (EvCall (CDeleteDataSource kb_id ds_id) (Raised (ClientError e))
         :: update)
| rr_timeout (attempt : Z) (rest : list Event) :
    retry_timeouts = true ->
    (attempt < max_retries - 1)%Z ->
    retry_rounds (attempt + 1) rest ->
    retry_rounds attempt
      (EvCall (CDeleteDataSource kb_id ds_id) (Raised TimeoutError) :: rest).

End RetryGrammar.

(** The attempts [range(max_retries)] has left from attempt [a] on. *)
Definition attempts_from (a n : nat) : list Z := map Z.of_nat (seq a n).

Definition returned {A} (r : exn + A) : bool :=
  match r with inr _ => true | inl _ => false end.

(** *** Start-up *)

(** Missing credentials, or a refusal by the provider. *)
Definition auth_failure (e : exn) : bool :=
  match e with NoCredentialsError | ClientError _ => true | _ => false end.

(** The creation of the client and the connection test. *)
Definition is_startup_call (ev : Event) : bool :=
  match ev with
  | EvCall (CCreateClient _) _ | EvCall CTestListKnowledgeBases _ => true
  | _ => false
  end.

(** What happens before any enumeration: the start-up calls and the
    messages of [main] and [__init__]. *)
Definition startup_event (ev : Event) : bool :=
  match ev with
  | EvCall (CCreateClient _) _ | EvCall CTestListKnowledgeBases _ => true
  | EvPrint m => match msg_kind m with KStartup => true | _ => false end
  | _ => false
  end.

(** A start-up call that failed on credentials or permissions. *)
Definition failed_startup (ev : Event) : bool :=
  match ev with
  | EvCall (CCreateClient _) (Raised e)
  | EvCall CTestListKnowledgeBases (Raised e) => auth_failure e
  | _ => false
  end.

(** Work on a single knowledge base or data source. *)
Definition per_resource (ev : Event) : bool :=
  match ev with
  | EvCall (CListDataSourcesPage _) _ | EvCall (CGetDataSource _ _) _
  | EvCall (CUpdateDataSource _ _ _ _ _) _ | EvCall (CDeleteDataSource _ _) _
  | EvCall (CDeleteKnowledgeBase _) _ => true
  | _ => false
  end.

(** The diagnostic [__init__] prints for a failure it catches. *)
Definition diagnostic (e : exn) : list Msg :=
  match e with
  | NoCredentialsError => [MsgNoCredentials; MsgCredentialsHelp]
  | ClientError ce => [MsgClientInitError ce; MsgCheckPermissions]
  | _ => []
  end.

(** What [main] of the second cleaner prints before it builds the
    cleaner. *)
Definition banner_v2 (args : V2.Args) : list Event :=
  EvPrint MsgBanner
    :: if V2.arg_debug args then [EvPrint MsgDebugEnabled] else [].

(** The exceptions [main] of the second cleaner catches around the batch:
    [KeyboardInterrupt] and every [Exception]. *)
Definition caught_by_main (e : exn) : bool :=
  match e with
  | KeyboardInterrupt => true
  | _ => is_Exception e
  end.

(* ================================================================= *)
(** ** Further properties of runs of the cleaners *)

Definition is_sleep (ev : Event) : bool :=
  match ev with EvSleep _ => true | _ => false end.

(** A sleep of exactly [ms] milliseconds. *)
Definition is_wait (ms : Z) (ev : Event) : bool :=
  match ev with EvSleep ms' => (ms' =? ms)%Z | _ => false end.

(** The time a trace spends asleep, in milliseconds. *)
Fixpoint slept (t : list Event) : Z :=
  match t with
  | [] => 0
  | EvSleep ms :: t' => ms + slept t'
  | _ :: t' => slept t'
  end.

(** A deletion of a knowledge base that the provider accepted. *)
Definition accepted_kb_delete (ev : Event) : bool :=
  match ev with EvCall (CDeleteKnowledgeBase _) Ok => true | _ => false end.

(** One read of a page of the listing of knowledge bases. *)
Definition is_page_read (ev : Event) : bool :=
  match ev with EvCall CListKnowledgeBasesPage _ => true | _ => false end.

(** The numbered lines of the listing, as printed. *)
Fixpoint kb_lines (t : list Event) : list (Z * KbSummary) :=
  match t with
  | [] => []
  | EvPrint (MsgKbLine i kb) :: t' => (i, kb) :: kb_lines t'
  | _ :: t' => kb_lines t'
  end.

(** The "[i/N] Processing" line that opens the work on a knowledge base. *)
Definition is_item_line (ev : Event) : bool :=
  match ev with EvPrint (MsgProcessing _ _ _) => true | _ => false end.

Definition is_hint (ev : Event) : bool :=
  match ev with EvPrint (MsgHint _) => true | _ => false end.

(** The line by which the deletion of a knowledge base reports that it is
    done, or in a dry run that it would be. *)
Definition kb_succeeded (ev : Event) : bool :=
  match ev with
  | EvPrint (MsgKbDeleted _) | EvPrint (MsgDryRun _ _) => true
  | _ => false
  end.

(** The line by which it gives the knowledge base up. *)
Definition kb_gave_up (ev : Event) : bool :=
  match ev with
  | EvPrint (MsgKbFailed _ _) | EvPrint (MsgKbTimeoutFailed _ _) => true
  | _ => false
  end.

(** The numbers the summary gives as successful and as failed, in the order
    of their lines. *)
Fixpoint reported_successes (t : list Event) : list Z :=
  match t with
  | [] => []
  | EvPrint (MsgSuccessful s) :: t' => s :: reported_successes t'
  | _ :: t' => reported_successes t'
  end.

Fixpoint reported_failures (t : list Event) : list Z :=
  match t with
  | [] => []
  | EvPrint (MsgFailed f) :: t' => f :: reported_failures t'
  | _ :: t' => reported_failures t'
  end.

(** The lines from which the tally of a run is read. *)
Definition is_tally (ev : Event) : bool :=
  kb_succeeded ev || kb_gave_up ev || is_summary ev || is_item_line ev.

(** The tally of a run over the enumerated [kbs]: one line opens the work on
    each of them, each is then reported as done or as given up, and the
    summary gives, once, the number of the ones and the number of the
    others. *)
Definition counted (kbs : list KbSummary) (t : list Event) : Prop :=
  count is_item_line t = List.length kbs
  /\ count kb_succeeded t + count kb_gave_up t = List.length kbs
  /\ reported_successes t = [Z.of_nat (count kb_succeeded t)]
  /\ reported_failures t = [Z.of_nat (count kb_gave_up t)].

(** The answers of the provider to the calls on a single knowledge base or
    data source raise nothing but exceptions of class [tolerated]. *)
Record tame (tolerated : exn -> bool) (cl : Client) : Prop := mkTame {
  tame_list_data_sources :
    forall kb h e,
      snd (cl_paginate_data_sources cl kb h) = Some e -> tolerated e = true;
  tame_get_data_source :
    forall kb ds h e,
      cl_get_data_source cl kb ds h = inl e -> tolerated e = true;
  tame_update_data_source :
    forall kb ds name config policy h e,
      cl_update_data_source cl kb ds name config policy h = inl e ->
      tolerated e = true;
  tame_delete_data_source :
    forall kb ds h e,
      cl_delete_data_source cl kb ds h = inl e -> tolerated e = true;
  tame_delete_knowledge_base :
    forall kb h e,
      cl_delete_knowledge_base cl kb h = inl e -> tolerated e = true
}.

(** [m] returns from every history. *)
Definition returns {A} (m : M A) : Prop :=
  forall h, exists a, fst (m h) = inr a.

(** What a dry run of the first cleaner prints for the listed knowledge
    bases. *)
Definition dry_run_lines (kbs : list KbSummary) : list Event :=
  flat_map
    (fun ikb =>
       [EvPrint (MsgProcessing (fst ikb) (List.length kbs) (kb_name (snd ikb)));
        EvPrint (MsgDryRun (kb_name (snd ikb)) (knowledgeBaseId (snd ikb)))])
    (enumerate 1 kbs).

(* ================================================================= *)
(** ** Further scenarios *)

Module Scenario.

(** A provider whose listing hands out [pages] and then fails with [e]. *)
Definition broken_listing (pages : list (list KbSummary)) (e : exn) : Client :=
  {| cl_create_client := fun _ _ => inr tt;
     cl_test_list_knowledge_bases := fun _ => inr tt;
     cl_paginate_knowledge_bases := fun _ => (pages, Some e);
     cl_paginate_data_sources := fun _ _ => ([], None);
     cl_get_data_source := fun _ _ _ => inr (mkDataSource "docs" "{s3}");
     cl_update_data_source := fun _ _ _ _ _ _ => inr tt;
     cl_delete_data_source := fun _ _ _ => inr tt;
     cl_delete_knowledge_base := fun _ _ => inr tt;
     cl_input := fun _ => inr "DELETE" |}.

(** A provider whose listing comes in the given pages. *)
Definition paged (pages : list (list KbSummary)) : Client :=
  {| cl_create_client := fun _ _ => inr tt;
     cl_test_list_knowledge_bases := fun _ => inr tt;
     cl_paginate_knowledge_bases := fun _ => (pages, None);
     cl_paginate_data_sources := fun _ _ => ([], None);
     cl_get_data_source := fun _ _ _ => inr (mkDataSource "docs" "{s3}");
     cl_update_data_source := fun _ _ _ _ _ _ => inr tt;
     cl_delete_data_source := fun _ _ _ => inr tt;
     cl_delete_knowledge_base := fun _ _ => inr tt;
     cl_input := fun _ => inr "DELETE" |}.

(** A provider that lists [kbs], each with the data sources [dss]; every
    deletion of a data source times out and the knowledge base [stubborn] is
    refused. *)
Definition unwilling (stubborn : string) (kbs : list KbSummary)
    (dss : list DsSummary) : Client :=
  {| cl_create_client := fun _ _ => inr tt;
     cl_test_list_knowledge_bases := fun _ => inr tt;
     cl_paginate_knowledge_bases := fun _ => ([kbs], None);
     cl_paginate_data_sources := fun _ _ => ([dss], None);
     cl_get_data_source := fun _ _ _ => inr (mkDataSource "docs" "{s3}");
     cl_update_data_source := fun _ _ _ _ _ _ => inr tt;
     cl_delete_data_source := fun _ _ _ => inl TimeoutError;
     cl_delete_knowledge_base := fun kb _ =>
       if String.eqb kb stubborn
       then inl (ClientError (mkClientError "ConflictException"
                                "still in use" "DeleteKnowledgeBase" ""))
       else inr tt;
     cl_input := fun _ => inr "DELETE" |}.

End Scenario.

(** What the run of a deletion of a knowledge base that returned [b] shows
    of its retry loop, where [ms] is the wait between two attempts: success
    is one accepted deletion call after a wait for each earlier call; failure
    is [max_retries] refused calls with a wait between them, and none after
    the last. *)
Definition retried (ms : Z) (max_retries : nat) (b : bool) (t : list Event)
    : Prop :=
  if b
  then count accepted_kb_delete t = 1
       /\ count is_kb_delete t = count (is_wait ms) t + 1
       /\ count is_kb_delete t <= max_retries
  else count accepted_kb_delete t = 0
       /\ count is_kb_delete t = max_retries
       /\ count (is_wait ms) t = max_retries - 1.

(** [m] raises nothing but exceptions of class [ok]. *)
Definition raises_only {A} (ok : exn -> bool) (m : M A) : Prop :=
  forall h e, fst (m h) = inl e -> ok e = true.

(* ================================================================= *)
(** ** Properties of the polling loops and of runs of the script *)

(** A poll of [wait_for_agent_status] after which it goes on: a status that
    is neither the expected one nor terminal, or a failed call, which counts
    as status "UNKNOWN". *)
Definition pending_agent (expected_status : string) (answer : exn + string)
    : bool :=
  match answer with
  | inl e => is_Exception e && negb (String.eqb "UNKNOWN" expected_status)
  | inr status =>
      negb (String.eqb status expected_status)
      && negb (existsb (String.eqb status) ["FAILED"; "DELETING"; "DELETED"])
  end.

Module ScriptProps.

Import Script.

Definition count (p : Ev -> bool) (t : list Ev) : nat :=
  List.length (filter p t).

(** The time a trace spends asleep. *)
Fixpoint slept (t : list Ev) : Z :=
  match t with
  | [] => 0
  | Slept ms :: t' => ms + slept t'
  | _ :: t' => slept t'
  end.

Definition is_get (ev : Ev) : bool :=
  match ev with Did (Get _) _ _ => true | _ => false end.

Definition is_put (ev : Ev) : bool :=
  match ev with Did (Put _) _ _ => true | _ => false end.

Definition is_poll (ev : Ev) : bool :=
  match ev with
  | Did ListCollections _ _ | Did (GetIngestionJob _ _ _) _ _
  | Did (GetAgentActionGroup _ _) _ _ => true
  | _ => false
  end.

Definition is_retrieve (ev : Ev) : bool :=
  match ev with Did (Retrieve _) _ _ => true | _ => false end.

Definition is_get_agent (ev : Ev) : bool :=
  match ev with Did (GetAgent _) _ _ => true | _ => false end.

Definition is_prepare (ev : Ev) : bool :=
  match ev with Did (PrepareAgent _) _ _ => true | _ => false end.

Definition is_update (ev : Ev) : bool :=
  match ev with Did (UpdateAccessPolicy _ _) _ _ => true | _ => false end.

Definition is_chunk_line (ev : Ev) : bool :=
  match ev with Said (LChunk _) => true | _ => false end.

Definition is_error_line (ev : Ev) : bool :=
  match ev with
  | Said (LStreamError _) | Said (LGeneralError _) => true
  | _ => false
  end.

(** The collection [create_vector_index] looks for is listed with an ARN
    that parses. *)
Definition resolves (collection_name : string)
    (collections : list CollectionSummary) : bool :=
  match
    find (fun col => String.eqb (col_name col) collection_name) collections
  with
  | Some col =>
      negb (String.eqb (col_arn col) "")
      && match endpoint_of (col_arn col) with Some _ => true | None => false end
  | None => false
  end.

(** The [ValidationException] that an update without changes gets. *)
Definition no_changes (e : exn) : bool :=
  match e with
  | ClientError ce =>
      String.eqb (error_code ce) "ValidationException"
      && contains "No changes detected" (str_client_error ce)
  | _ => false
  end.

(** The exceptions [invoke_agent] turns into an empty answer. *)
Definition swallowed (w : World) (e : exn) : bool :=
  is_stream_error w e || is_Exception e.

(** The text of the chunks of a stream, each decoded on its own, in
    order; an event without bytes, or with none, adds nothing. *)
Fixpoint stream_text (w : World) (events : list (option string)) : str :=
  match events with
  | [] => []
  | Some bytes :: rest =>
      if String.eqb bytes "" then stream_text w rest
      else decode w bytes ++ stream_text w rest
  | None :: rest => stream_text w rest
  end.

End ScriptProps.

(** *** Scenarios for the script *)

Module Stage.

Import Script.

Definition conflict (operation : string) : exn :=
  ClientError (mkClientError "ConflictException" "already exists" operation "").

Definition unchanged : exn :=
  ClientError (mkClientError "ValidationException"
                 "No changes detected for policy" "UpdateAccessPolicy" "").

(** The code points of a string of ASCII characters, which is also how
    [bytes] of ASCII characters decode; the scenarios stream no others. *)
Definition text_of (s : string) : str :=
  map (fun c => N.of_nat (nat_of_ascii c)) (list_ascii_of_string s).

(** A world in which every call succeeds at once, unless the parameters say
    otherwise: [existing] tells whether the policies, the collection and the
    action groups are there already; the collections, the answers to PUT and
    GET (the latter by the number of requests made before), the ingestion
    job and the answer of the agent are as given. *)
Definition world (existing : bool) (collections : list CollectionSummary)
    (put_answer : exn + Response) (get_answer : nat -> Response)
    (job : IngestionJob) (agent_answer : exn + AgentResponse) : World :=
  {| create_security_policy := fun _ _ _ =>
       if existing then inl (conflict "CreateSecurityPolicy") else inr tt;
     create_access_policy := fun _ _ =>
       if existing then inl (conflict "CreateAccessPolicy") else inr tt;
     list_access_policies := fun _ =>
       inr [mkAccessPolicy "other-policy" "v0";
            mkAccessPolicy "data-policy-test-genai-1" "v7";
            mkAccessPolicy "data-policy-test-genai-1" "v8"];
     update_access_policy := fun _ _ _ => inl unchanged;
     aoss_create_collection := fun _ _ =>
       if existing then inl (conflict "CreateCollection") else inr tt;
     list_collections := fun _ => inr collections;
     get_frozen_credentials := fun _ => inr tt;
     requests_put := fun _ _ => put_answer;
     requests_get := fun _ log =>
       inr (get_answer (ScriptProps.count ScriptProps.is_get log));
     start_ingestion_job := fun _ _ _ => inr "job-1";
     get_ingestion_job := fun _ _ _ _ => inr job;
     runtime_client := fun _ => inr tt;
     retrieve := fun _ _ => inr [];
     runtime_invoke_agent := fun _ _ _ _ => agent_answer;
     action_group_client := fun _ => inr tt;
     create_agent_action_group := fun _ _ _ _ =>
       if existing then inl (conflict "CreateAgentActionGroup")
       else inr "AG1";
     get_agent_action_group := fun _ _ _ => inr "ENABLED";
     prepare_agent := fun _ _ => inr tt;
     get_agent := fun _ _ => inr (Some "PREPARED");
     duration := fun _ _ => 100%Z;
     is_stream_error := fun _ => false;
     has_error_response := fun _ => false;
     serializable := fun _ => true;
     serializable_details := fun _ => true;
     decode := text_of |}.

Definition ok_response : Response := mkResponse 200 "{}" (Some []).

Definition done_job : IngestionJob := mkIngestionJob "COMPLETE" [].

Definition no_answer : exn + AgentResponse :=
  inr (mkAgentResponse None None).

(** The usual world with the given collections. *)
Definition collections_are (collections : list CollectionSummary) : World :=
  world true collections (inr ok_response) (fun _ => ok_response) done_job
    no_answer.

End Stage.

(* ================================================================= *)
(** ** Facts about the monad and about traces *)

Lemma count_app (p : Event -> bool) (t1 t2 : list Event) :
  count p (t1 ++ t2) = count p t1 + count p t2.
Proof. unfold count. now rewrite filter_app, length_app. Qed.

Lemma count_nil (p : Event -> bool) : count p [] = 0.
Proof. reflexivity. Qed.

Lemma count_cons (p : Event -> bool) (ev : Event) (t : list Event) :
  count p (ev :: t) = (if p ev then 1 else 0) + count p t.
Proof. unfold count. simpl. now destruct (p ev). Qed.

Lemma count_none (p : Event -> bool) (t : list Event) :
  Forall (fun ev => p ev = false) t -> count p t = 0.
Proof.
  induction 1 as [|ev t Hev _ IH]; [reflexivity|].
  rewrite count_cons, Hev, IH. reflexivity.
Qed.

Lemma count_none_inv (p : Event -> bool) (t : list Event) :
  count p t = 0 -> Forall (fun ev => p ev = false) t.
Proof.
  induction t as [|ev t IH]; intros H; constructor;
    rewrite count_cons in H; destruct (p ev); simpl in H;
    try discriminate; auto.
Qed.

Section MonadFacts.

Lemma bind_raised {A B} (m : M A) (f : A -> M B) h e t :
  m h = (inl e, t) -> bind m f h = (inl e, t).
Proof. unfold bind. now intros ->. Qed.

Lemma bind_returned {A B} (m : M A) (f : A -> M B) h a t :
  m h = (inr a, t) ->
  bind m f h = (fst (f a (h ++ t)), t ++ snd (f a (h ++ t))).
Proof. unfold bind. intros ->. now destruct (f a (h ++ t)). Qed.

Lemma catch_returned {A} (m : M A) (handler : exn -> M A) h a t :
  m h = (inr a, t) -> catch m handler h = (inr a, t).
Proof. unfold catch. now intros ->. Qed.

Lemma catch_raised {A} (m : M A) (handler : exn -> M A) h e t :
  m h = (inl e, t) ->
  catch m handler h
  = (fst (handler e (h ++ t)), t ++ snd (handler e (h ++ t))).
Proof. unfold catch. intros ->. now destruct (handler e (h ++ t)). Qed.

Variable P : Event -> Prop.

Lemma emits_ret {A} (a : A) : emits P (ret a).
Proof. intros h. constructor. Qed.

Lemma emits_raise {A} (e : exn) : emits P (@raise A e).
Proof. intros h. constructor. Qed.

Lemma emits_bind {A B} (m : M A) (f : A -> M B) :
  emits P m -> (forall a, emits P (f a)) -> emits P (bind m f).
Proof.
  intros Hm Hf h. specialize (Hm h).
  destruct (m h) as [[e|a] t] eqn:E.
  - now rewrite (bind_raised _ _ _ _ _ E).
  - rewrite (bind_returned _ _ _ _ _ E). simpl in *.
    apply Forall_app. split; [assumption | apply Hf].
Qed.

Lemma emits_bind_unit {C} (m : M unit) (k : M C) :
  emits P m -> emits P k -> emits P (bind m (fun _ => k)).
Proof. intros Hm Hk. apply emits_bind; auto. Qed.

Lemma emits_catch {A} (m : M A) (handler : exn -> M A) :
  emits P m -> (forall e, emits P (handler e)) -> emits P (catch m handler).
Proof.
  intros Hm Hh h. specialize (Hm h).
  destruct (m h) as [[e|a] t] eqn:E.
  - rewrite (catch_raised _ _ _ _ _ E). simpl in *.
    apply Forall_app. split; [assumption | apply Hh].
  - now rewrite (catch_returned _ _ _ _ _ E).
Qed.

Lemma emits_try {A} (m : M A) : emits P m -> emits P (try_ m).
Proof. intros Hm h. apply Hm. Qed.

Lemma emits_call {A} (c : Call) (answer : History -> exn + A) :
  (forall o, P (EvCall c o)) -> emits P (call c answer).
Proof. intros Hc h. simpl. constructor; [apply Hc | constructor]. Qed.

Lemma emits_emit (ev : Event) : P ev -> emits P (emit ev).
Proof. intros H h. simpl. now constructor. Qed.

Lemma emits_for_each {A} (xs : list A) (body : A -> M unit) :
  (forall x, emits P (body x)) -> emits P (for_each xs body).
Proof.
  intros Hb. induction xs as [|x xs IH]; simpl.
  - intros h. constructor.
  - apply emits_bind_unit; [apply Hb | assumption].
Qed.

Lemma emits_paginate_from {A} (c : Call) (per_page : Z -> M unit) :
  (forall o, P (EvCall c o)) -> (forall n, emits P (per_page n)) ->
  forall pages page_num failure (acc : list A),
    emits P (paginate_from c per_page page_num pages failure acc).
Proof.
  intros Hc Hp. induction pages as [|page rest IH]; intros n failure acc.
  - simpl. destruct failure as [e|].
    + apply emits_bind_unit; [apply emits_emit, Hc | intros h; constructor].
    + intros h. constructor.
  - simpl. apply emits_bind_unit; [apply emits_emit, Hc|].
    apply emits_bind_unit; [apply Hp | apply IH].
Qed.

Lemma emits_paginate {A} (c : Call) (stream : History -> Pages A)
    (per_page : Z -> M unit) :
  (forall o, P (EvCall c o)) -> (forall n, emits P (per_page n)) ->
  emits P (paginate c stream per_page).
Proof. intros Hc Hp h. unfold paginate. now apply emits_paginate_from. Qed.

End MonadFacts.

Lemma emits_print (P : Event -> Prop) (m : Msg) :
  P (EvPrint m) -> emits P (print m).
Proof. apply emits_emit. Qed.

Lemma emits_sleep (P : Event -> Prop) (ms : Z) :
  P (EvSleep ms) -> emits P (sleep ms).
Proof. apply emits_emit. Qed.

Lemma emits_when (P : Event -> Prop) (b : bool) (m : M unit) :
  emits P m -> emits P (when b m).
Proof. intros H. destruct b; simpl; [assumption | apply emits_ret]. Qed.

Lemma emits_input (P : Event -> Prop) (cl : Client) :
  (forall a, P (EvInput a)) -> emits P (input cl).
Proof. intros H h. simpl. constructor; [apply H | constructor]. Qed.

Lemma emits_weaken {A} (P Q : Event -> Prop) (m : M A) :
  (forall ev, P ev -> Q ev) -> emits P m -> emits Q m.
Proof. intros HPQ H h. eapply Forall_impl; [exact HPQ | apply H]. Qed.

Create HintDb emits.

#[export] Hint Resolve emits_ret emits_raise emits_bind emits_catch emits_try
  emits_call emits_for_each emits_paginate emits_print emits_sleep emits_when
  emits_input emits_emit : emits.

#[export] Hint Extern 1 (_ = false) => reflexivity : emits.

#[export] Hint Extern 3 (emits _ (match ?x with _ => _ end)) => destruct x : emits.

#[export] Hint Unfold avoids : emits.

(** Solves [emits P m] for a computation built from the combinators, once
    the definition at its head is unfolded. *)
Ltac emits_auto := unfold avoids in *; intros; auto 30 with emits.

Lemma bind_inr_inv {A B} (m : M A) (f : A -> M B) h b t :
  bind m f h = (inr b, t) ->
  exists a t1 t2,
    m h = (inr a, t1) /\ f a (h ++ t1) = (inr b, t2) /\ t = t1 ++ t2.
Proof.
  unfold bind. destruct (m h) as [[e|a] t1]; [discriminate|].
  destruct (f a (h ++ t1)) as [r t2] eqn:E. intros [= -> <-].
  now exists a, t1, t2.
Qed.

(** Decomposes a hypothesis [H] saying that [x <- m ;; k] returned: [m]
    returned [a] with trace [t] ([Hm]), and [H] becomes the run of [k],
    with trace [tl]. *)
Ltac bind_inv H a t Hm tl :=
  let H2 := fresh "Htail" in
  apply bind_inr_inv in H; destruct H as (a & t & tl & Hm & H2 & ->);
  rename H2 into H.

Lemma emits_run {A} (P : Event -> Prop) (m : M A) h r t :
  emits P m -> m h = (r, t) -> Forall P t.
Proof. intros Hm E. specialize (Hm h). now rewrite E in Hm. Qed.

Lemma avoided {A} (p : Event -> bool) (m : M A) h r t ev :
  avoids p m -> m h = (r, t) -> p ev = true -> ~ In ev t.
Proof.
  intros Hm E Hp Hin. pose proof (emits_run _ _ _ _ _ Hm E) as Ht.
  rewrite Forall_forall in Ht. apply Ht in Hin. congruence.
Qed.

Lemma print_run (m : Msg) h r t :
  print m h = (r, t) -> r = inr tt /\ t = [EvPrint m].
Proof. now intros [= <- <-]. Qed.

Lemma bind_print {B} (m : Msg) (k : M B) h :
  (print m ;; k) h
  = (fst (k (h ++ [EvPrint m])), EvPrint m :: snd (k (h ++ [EvPrint m]))).
Proof. unfold bind, print, emit. now destruct (k (h ++ [EvPrint m])). Qed.

Lemma bind_sleep {B} (ms : Z) (k : M B) h :
  (sleep ms ;; k) h
  = (fst (k (h ++ [EvSleep ms])), EvSleep ms :: snd (k (h ++ [EvSleep ms]))).
Proof. unfold bind, sleep, emit. now destruct (k (h ++ [EvSleep ms])). Qed.

Lemma filter_none (p : Event -> bool) (t : list Event) :
  Forall (fun ev => p ev = false) t -> filter p t = [].
Proof.
  induction 1 as [|ev t Hev _ IH]; simpl; [reflexivity|]. now rewrite Hev.
Qed.

Lemma count_filter_le (p : Event -> bool) (t1 t2 : list Event) :
  count p (t1 ++ t2) = 0 -> count p t1 = 0 /\ count p t2 = 0.
Proof. rewrite count_app. lia. Qed.

Lemma bind_try_call {A B} (c : Call) (answer : History -> exn + A)
    (k : exn + A -> M B) h :
  (r <- try_ (call c answer) ;; k r) h
  = (fst (k (answer h) (h ++ [EvCall c (outcome_of (answer h))])),
     EvCall c (outcome_of (answer h))
       :: snd (k (answer h) (h ++ [EvCall c (outcome_of (answer h))]))).
Proof.
  unfold bind, try_, call. cbn [fst snd].
  now destruct (k (answer h) (h ++ [EvCall c (outcome_of (answer h))])).
Qed.

Lemma bind_try_debug_call {A B} self (message : string) (c : Call)
    (answer : History -> exn + A) (k : exn + A -> M B) h :
  let dbg := if V2.debug self then [EvPrint (MsgDebug message)] else [] in
  let ev := EvCall c (outcome_of (answer (h ++ dbg))) in
  (r <- try_ (V2.debug_print self message ;; call c answer) ;; k r) h
  = (fst (k (answer (h ++ dbg)) (h ++ dbg ++ [ev])),
     (dbg ++ [ev]) ++ snd (k (answer (h ++ dbg)) (h ++ dbg ++ [ev]))).
Proof.
  cbv zeta. unfold bind, try_, call, V2.debug_print, when, print, emit, ret.
  destruct (V2.debug self); cbn [fst snd app].
  - match goal with |- context [k ?a ?hh] => destruct (k a hh) end.
    reflexivity.
  - match goal with |- context [k ?a ?hh] => destruct (k a hh) end.
    reflexivity.
Qed.

Lemma bind_ret_l {A B} (a : A) (f : A -> M B) h : bind (ret a) f h = f a h.
Proof. unfold bind, ret. rewrite app_nil_r. now destruct (f a h). Qed.

(* ================================================================= *)
(** ** Facts about [lower] and [contains] *)

Lemma lower_app (a b : string) : lower (a ++ b) = (lower a ++ lower b)%string.
Proof. induction a as [|c a IH]; simpl; [reflexivity | now rewrite IH]. Qed.

Lemma prefix_lower (a : string) :
  forall b, String.prefix a b = true ->
            String.prefix (lower a) (lower b) = true.
Proof.
  induction a as [|c a IH]; intros [|d b]; simpl; try easy.
  destruct (ascii_dec c d) as [->|]; [|discriminate].
  intros H. destruct (ascii_dec (lower_ascii d) (lower_ascii d)); [|easy].
  now apply IH.
Qed.

Lemma contains_lower (a b : string) :
  contains a b = true -> contains (lower a) (lower b) = true.
Proof.
  induction b as [|d b IH]; simpl; intros H;
    apply orb_true_iff in H as [H|H]; apply orb_true_iff.
  - left. exact (prefix_lower a "" H).
  - discriminate.
  - left. exact (prefix_lower a (String d b) H).
  - right. now apply IH.
Qed.

Lemma contains_app_r (sub p s : string) :
  contains sub s = true -> contains sub (p ++ s) = true.
Proof.
  intros H. induction p as [|c p IH]; simpl; [exact H|].
  apply orb_true_iff. now right.
Qed.

(* ================================================================= *)
(** ** What each function emits

    The lemmas of this section say that a function emits only events
    satisfying [P], given that [P] holds of the kinds of events the function
    can emit at all; each lemma keeps the hypotheses it uses. *)

Section Emissions.

Variable cl : Client.
Variable P : Event -> Prop.

Hypothesis P_listing : forall m, msg_kind m = KListing -> P (EvPrint m).
Hypothesis P_debug : forall m, msg_kind m = KDebug -> P (EvPrint m).
Hypothesis P_prompt : forall m, msg_kind m = KPrompt -> P (EvPrint m).
Hypothesis P_per_kb : forall m, msg_kind m = KPerKb -> P (EvPrint m).
Hypothesis P_item : forall m, msg_kind m = KItem -> P (EvPrint m).
Hypothesis P_batch : forall m, msg_kind m = KBatch -> P (EvPrint m).
Hypothesis P_run : forall m, msg_kind m = KRun -> P (EvPrint m).
Hypothesis P_sleep_500 : P (EvSleep 500).
Hypothesis P_sleep_2000 : P (EvSleep 2000).
Hypothesis P_sleep_3000 : P (EvSleep 3000).
Hypothesis P_sleep_5000 : P (EvSleep 5000).
Hypothesis P_sleep_8000 : P (EvSleep 8000).
Hypothesis P_sleep_10000 : P (EvSleep 10000).
Hypothesis P_sleep_15000 : P (EvSleep 15000).
Hypothesis P_input : forall a, P (EvInput a).
Hypothesis P_list : forall o, P (EvCall CListKnowledgeBasesPage o).
Hypothesis P_list_ds : forall kb o, P (EvCall (CListDataSourcesPage kb) o).
Hypothesis P_get : forall kb ds o, P (EvCall (CGetDataSource kb ds) o).
Hypothesis P_update :
  forall kb ds name config policy o,
    P (EvCall (CUpdateDataSource kb ds name config policy) o).
Hypothesis P_delete_ds : forall kb ds o, P (EvCall (CDeleteDataSource kb ds) o).
Hypothesis P_delete_kb : forall kb o, P (EvCall (CDeleteKnowledgeBase kb) o).

#[local] Hint Extern 1 (msg_kind _ = _) => reflexivity : emits.

(** *** Enumeration and prompt *)

Lemma V1_list_knowledge_bases_emits self :
  emits P (V1.list_knowledge_bases cl self).
Proof. unfold V1.list_knowledge_bases. emits_auto. Qed.

Lemma V2_list_knowledge_bases_emits self :
  emits P (V2.list_knowledge_bases cl self).
Proof. unfold V2.list_knowledge_bases, V2.debug_print. emits_auto. Qed.

Lemma confirm_deletion_emits dry_run confirm found :
  emits P (confirm_deletion cl dry_run confirm found).
Proof. unfold confirm_deletion. emits_auto. Qed.

(** *** The deletion of one knowledge base *)

Lemma V1_list_data_sources_emits kb_id :
  emits P (V1.list_data_sources cl kb_id).
Proof. unfold V1.list_data_sources. emits_auto. Qed.

Lemma V1_update_policy_emits kb_id ds_id :
  emits P (V1.update_data_source_deletion_policy cl kb_id ds_id).
Proof. unfold V1.update_data_source_deletion_policy. emits_auto. Qed.

Lemma V1_delete_data_source_attempts_emits kb_id ds_id max_retries attempts :
  emits P (V1.delete_data_source_attempts cl kb_id ds_id max_retries attempts).
Proof.
  induction attempts as [|attempt rest IH]; simpl.
  - apply emits_ret.
  - pose proof V1_update_policy_emits. emits_auto.
Qed.

Lemma V1_delete_data_source_emits kb_id ds_id max_retries :
  emits P (V1.delete_data_source cl kb_id ds_id max_retries).
Proof. apply V1_delete_data_source_attempts_emits. Qed.

Lemma V1_delete_knowledge_base_attempts_emits kb_id name max_retries attempts :
  emits P (V1.delete_knowledge_base_attempts cl kb_id name max_retries attempts).
Proof.
  induction attempts as [|attempt rest IH]; simpl.
  - apply emits_ret.
  - emits_auto.
Qed.

Lemma V1_delete_knowledge_base_emits self kb_id name max_retries :
  emits P (V1.delete_knowledge_base cl self kb_id name max_retries).
Proof.
  unfold V1.delete_knowledge_base.
  pose proof V1_list_data_sources_emits.
  pose proof V1_delete_data_source_emits.
  pose proof V1_delete_knowledge_base_attempts_emits.
  emits_auto.
Qed.

Lemma V2_list_data_sources_emits self kb_id :
  emits P (V2.list_data_sources_with_timeout cl self kb_id).
Proof.
  unfold V2.list_data_sources_with_timeout, V2.debug_print. emits_auto.
Qed.

Lemma V2_update_policy_emits self kb_id ds_id :
  emits P (V2.update_data_source_deletion_policy_with_timeout cl self kb_id ds_id).
Proof.
  unfold V2.update_data_source_deletion_policy_with_timeout, V2.debug_print.
  emits_auto.
Qed.

Lemma V2_delete_data_source_attempts_emits self kb_id ds_id max_retries attempts :
  emits P (V2.delete_data_source_attempts cl self kb_id ds_id max_retries attempts).
Proof.
  induction attempts as [|attempt rest IH]; simpl.
  - apply emits_ret.
  - pose proof V2_update_policy_emits. unfold V2.debug_print. emits_auto.
Qed.

Lemma V2_delete_data_source_emits self kb_id ds_id max_retries :
  emits P (V2.delete_data_source_with_timeout cl self kb_id ds_id max_retries).
Proof. apply V2_delete_data_source_attempts_emits. Qed.

Lemma V2_delete_knowledge_base_attempts_emits self kb_id name max_retries attempts :
  emits P (V2.delete_knowledge_base_attempts cl self kb_id name max_retries attempts).
Proof.
  induction attempts as [|attempt rest IH]; simpl.
  - apply emits_ret.
  - unfold V2.debug_print. emits_auto.
Qed.

Lemma V2_delete_knowledge_base_emits self kb_id name max_retries :
  emits P (V2.delete_knowledge_base_with_timeout cl self kb_id name max_retries).
Proof.
  unfold V2.delete_knowledge_base_with_timeout.
  pose proof V2_list_data_sources_emits.
  pose proof V2_delete_data_source_emits.
  pose proof V2_delete_knowledge_base_attempts_emits.
  emits_auto.
Qed.

(** In a dry run nothing but the notice is emitted. *)
Lemma V1_dry_run_delete_knowledge_base self kb_id name n :
  V1.dry_run self = true ->
  emits P (V1.delete_knowledge_base cl self kb_id name n).
Proof.
  intros Hdry. unfold V1.delete_knowledge_base. rewrite Hdry. emits_auto.
Qed.

Lemma V2_dry_run_delete_knowledge_base self kb_id name n :
  V2.dry_run self = true ->
  emits P (V2.delete_knowledge_base_with_timeout cl self kb_id name n).
Proof.
  intros Hdry. unfold V2.delete_knowledge_base_with_timeout.
  rewrite Hdry. emits_auto.
Qed.

(** *** The loops, given what the deletion of one knowledge base emits *)

Lemma V1_process_knowledge_bases_emits self :
  (forall kb_id name, emits P (V1.delete_knowledge_base cl self kb_id name 3)) ->
  forall items total s f,
    emits P (V1.process_knowledge_bases cl self total items s f).
Proof.
  intros Hkb. induction items as [|[i kb] rest IH]; intros; simpl.
  - apply emits_ret.
  - emits_auto.
Qed.

Lemma V2_process_batch_emits self :
  (forall kb_id name,
     emits P (V2.delete_knowledge_base_with_timeout cl self kb_id name 3)) ->
  forall items total batch_start batch_len s f,
    emits P (V2.process_batch cl self total batch_start batch_len items s f).
Proof.
  intros Hkb. induction items as [|[i kb] rest IH]; intros; simpl.
  - apply emits_ret.
  - emits_auto.
Qed.

Lemma V2_process_batches_emits self :
  (forall kb_id name,
     emits P (V2.delete_knowledge_base_with_timeout cl self kb_id name 3)) ->
  forall starts kbs batch_size s f,
    emits P (V2.process_batches cl self kbs batch_size starts s f).
Proof.
  intros Hkb. induction starts as [|b rest IH]; intros; simpl.
  - apply emits_ret.
  - pose proof (V2_process_batch_emits self Hkb). emits_auto.
Qed.

Lemma V1_delete_listed_emits self kbs :
  (forall kb_id name, emits P (V1.delete_knowledge_base cl self kb_id name 3)) ->
  emits P (V1.delete_listed cl self kbs).
Proof.
  intros Hkb. unfold V1.delete_listed.
  pose proof (V1_process_knowledge_bases_emits self Hkb).
  emits_auto.
Qed.

Lemma V2_delete_listed_emits self kbs batch_size :
  (forall kb_id name,
     emits P (V2.delete_knowledge_base_with_timeout cl self kb_id name 3)) ->
  emits P (V2.delete_listed cl self kbs batch_size).
Proof.
  intros Hkb. unfold V2.delete_listed.
  pose proof (V2_process_batches_emits self Hkb).
  emits_auto.
Qed.

Lemma V1_delete_all_emits self confirm :
  (forall kb_id name, emits P (V1.delete_knowledge_base cl self kb_id name 3)) ->
  emits P (V1.delete_all_knowledge_bases cl self confirm).
Proof.
  intros Hkb. unfold V1.delete_all_knowledge_bases.
  pose proof (V1_list_knowledge_bases_emits self).
  pose proof (V1_delete_listed_emits self).
  pose proof confirm_deletion_emits.
  emits_auto.
Qed.

Lemma V2_delete_all_emits self confirm batch_size :
  (forall kb_id name,
     emits P (V2.delete_knowledge_base_with_timeout cl self kb_id name 3)) ->
  emits P (V2.delete_all_knowledge_bases cl self confirm batch_size).
Proof.
  intros Hkb. unfold V2.delete_all_knowledge_bases.
  pose proof (V2_list_knowledge_bases_emits self).
  pose proof (V2_delete_listed_emits self).
  pose proof confirm_deletion_emits.
  emits_auto.
Qed.

End Emissions.

(** Discharges the side conditions of the lemmas above for a decidable
    class of events. *)
Ltac by_kind :=
  try solve [ intros; reflexivity
            | let m := fresh "m" in
              intros m; destruct m; intros; try discriminate; reflexivity ].

(* ================================================================= *)
(** ** Counting events *)

Section Bounds.

Variable p : Event -> bool.

Lemma avoids_at_most {A} (m : M A) : avoids p m -> at_most p 0 m.
Proof. intros Hm h. rewrite (count_none _ _ (Hm h)). constructor. Qed.

Lemma at_most_weaken {A} (m : M A) n n' :
  n <= n' -> at_most p n m -> at_most p n' m.
Proof. intros Hle Hm h. specialize (Hm h). lia. Qed.

Lemma at_most_bind {A B} (m : M A) (f : A -> M B) n1 n2 :
  at_most p n1 m -> (forall a, at_most p n2 (f a)) ->
  at_most p (n1 + n2) (bind m f).
Proof.
  intros Hm Hf h. specialize (Hm h).
  destruct (m h) as [[e|a] t] eqn:E.
  - rewrite (bind_raised _ _ _ _ _ E). simpl in *. lia.
  - rewrite (bind_returned _ _ _ _ _ E). simpl in *.
    rewrite count_app. specialize (Hf a (h ++ t)). lia.
Qed.

Lemma at_most_bind_quiet {A B} (m : M A) (f : A -> M B) n :
  avoids p m -> (forall a, at_most p n (f a)) -> at_most p n (bind m f).
Proof.
  intros Hm Hf. change n with (0 + n).
  apply at_most_bind; [now apply avoids_at_most | assumption].
Qed.

Lemma at_most_try {A} (m : M A) n : at_most p n m -> at_most p n (try_ m).
Proof. intros Hm h. apply Hm. Qed.

Lemma at_most_call {A} (c : Call) (answer : History -> exn + A) :
  at_most p 1 (call c answer).
Proof. intros h. simpl. rewrite count_cons, count_nil. destruct (p _); lia. Qed.

Lemma at_most_for_each {A} (xs : list A) (body : A -> M unit) k :
  (forall x, at_most p k (body x)) ->
  at_most p (k * List.length xs) (for_each xs body).
Proof.
  intros Hb. induction xs as [|x xs IH]; simpl.
  - intros h. unfold count. simpl. lia.
  - replace (k * S (List.length xs)) with (k + k * List.length xs) by lia.
    apply at_most_bind; [apply Hb | intros _; exact IH].
Qed.

Lemma at_least_zero {A} (m : M A) : at_least p 0 m.
Proof. intros h a _. lia. Qed.

Lemma at_least_bind {A B} (m : M A) (f : A -> M B) n1 n2 :
  at_least p n1 m -> (forall a, at_least p n2 (f a)) ->
  at_least p (n1 + n2) (bind m f).
Proof.
  intros Hm Hf h b. specialize (Hm h).
  destruct (m h) as [[e|a] t] eqn:E.
  - rewrite (bind_raised _ _ _ _ _ E). discriminate.
  - rewrite (bind_returned _ _ _ _ _ E). simpl in *. intros Hb.
    rewrite count_app. specialize (Hm a eq_refl).
    specialize (Hf a (h ++ t) b Hb). lia.
Qed.

Lemma at_least_bind_first {A B} (m : M A) (f : A -> M B) n :
  at_least p n m -> at_least p n (bind m f).
Proof.
  intros Hm. replace n with (n + 0) by lia.
  apply at_least_bind; [assumption | intros; apply at_least_zero].
Qed.

Lemma at_least_bind_rest {A B} (m : M A) (f : A -> M B) n :
  (forall a, at_least p n (f a)) -> at_least p n (bind m f).
Proof.
  intros Hf. change n with (0 + n).
  apply at_least_bind; [apply at_least_zero | assumption].
Qed.

Lemma at_least_try_call {A} (c : Call) (answer : History -> exn + A) :
  (forall o, p (EvCall c o) = true) -> at_least p 1 (try_ (call c answer)).
Proof. intros Hc h a _. simpl. rewrite count_cons, Hc. lia. Qed.

Lemma at_least_for_each {A} (xs : list A) (body : A -> M unit) k :
  (forall x, at_least p k (body x)) ->
  at_least p (k * List.length xs) (for_each xs body).
Proof.
  intros Hb. induction xs as [|x xs IH]; simpl.
  - intros h a _. simpl. lia.
  - replace (k * S (List.length xs)) with (k + k * List.length xs) by lia.
    apply at_least_bind; [apply Hb | intros _; exact IH].
Qed.

End Bounds.

Lemma at_most_bind_then_quiet {A B} (p : Event -> bool) (m : M A)
    (f : A -> M B) n :
  at_most p n m -> (forall a, avoids p (f a)) -> at_most p n (bind m f).
Proof.
  intros Hm Hf. replace n with (n + 0) by lia.
  apply at_most_bind; [assumption | intros a; now apply avoids_at_most].
Qed.

(* ================================================================= *)
(** ** The batches of the second cleaner *)

Lemma ceil_div_step (n b : nat) :
  1 <= n -> 1 <= b -> ceil_div n b = S (ceil_div (n - b) b).
Proof.
  intros Hn Hb. unfold ceil_div.
  destruct (Nat.le_gt_cases b n) as [Hle|Hgt].
  - replace (n + b - 1) with ((n - b + b - 1) + 1 * b) by lia.
    rewrite Nat.div_add by lia. lia.
  - replace (n - b) with 0 by lia.
    replace (n + b - 1) with ((n - 1) + 1 * b) by lia.
    rewrite Nat.div_add by lia.
    rewrite !Nat.div_small by lia. reflexivity.
Qed.

Lemma ceil_div_zero (b : nat) : 1 <= b -> ceil_div 0 b = 0.
Proof. intros Hb. unfold ceil_div. apply Nat.div_small. lia. Qed.

Section Batches.

Variable kbs : list KbSummary.
Variable batch_size : Z.
Hypothesis batch_size_pos : (0 < batch_size)%Z.

Variable total : Z.
Hypothesis total_length : total = Z.of_nat (List.length kbs).

Lemma batch_at_full start :
  (0 <= start)%Z -> (start + batch_size <= total)%Z ->
  batch_at kbs batch_size start
  = firstn (Z.to_nat batch_size) (skipn (Z.to_nat start) kbs).
Proof.
  intros H0 Hle. unfold batch_at, slice. rewrite <- total_length.
  rewrite Z.min_l by assumption. f_equal. lia.
Qed.

Lemma batch_at_last start :
  (0 <= start)%Z -> (total < start + batch_size)%Z ->
  batch_at kbs batch_size start = skipn (Z.to_nat start) kbs.
Proof.
  intros H0 Hlt. unfold batch_at, slice. rewrite <- total_length.
  rewrite Z.min_r by lia.
  apply firstn_all2. rewrite length_skipn. subst total. lia.
Qed.

Lemma batch_at_length start :
  (0 <= start)%Z -> (start < total)%Z ->
  Z.of_nat (List.length (batch_at kbs batch_size start))
  = Z.min batch_size (total - start).
Proof.
  intros H0 Hlt.
  destruct (Z.le_gt_cases (start + batch_size) total) as [Hle|Hgt].
  - rewrite batch_at_full by assumption.
    rewrite length_firstn, length_skipn. subst total. lia.
  - rewrite batch_at_last by lia.
    rewrite length_skipn. subst total. lia.
Qed.

(** The batches are consecutive pieces of the enumeration. *)
Lemma range_up_batches :
  forall fuel start,
    (0 <= start)%Z -> (Z.to_nat (total - start) <= fuel)%nat ->
    List.concat (map (batch_at kbs batch_size) (range_up fuel start total batch_size))
    = skipn (Z.to_nat start) kbs.
Proof.
  induction fuel as [|fuel IH]; intros start H0 Hfuel.
  - simpl. symmetry. apply skipn_all2. subst total. lia.
  - simpl. destruct (Z.ltb_spec start total) as [Hlt|Hge].
    + simpl. rewrite IH by lia.
      destruct (Z.le_gt_cases (start + batch_size) total) as [Hle|Hgt].
      * rewrite batch_at_full by assumption.
        replace (Z.to_nat (start + batch_size))
          with (Z.to_nat batch_size + Z.to_nat start)%nat by lia.
        rewrite <- skipn_skipn. apply firstn_skipn.
      * rewrite batch_at_last by lia.
        rewrite (skipn_all2 kbs (n := Z.to_nat (start + batch_size)))
          by (subst total; lia).
        apply app_nil_r.
    + simpl. symmetry. apply skipn_all2. subst total. lia.
Qed.

Lemma batches_partition :
  exists starts,
    range_step 0 total batch_size = inr starts
    /\ List.concat (map (batch_at kbs batch_size) starts) = kbs.
Proof.
  unfold range_step.
  destruct (Z.eqb_spec batch_size 0) as [?|_]; [lia|].
  destruct (Z.ltb_spec 0 batch_size) as [_|?]; [|lia].
  eexists. split; [reflexivity|].
  rewrite range_up_batches by lia. reflexivity.
Qed.

Lemma range_up_exhausted fuel start :
  (total <= start)%Z -> range_up fuel start total batch_size = [].
Proof.
  intros Hge. destruct fuel; simpl; [reflexivity|].
  destruct (Z.ltb_spec start total); [lia | reflexivity].
Qed.

Lemma range_up_length :
  forall fuel start,
    (0 <= start)%Z -> (Z.to_nat (total - start) <= fuel)%nat ->
    List.length (range_up fuel start total batch_size)
    = ceil_div (Z.to_nat (total - start)) (Z.to_nat batch_size).
Proof.
  induction fuel as [|fuel IH]; intros start H0 Hfuel.
  - simpl. replace (Z.to_nat (total - start)) with 0%nat by lia.
    symmetry. apply ceil_div_zero. lia.
  - simpl. destruct (Z.ltb_spec start total) as [Hlt|Hge].
    + simpl. rewrite IH by lia.
      rewrite (ceil_div_step (Z.to_nat (total - start))) by lia.
      do 2 f_equal. lia.
    + replace (Z.to_nat (total - start)) with 0%nat by lia.
      symmetry. apply ceil_div_zero. lia.
Qed.

Lemma range_up_sizes :
  forall fuel start,
    (0 <= start)%Z ->
    Forall (fun n => 1 <= n <= Z.to_nat batch_size)
      (map (fun b => List.length (batch_at kbs batch_size b))
         (range_up fuel start total batch_size)).
Proof.
  induction fuel as [|fuel IH]; intros start H0; simpl; [constructor|].
  destruct (Z.ltb_spec start total) as [Hlt|Hge]; [|constructor].
  simpl. constructor; [|apply IH; lia].
  pose proof (batch_at_length start H0 Hlt). lia.
Qed.

(** The delay test succeeds for every batch but the last. *)
Lemma range_up_pacing :
  forall fuel start,
    (0 <= start)%Z -> (Z.to_nat (total - start) <= fuel)%nat ->
    pacing_of_starts kbs batch_size (range_up fuel start total batch_size)
    = paced (map (fun b => List.length (batch_at kbs batch_size b))
               (range_up fuel start total batch_size)).
Proof.
  induction fuel as [|fuel IH]; intros start H0 Hfuel; [reflexivity|].
  simpl. destruct (Z.ltb_spec start total) as [Hlt|Hge]; [|reflexivity].
  simpl. f_equal. f_equal. rewrite <- total_length.
  destruct (Z.le_gt_cases total (start + batch_size)) as [Hlast|Hmore].
  - rewrite Z.min_r by assumption. rewrite Z.ltb_irrefl.
    rewrite range_up_exhausted by assumption. reflexivity.
  - rewrite Z.min_l by lia.
    destruct (Z.ltb_spec (start + batch_size) total) as [_|?]; [|lia].
    rewrite IH by lia.
    destruct fuel as [|fuel']; [lia|]. simpl.
    destruct (Z.ltb_spec (start + batch_size) total) as [_|?]; [|lia].
    reflexivity.
Qed.

End Batches.

(** What [range(0, len(knowledge_bases), batch_size)] can be when it does
    not raise. *)
Lemma batch_starts_cases (kbs : list KbSummary) (batch_size : Z) starts :
  range_step 0 (Z.of_nat (List.length kbs)) batch_size = inr starts ->
  ((0 < batch_size)%Z
   /\ List.concat (map (batch_at kbs batch_size) starts) = kbs)
  \/ ((batch_size < 0)%Z /\ starts = []).
Proof.
  intros Hstarts.
  destruct (Z.lt_trichotomy batch_size 0) as [Hneg|[Hzero|Hpos]].
  - right. split; [assumption|]. revert Hstarts. unfold range_step.
    destruct (Z.eqb_spec batch_size 0) as [?|_]; [lia|].
    destruct (Z.ltb_spec 0 batch_size) as [?|_]; [lia|].
    replace (Z.to_nat (0 - Z.of_nat (List.length kbs))) with 0%nat by lia.
    now intros [= <-].
  - subst. discriminate.
  - left. split; [assumption|].
    destruct (batches_partition kbs batch_size Hpos _ eq_refl)
      as (starts' & E & Hcat).
    rewrite E in Hstarts. now injection Hstarts as <-.
Qed.

(** The batches of a positive batch size: ceil(T/B) of them, each with at
    least one and at most B items, all items in all, paced as [paced]
    says. *)
Lemma batch_starts_pacing (kbs : list KbSummary) (batch_size : Z) starts :
  (0 < batch_size)%Z ->
  range_step 0 (Z.of_nat (List.length kbs)) batch_size = inr starts ->
  exists sizes,
    pacing_of_starts kbs batch_size starts = paced sizes
    /\ List.length sizes = ceil_div (List.length kbs) (Z.to_nat batch_size)
    /\ Forall (fun n => 1 <= n <= Z.to_nat batch_size) sizes
    /\ list_sum sizes = List.length kbs.
Proof.
  intros Hpos Hstarts.
  destruct (batch_starts_cases _ _ _ Hstarts) as [[_ Hcat]|[? _]]; [|lia].
  revert Hstarts. unfold range_step.
  destruct (Z.eqb_spec batch_size 0) as [?|_]; [lia|].
  destruct (Z.ltb_spec 0 batch_size) as [_|?]; [|lia].
  intros [= <-].
  exists (map (fun b => List.length (batch_at kbs batch_size b))
            (range_up (Z.to_nat (Z.of_nat (List.length kbs) - 0)) 0
               (Z.of_nat (List.length kbs)) batch_size)).
  split; [apply (range_up_pacing kbs batch_size Hpos _ eq_refl); lia|].
  split.
  { rewrite length_map, (range_up_length kbs batch_size Hpos) by lia.
    f_equal. lia. }
  split; [apply (range_up_sizes kbs batch_size Hpos _ eq_refl); lia|].
  apply (f_equal (@List.length _)) in Hcat.
  rewrite length_concat, map_map in Hcat. exact Hcat.
Qed.

(* ================================================================= *)
(** ** The shape of [delete_all_knowledge_bases] *)

Lemma confirm_deletion_prompt cl found h :
  let r := cl_input cl (h ++ [EvPrint (MsgWarning found); EvPrint MsgCannotUndo]) in
  confirm_deletion cl false false found h
  = (match r with
     | inl e => inl e
     | inr s => inr (String.eqb s "DELETE")
     end,
     [EvPrint (MsgWarning found); EvPrint MsgCannotUndo; EvInput r]
       ++ match r with
          | inl _ => []
          | inr s => if String.eqb s "DELETE" then [] else [EvPrint MsgCancelled]
          end).
Proof.
  unfold confirm_deletion, bind, print, emit, input. simpl.
  rewrite <- app_assoc. simpl.
  destruct (cl_input cl (h ++ [EvPrint (MsgWarning found); EvPrint MsgCannotUndo]))
    as [e|s]; [reflexivity|].
  destruct (String.eqb s "DELETE"); reflexivity.
Qed.

Lemma confirm_deletion_skipped cl dry_run confirm found h :
  dry_run || confirm = true ->
  confirm_deletion cl dry_run confirm found h = (inr true, []).
Proof. unfold confirm_deletion. destruct dry_run, confirm; now intros. Qed.

Lemma confirm_deletion_refused cl dry_run confirm found h t :
  confirm_deletion cl dry_run confirm found h = (inr false, t) ->
  In (EvPrint MsgCancelled) t.
Proof.
  destruct (dry_run || confirm) eqn:Eskip.
  - rewrite (confirm_deletion_skipped _ _ _ _ _ Eskip). discriminate.
  - apply orb_false_elim in Eskip. destruct Eskip as [-> ->].
    rewrite confirm_deletion_prompt. cbv zeta.
    destruct (cl_input cl _) as [e|s]; [discriminate|].
    destruct (String.eqb s "DELETE"); [discriminate|].
    intros [= <-]. simpl. tauto.
Qed.

(** Both scripts enumerate, stop on an empty enumeration, ask for
    confirmation and then run the deletion phase. *)
Lemma delete_all_shape (cl : Client) (listing : M (list KbSummary))
    (phase : list KbSummary -> M unit) (dry_run confirm : bool)
    (h : History) (kbs : list KbSummary) (t1 : list Event) :
  listing h = (inr kbs, t1) ->
  let run :=
    (knowledge_bases <- listing ;;
     if is_empty knowledge_bases then print MsgNoKbs
     else
       go_on <- confirm_deletion cl dry_run confirm
                  (List.length knowledge_bases) ;;
       if negb go_on then ret tt else phase knowledge_bases) h in
  (kbs = [] /\ run = (inr tt, t1 ++ [EvPrint MsgNoKbs]))
  \/ (kbs <> []
      /\ exists rc tc,
           confirm_deletion cl dry_run confirm (List.length kbs) (h ++ t1)
           = (rc, tc)
           /\ match rc with
              | inl e => run = (inl e, t1 ++ tc)
              | inr false => run = (inr tt, t1 ++ tc)
              | inr true =>
                  run = (fst (phase kbs ((h ++ t1) ++ tc)),
                         t1 ++ tc ++ snd (phase kbs ((h ++ t1) ++ tc)))
              end).
Proof.
  intros EL. cbv zeta. rewrite (bind_returned _ _ _ _ _ EL). cbv beta.
  destruct kbs as [|kb kbs'].
  - left. split; reflexivity.
  - right. split; [discriminate|].
    change (is_empty (kb :: kbs')) with false. cbv iota.
    destruct (confirm_deletion cl dry_run confirm (List.length (kb :: kbs'))
                (h ++ t1)) as [rc tc] eqn:EC.
    exists rc, tc. split; [reflexivity|].
    destruct rc as [e|[|]].
    + rewrite (bind_raised _ _ _ _ _ EC). reflexivity.
    + rewrite (bind_returned _ _ _ _ _ EC). reflexivity.
    + rewrite (bind_returned _ _ _ _ _ EC). simpl. now rewrite app_nil_r.
Qed.

(* ================================================================= *)
(** ** Deletion calls while one knowledge base is deleted *)

(** [at_most p n m] for an [m] that emits no event of class [p]. *)
Ltac quiet_at_most :=
  eapply at_most_weaken; [|apply avoids_at_most; emits_auto]; lia.

Section DeletionCalls.

Variable cl : Client.

(** *** First cleaner *)

Lemma V1_update_policy_avoids_deletion kb_id ds_id :
  avoids is_deletion (V1.update_data_source_deletion_policy cl kb_id ds_id).
Proof. apply V1_update_policy_emits; by_kind. Qed.

Lemma V1_ds_attempts_avoid_kb_delete kb_id ds_id max_retries attempts :
  avoids is_kb_delete
    (V1.delete_data_source_attempts cl kb_id ds_id max_retries attempts).
Proof. apply V1_delete_data_source_attempts_emits; by_kind. Qed.

Lemma V1_kb_attempts_avoid_ds_delete kb_id name max_retries attempts :
  avoids is_ds_delete
    (V1.delete_knowledge_base_attempts cl kb_id name max_retries attempts).
Proof. apply V1_delete_knowledge_base_attempts_emits; by_kind. Qed.

Lemma V1_ds_attempts_at_most kb_id ds_id max_retries attempts :
  at_most is_ds_delete (List.length attempts)
    (V1.delete_data_source_attempts cl kb_id ds_id max_retries attempts).
Proof.
  induction attempts as [|attempt rest IH]; simpl.
  - quiet_at_most.
  - apply (at_most_bind _ _ _ 1 (List.length rest));
      [apply at_most_try, at_most_call|].
    pose proof (V1_update_policy_emits cl (fun ev => is_ds_delete ev = false))
      as Hupd.
    intros [[e| | | | | | |]|[]]; try quiet_at_most.
    destruct (_ && _); [|quiet_at_most].
    apply at_most_bind_quiet; [emits_auto|]. intros _.
    apply at_most_bind_quiet; [apply Hupd; by_kind|]. intros _.
    apply at_most_bind_quiet; [emits_auto|]. intros _. exact IH.
Qed.

Lemma V1_ds_attempts_at_least kb_id ds_id max_retries attempt rest :
  at_least is_ds_delete 1
    (V1.delete_data_source_attempts cl kb_id ds_id max_retries (attempt :: rest)).
Proof.
  simpl. apply at_least_bind_first, at_least_try_call. reflexivity.
Qed.

Lemma V1_kb_attempts_at_most kb_id name max_retries attempts :
  at_most is_kb_delete (List.length attempts)
    (V1.delete_knowledge_base_attempts cl kb_id name max_retries attempts).
Proof.
  induction attempts as [|attempt rest IH]; simpl.
  - quiet_at_most.
  - apply (at_most_bind _ _ _ 1 (List.length rest));
      [apply at_most_try, at_most_call|].
    intros [[e| | | | | | |]|[]]; try quiet_at_most.
    destruct (_ <? _)%Z; [|quiet_at_most].
    apply at_most_bind_quiet; [emits_auto|]. intros _.
    apply at_most_bind_quiet; [emits_auto|]. intros _.
    apply at_most_bind_quiet; [emits_auto|]. intros _. exact IH.
Qed.

Lemma V1_kb_attempts_at_least kb_id name max_retries attempt rest :
  at_least is_kb_delete 1
    (V1.delete_knowledge_base_attempts cl kb_id name max_retries
       (attempt :: rest)).
Proof.
  simpl. apply at_least_bind_first, at_least_try_call. reflexivity.
Qed.

(** *** Second cleaner *)

Lemma V2_update_policy_avoids_deletion self kb_id ds_id :
  avoids is_deletion
    (V2.update_data_source_deletion_policy_with_timeout cl self kb_id ds_id).
Proof. apply V2_update_policy_emits; by_kind. Qed.

Lemma V2_ds_attempts_avoid_kb_delete self kb_id ds_id max_retries attempts :
  avoids is_kb_delete
    (V2.delete_data_source_attempts cl self kb_id ds_id max_retries attempts).
Proof. apply V2_delete_data_source_attempts_emits; by_kind. Qed.

Lemma V2_kb_attempts_avoid_ds_delete self kb_id name max_retries attempts :
  avoids is_ds_delete
    (V2.delete_knowledge_base_attempts cl self kb_id name max_retries attempts).
Proof. apply V2_delete_knowledge_base_attempts_emits; by_kind. Qed.

Lemma V2_ds_attempts_at_most self kb_id ds_id max_retries attempts :
  at_most is_ds_delete (List.length attempts)
    (V2.delete_data_source_attempts cl self kb_id ds_id max_retries attempts).
Proof.
  induction attempts as [|attempt rest IH]; simpl.
  - quiet_at_most.
  - apply (at_most_bind _ _ _ 1 (List.length rest)).
    { apply at_most_try, at_most_bind_quiet;
        [unfold V2.debug_print; emits_auto | intros _; apply at_most_call]. }
    pose proof (V2_update_policy_emits cl (fun ev => is_ds_delete ev = false))
      as Hupd.
    intros [[e| | | | | | |]|[]]; try quiet_at_most.
    + destruct (_ && _); [|quiet_at_most].
      apply at_most_bind_quiet; [emits_auto|]. intros _.
      apply at_most_bind_quiet; [apply Hupd; by_kind|]. intros _.
      apply at_most_bind_quiet; [emits_auto|]. intros _. exact IH.
    + destruct (_ <? _)%Z; [|quiet_at_most].
      apply at_most_bind_quiet; [emits_auto|]. intros _.
      apply at_most_bind_quiet; [emits_auto|]. intros _. exact IH.
Qed.

Lemma V2_ds_attempts_at_least self kb_id ds_id max_retries attempt rest :
  at_least is_ds_delete 1
    (V2.delete_data_source_attempts cl self kb_id ds_id max_retries
       (attempt :: rest)).
Proof.
  simpl. apply at_least_bind_first.
  intros h a _. unfold try_, bind, V2.debug_print, when, call.
  destruct (V2.debug self); simpl; rewrite ?count_cons; simpl; lia.
Qed.

Lemma V2_kb_attempts_at_most self kb_id name max_retries attempts :
  at_most is_kb_delete (List.length attempts)
    (V2.delete_knowledge_base_attempts cl self kb_id name max_retries attempts).
Proof.
  induction attempts as [|attempt rest IH]; simpl.
  - quiet_at_most.
  - apply (at_most_bind _ _ _ 1 (List.length rest)).
    { apply at_most_try, at_most_bind_quiet;
        [unfold V2.debug_print; emits_auto | intros _; apply at_most_call]. }
    intros [[e| | | | | | |]|[]]; try quiet_at_most.
    + destruct (_ <? _)%Z; [|quiet_at_most].
      apply at_most_bind_quiet; [emits_auto|]. intros _.
      apply at_most_bind_quiet; [emits_auto|]. intros _.
      apply at_most_bind_quiet; [emits_auto|]. intros _. exact IH.
    + destruct (_ <? _)%Z; [|quiet_at_most].
      apply at_most_bind_quiet; [emits_auto|]. intros _.
      apply at_most_bind_quiet; [emits_auto|]. intros _. exact IH.
Qed.

Lemma V2_kb_attempts_at_least self kb_id name max_retries attempt rest :
  at_least is_kb_delete 1
    (V2.delete_knowledge_base_attempts cl self kb_id name max_retries
       (attempt :: rest)).
Proof.
  simpl. apply at_least_bind_first.
  intros h a _. unfold try_, bind, V2.debug_print, when, call.
  destruct (V2.debug self); simpl; rewrite ?count_cons; simpl; lia.
Qed.

End DeletionCalls.

(* ================================================================= *)
(** ** Children before the parent

    [delete_knowledge_base] has the same shape in both scripts: enumerate
    the data sources, delete each of them, wait, then delete the knowledge
    base.  The section derives the order and the number of the deletion
    calls of that shape from the properties of its parts. *)

Lemma quiet_trace (t : list Event) :
  Forall (fun ev => is_deletion ev = false) t ->
  count is_ds_delete t = 0 /\ count is_kb_delete t = 0
  /\ count failed_deletion t = 0 /\ filter is_deletion t = [].
Proof.
  intros H. repeat split; try apply count_none; try apply filter_none;
    try assumption;
    (eapply Forall_impl; [|exact H]); intros ev; unfold is_deletion;
    destruct ev as [[] []| | |]; simpl; congruence.
Qed.

Section ChildrenFirst.

Variable kb_id : string.
Variable enumerate_sources : M (list DsSummary).
Variable delete_source : string -> M bool.
Variable wait : M unit.
Variable delete_parent : M bool.
Variable retries : nat.

Hypothesis enumerate_quiet : avoids is_deletion enumerate_sources.
Hypothesis wait_quiet : avoids is_deletion wait.
Hypothesis wait_returns : forall h, fst (wait h) = inr tt.

Hypothesis source_no_parent : forall ds, avoids is_kb_delete (delete_source ds).
Hypothesis source_at_most :
  forall ds, at_most is_ds_delete retries (delete_source ds).
Hypothesis source_at_least :
  forall ds, at_least is_ds_delete 1 (delete_source ds).
Hypothesis source_clean :
  forall ds,
    clean_run (delete_source ds) true [EvCall (CDeleteDataSource kb_id ds) Ok].

Hypothesis parent_no_source : avoids is_ds_delete delete_parent.
Hypothesis parent_at_most : at_most is_kb_delete retries delete_parent.
Hypothesis parent_at_least : at_least is_kb_delete 1 delete_parent.
Hypothesis parent_clean :
  clean_run delete_parent true [EvCall (CDeleteKnowledgeBase kb_id) Ok].


#[local] Abbreviation one := (delete_one delete_source).
#[local] Abbreviation children := (delete_children delete_source).

Lemma delete_one_no_parent ds : avoids is_kb_delete (one ds).
Proof.
  unfold delete_one. pose proof source_no_parent. emits_auto.
Qed.

Lemma delete_one_at_most ds : at_most is_ds_delete retries (one ds).
Proof.
  unfold delete_one. apply at_most_bind_quiet; [emits_auto|]. intros _.
  apply at_most_bind_then_quiet; [apply source_at_most|].
  intros deleted. emits_auto.
Qed.

Lemma delete_one_at_least ds : at_least is_ds_delete 1 (one ds).
Proof.
  unfold delete_one. apply at_least_bind_rest. intros _.
  apply at_least_bind_first, source_at_least.
Qed.

Lemma delete_one_clean ds :
  clean_run (one ds) tt [EvCall (CDeleteDataSource kb_id (dataSourceId ds)) Ok].
Proof.
  intros h. unfold delete_one. rewrite bind_print. simpl.
  set (h1 := h ++ _).
  pose proof (source_clean (dataSourceId ds) h1) as Hclean.
  destruct (delete_source (dataSourceId ds) h1) as [r t] eqn:E.
  simpl in Hclean. intros Hc.
  destruct r as [e|deleted].
  - rewrite (bind_raised _ _ _ _ _ E) in Hc |- *. simpl in Hc |- *.
    rewrite count_cons in Hc. destruct (Hclean Hc) as [[=] _].
  - rewrite (bind_returned _ _ _ _ _ E) in Hc |- *. simpl in Hc |- *.
    rewrite count_cons in Hc. simpl in Hc.
    apply count_filter_le in Hc as [Hc _].
    destruct (Hclean Hc) as [[= ->] Hcalls]. simpl.
    rewrite app_nil_r. split; [reflexivity | exact Hcalls].
Qed.

Lemma for_each_clean dss :
  clean_run (for_each dss one) tt (source_calls kb_id dss).
Proof.
  induction dss as [|ds dss IH]; intros h; simpl.
  - intros _. split; reflexivity.
  - pose proof (delete_one_clean ds h) as Hone.
    destruct (one ds h) as [r t] eqn:E. simpl in Hone. intros Hc.
    destruct r as [e|[]].
    + rewrite (bind_raised _ _ _ _ _ E) in Hc |- *. simpl in Hc.
      destruct (Hone Hc) as [[=] _].
    + rewrite (bind_returned _ _ _ _ _ E) in Hc |- *. simpl in Hc |- *.
      apply count_filter_le in Hc as [Hc1 Hc2].
      destruct (Hone Hc1) as [_ Hcalls].
      destruct (IH _ Hc2) as [Hr Hrest].
      rewrite filter_app, Hcalls, Hrest. split; [exact Hr | reflexivity].
Qed.

Lemma children_no_parent dss : avoids is_kb_delete (children dss).
Proof.
  unfold delete_children. pose proof delete_one_no_parent. emits_auto.
Qed.

Lemma children_at_most dss :
  at_most is_ds_delete (retries * List.length dss) (children dss).
Proof.
  unfold delete_children. destruct dss as [|ds dss']; simpl negb; cbn [when].
  - quiet_at_most.
  - apply at_most_bind_quiet; [emits_auto|]. intros _.
    apply at_most_for_each, delete_one_at_most.
Qed.

Lemma children_at_least dss :
  at_least is_ds_delete (List.length dss) (children dss).
Proof.
  unfold delete_children. destruct dss as [|ds dss']; simpl negb; cbn [when].
  - apply at_least_zero.
  - apply at_least_bind_rest. intros _.
    replace (List.length (ds :: dss')) with (1 * List.length (ds :: dss'))
      by lia.
    apply at_least_for_each, delete_one_at_least.
Qed.

Lemma children_clean dss :
  clean_run (children dss) tt (source_calls kb_id dss).
Proof.
  unfold delete_children. destruct dss as [|ds dss']; simpl negb; cbn [when].
  - intros h _. split; reflexivity.
  - intros h. rewrite bind_print. cbn [fst snd].
    rewrite count_cons. cbn [failed_deletion filter is_deletion is_ds_delete orb].
    apply (for_each_clean (ds :: dss')).
Qed.

Lemma children_first_calls (announce : Msg) (h : History)
    (dss : list DsSummary) :
  fst (enumerate_sources (h ++ [EvPrint announce])) = inr dss ->
  let run :=
    children_first enumerate_sources delete_source wait delete_parent
      announce h in
  (exists t_ds t_kb,
     snd run = t_ds ++ t_kb
     /\ count is_kb_delete t_ds = 0 /\ count is_ds_delete t_kb = 0)
  /\ count is_ds_delete (snd run) <= retries * List.length dss
  /\ count is_kb_delete (snd run) <= retries
  /\ (forall b, fst run = inr b ->
        List.length dss <= count is_ds_delete (snd run)
        /\ 1 <= count is_kb_delete (snd run))
  /\ (count failed_deletion (snd run) = 0 ->
      fst run = inr true
      /\ filter is_deletion (snd run)
         = source_calls kb_id dss ++ [EvCall (CDeleteKnowledgeBase kb_id) Ok]).
Proof.
  intros Hdss. cbv zeta. unfold children_first. rewrite bind_print.
  set (h1 := h ++ [EvPrint announce]) in *.
  destruct (enumerate_sources h1) as [r tl] eqn:EL. simpl in Hdss. subst r.
  destruct (quiet_trace tl (emits_run _ _ _ _ _ enumerate_quiet EL))
    as (Hl1 & Hl2 & Hl3 & Hl4).
  rewrite (bind_returned _ _ _ _ _ EL). cbv beta.
  set (h2 := h1 ++ tl).
  pose proof (children_no_parent dss h2) as HA1.
  pose proof (children_at_most dss h2) as HA2.
  pose proof (children_at_least dss h2) as HA3.
  pose proof (children_clean dss h2) as HA4.
  destruct (children dss h2) as [rA tA] eqn:EA. simpl in HA1, HA2, HA3, HA4.
  apply count_none in HA1.
  destruct rA as [e|[]].
  { rewrite (bind_raised _ _ _ _ _ EA). cbn [fst snd].
    rewrite !count_cons, !count_app, Hl1, Hl2, Hl3, HA1. cbn [is_ds_delete
      is_kb_delete failed_deletion].
    refine (conj _ (conj _ (conj _ (conj _ _)))).
    - exists (EvPrint announce :: tl ++ tA), [].
      rewrite app_nil_r, count_cons, count_app, Hl2, HA1. now split.
    - lia.
    - lia.
    - discriminate.
    - intros Hc. now destruct (HA4 ltac:(lia)). }
  rewrite (bind_returned _ _ _ _ _ EA). cbv beta.
  set (h3 := h2 ++ tA).
  assert (HB : avoids is_deletion (when (negb (is_empty dss)) wait))
    by now apply emits_when.
  assert (HBr : fst (when (negb (is_empty dss)) wait h3) = inr tt).
  { destruct (negb (is_empty dss)); [apply wait_returns | reflexivity]. }
  destruct (when (negb (is_empty dss)) wait h3) as [rB tB] eqn:EB.
  simpl in HBr. subst rB.
  destruct (quiet_trace tB (emits_run _ _ _ _ _ HB EB))
    as (Hb1 & Hb2 & Hb3 & Hb4).
  rewrite (bind_returned _ _ _ _ _ EB). cbv beta.
  set (h4 := h3 ++ tB).
  pose proof (parent_no_source h4) as HK1.
  pose proof (parent_at_most h4) as HK2.
  pose proof (parent_at_least h4) as HK3.
  pose proof (parent_clean h4) as HK4.
  destruct (delete_parent h4) as [rK tK] eqn:EK. simpl in HK1, HK2, HK3, HK4.
  apply count_none in HK1. cbn [fst snd].
  cbn [filter is_deletion is_ds_delete is_kb_delete orb].
  rewrite !count_cons, !count_app, !filter_app, Hl1, Hl2, Hl3, Hl4, Hb1, Hb2,
    Hb3, Hb4, HA1, HK1.
  cbn [is_ds_delete is_kb_delete failed_deletion app].
  refine (conj _ (conj _ (conj _ (conj _ _)))).
  - exists (EvPrint announce :: tl ++ tA ++ tB), tK.
    rewrite count_cons, !count_app, Hl2, HA1, Hb2. repeat split.
    + simpl. now rewrite <- !app_assoc.
    + exact HK1.
  - lia.
  - lia.
  - intros b Hb. specialize (HA3 tt eq_refl). specialize (HK3 b Hb). lia.
  - intros Hc. destruct (HA4 ltac:(lia)) as [_ ->].
    destruct (HK4 ltac:(lia)) as [-> ->]. split; reflexivity.
Qed.

End ChildrenFirst.

(* ================================================================= *)
(** ** Dry run *)

(** C3. With dry-run enabled, a run of [delete_all_knowledge_bases] (of
    either cleaner) issues no mutating call to the provider: no update and
    no deletion, whatever the provider enumerates or answers and whatever
    the confirm flag and the batch size are. *)
Theorem dry_run_issues_no_mutating_call :
  forall (cl : Client) (region : string) (confirm : bool) (h : History),
    count is_mutating
      (snd (V1.delete_all_knowledge_bases cl (V1.mkCleaner region true)
              confirm h)) = 0
    /\ forall (debug : bool) (batch_size : Z),
         count is_mutating
           (snd (V2.delete_all_knowledge_bases cl
                   (V2.mkCleaner region true debug) confirm batch_size h)) = 0.
Proof.
  intros cl region confirm h. split; [|intros debug batch_size];
    apply count_none.
  - apply V1_delete_all_emits; by_kind.
    intros. apply V1_dry_run_delete_knowledge_base; by_kind.
  - apply V2_delete_all_emits; by_kind.
    intros. apply V2_dry_run_delete_knowledge_base; by_kind.
Qed.

(* ================================================================= *)
(** ** The confirmation prompt *)

Lemma avoids_not_in {A} (p : Event -> bool) (m : M A) h ev :
  avoids p m -> p ev = true -> ~ In ev (snd (m h)).
Proof.
  intros Hm Hp Hin. specialize (Hm h).
  rewrite Forall_forall in Hm. apply Hm in Hin. congruence.
Qed.

(** After a non-empty enumeration: ask, then run the deletion phase. *)
Lemma declined_prompt_after_listing (cl : Client) (phase : M unit)
    (dry_run confirm : bool) (found : nat) (a : exn + string) (h : History) :
  avoids is_input phase ->
  a <> inr "DELETE" ->
  let run :=
    (go_on <- confirm_deletion cl dry_run confirm found ;;
     if negb go_on then ret tt else phase) h in
  In (EvInput a) (snd run) ->
  dry_run = false /\ confirm = false
  /\ count is_mutating (snd run) = 0
  /\ (forall s, a = inr s -> fst run = inr tt).
Proof.
  intros Hin_p Ha. cbv zeta. unfold bind.
  destruct (dry_run || confirm) eqn:Eskip.
  - rewrite (confirm_deletion_skipped _ _ _ _ _ Eskip). simpl.
    pose proof (avoids_not_in _ _ (h ++ []) (EvInput a) Hin_p eq_refl) as Hno.
    destruct (phase (h ++ [])) as [r t2]. simpl in *. tauto.
  - apply orb_false_elim in Eskip. destruct Eskip as [-> ->].
    rewrite confirm_deletion_prompt. cbv zeta.
    destruct (cl_input cl _) as [e|s].
    + simpl. intros [H|[H|[H|[]]]]; try discriminate.
      injection H as <-. repeat split. discriminate.
    + destruct (String.eqb s "DELETE") eqn:Es.
      * apply String.eqb_eq in Es. subst s.
        change (negb true) with false. cbv iota.
        match goal with
        | |- context [phase ?hh] =>
            pose proof (avoids_not_in _ _ hh (EvInput a) Hin_p eq_refl) as Hno;
            destruct (phase hh) as [r2 t2]
        end.
        simpl in *.
        intros [H|[H|[H|H]]]; try discriminate; [|tauto].
        injection H as <-. congruence.
      * simpl. intros [H|[H|[H|[H|[]]]]]; try discriminate.
        repeat split.
Qed.

(** The shape both [delete_all_knowledge_bases] share: enumerate, stop on
    an empty enumeration, ask, then run the deletion phase. *)
Lemma declined_prompt_generic (cl : Client) (listing : M (list KbSummary))
    (phase : list KbSummary -> M unit) (dry_run confirm : bool)
    (a : exn + string) (h : History) :
  avoids is_input listing ->
  avoids is_mutating listing ->
  (forall kbs, avoids is_input (phase kbs)) ->
  a <> inr "DELETE" ->
  let run :=
    (knowledge_bases <- listing ;;
     if is_empty knowledge_bases then print MsgNoKbs
     else
       go_on <- confirm_deletion cl dry_run confirm
                  (List.length knowledge_bases) ;;
       if negb go_on then ret tt else phase knowledge_bases) h in
  In (EvInput a) (snd run) ->
  dry_run = false /\ confirm = false
  /\ count is_mutating (snd run) = 0
  /\ (forall s, a = inr s -> fst run = inr tt).
Proof.
  intros Hin_l Hmut_l Hin_p Ha. cbv zeta.
  pose proof (avoids_not_in _ _ h (EvInput a) Hin_l eq_refl) as Hno.
  pose proof (count_none _ _ (Hmut_l h)) as Hcount.
  destruct (listing h) as [[e|kbs] t1] eqn:EL; simpl in Hno, Hcount.
  - rewrite (bind_raised _ _ _ _ _ EL). simpl. tauto.
  - rewrite (bind_returned _ _ _ _ _ EL). cbv beta.
    destruct kbs as [|kb kbs].
    + simpl. rewrite in_app_iff. simpl. intros [H|[H|[]]]; [tauto|discriminate].
    + change (is_empty (kb :: kbs)) with false. cbv iota.
      pose proof (declined_prompt_after_listing cl (phase (kb :: kbs))
                    dry_run confirm (List.length (kb :: kbs)) a (h ++ t1)
                    (Hin_p _) Ha) as Hafter.
      cbv zeta in Hafter.
      destruct ((go_on <- confirm_deletion cl dry_run confirm
                            (List.length (kb :: kbs)) ;;
                 if negb go_on then ret tt else phase (kb :: kbs)) (h ++ t1))
        as [r t2].
      simpl in *. rewrite in_app_iff. intros [H|H]; [tauto|].
      destruct (Hafter H) as (Hd & Hc & Hm & Hr).
      rewrite count_app, Hcount, Hm. auto.
Qed.

(** C4. A run of [delete_all_knowledge_bases] in which the confirmation
    prompt is answered by anything but the exact literal DELETE (or in which
    reading the answer fails) was started with dry-run off and the confirm
    flag unset, issues no mutating call at all, and, when an answer was
    read, returns. *)
Theorem declined_confirmation_issues_no_mutating_call :
  forall (cl : Client) (a : exn + string) (h : History),
    a <> inr "DELETE" ->
    (forall self confirm,
       let run := V1.delete_all_knowledge_bases cl self confirm h in
       In (EvInput a) (snd run) ->
       V1.dry_run self = false /\ confirm = false
       /\ count is_mutating (snd run) = 0
       /\ (forall s, a = inr s -> fst run = inr tt))
    /\ (forall self confirm batch_size,
          let run := V2.delete_all_knowledge_bases cl self confirm batch_size h in
          In (EvInput a) (snd run) ->
          V2.dry_run self = false /\ confirm = false
          /\ count is_mutating (snd run) = 0
          /\ (forall s, a = inr s -> fst run = inr tt)).
Proof.
  intros cl a h Ha. split.
  - intros self confirm. unfold V1.delete_all_knowledge_bases.
    apply declined_prompt_generic; try assumption.
    + apply V1_list_knowledge_bases_emits; by_kind.
    + apply V1_list_knowledge_bases_emits; by_kind.
    + intros kbs. apply V1_delete_listed_emits; by_kind.
      intros. apply V1_delete_knowledge_base_emits; by_kind.
  - intros self confirm batch_size. unfold V2.delete_all_knowledge_bases.
    apply (declined_prompt_generic cl (V2.list_knowledge_bases cl self)
             (fun kbs => V2.delete_listed cl self kbs batch_size));
      try assumption.
    + apply V2_list_knowledge_bases_emits; by_kind.
    + apply V2_list_knowledge_bases_emits; by_kind.
    + intros kbs. apply V2_delete_listed_emits; by_kind.
      intros. apply V2_delete_knowledge_base_emits; by_kind.
Qed.

(** A run in which the prompt is answered "delete" in lower case. *)
Lemma declined_confirmation_witness :
  let run := V1.delete_all_knowledge_bases
               (Mock.healthy [Mock.kb1] [Mock.ds1] "delete")
               (V1.mkCleaner "us-east-1" false) false [] in
  In (EvInput (inr "delete")) (snd run)
  /\ count is_mutating (snd run) = 0
  /\ fst run = inr tt.
Proof.
  pose proof (proj1 (declined_confirmation_issues_no_mutating_call
                (Mock.healthy [Mock.kb1] [Mock.ds1] "delete")
                (inr "delete") [] ltac:(discriminate))
                (V1.mkCleaner "us-east-1" false) false) as H.
  cbv zeta in H |- *.
  assert (Hin : In (EvInput (inr "delete"))
            (snd (V1.delete_all_knowledge_bases
                    (Mock.healthy [Mock.kb1] [Mock.ds1] "delete")
                    (V1.mkCleaner "us-east-1" false) false []))).
  { vm_compute. tauto. }
  destruct (H Hin) as (_ & _ & Hc & Hr).
  split; [exact Hin|]. split; [exact Hc | exact (Hr _ eq_refl)].
Defined.

(* ================================================================= *)
(** ** The two counters *)

Lemma V1_process_counts cl self total items :
  forall s f h c t,
    V1.process_knowledge_bases cl self total items s f h = (inr c, t) ->
    (fst c + snd c = s + f + Z.of_nat (List.length items))%Z.
Proof.
  induction items as [|[i kb] rest IH]; intros s f h c t Hrun.
  - injection Hrun as <- <-. simpl. lia.
  - simpl in Hrun. bind_inv Hrun u tp Hp l1. bind_inv Hrun deleted tk Hk l2.
    bind_inv Hrun u' tw Hw l3.
    apply IH in Hrun. rewrite Hrun.
    change (List.length ((i, kb) :: rest)) with (S (List.length rest)).
    destruct deleted; lia.
Qed.

Lemma V2_process_batch_counts cl self total batch_start batch_len items :
  forall s f h c t,
    V2.process_batch cl self total batch_start batch_len items s f h
    = (inr c, t) ->
    (fst c + snd c = s + f + Z.of_nat (List.length items))%Z.
Proof.
  induction items as [|[i kb] rest IH]; intros s f h c t Hrun.
  - injection Hrun as <- <-. simpl. lia.
  - simpl in Hrun. bind_inv Hrun u tp Hp l1. bind_inv Hrun deleted tk Hk l2.
    bind_inv Hrun u' tc Hc l3. bind_inv Hrun u'' tw Hw l4.
    apply IH in Hrun. rewrite Hrun.
    change (List.length ((i, kb) :: rest)) with (S (List.length rest)).
    destruct deleted; lia.
Qed.

Lemma enumerate_length {A} (xs : list A) :
  forall start, List.length (enumerate start xs) = List.length xs.
Proof. induction xs as [|x xs IH]; intros; simpl; [reflexivity | now rewrite IH]. Qed.

Lemma V1_avoids_summary_delete_knowledge_base cl self kb_id name n :
  avoids is_summary (V1.delete_knowledge_base cl self kb_id name n).
Proof. apply V1_delete_knowledge_base_emits; by_kind. Qed.

Lemma V2_avoids_summary_delete_knowledge_base cl self kb_id name n :
  avoids is_summary (V2.delete_knowledge_base_with_timeout cl self kb_id name n).
Proof. apply V2_delete_knowledge_base_emits; by_kind. Qed.

Lemma hints_avoid_summary (b : bool) (m : M unit) h r t ev :
  avoids is_summary m -> when b m h = (r, t) -> is_summary ev = true ->
  ~ In ev t.
Proof. intros Hm. apply avoided. now apply emits_when. Qed.

Lemma V1_delete_listed_summary cl self kbs h t s f :
  V1.delete_listed cl self kbs h = (inr tt, t) ->
  In (EvPrint (MsgSuccessful s)) t ->
  In (EvPrint (MsgFailed f)) t ->
  (s + f = Z.of_nat (List.length kbs))%Z.
Proof.
  unfold V1.delete_listed. intros Hrun.
  bind_inv Hrun u0 t0 H0 l0. bind_inv Hrun counts tp Hp lp.
  bind_inv Hrun u1 t1 H1 l1. bind_inv Hrun u2 t2 H2 l2.
  bind_inv Hrun u3 t3 H3 th.
  apply print_run in H0 as [_ ->]. apply print_run in H1 as [_ ->].
  apply print_run in H2 as [_ ->]. apply print_run in H3 as [_ ->].
  pose proof (V1_process_counts _ _ _ _ _ _ _ _ _ Hp) as Hsum.
  rewrite enumerate_length in Hsum.
  assert (Hproc : forall ev, is_summary ev = true -> ~ In ev tp).
  { intros ev. eapply avoided; [|exact Hp].
    apply V1_process_knowledge_bases_emits; by_kind.
    intros. apply V1_avoids_summary_delete_knowledge_base. }
  assert (Hhint : forall ev, is_summary ev = true -> ~ In ev th).
  { intros ev. eapply hints_avoid_summary; [|exact Hrun]. emits_auto. }
  intros Hs Hf. simpl in Hs, Hf. rewrite !in_app_iff in Hs, Hf. simpl in Hs, Hf.
  assert (s = fst counts) as ->.
  { destruct Hs as [Hs|[Hs|[Hs|[Hs|[Hs|Hs]]]]]; try discriminate;
      try (injection Hs as <-; reflexivity);
      [now apply Hproc in Hs | now apply Hhint in Hs]. }
  assert (f = snd counts) as ->.
  { destruct Hf as [Hf|[Hf|[Hf|[Hf|[Hf|Hf]]]]]; try discriminate;
      try (injection Hf as <-; reflexivity);
      [now apply Hproc in Hf | now apply Hhint in Hf]. }
  lia.
Qed.

Lemma V2_process_batches_counts cl self kbs batch_size starts :
  forall s f h c t,
    V2.process_batches cl self kbs batch_size starts s f h = (inr c, t) ->
    (fst c + snd c
     = s + f
       + Z.of_nat (List.length
                     (List.concat (map (batch_at kbs batch_size) starts))))%Z.
Proof.
  induction starts as [|b rest IH]; intros s f h c t Hrun.
  - injection Hrun as <- <-. simpl. lia.
  - simpl in Hrun. bind_inv Hrun u tp Hp l1. bind_inv Hrun counts tb Hb l2.
    bind_inv Hrun u' tw Hw l3.
    apply IH in Hrun. rewrite Hrun.
    apply V2_process_batch_counts in Hb. rewrite enumerate_length in Hb.
    change (slice kbs b _) with (batch_at kbs batch_size b) in Hb.
    simpl List.concat. rewrite length_app. lia.
Qed.

Lemma V2_delete_listed_counts cl self kbs batch_size h t :
  V2.delete_listed cl self kbs batch_size h = (inr tt, t) ->
  exists counts,
    (fst counts + snd counts = Z.of_nat (List.length kbs))%Z
    /\ (0 < batch_size)%Z /\ kbs <> []
    /\ In (EvPrint (MsgSuccessRate (fst counts) (fst counts + snd counts))) t
    /\ forall s f,
         In (EvPrint (MsgSuccessful s)) t -> In (EvPrint (MsgFailed f)) t ->
         s = fst counts /\ f = snd counts.
Proof.
  unfold V2.delete_listed. intros Hrun.
  bind_inv Hrun u0 t0 H0 l0. bind_inv Hrun u0' t0' H0' l0'.
  bind_inv Hrun starts ts Hs ls. bind_inv Hrun counts tp Hp lp.
  cbv zeta in Hrun.
  bind_inv Hrun u1 t1 H1 l1. bind_inv Hrun u2 t2 H2 l2.
  bind_inv Hrun u3 t3 H3 l3. bind_inv Hrun u4 t4 H4 th.
  apply print_run in H0 as [_ ->]. apply print_run in H0' as [_ ->].
  apply print_run in H1 as [_ ->]. apply print_run in H2 as [_ ->].
  apply print_run in H3 as [_ ->].
  assert (Hstarts : range_step 0 (Z.of_nat (List.length kbs)) batch_size
                    = inr starts /\ ts = []).
  { destruct (range_step 0 (Z.of_nat (List.length kbs)) batch_size);
      [discriminate | now injection Hs as <- <-]. }
  destruct Hstarts as [Hstarts ->].
  pose proof (V2_process_batches_counts _ _ _ _ _ _ _ _ _ _ Hp) as Hsum.
  destruct (Z.eqb_spec (fst counts + snd counts) 0) as [Hz|Hnz];
    [discriminate|].
  apply print_run in H4 as [_ ->].
  assert (Hpos : (0 < batch_size)%Z
                 /\ List.concat (map (batch_at kbs batch_size) starts) = kbs).
  { destruct (batch_starts_cases _ _ _ Hstarts) as [?|[_ ->]]; [assumption|].
    simpl in Hsum. lia. }
  destruct Hpos as [Hpos Hcat]. rewrite Hcat in Hsum.
  exists counts. split; [lia|]. split; [assumption|].
  split; [intros ->; simpl in Hsum; lia|].
  split; [rewrite !in_app_iff; simpl; tauto|].
  assert (Hproc : forall ev, is_summary ev = true -> ~ In ev tp).
  { intros ev. eapply avoided; [|exact Hp].
    apply V2_process_batches_emits; by_kind.
    intros. apply V2_avoids_summary_delete_knowledge_base. }
  assert (Hhint : forall ev, is_summary ev = true -> ~ In ev th).
  { intros ev. eapply hints_avoid_summary; [|exact Hrun]. emits_auto. }
  intros s f Hs' Hf. simpl in Hs', Hf.
  rewrite !in_app_iff in Hs', Hf. simpl in Hs', Hf.
  split.
  - destruct Hs' as [Hs'|[Hs'|[Hs'|[Hs'|[Hs'|[Hs'|[Hs'|Hs']]]]]]];
      try discriminate; try (injection Hs' as <-; reflexivity);
      [now apply Hproc in Hs' | now apply Hhint in Hs'].
  - destruct Hf as [Hf|[Hf|[Hf|[Hf|[Hf|[Hf|[Hf|Hf]]]]]]];
      try discriminate; try (injection Hf as <-; reflexivity);
      [now apply Hproc in Hf | now apply Hhint in Hf].
Qed.

(** The shape both [delete_all_knowledge_bases] share, for a deletion phase
    whose reported counts add up. *)
Lemma summary_generic (cl : Client) (listing : M (list KbSummary))
    (phase : list KbSummary -> M unit) (dry_run confirm : bool)
    (h : History) (kbs : list KbSummary) (s f : Z) :
  avoids is_summary listing ->
  (forall h' t,
     phase kbs h' = (inr tt, t) ->
     In (EvPrint (MsgSuccessful s)) t -> In (EvPrint (MsgFailed f)) t ->
     (s + f = Z.of_nat (List.length kbs))%Z) ->
  fst (listing h) = inr kbs ->
  let run :=
    (knowledge_bases <- listing ;;
     if is_empty knowledge_bases then print MsgNoKbs
     else
       go_on <- confirm_deletion cl dry_run confirm
                  (List.length knowledge_bases) ;;
       if negb go_on then ret tt else phase knowledge_bases) h in
  fst run = inr tt ->
  In (EvPrint (MsgSuccessful s)) (snd run) ->
  In (EvPrint (MsgFailed f)) (snd run) ->
  (s + f = Z.of_nat (List.length kbs))%Z.
Proof.
  intros Hlist Hphase Hkbs. cbv zeta.
  destruct (listing h) as [r t1] eqn:EL. simpl in Hkbs. subst r.
  pose proof (avoided _ _ _ _ _ (EvPrint (MsgSuccessful s)) Hlist EL eq_refl)
    as Hno1.
  rewrite (bind_returned _ _ _ _ _ EL). cbv beta.
  destruct kbs as [|kb kbs'].
  - simpl. intros _ Hs. apply in_app_or in Hs as [Hs|[Hs|[]]];
      [tauto | discriminate].
  - change (is_empty (kb :: kbs')) with false. cbv iota. unfold bind.
    destruct (confirm_deletion cl dry_run confirm _ (h ++ t1))
      as [[e|go_on] t2] eqn:EC; [discriminate|].
    assert (Hc : avoids is_summary
                   (confirm_deletion cl dry_run confirm
                      (List.length (kb :: kbs')))).
    { apply confirm_deletion_emits; by_kind. }
    pose proof (avoided _ _ _ _ _ (EvPrint (MsgSuccessful s)) Hc EC eq_refl)
      as Hno2.
    destruct go_on; cbn [negb].
    + destruct (phase (kb :: kbs') ((h ++ t1) ++ t2)) as [r t3] eqn:EP.
      simpl. intros -> Hs Hf.
      pose proof (avoided _ _ _ _ _ (EvPrint (MsgFailed f)) Hlist EL eq_refl).
      pose proof (avoided _ _ _ _ _ (EvPrint (MsgFailed f)) Hc EC eq_refl).
      rewrite !in_app_iff in Hs, Hf.
      apply (Hphase _ _ EP); tauto.
    + simpl. intros _ Hs. rewrite app_nil_r, !in_app_iff in Hs. tauto.
Qed.

(* ================================================================= *)
(** ** The success rate of the second cleaner *)

Lemma range_step_negative (n : nat) (step : Z) :
  (step < 0)%Z -> range_step 0 (Z.of_nat n) step = inr [].
Proof.
  intros Hneg. unfold range_step.
  destruct (Z.eqb_spec step 0) as [?|_]; [lia|].
  destruct (Z.ltb_spec 0 step) as [?|_]; [lia|].
  now replace (Z.to_nat (0 - Z.of_nat n)) with 0%nat by lia.
Qed.

(** Whenever the deletion phase returns, the rate it printed was defined:
    the batch size was positive and the counters add up to the (non-zero)
    number of knowledge bases. *)
Lemma success_rate_defined cl self kbs batch_size h t :
  V2.delete_listed cl self kbs batch_size h = (inr tt, t) ->
  exists s f,
    In (EvPrint (MsgSuccessRate s (s + f))) t /\ (1 <= s + f)%Z.
Proof.
  intros Hrun.
  destruct (V2_delete_listed_counts _ _ _ _ _ _ Hrun)
    as (counts & Hsum & Hpos & Hne & Hrate & _).
  exists (fst counts), (snd counts). split; [exact Hrate|].
  destruct kbs; [congruence|]. simpl List.length in Hsum. lia.
Qed.

(** C10. The success rate is computed as
    [success_count/(success_count+failure_count)], and the sum can be zero:
    with a negative batch size the loop over batches does not run at all,
    so the second cleaner reports 0 successes and 0 failures for a
    non-empty enumeration and then raises [ZeroDivisionError]. *)
Theorem negative_batch_size_divides_by_zero :
  forall (cl : Client) self (kbs : list KbSummary) (batch_size : Z) h,
    (batch_size < 0)%Z ->
    V2.delete_listed cl self kbs batch_size h
    = (inl ZeroDivisionError,
       [EvPrint (MsgStarting (List.length kbs)); EvPrint (MsgBatches batch_size);
        EvPrint MsgSummary; EvPrint (MsgSuccessful 0); EvPrint (MsgFailed 0)]).
Proof.
  intros cl self kbs batch_size h Hneg.
  unfold V2.delete_listed.
  rewrite (range_step_negative _ _ Hneg).
  reflexivity.
Qed.

(** [--dry-run --batch-size -1] on an account with one knowledge base: the
    whole script ends in the handler for unexpected errors. *)
Lemma negative_batch_size_witness :
  (-1 < 0)%Z
  /\ V2.delete_listed (Mock.healthy [Mock.kb1] [] "DELETE")
       (V2.mkCleaner "us-east-1" true false) [Mock.kb1] (-1) []
     = (inl ZeroDivisionError,
        [EvPrint (MsgStarting 1); EvPrint (MsgBatches (-1));
         EvPrint MsgSummary; EvPrint (MsgSuccessful 0); EvPrint (MsgFailed 0)])
  /\ fst (V2.main (Mock.healthy [Mock.kb1] [] "DELETE")
            (V2.mkArgs "us-east-1" true false false (-1)) [])
     = inl (SystemExit 1)
  /\ In (EvPrint (MsgUnexpected ZeroDivisionError))
       (snd (V2.main (Mock.healthy [Mock.kb1] [] "DELETE")
               (V2.mkArgs "us-east-1" true false false (-1)) [])).
Proof.
  split; [lia|]. split.
  - apply (negative_batch_size_divides_by_zero
             (Mock.healthy [Mock.kb1] [] "DELETE")
             (V2.mkCleaner "us-east-1" true false) [Mock.kb1] (-1) []).
    lia.
  - split; [reflexivity|]. vm_compute. tauto.
Defined.

(* ================================================================= *)
(** ** Batches and the delay between them *)

Lemma pacing_app (t1 t2 : list Event) :
  pacing (t1 ++ t2) = pacing t1 ++ pacing t2.
Proof.
  induction t1 as [|ev t1 IH]; simpl; [reflexivity|].
  destruct (mark_of ev); simpl; now rewrite IH.
Qed.

Lemma pacing_none (t : list Event) :
  Forall (fun ev => is_mark ev = false) t -> pacing t = [].
Proof.
  induction 1 as [|ev t Hev _ IH]; simpl; [reflexivity|].
  unfold is_mark in Hev. destruct (mark_of ev); [discriminate | exact IH].
Qed.

Lemma pacing_avoided {A} (m : M A) h r t :
  m h = (r, t) -> avoids is_mark m -> pacing t = [].
Proof. intros E Hm. apply pacing_none. exact (emits_run _ _ _ _ _ Hm E). Qed.

Lemma V2_delete_knowledge_base_avoids_marks cl self kb_id name n :
  avoids is_mark (V2.delete_knowledge_base_with_timeout cl self kb_id name n).
Proof. apply V2_delete_knowledge_base_emits; by_kind. Qed.

Lemma V2_process_batch_pacing cl self total batch_start batch_len items :
  forall s f h c t,
    V2.process_batch cl self total batch_start batch_len items s f h
    = (inr c, t) ->
    pacing t = repeat Item (List.length items).
Proof.
  induction items as [|[i kb] rest IH]; intros s f h c t Hrun.
  - now injection Hrun as <- <-.
  - simpl in Hrun. bind_inv Hrun u tp Hp l1. bind_inv Hrun deleted tk Hk l2.
    bind_inv Hrun u' tc Hc l3. bind_inv Hrun u'' tw Hw l4.
    apply print_run in Hp as [_ ->].
    apply IH in Hrun.
    rewrite !pacing_app, Hrun.
    rewrite (pacing_avoided _ _ _ _ Hk)
      by apply V2_delete_knowledge_base_avoids_marks.
    rewrite (pacing_avoided _ _ _ _ Hc) by emits_auto.
    rewrite (pacing_avoided _ _ _ _ Hw) by emits_auto.
    reflexivity.
Qed.

Lemma V2_process_batches_pacing cl self kbs batch_size starts :
  forall s f h c t,
    V2.process_batches cl self kbs batch_size starts s f h = (inr c, t) ->
    pacing t = pacing_of_starts kbs batch_size starts.
Proof.
  induction starts as [|b rest IH]; intros s f h c t Hrun.
  - now injection Hrun as <- <-.
  - simpl in Hrun. bind_inv Hrun u tp Hp l1. bind_inv Hrun counts tb Hb l2.
    bind_inv Hrun u' tw Hw l3.
    apply print_run in Hp as [_ ->].
    apply IH in Hrun. apply V2_process_batch_pacing in Hb.
    rewrite enumerate_length in Hb.
    rewrite !pacing_app, Hrun, Hb. simpl. f_equal. f_equal.
    fold (batch_at kbs batch_size b). f_equal.
    destruct (_ <? _)%Z; simpl in Hw; now injection Hw as _ <-.
Qed.

Lemma V2_delete_listed_pacing cl self kbs batch_size h t :
  V2.delete_listed cl self kbs batch_size h = (inr tt, t) ->
  exists starts,
    range_step 0 (Z.of_nat (List.length kbs)) batch_size = inr starts
    /\ pacing t = pacing_of_starts kbs batch_size starts.
Proof.
  unfold V2.delete_listed. intros Hrun.
  bind_inv Hrun u0 t0 H0 l0. bind_inv Hrun u0' t0' H0' l0'.
  bind_inv Hrun starts ts Hs ls. bind_inv Hrun counts tp Hp lp.
  cbv zeta in Hrun.
  bind_inv Hrun u1 t1 H1 l1. bind_inv Hrun u2 t2 H2 l2.
  bind_inv Hrun u3 t3 H3 l3. bind_inv Hrun u4 t4 H4 th.
  apply print_run in H0 as [_ ->]. apply print_run in H0' as [_ ->].
  apply print_run in H1 as [_ ->]. apply print_run in H2 as [_ ->].
  apply print_run in H3 as [_ ->].
  exists starts. split.
  - destruct (range_step 0 (Z.of_nat (List.length kbs)) batch_size);
      [discriminate | now injection Hs as <- _].
  - assert (ts = []) as ->.
    { destruct (range_step 0 (Z.of_nat (List.length kbs)) batch_size);
        [discriminate | now injection Hs as _ <-]. }
    destruct (Z.eqb_spec (fst counts + snd counts) 0) as [Hz|Hnz];
      [discriminate|].
    apply print_run in H4 as [_ ->].
    rewrite !pacing_app.
    rewrite (V2_process_batches_pacing _ _ _ _ _ _ _ _ _ _ Hp).
    rewrite (pacing_avoided _ _ _ _ Hrun) by emits_auto.
    simpl. now rewrite app_nil_r.
Qed.



(* ================================================================= *)
(** ** Data sources first, then the knowledge base *)

Section CleanRuns.

Variable cl : Client.

Lemma range_3 : range 3 = [0; 1; 2]%Z.
Proof. reflexivity. Qed.

Lemma V1_ds_attempts_clean kb_id ds_id max_retries attempt rest :
  clean_run
    (V1.delete_data_source_attempts cl kb_id ds_id max_retries (attempt :: rest))
    true [EvCall (CDeleteDataSource kb_id ds_id) Ok].
Proof.
  intros h. cbn [V1.delete_data_source_attempts]. rewrite bind_try_call.
  destruct (cl_delete_data_source cl kb_id ds_id h) as [e|[]];
    cbn [fst snd outcome_of].
  - rewrite count_cons. simpl. lia.
  - intros _. split; reflexivity.
Qed.

Lemma V1_kb_attempts_clean kb_id name max_retries attempt rest :
  clean_run
    (V1.delete_knowledge_base_attempts cl kb_id name max_retries
       (attempt :: rest))
    true [EvCall (CDeleteKnowledgeBase kb_id) Ok].
Proof.
  intros h. cbn [V1.delete_knowledge_base_attempts]. rewrite bind_try_call.
  destruct (cl_delete_knowledge_base cl kb_id h) as [e|[]];
    cbn [fst snd outcome_of].
  - rewrite count_cons. simpl. lia.
  - intros _. split; reflexivity.
Qed.

Lemma V2_ds_attempts_clean self kb_id ds_id max_retries attempt rest :
  clean_run
    (V2.delete_data_source_attempts cl self kb_id ds_id max_retries
       (attempt :: rest))
    true [EvCall (CDeleteDataSource kb_id ds_id) Ok].
Proof.
  intros h. cbn [V2.delete_data_source_attempts].
  rewrite bind_try_debug_call. cbv zeta.
  destruct (cl_delete_data_source cl kb_id ds_id _) as [e|[]];
    cbn [fst snd outcome_of].
  - rewrite !count_app, count_cons. simpl. lia.
  - intros _. split; [reflexivity|].
    destruct (V2.debug self); reflexivity.
Qed.

Lemma V2_kb_attempts_clean self kb_id name max_retries attempt rest :
  clean_run
    (V2.delete_knowledge_base_attempts cl self kb_id name max_retries
       (attempt :: rest))
    true [EvCall (CDeleteKnowledgeBase kb_id) Ok].
Proof.
  intros h. cbn [V2.delete_knowledge_base_attempts].
  rewrite bind_try_debug_call. cbv zeta.
  destruct (cl_delete_knowledge_base cl kb_id _) as [e|[]];
    cbn [fst snd outcome_of].
  - rewrite !count_app, count_cons. simpl. lia.
  - intros _. split; [reflexivity|].
    destruct (V2.debug self); reflexivity.
Qed.

End CleanRuns.

Lemma V1_delete_knowledge_base_calls cl self kb_id name h dss :
  V1.dry_run self = false ->
  fst (V1.list_data_sources cl kb_id (h ++ [EvPrint (MsgDeletingKb name kb_id)]))
  = inr dss ->
  let run := V1.delete_knowledge_base cl self kb_id name 3 h in
  (exists t_ds t_kb,
     snd run = t_ds ++ t_kb
     /\ count is_kb_delete t_ds = 0 /\ count is_ds_delete t_kb = 0)
  /\ count is_ds_delete (snd run) <= 3 * List.length dss
  /\ count is_kb_delete (snd run) <= 3
  /\ (forall b, fst run = inr b ->
        List.length dss <= count is_ds_delete (snd run)
        /\ 1 <= count is_kb_delete (snd run))
  /\ (count failed_deletion (snd run) = 0 ->
      fst run = inr true
      /\ filter is_deletion (snd run)
         = source_calls kb_id dss ++ [EvCall (CDeleteKnowledgeBase kb_id) Ok]).
Proof.
  intros Hdry Hdss. unfold V1.delete_knowledge_base. rewrite Hdry.
  apply (children_first_calls kb_id (V1.list_data_sources cl kb_id)
           (fun ds => V1.delete_data_source cl kb_id ds 3)
           (print MsgWaitingDs ;; sleep 5000)
           (V1.delete_knowledge_base_attempts cl kb_id name 3 (range 3)) 3);
    try assumption.
  - apply V1_list_data_sources_emits; by_kind.
  - emits_auto.
  - reflexivity.
  - intros ds. apply V1_ds_attempts_avoid_kb_delete.
  - intros ds. apply (V1_ds_attempts_at_most cl kb_id ds 3 (range 3)).
  - intros ds. apply V1_ds_attempts_at_least.
  - intros ds. apply V1_ds_attempts_clean.
  - apply V1_kb_attempts_avoid_ds_delete.
  - apply (V1_kb_attempts_at_most cl kb_id name 3 (range 3)).
  - apply V1_kb_attempts_at_least.
  - apply V1_kb_attempts_clean.
Qed.

Lemma V2_delete_knowledge_base_calls cl self kb_id name h dss :
  V2.dry_run self = false ->
  fst (V2.list_data_sources_with_timeout cl self kb_id
         (h ++ [EvPrint (MsgDeletingKb name kb_id)]))
  = inr dss ->
  let run := V2.delete_knowledge_base_with_timeout cl self kb_id name 3 h in
  (exists t_ds t_kb,
     snd run = t_ds ++ t_kb
     /\ count is_kb_delete t_ds = 0 /\ count is_ds_delete t_kb = 0)
  /\ count is_ds_delete (snd run) <= 3 * List.length dss
  /\ count is_kb_delete (snd run) <= 3
  /\ (forall b, fst run = inr b ->
        List.length dss <= count is_ds_delete (snd run)
        /\ 1 <= count is_kb_delete (snd run))
  /\ (count failed_deletion (snd run) = 0 ->
      fst run = inr true
      /\ filter is_deletion (snd run)
         = source_calls kb_id dss ++ [EvCall (CDeleteKnowledgeBase kb_id) Ok]).
Proof.
  intros Hdry Hdss. unfold V2.delete_knowledge_base_with_timeout. rewrite Hdry.
  apply (children_first_calls kb_id
           (V2.list_data_sources_with_timeout cl self kb_id)
           (fun ds => V2.delete_data_source_with_timeout cl self kb_id ds 3)
           (print MsgWaitingDs ;; sleep 8000)
           (V2.delete_knowledge_base_attempts cl self kb_id name 3 (range 3)) 3);
    try assumption.
  - apply V2_list_data_sources_emits; by_kind.
  - emits_auto.
  - reflexivity.
  - intros ds. apply V2_ds_attempts_avoid_kb_delete.
  - intros ds. apply (V2_ds_attempts_at_most cl self kb_id ds 3 (range 3)).
  - intros ds. apply V2_ds_attempts_at_least.
  - intros ds. apply V2_ds_attempts_clean.
  - apply V2_kb_attempts_avoid_ds_delete.
  - apply (V2_kb_attempts_at_most cl self kb_id name 3 (range 3)).
  - apply V2_kb_attempts_at_least.
  - apply V2_kb_attempts_clean.
Qed.

(** C1, as the code has it.  With dry-run off, deleting a knowledge base
    whose enumeration yields the data sources [dss] issues every
    data-source-deletion call before any knowledge-base-deletion call.
    Deletions are retried, so there are at most three deletion calls per
    data source and at most three for the knowledge base, and at least one
    per data source and one for the knowledge base when the deletion
    returns.  When no deletion call fails, the deletion calls are exactly
    one per data source, in the order of the enumeration, followed by the
    single call for the knowledge base.  Both cleaners. *)
Theorem data_sources_deleted_before_knowledge_base :
  forall (cl : Client) (kb_id name : string) (h : History)
         (dss : list DsSummary),
    (forall self,
       V1.dry_run self = false ->
       fst (V1.list_data_sources cl kb_id
              (h ++ [EvPrint (MsgDeletingKb name kb_id)])) = inr dss ->
       let run := V1.delete_knowledge_base cl self kb_id name 3 h in
       (exists t_ds t_kb,
          snd run = t_ds ++ t_kb
          /\ count is_kb_delete t_ds = 0 /\ count is_ds_delete t_kb = 0)
       /\ count is_ds_delete (snd run) <= 3 * List.length dss
       /\ count is_kb_delete (snd run) <= 3
       /\ (forall b, fst run = inr b ->
             List.length dss <= count is_ds_delete (snd run)
             /\ 1 <= count is_kb_delete (snd run))
       /\ (count failed_deletion (snd run) = 0 ->
           fst run = inr true
           /\ filter is_deletion (snd run)
              = source_calls kb_id dss
                  ++ [EvCall (CDeleteKnowledgeBase kb_id) Ok]))
    /\ (forall self,
          V2.dry_run self = false ->
          fst (V2.list_data_sources_with_timeout cl self kb_id
                 (h ++ [EvPrint (MsgDeletingKb name kb_id)])) = inr dss ->
          let run :=
            V2.delete_knowledge_base_with_timeout cl self kb_id name 3 h in
          (exists t_ds t_kb,
             snd run = t_ds ++ t_kb
             /\ count is_kb_delete t_ds = 0 /\ count is_ds_delete t_kb = 0)
          /\ count is_ds_delete (snd run) <= 3 * List.length dss
          /\ count is_kb_delete (snd run) <= 3
          /\ (forall b, fst run = inr b ->
                List.length dss <= count is_ds_delete (snd run)
                /\ 1 <= count is_kb_delete (snd run))
          /\ (count failed_deletion (snd run) = 0 ->
              fst run = inr true
              /\ filter is_deletion (snd run)
                 = source_calls kb_id dss
                     ++ [EvCall (CDeleteKnowledgeBase kb_id) Ok])).
Proof.
  intros cl kb_id name h dss. split; intros self.
  - apply V1_delete_knowledge_base_calls.
  - apply V2_delete_knowledge_base_calls.
Qed.

(** One data source whose first deletion call fails on the vector store:
    two data-source-deletion calls for N = 1; and a knowledge base whose
    first deletion call fails: two knowledge-base-deletion calls. *)
Lemma retried_deletions_counterexample :
  let self := V1.mkCleaner "us-east-1" false in
  let run1 := V1.delete_knowledge_base
                (Mock.flaky_vector_store 1 [Mock.kb1] [Mock.ds1]) self
                "KB1" "first" 3 [] in
  let run2 := V1.delete_knowledge_base
                (Mock.flaky_kb_delete 1 [Mock.kb1] [Mock.ds1]) self
                "KB1" "first" 3 [] in
  fst (V1.list_data_sources (Mock.flaky_vector_store 1 [Mock.kb1] [Mock.ds1])
         "KB1" [EvPrint (MsgDeletingKb "first" "KB1")]) = inr [Mock.ds1]
  /\ fst run1 = inr true
  /\ count is_ds_delete (snd run1) = 2
  /\ count is_ds_delete (snd run1) <> List.length [Mock.ds1]
  /\ fst run2 = inr true
  /\ count is_kb_delete (snd run2) = 2
  /\ count is_kb_delete (snd run2) <> 1.
Proof. cbv zeta. repeat split; try reflexivity; vm_compute; discriminate. Qed.

(** Two data sources on a provider where every call succeeds. *)
Lemma data_sources_first_witness :
  let cl := Mock.healthy [Mock.kb1] [Mock.ds1; Mock.ds2] "DELETE" in
  let run := V2.delete_knowledge_base_with_timeout cl
               (V2.mkCleaner "us-east-1" false false) "KB1" "first" 3 [] in
  fst run = inr true
  /\ filter is_deletion (snd run)
     = [EvCall (CDeleteDataSource "KB1" "DS1") Ok;
        EvCall (CDeleteDataSource "KB1" "DS2") Ok;
        EvCall (CDeleteKnowledgeBase "KB1") Ok].
Proof.
  cbv zeta.
  apply (proj2 (data_sources_deleted_before_knowledge_base
                  (Mock.healthy [Mock.kb1] [Mock.ds1; Mock.ds2] "DELETE")
                  "KB1" "first" [] [Mock.ds1; Mock.ds2])
           (V2.mkCleaner "us-east-1" false false) eq_refl eq_refl).
  reflexivity.
Defined.

(* ================================================================= *)
(** ** Retrying a data-source deletion *)

Lemma calls_app (t1 t2 : list Event) : calls (t1 ++ t2) = calls t1 ++ calls t2.
Proof. apply filter_app. Qed.

Lemma attempts_from_succ (a n : nat) :
  attempts_from a (S n) = Z.of_nat a :: attempts_from (S a) n.
Proof. reflexivity. Qed.

Lemma range_attempts (max_retries : Z) :
  range max_retries = attempts_from 0 (Z.to_nat max_retries).
Proof. reflexivity. Qed.

(** What the grammar says about numbers of calls: from attempt [a] on there
    are at most [max_retries - 1 - a] policy updates and [max_retries - a]
    deletion calls. *)
Lemma policy_update_counts kb_id ds_id handled u b :
  policy_update kb_id ds_id handled u b ->
  count is_policy_update u <= 1 /\ count is_ds_delete u = 0.
Proof. intros [d o|e]; split; unfold count; simpl; lia. Qed.

Lemma retry_rounds_counts kb_id ds_id max_retries vs handled timeouts a l :
  retry_rounds kb_id ds_id max_retries vs handled timeouts a l ->
  (a <= max_retries - 1)%Z ->
  count is_policy_update l <= Z.to_nat (max_retries - 1 - a)
  /\ count is_ds_delete l <= Z.to_nat (max_retries - a).
Proof.
  induction 1 as [a o Ho|a e u rest Hvs Hlt Hu Hrest IH|a e u Hvs Hlt Hu
                  |a rest Ht Hlt Hrest IH]; intros Ha.
  - unfold count. simpl. lia.
  - destruct (policy_update_counts _ _ _ _ _ Hu) as [Hu1 Hu2].
    rewrite !count_cons, !count_app. simpl.
    destruct (IH ltac:(lia)) as [IH1 IH2]. lia.
  - destruct (policy_update_counts _ _ _ _ _ Hu) as [Hu1 Hu2].
    rewrite !count_cons. simpl. lia.
  - rewrite !count_cons. simpl. destruct (IH ltac:(lia)) as [IH1 IH2]. lia.
Qed.

(** Closes a [policy_update] goal whose calls are explicit. *)
Ltac policy_update_tac :=
  simpl;
  match goal with
  | |- policy_update ?kb ?ds ?hd [EvCall _ (Raised ?e)] _ =>
      exact (pu_unread kb ds hd e)
  | |- policy_update ?kb ?ds ?hd
         [_; EvCall (CUpdateDataSource _ _ (src_name ?d) _ _) ?o] _ =>
      exact (pu_updated kb ds hd d o)
  end.

Section Rounds.

Variable cl : Client.
Variable kb_id ds_id : string.
Variable max_retries : Z.

Lemma V1_update_policy_calls h :
  let run := V1.update_data_source_deletion_policy cl kb_id ds_id h in
  policy_update kb_id ds_id handled_v1 (calls (snd run)) (returned (fst run)).
Proof.
  cbv zeta. unfold V1.update_data_source_deletion_policy, catch, bind, call.
  destruct (cl_get_data_source cl kb_id ds_id h) as [e|d]; cbn [outcome_of].
  - destruct e; policy_update_tac.
  - destruct (cl_update_data_source cl kb_id ds_id _ _ _ _) as [e|[]] eqn:E.
    + destruct e; policy_update_tac.
    + policy_update_tac.
Qed.

Lemma V1_ds_attempts_rounds :
  forall n a h,
    1 <= n -> Z.of_nat (a + n) = max_retries ->
    retry_rounds kb_id ds_id max_retries vector_store_v1 handled_v1 false
      (Z.of_nat a)
      (calls (snd (V1.delete_data_source_attempts cl kb_id ds_id max_retries
                     (attempts_from a n) h))).
Proof.
  induction n as [|n IH]; intros a h Hn Hmr; [lia|].
  rewrite attempts_from_succ. cbn [V1.delete_data_source_attempts].
  rewrite bind_try_call. cbn [snd calls filter is_call]. fold (calls).
  destruct (cl_delete_data_source cl kb_id ds_id h) as [e|[]];
    cbn [outcome_of].
  2:{ apply rr_last. exact I. }
  destruct e as [ce| | | | | | |];
    try (apply rr_last; simpl; auto; fail).
  cbv zeta. fold (vector_store_v1 ce).
  destruct (vector_store_v1 ce) eqn:Evs;
    [destruct (Z.ltb_spec (Z.of_nat a) (max_retries - 1)) as [Hlt|Hge]|];
    cbn [andb].
  - rewrite bind_print. cbn [snd calls filter is_call]. fold (calls).
    match goal with
    | |- context [bind (V1.update_data_source_deletion_policy cl kb_id ds_id)
                    _ ?hh] =>
        pose proof (V1_update_policy_calls hh) as Hupd;
        destruct (V1.update_data_source_deletion_policy cl kb_id ds_id hh)
          as [ru tu] eqn:EU
    end.
    cbv zeta in Hupd. cbn [fst snd] in Hupd.
    destruct ru as [e'|b].
    + rewrite (bind_raised _ _ _ _ _ EU). cbn [snd].
      now apply rr_aborted.
    + rewrite (bind_returned _ _ _ _ _ EU). rewrite bind_sleep.
      cbn [snd]. rewrite calls_app. cbn [calls filter is_call]. fold (calls).
      apply rr_round; try assumption.
      replace (Z.of_nat a + 1)%Z with (Z.of_nat (S a)) by lia.
      apply IH; lia.
  - apply rr_last. simpl. right. lia.
  - apply rr_last. simpl. now left.
Qed.

Variable self : V2.BedrockKBCleanerV2.

Lemma V2_update_policy_calls h :
  let run :=
    V2.update_data_source_deletion_policy_with_timeout cl self kb_id ds_id h in
  policy_update kb_id ds_id handled_v2 (calls (snd run)) (returned (fst run)).
Proof.
  cbv zeta.
  unfold V2.update_data_source_deletion_policy_with_timeout, catch, bind,
    call, V2.debug_print, when, print, emit, ret.
  destruct (V2.debug self); cbn [fst snd app];
    match goal with
    | |- context [cl_get_data_source cl kb_id ds_id ?hh] =>
        destruct (cl_get_data_source cl kb_id ds_id hh) as [e|d]
    end; cbn [outcome_of];
    try (destruct e; policy_update_tac; fail);
    (destruct (cl_update_data_source cl kb_id ds_id _ _ _ _) as [e|[]] eqn:E;
     [destruct e; policy_update_tac | policy_update_tac]).
Qed.

Lemma V2_ds_attempts_rounds :
  forall n a h,
    1 <= n -> Z.of_nat (a + n) = max_retries ->
    retry_rounds kb_id ds_id max_retries vector_store_v2 handled_v2 true
      (Z.of_nat a)
      (calls (snd (V2.delete_data_source_attempts cl self kb_id ds_id
                     max_retries (attempts_from a n) h))).
Proof.
  induction n as [|n IH]; intros a h Hn Hmr; [lia|].
  rewrite attempts_from_succ. cbn [V2.delete_data_source_attempts].
  rewrite bind_try_debug_call. cbv zeta. cbn [snd].
  rewrite !calls_app.
  replace (calls (if V2.debug self
                  then [EvPrint (MsgDebug "Attempting to delete data source")]
                  else [])) with (@nil Event)
    by (destruct (V2.debug self); reflexivity).
  cbn [calls filter is_call app]. fold (calls).
  destruct (cl_delete_data_source cl kb_id ds_id _) as [e|[]];
    cbn [outcome_of].
  2:{ apply rr_last. exact I. }
  destruct e as [ce| | | | | | |];
    try (apply rr_last; simpl; auto; fail).
  - cbv zeta. fold (vector_store_v2 ce).
    destruct (vector_store_v2 ce) eqn:Evs;
      [destruct (Z.ltb_spec (Z.of_nat a) (max_retries - 1)) as [Hlt|Hge]|];
      cbn [andb].
    + rewrite bind_print. cbn [snd calls filter is_call]. fold (calls).
      match goal with
      | |- context [bind (V2.update_data_source_deletion_policy_with_timeout
                            cl self kb_id ds_id) _ ?hh] =>
          pose proof (V2_update_policy_calls hh) as Hupd;
          destruct (V2.update_data_source_deletion_policy_with_timeout
                      cl self kb_id ds_id hh) as [ru tu] eqn:EU
      end.
      cbv zeta in Hupd. cbn [fst snd] in Hupd.
      destruct ru as [e'|b].
      * rewrite (bind_raised _ _ _ _ _ EU). cbn [snd].
        now apply rr_aborted.
      * rewrite (bind_returned _ _ _ _ _ EU). rewrite bind_sleep.
        cbn [snd]. rewrite calls_app. cbn [calls filter is_call]. fold (calls).
        apply rr_round; try assumption.
        replace (Z.of_nat a + 1)%Z with (Z.of_nat (S a)) by lia.
        apply IH; lia.
    + apply rr_last. simpl. right. lia.
    + apply rr_last. simpl. now left.
  - destruct (Z.ltb_spec (Z.of_nat a) (max_retries - 1)) as [Hlt|Hge].
    + rewrite bind_print, bind_sleep. cbn [snd calls filter is_call].
      fold (calls).
      apply rr_timeout; [reflexivity | assumption |].
      replace (Z.of_nat a + 1)%Z with (Z.of_nat (S a)) by lia.
      apply IH; lia.
    + apply rr_last. simpl. right. lia.
Qed.

End Rounds.

(** A message that contains "vector store" passes the test of both
    scripts, which compare in lower case (the second on [str(e)], which
    ends with the message). *)
Lemma vector_store_message (e : client_error) :
  contains "vector store" (error_message e) = true ->
  vector_store_v1 e = true /\ vector_store_v2 e = true.
Proof.
  intros H. apply contains_lower in H. change (lower "vector store")
    with "vector store" in H.
  split; [exact H|].
  unfold vector_store_v2, str_client_error.
  rewrite !lower_app. now repeat apply contains_app_r.
Qed.

Lemma count_calls (p : Event -> bool) (t : list Event) :
  (forall ev, p ev = true -> is_call ev = true) ->
  count p (calls t) = count p t.
Proof.
  intros Hp. induction t as [|ev t IH]; [reflexivity|].
  unfold calls in *. simpl. destruct (is_call ev) eqn:E.
  - rewrite !count_cons, IH. reflexivity.
  - rewrite count_cons, IH. destruct (p ev) eqn:Ep; [|reflexivity].
    apply Hp in Ep. congruence.
Qed.

(** C2, as the code has it.  The calls of a data-source deletion with
    [max_retries >= 1] attempts are a sequence of rounds ([retry_rounds]):
    a deletion call that raises a [ClientError] passing the vector-store
    test while attempts remain is followed by one read of the data source
    and, when the read succeeded, by exactly one update call with the
    policy RETAIN (by none when the read failed), and then, unless the read
    or the update raised an exception the update does not catch, by the
    next deletion call.  There are at most [max_retries - 1] update calls
    and [max_retries] deletion calls.  The second cleaner also retries a
    deletion call that timed out, without an update. *)
Theorem vector_store_failures_are_retried_with_retain :
  forall (cl : Client) (kb_id ds_id : string) (max_retries : Z) (h : History),
    (1 <= max_retries)%Z ->
    (let t := snd (V1.delete_data_source cl kb_id ds_id max_retries h) in
     retry_rounds kb_id ds_id max_retries vector_store_v1 handled_v1 false 0
       (calls t)
     /\ count is_policy_update t <= Z.to_nat (max_retries - 1)
     /\ count is_ds_delete t <= Z.to_nat max_retries)
    /\ (forall self,
          let t := snd (V2.delete_data_source_with_timeout cl self kb_id ds_id
                          max_retries h) in
          retry_rounds kb_id ds_id max_retries vector_store_v2 handled_v2 true
            0 (calls t)
          /\ count is_policy_update t <= Z.to_nat (max_retries - 1)
          /\ count is_ds_delete t <= Z.to_nat max_retries)
    /\ (forall e,
          contains "vector store" (error_message e) = true ->
          vector_store_v1 e = true /\ vector_store_v2 e = true).
Proof.
  intros cl kb_id ds_id max_retries h Hmr.
  assert (Hcalls : forall vs hd tm t,
            retry_rounds kb_id ds_id max_retries vs hd tm 0 (calls t) ->
            retry_rounds kb_id ds_id max_retries vs hd tm 0 (calls t)
            /\ count is_policy_update t <= Z.to_nat (max_retries - 1)
            /\ count is_ds_delete t <= Z.to_nat max_retries).
  { intros vs hd tm t Hr. split; [exact Hr|].
    destruct (retry_rounds_counts _ _ _ _ _ _ _ _ Hr ltac:(lia)) as [H1 H2].
    rewrite count_calls in H1, H2
      by (intros [[] ?| | |]; simpl; congruence).
    rewrite Z.sub_0_r in H1, H2. now split. }
  split; [|split].
  - cbv zeta. apply Hcalls. unfold V1.delete_data_source.
    rewrite range_attempts.
    apply (V1_ds_attempts_rounds cl kb_id ds_id max_retries
             (Z.to_nat max_retries) 0); lia.
  - intros self. cbv zeta. apply Hcalls.
    unfold V2.delete_data_source_with_timeout. rewrite range_attempts.
    apply (V2_ds_attempts_rounds cl kb_id ds_id max_retries self
             (Z.to_nat max_retries) 0); lia.
  - apply vector_store_message.
Qed.

(** The vector-store error is raised and the data source cannot be read
    back: the deletion is retried although no update call was issued. *)
Lemma unread_data_source_counterexample :
  let cl := Mock.unreadable_data_source 1 [Mock.kb1] [Mock.ds1] in
  let run := V1.delete_data_source cl "KB1" "DS1" 3 [] in
  contains "vector store" (error_message Mock.vector_store_error) = true
  /\ fst run = inr true
  /\ count is_policy_update (snd run) = 0
  /\ calls (snd run)
     = [EvCall (CDeleteDataSource "KB1" "DS1")
          (Raised (ClientError Mock.vector_store_error));
        EvCall (CGetDataSource "KB1" "DS1")
          (Raised (ClientError (mkClientError "ThrottlingException"
                                  "slow down" "GetDataSource" "")));
        EvCall (CDeleteDataSource "KB1" "DS1") Ok].
Proof. cbv zeta. repeat split; reflexivity. Qed.

(** Three attempts on a provider whose first deletion call fails on the
    vector store. *)
Lemma vector_store_retry_witness :
  let cl := Mock.flaky_vector_store 1 [Mock.kb1] [Mock.ds1] in
  let t := snd (V1.delete_data_source cl "KB1" "DS1" 3 []) in
  calls t
  = [EvCall (CDeleteDataSource "KB1" "DS1")
       (Raised (ClientError Mock.vector_store_error));
     EvCall (CGetDataSource "KB1" "DS1") Ok;
     EvCall (CUpdateDataSource "KB1" "DS1" "docs" "{s3}" "RETAIN") Ok;
     EvCall (CDeleteDataSource "KB1" "DS1") Ok]
  /\ retry_rounds "KB1" "DS1" 3 vector_store_v1 handled_v1 false 0 (calls t)
  /\ count is_policy_update t <= 2.
Proof.
  cbv zeta. split; [reflexivity|].
  destruct (vector_store_failures_are_retried_with_retain
              (Mock.flaky_vector_store 1 [Mock.kb1] [Mock.ds1])
              "KB1" "DS1" 3 [] ltac:(lia)) as [[Hr [Hu _]] _].
  split; [exact Hr | exact Hu].
Defined.

(* ================================================================= *)
(** ** The polling loops of kb_test.py *)

Section Polling.

Variable r : KbTest.Resource.

(** [wait_for_kb_active] leaves its loop only on "ACTIVE" or "FAILED" (or
    when the call raises): on a resource that shows neither it is still
    polling after any number of iterations. *)
Lemma wait_for_kb_active_keeps_polling :
  (forall k, exists s,
      KbTest.get_status r k = inr s
      /\ String.eqb s "ACTIVE" = false /\ String.eqb s "FAILED" = false) ->
  forall fuel polls slept,
    KbTest.wait_for_kb_active r fuel polls slept
    = KbTest.mkRun KbTest.Running (polls + fuel)
        (slept + 5000 * Z.of_nat fuel).
Proof.
  intros Hstuck. induction fuel as [|fuel IH]; intros polls slept; simpl.
  - f_equal; lia.
  - destruct (Hstuck polls) as (s & -> & -> & ->).
    rewrite IH. f_equal; lia.
Qed.

(** It does return once the status is "ACTIVE", given enough iterations. *)
Lemma wait_for_kb_active_returns k :
  (forall n, n < k -> exists s,
      KbTest.get_status r n = inr s
      /\ String.eqb s "ACTIVE" = false /\ String.eqb s "FAILED" = false) ->
  KbTest.get_status r k = inr "ACTIVE" ->
  forall fuel, k < fuel ->
    KbTest.wait_for_kb_active r fuel 0 0
    = KbTest.mkRun KbTest.Returned (S k) (5000 * Z.of_nat k).
Proof.
  intros Hbefore Hk.
  assert (H : forall fuel polls slept,
             polls <= k -> k < polls + fuel ->
             KbTest.wait_for_kb_active r fuel polls slept
             = KbTest.mkRun KbTest.Returned (S k)
                 (slept + 5000 * Z.of_nat (k - polls))).
  { induction fuel as [|fuel IH]; intros polls slept Hle Hlt; [lia|].
    cbn [KbTest.wait_for_kb_active].
    destruct (Nat.eq_dec polls k) as [->|Hne].
    - rewrite Hk. cbn [String.eqb Ascii.eqb Bool.eqb andb]. f_equal. lia.
    - destruct (Hbefore polls ltac:(lia)) as (s & -> & -> & ->).
      rewrite IH by lia. f_equal. lia. }
  intros fuel Hfuel. rewrite H by lia. f_equal. lia.
Qed.

(** The loop of [enable_code_interpreter] leaves on "ENABLED" only. *)
Lemma wait_action_group_keeps_polling :
  (forall k, exists s,
      KbTest.get_status r k = inr s /\ String.eqb s "ENABLED" = false) ->
  forall fuel status polls slept,
    String.eqb status "ENABLED" = false ->
    KbTest.enable_code_interpreter_loop r fuel status polls slept
    = KbTest.mkRun KbTest.Running (polls + fuel)
        (slept + 2000 * Z.of_nat fuel).
Proof.
  intros Hstuck. induction fuel as [|fuel IH]; intros status polls slept Hs.
  - simpl. rewrite Hs. f_equal; lia.
  - simpl. rewrite Hs. destruct (Hstuck polls) as (s & -> & Hs').
    rewrite IH by assumption. f_equal; lia.
Qed.

(** [wait_for_agent_status] is bounded by its counter: it never polls more
    than [max_retries] times, whatever the resource does. *)
Lemma wait_for_agent_status_attempts_bounded expected interval :
  forall attempts polls slept,
    let run := KbTest.wait_for_agent_status_attempts r expected interval
                 attempts polls slept in
    KbTest.result run <> KbTest.Running
    /\ KbTest.polls run <= polls + List.length attempts.
Proof.
  induction attempts as [|a rest IH]; intros polls slept; simpl.
  - split; [discriminate | lia].
  - assert (Hstep : forall s,
              let run :=
                if String.eqb s expected
                then KbTest.mkRun KbTest.Returned (S polls) slept
                else if existsb (String.eqb s) ["FAILED"; "DELETING"; "DELETED"]
                     then KbTest.mkRun
                            (KbTest.Raise
                               (OtherException
                                  ("Agent reached terminal state: "
                                     ++ s)%string))
                            (S polls) slept
                     else KbTest.wait_for_agent_status_attempts r expected
                            interval rest (S polls) (slept + interval) in
              KbTest.result run <> KbTest.Running
              /\ KbTest.polls run <= polls + S (List.length rest)).
    { intros s. cbv zeta.
      destruct (String.eqb s expected); [split; [discriminate | simpl; lia]|].
      destruct (existsb _ _); [split; [discriminate | simpl; lia]|].
      destruct (IH (S polls) (slept + interval)%Z) as [H1 H2].
      split; [exact H1 | lia]. }
    destruct (KbTest.get_status r polls) as [e|s].
    + destruct (is_Exception e); [apply Hstep|].
      split; [discriminate | simpl; lia].
    + apply Hstep.
Qed.

Lemma wait_for_agent_status_bounded expected max_retries interval :
  let run := KbTest.wait_for_agent_status r expected max_retries interval in
  KbTest.result run <> KbTest.Running
  /\ KbTest.polls run <= Z.to_nat max_retries.
Proof.
  cbv zeta. unfold KbTest.wait_for_agent_status.
  destruct (wait_for_agent_status_attempts_bounded expected interval
              (range max_retries) 0 0) as [H1 H2].
  split; [exact H1|]. unfold range in H2.
  now rewrite length_map, length_seq in H2.
Qed.

(** [wait_for_alias_ready] is bounded by its wall-clock check: every
    iteration takes at least the five seconds it sleeps. *)
Lemma wait_for_alias_ready_bounded timeout :
  forall fuel elapsed polls slept,
    (timeout - elapsed < 5000 * Z.of_nat fuel)%Z ->
    KbTest.result (KbTest.wait_for_alias_ready r (S fuel) timeout elapsed
                     polls slept)
    <> KbTest.Running.
Proof.
  induction fuel as [|fuel IH]; intros elapsed polls slept Hfuel;
    cbn [KbTest.wait_for_alias_ready];
    (destruct (KbTest.get_status r polls) as [e|s]; [discriminate|]);
    (destruct (existsb _ _); [discriminate|]);
    (destruct (String.eqb s "FAILED"); [discriminate|]);
    (destruct (Z.ltb_spec timeout (elapsed + Z.max 0 (KbTest.latency r polls)))
      as [Hlt|Hge]; [discriminate|]).
  - lia.
  - apply IH. lia.
Qed.

End Polling.

(** C7. Not every polling loop of the repository is bounded.
    [wait_for_kb_active] and the loop of [enable_code_interpreter] have
    neither a retry counter nor a timeout: on a knowledge base that stays in
    "CREATING" and on an action group that stays "DISABLED" they are still
    polling after any number of iterations, having issued one "get" call
    per iteration. *)
Theorem unbounded_polling_loops_never_return :
  forall fuel : nat,
    KbTest.wait_for_kb_active (Mock.stuck "CREATING") fuel 0 0
    = KbTest.mkRun KbTest.Running fuel (5000 * Z.of_nat fuel)
    /\ KbTest.enable_code_interpreter_loop (Mock.stuck "DISABLED") fuel "" 0 0
       = KbTest.mkRun KbTest.Running fuel (2000 * Z.of_nat fuel).
Proof.
  intros fuel. split.
  - rewrite wait_for_kb_active_keeps_polling; [reflexivity|].
    intros k. exists "CREATING". repeat split.
  - rewrite wait_action_group_keeps_polling; [reflexivity| |reflexivity].
    intros k. exists "DISABLED". repeat split.
Qed.

(* ================================================================= *)
(** ** Failures at start-up *)

Section Startup.

Variable cl : Client.

(** [__init__] of the second cleaner, by cases on the two calls. *)
Lemma V2_init_run region dry_run debug h :
  let h1 := h ++ [EvCall (CCreateClient region) Ok] in
  V2.__init__ cl region dry_run debug h
  = match cl_create_client cl region h with
    | inl e =>
        (inl (if auth_failure e then SystemExit 1 else e),
         EvCall (CCreateClient region) (Raised e)
           :: map EvPrint (diagnostic e))
    | inr _ =>
        match cl_test_list_knowledge_bases cl h1 with
        | inl e =>
            (inl (if auth_failure e then SystemExit 1 else e),
             EvCall (CCreateClient region) Ok
               :: EvCall CTestListKnowledgeBases (Raised e)
               :: map EvPrint (diagnostic e))
        | inr _ =>
            (inr (V2.mkCleaner region dry_run debug),
             [EvCall (CCreateClient region) Ok;
              EvCall CTestListKnowledgeBases Ok])
        end
    end.
Proof.
  cbv zeta. unfold V2.__init__, catch, bind, call.
  destruct (cl_create_client cl region h) as [e|[]]; cbn [outcome_of].
  - destruct e; reflexivity.
  - destruct (cl_test_list_knowledge_bases cl _) as [e|[]]; cbn [outcome_of].
    + destruct e; reflexivity.
    + reflexivity.
Qed.

Lemma V1_init_run region dry_run h :
  V1.__init__ cl region dry_run h
  = match cl_create_client cl region h with
    | inl NoCredentialsError =>
        (inl (SystemExit 1),
         [EvCall (CCreateClient region) (Raised NoCredentialsError);
          EvPrint MsgNoCredentials; EvPrint MsgCredentialsHelp])
    | inl e => (inl e, [EvCall (CCreateClient region) (Raised e)])
    | inr _ =>
        (inr (V1.mkCleaner region dry_run),
         [EvCall (CCreateClient region) Ok])
    end.
Proof.
  unfold V1.__init__, catch, bind, call.
  destruct (cl_create_client cl region h) as [e|[]]; cbn [outcome_of].
  - destruct e; reflexivity.
  - reflexivity.
Qed.

Lemma V1_delete_all_no_startup self confirm :
  avoids startup_event (V1.delete_all_knowledge_bases cl self confirm).
Proof.
  apply V1_delete_all_emits; by_kind.
  intros. apply V1_delete_knowledge_base_emits; by_kind.
Qed.

Lemma V2_delete_all_no_startup_call self confirm batch_size :
  avoids is_startup_call
    (V2.delete_all_knowledge_bases cl self confirm batch_size).
Proof.
  apply V2_delete_all_emits; by_kind.
  intros. apply V2_delete_knowledge_base_emits; by_kind.
Qed.

End Startup.

Lemma paginate_from_plain {A} (c : Call) (pages : list (list A)) :
  forall page_num failure acc h,
    paginate_from c (fun _ => ret tt) page_num pages failure acc h
    = (match failure with
       | Some e => inl e
       | None => inr (acc ++ List.concat pages)
       end,
       repeat (EvCall c Ok) (List.length pages)
         ++ match failure with
            | Some e => [EvCall c (Raised e)]
            | None => []
            end).
Proof.
  induction pages as [|page rest IH]; intros n failure acc h.
  - simpl. destruct failure as [e|]; [reflexivity|].
    now rewrite app_nil_r.
  - cbn [paginate_from]. unfold bind at 1 2. unfold emit, ret. cbn [app].
    rewrite IH. cbn [List.concat List.length repeat app].
    rewrite <- app_assoc. destruct failure; reflexivity.
Qed.

Lemma paginate_plain {A} (c : Call) (stream : History -> Pages A) h :
  paginate c stream (fun _ => ret tt) h
  = (match snd (stream h) with
     | Some e => inl e
     | None => inr (List.concat (fst (stream h)))
     end,
     repeat (EvCall c Ok) (List.length (fst (stream h)))
       ++ match snd (stream h) with
          | Some e => [EvCall c (Raised e)]
          | None => []
          end).
Proof. unfold paginate. now rewrite paginate_from_plain. Qed.

(** The first cleaner treats a [ClientError] raised by the listing as an
    empty enumeration. *)
Lemma V1_listing_refused cl self confirm h ce :
  let stream :=
    cl_paginate_knowledge_bases cl (h ++ [EvPrint (MsgListing (V1.region self))]) in
  snd stream = Some (ClientError ce) ->
  V1.delete_all_knowledge_bases cl self confirm h
  = (inr tt,
     EvPrint (MsgListing (V1.region self))
       :: repeat (EvCall CListKnowledgeBasesPage Ok) (List.length (fst stream))
       ++ [EvCall CListKnowledgeBasesPage (Raised (ClientError ce));
           EvPrint (MsgListError ce); EvPrint MsgNoKbs]).
Proof.
  cbv zeta. intros Hfail.
  set (h1 := h ++ [EvPrint (MsgListing (V1.region self))]) in *.
  assert (EP : paginate CListKnowledgeBasesPage (cl_paginate_knowledge_bases cl)
                 (fun _ => ret tt) h1
               = (inl (ClientError ce),
                  repeat (EvCall CListKnowledgeBasesPage Ok)
                    (List.length (fst (cl_paginate_knowledge_bases cl h1)))
                    ++ [EvCall CListKnowledgeBasesPage
                          (Raised (ClientError ce))])).
  { rewrite paginate_plain, Hfail. reflexivity. }
  assert (EL : V1.list_knowledge_bases cl self h
               = (inr [],
                  EvPrint (MsgListing (V1.region self))
                    :: repeat (EvCall CListKnowledgeBasesPage Ok)
                         (List.length (fst (cl_paginate_knowledge_bases cl h1)))
                    ++ [EvCall CListKnowledgeBasesPage
                          (Raised (ClientError ce));
                        EvPrint (MsgListError ce)])).
  { unfold V1.list_knowledge_bases.
    erewrite catch_raised;
      [|rewrite bind_print; fold h1; rewrite (bind_raised _ _ _ _ _ EP);
        reflexivity].
    cbn. rewrite <- app_assoc. reflexivity. }
  unfold V1.delete_all_knowledge_bases.
  rewrite (bind_returned _ _ _ _ _ EL). cbn.
  rewrite <- app_assoc. reflexivity.
Qed.

Lemma V2_on_failure_result args e h :
  fst (V2.on_failure args e h)
  = inl (if caught_by_main e then SystemExit 1 else e).
Proof.
  unfold V2.on_failure.
  destruct e; cbn; try reflexivity; destruct (V2.arg_debug args); reflexivity.
Qed.

Lemma V2_on_failure_emits (P : Event -> Prop) args e :
  (forall m, msg_kind m = KStartup -> P (EvPrint m)) ->
  emits P (V2.on_failure args e).
Proof.
  intros HP. unfold V2.on_failure.
  destruct e; cbn [is_Exception]; auto 20 with emits.
Qed.

(** [main] of the second cleaner: the banner, the constructor and, if the
    constructor returns, the batch under the handler. *)
Lemma V2_main_run cl args h :
  let h1 := h ++ banner_v2 args in
  let built := V2.__init__ cl (V2.arg_region args) (V2.arg_dry_run args)
                 (V2.arg_debug args) h1 in
  V2.main cl args h
  = match fst built with
    | inl e => (inl e, banner_v2 args ++ snd built)
    | inr cleaner =>
        let batch :=
          catch (V2.delete_all_knowledge_bases cl cleaner (V2.arg_confirm args)
                   (V2.arg_batch_size args))
            (V2.on_failure args) (h1 ++ snd built) in
        (fst batch, banner_v2 args ++ snd built ++ snd batch)
    end.
Proof.
  cbv zeta. unfold V2.main, banner_v2. rewrite bind_print. cbn [fst snd].
  destruct (V2.arg_debug args); cbn [when].
  - rewrite bind_print. cbn [fst snd]. rewrite <- app_assoc. cbn [app].
    unfold bind.
    destruct (V2.__init__ cl _ _ _ _) as [[e|cleaner] t]; cbn [fst snd];
      [reflexivity|].
    destruct (catch _ _ _) as [r t2]. reflexivity.
  - rewrite bind_ret_l. unfold bind.
    destruct (V2.__init__ cl _ _ _ _) as [[e|cleaner] t]; cbn [fst snd];
      [reflexivity|].
    destruct (catch _ _ _) as [r t2]. reflexivity.
Qed.

Lemma V1_main_run cl args h :
  V1.arg_list_regions args = false ->
  let h1 := h ++ [EvPrint MsgBanner] in
  let built := V1.__init__ cl (V1.arg_region args) (V1.arg_dry_run args) h1 in
  V1.main cl args h
  = match fst built with
    | inl e => (inl e, EvPrint MsgBanner :: snd built)
    | inr cleaner =>
        let batch :=
          V1.delete_all_knowledge_bases cl cleaner (V1.arg_confirm args)
            (h1 ++ snd built) in
        (fst batch, EvPrint MsgBanner :: snd built ++ snd batch)
    end.
Proof.
  intros Hlist. cbv zeta. unfold V1.main. rewrite Hlist, bind_print.
  unfold bind.
  destruct (V1.__init__ cl _ _ _) as [[e|cleaner] t]; cbn [fst snd];
    [reflexivity|].
  destruct (V1.delete_all_knowledge_bases _ _ _ _) as [r t2]. reflexivity.
Qed.

Lemma failed_startup_is_call ev :
  failed_startup ev = true -> is_startup_call ev = true.
Proof. destruct ev as [[] []| | |]; simpl; congruence. Qed.

Lemma V2_startup_failure cl args h ev :
  In ev (snd (V2.main cl args h)) ->
  failed_startup ev = true ->
  fst (V2.main cl args h) = inl (SystemExit 1)
  /\ Forall (fun ev' => startup_event ev' = true) (snd (V2.main cl args h))
  /\ exists m,
       In (EvPrint m) (snd (V2.main cl args h))
       /\ (m = MsgNoCredentials \/ exists ce, m = MsgClientInitError ce).
Proof.
  rewrite V2_main_run. cbv zeta. rewrite V2_init_run. cbv zeta.
  assert (Hbanner : Forall (fun ev' => startup_event ev' = true) (banner_v2 args)
                    /\ forall ev', In ev' (banner_v2 args) ->
                                   failed_startup ev' = false).
  { unfold banner_v2. destruct (V2.arg_debug args); split;
      repeat constructor; simpl; intuition (subst; reflexivity). }
  destruct Hbanner as [Hb1 Hb2].
  assert (Hdiag : forall e,
            Forall (fun ev' => startup_event ev' = true)
              (map EvPrint (diagnostic e))
            /\ (forall ev', In ev' (map EvPrint (diagnostic e)) ->
                            failed_startup ev' = false)
            /\ (auth_failure e = true ->
                exists m, In (EvPrint m) (map EvPrint (diagnostic e))
                          /\ (m = MsgNoCredentials
                              \/ exists ce, m = MsgClientInitError ce))).
  { intros e. destruct e; simpl; repeat split;
      repeat constructor; try discriminate;
      try (intros ev' Hin; intuition (subst; reflexivity)).
    - intros _. exists (MsgClientInitError e). split; [tauto|]. right. eauto.
    - intros _. exists MsgNoCredentials. split; tauto. }
  destruct (cl_create_client cl _ _) as [e|[]]; cbn [fst snd].
  - destruct (Hdiag e) as (Hd1 & Hd2 & Hd3).
    intros Hin Hev. apply in_app_or in Hin as [Hin|[<-|Hin]].
    + apply Hb2 in Hin. congruence.
    + simpl in Hev. rewrite Hev. split; [reflexivity|]. split.
      * apply Forall_app. split; [exact Hb1|]. now constructor.
      * destruct (Hd3 Hev) as (m & Hm & Hcase). exists m.
        split; [|exact Hcase]. apply in_or_app. right. now right.
    + apply Hd2 in Hin. congruence.
  - destruct (cl_test_list_knowledge_bases cl _) as [e|[]]; cbn [fst snd].
    + destruct (Hdiag e) as (Hd1 & Hd2 & Hd3).
      intros Hin Hev. apply in_app_or in Hin as [Hin|[<-|[<-|Hin]]].
      * apply Hb2 in Hin. congruence.
      * discriminate.
      * simpl in Hev. rewrite Hev. split; [reflexivity|]. split.
        -- apply Forall_app. split; [exact Hb1|]. now repeat constructor.
        -- destruct (Hd3 Hev) as (m & Hm & Hcase). exists m.
           split; [|exact Hcase]. apply in_or_app. right. right. now right.
      * apply Hd2 in Hin. congruence.
    + intros Hin Hev. exfalso.
      apply in_app_or in Hin as [Hin|[<-|[<-|Hin]]].
      * apply Hb2 in Hin. congruence.
      * discriminate.
      * discriminate.
      * apply failed_startup_is_call in Hev. cbn [app] in Hin.
        refine (avoids_not_in _ _ _ _ _ Hev Hin).
        apply emits_catch.
        -- apply V2_delete_all_no_startup_call.
        -- intros e. apply V2_on_failure_emits. by_kind.
Qed.

Lemma V1_missing_credentials cl args h region :
  In (EvCall (CCreateClient region) (Raised NoCredentialsError))
    (snd (V1.main cl args h)) ->
  fst (V1.main cl args h) = inl (SystemExit 1)
  /\ Forall (fun ev' => startup_event ev' = true) (snd (V1.main cl args h))
  /\ In (EvPrint MsgNoCredentials) (snd (V1.main cl args h)).
Proof.
  destruct (V1.arg_list_regions args) eqn:Hlist.
  - unfold V1.main. rewrite Hlist. vm_compute. intuition discriminate.
  - rewrite (V1_main_run _ _ _ Hlist). cbv zeta. rewrite V1_init_run.
    destruct (cl_create_client cl _ _) as [e|[]].
    + destruct e; cbn [fst snd]; intros Hin;
        try (simpl in Hin; intuition discriminate).
      split; [reflexivity|]. split; [now repeat constructor | simpl; tauto].
    + cbn [fst snd]. intros [Hin|[Hin|Hin]]; try discriminate.
      exfalso. cbn [app] in Hin.
      eapply (avoids_not_in startup_event) in Hin;
        [exact Hin | apply V1_delete_all_no_startup | reflexivity].
Qed.

(** C8, as the code has it.  In the second cleaner a start-up call (the
    creation of the client or the connection test) that raises
    [NoCredentialsError] or a [ClientError] makes the process print a
    diagnostic and exit with status 1, having done nothing but start-up
    work.  The first cleaner does the same when the creation of the client
    raises [NoCredentialsError]; a [ClientError] raised by its listing of
    the knowledge bases is printed and taken for an empty enumeration: the
    batch returns after "no knowledge bases found", without any work on a
    resource. *)
Theorem startup_failures_are_reported :
  forall (cl : Client) (h : History),
    (forall args ev,
       let run := V2.main cl args h in
       In ev (snd run) -> failed_startup ev = true ->
       fst run = inl (SystemExit 1)
       /\ exit_status (fst run) = 1%Z
       /\ Forall (fun ev' => startup_event ev' = true) (snd run)
       /\ exists m,
            In (EvPrint m) (snd run)
            /\ (m = MsgNoCredentials \/ exists ce, m = MsgClientInitError ce))
    /\ (forall args region,
          let run := V1.main cl args h in
          In (EvCall (CCreateClient region) (Raised NoCredentialsError))
            (snd run) ->
          fst run = inl (SystemExit 1)
          /\ exit_status (fst run) = 1%Z
          /\ Forall (fun ev' => startup_event ev' = true) (snd run)
          /\ In (EvPrint MsgNoCredentials) (snd run))
    /\ (forall self confirm ce,
          let stream :=
            cl_paginate_knowledge_bases cl
              (h ++ [EvPrint (MsgListing (V1.region self))]) in
          snd stream = Some (ClientError ce) ->
          V1.delete_all_knowledge_bases cl self confirm h
          = (inr tt,
             EvPrint (MsgListing (V1.region self))
               :: repeat (EvCall CListKnowledgeBasesPage Ok)
                    (List.length (fst stream))
               ++ [EvCall CListKnowledgeBasesPage (Raised (ClientError ce));
                   EvPrint (MsgListError ce); EvPrint MsgNoKbs])).
Proof.
  intros cl h. split; [|split].
  - intros args ev. cbv zeta. intros Hin Hev.
    destruct (V2_startup_failure cl args h ev Hin Hev) as (Hr & Hs & Hd).
    rewrite Hr. repeat split; assumption.
  - intros args region. cbv zeta. intros Hin.
    destruct (V1_missing_credentials cl args h region Hin) as (Hr & Hs & Hd).
    rewrite Hr. repeat split; assumption.
  - intros self confirm ce. apply V1_listing_refused.
Qed.

(** Insufficient permissions in the first cleaner: the listing is refused,
    and the script reports that there is nothing to delete and ends with
    status 0. *)
Lemma refused_listing_counterexample :
  let run := V1.main (Mock.failing_listing (ClientError Mock.access_denied))
               (V1.mkArgs "us-east-1" false true false) [] in
  fst run = inr tt
  /\ exit_status (fst run) = 0%Z
  /\ snd run
     = [EvPrint MsgBanner; EvCall (CCreateClient "us-east-1") Ok;
        EvPrint (MsgListing "us-east-1");
        EvCall CListKnowledgeBasesPage (Raised (ClientError Mock.access_denied));
        EvPrint (MsgListError Mock.access_denied); EvPrint MsgNoKbs].
Proof. cbv zeta. repeat split; reflexivity. Qed.

(** No credentials, second cleaner. *)
Lemma startup_failure_witness :
  let run := V2.main Mock.no_credentials
               (V2.mkArgs "us-east-1" false true false 5) [] in
  fst run = inl (SystemExit 1)
  /\ exit_status (fst run) = 1%Z
  /\ Forall (fun ev' => startup_event ev' = true) (snd run)
  /\ exists m,
       In (EvPrint m) (snd run)
       /\ (m = MsgNoCredentials \/ exists ce, m = MsgClientInitError ce).
Proof.
  cbv zeta.
  apply (proj1 (startup_failures_are_reported Mock.no_credentials [])
           (V2.mkArgs "us-east-1" false true false 5)
           (EvCall (CCreateClient "us-east-1") (Raised NoCredentialsError))).
  - vm_compute. tauto.
  - reflexivity.
Defined.

(* ================================================================= *)
(** ** Exit status *)

(** C9, as the code has it.  The second cleaner wraps the batch in a
    handler: once the cleaner is built, the exit status is 0 when the batch
    returns and 1 when it raises [KeyboardInterrupt] or any [Exception];
    what the constructor raises leaves [main] as it is (status 1 for the
    [SystemExit(1)] of a credentials or client error).  The first cleaner
    has no handler: what the batch raises leaves [main] uncaught, so that the
    status is 0 when [main] returns, 1 after an uncaught [Exception], and
    that of an uncaught [KeyboardInterrupt] (130), not 1, after an
    interruption. *)
Theorem exit_status_of_the_cleaners :
  forall (cl : Client) (h : History),
    (forall args cleaner,
       let built := V2.__init__ cl (V2.arg_region args) (V2.arg_dry_run args)
                      (V2.arg_debug args) (h ++ banner_v2 args) in
       let batch := V2.delete_all_knowledge_bases cl cleaner
                      (V2.arg_confirm args) (V2.arg_batch_size args)
                      ((h ++ banner_v2 args) ++ snd built) in
       fst built = inr cleaner ->
       (fst batch = inr tt -> exit_status (fst (V2.main cl args h)) = 0%Z)
       /\ (forall e, fst batch = inl e -> caught_by_main e = true ->
                     exit_status (fst (V2.main cl args h)) = 1%Z))
    /\ (forall args e,
          fst (V2.__init__ cl (V2.arg_region args) (V2.arg_dry_run args)
                 (V2.arg_debug args) (h ++ banner_v2 args)) = inl e ->
          fst (V2.main cl args h) = inl e)
    /\ (forall args cleaner,
          let built := V1.__init__ cl (V1.arg_region args) (V1.arg_dry_run args)
                         (h ++ [EvPrint MsgBanner]) in
          V1.arg_list_regions args = false ->
          fst built = inr cleaner ->
          fst (V1.main cl args h)
          = fst (V1.delete_all_knowledge_bases cl cleaner (V1.arg_confirm args)
                   ((h ++ [EvPrint MsgBanner]) ++ snd built)))
    /\ (forall args,
          let r := fst (V1.main cl args h) in
          (r = inr tt -> exit_status r = 0%Z)
          /\ (forall e, r = inl e -> is_Exception e = true ->
                        exit_status r = 1%Z)
          /\ (r = inl KeyboardInterrupt -> exit_status r = 130%Z)).
Proof.
  intros cl h. split; [|split; [|split]].
  - intros args cleaner. cbv zeta. intros Hbuilt.
    rewrite V2_main_run. cbv zeta. rewrite Hbuilt. cbn [fst].
    unfold catch.
    destruct (V2.delete_all_knowledge_bases cl cleaner _ _ _) as [[e|[]] t].
    + split; [discriminate|]. intros e' [= <-] He.
      pose proof (V2_on_failure_result args e
                    (((h ++ banner_v2 args)
                        ++ snd (V2.__init__ cl (V2.arg_region args)
                                  (V2.arg_dry_run args) (V2.arg_debug args)
                                  (h ++ banner_v2 args))) ++ t)) as Hf.
      destruct (V2.on_failure args e _) as [r t2]. cbn [fst] in *.
      subst r. now rewrite He.
    + split; [reflexivity | discriminate].
  - intros args e Hbuilt. rewrite V2_main_run. cbv zeta.
    now rewrite Hbuilt.
  - intros args cleaner. cbv zeta. intros Hlist Hbuilt.
    rewrite (V1_main_run _ _ _ Hlist). cbv zeta. now rewrite Hbuilt.
  - intros args. cbv zeta. repeat split.
    + now intros ->.
    + intros e -> He. destruct e; try reflexivity; discriminate.
    + now intros ->.
Qed.

(** Ctrl-C while the first cleaner lists the knowledge bases, and while the
    second one tests its connection: neither is caught. *)
Lemma interrupted_cleaner_counterexample :
  let run1 := V1.main (Mock.failing_listing KeyboardInterrupt)
                (V1.mkArgs "us-east-1" false true false) [] in
  let run2 := V2.main (Mock.failing_listing KeyboardInterrupt)
                (V2.mkArgs "us-east-1" false true false 5) [] in
  fst run1 = inl KeyboardInterrupt
  /\ fst run1 <> inl (SystemExit 1)
  /\ exit_status (fst run1) <> 1%Z
  /\ fst run2 = inl KeyboardInterrupt
  /\ fst run2 <> inl (SystemExit 1)
  /\ exit_status (fst run2) <> 1%Z.
Proof. cbv zeta. repeat split; try reflexivity; vm_compute; discriminate. Qed.

(** A negative batch size: the batch raises, the handler exits with 1. *)
Lemma exit_status_witness :
  let cl := Mock.healthy [Mock.kb1] [] "DELETE" in
  let args := V2.mkArgs "us-east-1" true false false (-1) in
  exit_status (fst (V2.main cl args [])) = 1%Z.
Proof.
  cbv zeta.
  apply (proj2 (proj1 (exit_status_of_the_cleaners
                         (Mock.healthy [Mock.kb1] [] "DELETE") [])
                  (V2.mkArgs "us-east-1" true false false (-1))
                  (V2.mkCleaner "us-east-1" true false) eq_refl)
           ZeroDivisionError); reflexivity.
Defined.

(* ================================================================= *)
(** ** The prompt and the enumeration *)

Lemma V1_delete_listed_no_input cl self kbs :
  avoids is_input (V1.delete_listed cl self kbs).
Proof.
  apply V1_delete_listed_emits; by_kind.
  intros. apply V1_delete_knowledge_base_emits; by_kind.
Qed.

Lemma V2_delete_listed_no_input cl self kbs batch_size :
  avoids is_input (V2.delete_listed cl self kbs batch_size).
Proof.
  apply V2_delete_listed_emits; by_kind.
  intros. apply V2_delete_knowledge_base_emits; by_kind.
Qed.

Lemma no_prompt_generic (cl : Client) (listing : M (list KbSummary))
    (phase : list KbSummary -> M unit) (dry_run confirm : bool) :
  avoids is_input listing ->
  (forall kbs, avoids is_input (phase kbs)) ->
  dry_run || confirm = true ->
  avoids is_input
    (knowledge_bases <- listing ;;
     if is_empty knowledge_bases then print MsgNoKbs
     else
       go_on <- confirm_deletion cl dry_run confirm
                  (List.length knowledge_bases) ;;
       if negb go_on then ret tt else phase knowledge_bases).
Proof.
  intros Hl Hp Hskip.
  assert (Hc : forall n,
             avoids is_input (confirm_deletion cl dry_run confirm n)).
  { intros n h. rewrite (confirm_deletion_skipped _ _ _ _ _ Hskip).
    constructor. }
  emits_auto.
Qed.

(** With [--confirm] or [--dry-run] neither cleaner reads from the
    terminal, whatever the provider enumerates or answers. *)
Theorem confirmed_or_dry_run_never_prompts :
  forall (cl : Client) (confirm : bool) (h : History),
    (forall self,
       V1.dry_run self || confirm = true ->
       count is_input
         (snd (V1.delete_all_knowledge_bases cl self confirm h)) = 0)
    /\ (forall self batch_size,
          V2.dry_run self || confirm = true ->
          count is_input
            (snd (V2.delete_all_knowledge_bases cl self confirm batch_size h))
          = 0).
Proof.
  intros cl confirm h. split.
  - intros self Hskip. apply count_none.
    apply (no_prompt_generic cl (V1.list_knowledge_bases cl self)
             (V1.delete_listed cl self) _ _); [| |exact Hskip].
    + apply V1_list_knowledge_bases_emits; by_kind.
    + apply V1_delete_listed_no_input.
  - intros self batch_size Hskip. apply count_none.
    apply (no_prompt_generic cl (V2.list_knowledge_bases cl self)
             (fun kbs => V2.delete_listed cl self kbs batch_size) _ _);
      [| |exact Hskip].
    + apply V2_list_knowledge_bases_emits; by_kind.
    + intros. apply V2_delete_listed_no_input.
Qed.

(** A deletion with [--confirm] on a provider whose terminal would answer
    nothing useful. *)
Lemma confirmed_run_witness :
  let cl := Mock.healthy [Mock.kb1; Mock.kb2] [Mock.ds1] "no" in
  let run := V1.delete_all_knowledge_bases cl (V1.mkCleaner "us-east-1" false)
               true [] in
  count is_input (snd run) = 0 /\ count is_kb_delete (snd run) = 2.
Proof.
  cbv zeta. split; [|reflexivity].
  apply (proj1 (confirmed_or_dry_run_never_prompts
                  (Mock.healthy [Mock.kb1; Mock.kb2] [Mock.ds1] "no") true [])
           (V1.mkCleaner "us-east-1" false)).
  reflexivity.
Defined.

(** *** Pages *)

Lemma bind_try {A B} (m : M A) (k : exn + A -> M B) h :
  (r <- try_ m ;; k r) h
  = (fst (k (fst (m h)) (h ++ snd (m h))),
     snd (m h) ++ snd (k (fst (m h)) (h ++ snd (m h)))).
Proof.
  unfold bind, try_. cbn [fst snd].
  now destruct (k (fst (m h)) (h ++ snd (m h))).
Qed.

(** A paginator whose loop body returns yields all the pages, or the
    failure that ends the stream. *)
Lemma paginate_from_result {A} (c : Call) (per_page : Z -> M unit) :
  (forall n h, fst (per_page n h) = inr tt) ->
  forall pages page_num failure (acc : list A) h,
    fst (paginate_from c per_page page_num pages failure acc h)
    = match failure with
      | Some e => inl e
      | None => inr (acc ++ List.concat pages)
      end.
Proof.
  intros Hret. induction pages as [|page rest IH]; intros n failure acc h.
  - simpl. destruct failure as [e|]; [reflexivity|].
    now rewrite app_nil_r.
  - simpl. unfold bind at 1. cbn [emit].
    unfold bind at 1. specialize (Hret n (h ++ [EvCall c Ok])).
    destruct (per_page n (h ++ [EvCall c Ok])) as [r tp]. simpl in Hret.
    subst r.
    specialize (IH (n + 1)%Z failure (acc ++ page)
                  ((h ++ [EvCall c Ok]) ++ tp)).
    destruct (paginate_from c per_page (n + 1) rest failure (acc ++ page)
                ((h ++ [EvCall c Ok]) ++ tp)) as [r t]. simpl in IH. simpl.
    rewrite IH. destruct failure; [reflexivity|].
    now rewrite <- app_assoc.
Qed.

Lemma for_each_print {A} (f : A -> Msg) (xs : list A) :
  forall h,
    for_each xs (fun x => print (f x)) h
    = (inr tt, map (fun x => EvPrint (f x)) xs).
Proof.
  induction xs as [|x xs IH]; intros h; simpl; [reflexivity|].
  rewrite bind_print, IH. reflexivity.
Qed.

Lemma paginate_result {A} (c : Call) (stream : History -> Pages A)
    (per_page : Z -> M unit) h :
  (forall n h, fst (per_page n h) = inr tt) ->
  fst (paginate c stream per_page h)
  = match snd (stream h) with
    | Some e => inl e
    | None => inr (List.concat (fst (stream h)))
    end.
Proof.
  intros Hret. unfold paginate. now rewrite paginate_from_result.
Qed.

Lemma V2_per_page_returns self n h :
  fst ((V2.debug_print self "Processing page" ;;
        when (1 <? n)%Z (sleep 500)) h) = inr tt.
Proof.
  unfold V2.debug_print, bind, when, print, sleep, emit, ret.
  destruct (V2.debug self), (1 <? n)%Z; reflexivity.
Qed.

Lemma V2_list_knowledge_bases_run cl self h :
  let h1 := h ++ [EvPrint (MsgListing (V2.region self))] in
  let pages :=
    paginate CListKnowledgeBasesPage (cl_paginate_knowledge_bases cl)
      (fun page_num =>
         V2.debug_print self "Processing page" ;;
         when (1 <? page_num)%Z (sleep 500)) h1 in
  V2.list_knowledge_bases cl self h
  = match snd (cl_paginate_knowledge_bases cl h1) with
    | Some e =>
        if is_Exception e
        then (inr [],
              EvPrint (MsgListing (V2.region self))
                :: snd pages ++ [EvPrint (MsgPaginationError e)])
        else (inl e, EvPrint (MsgListing (V2.region self)) :: snd pages)
    | None =>
        let kbs := List.concat (fst (cl_paginate_knowledge_bases cl h1)) in
        (inr kbs,
         EvPrint (MsgListing (V2.region self))
           :: snd pages
           ++ EvPrint (MsgFound (List.length kbs))
           :: map (fun ikb => EvPrint (MsgKbLine (fst ikb) (snd ikb)))
                (enumerate 1 kbs))
    end.
Proof.
  cbv zeta. unfold V2.list_knowledge_bases, catch.
  rewrite bind_print, bind_try.
  rewrite paginate_result by apply V2_per_page_returns.
  set (h1 := h ++ [EvPrint (MsgListing (V2.region self))]).
  set (pages := paginate _ _ _ h1).
  destruct (snd (cl_paginate_knowledge_bases cl h1)) as [e|].
  - destruct (is_Exception e) eqn:Ee.
    + rewrite bind_print. simpl. reflexivity.
    + destruct e; try discriminate; unfold raise; cbn [fst snd];
        now rewrite !app_nil_r.
  - cbv zeta. rewrite bind_print.
    unfold bind. rewrite for_each_print. simpl. now rewrite app_nil_r.
Qed.

Lemma V2_list_knowledge_bases_quiet cl self :
  avoids is_input (V2.list_knowledge_bases cl self)
  /\ avoids per_resource (V2.list_knowledge_bases cl self).
Proof. split; apply V2_list_knowledge_bases_emits; by_kind. Qed.

(** Any [Exception] raised while the second cleaner pages through the
    listing (a refusal, a time-out, ...) is printed as a pagination error
    and leaves an empty listing, whatever pages had been read before: the run
    ends as on an empty account, without a prompt and without any work on a
    knowledge base. *)
Theorem pagination_failure_is_an_empty_listing :
  forall (cl : Client) self (h : History) (e : exn),
    snd (cl_paginate_knowledge_bases cl
           (h ++ [EvPrint (MsgListing (V2.region self))])) = Some e ->
    is_Exception e = true ->
    let listing := V2.list_knowledge_bases cl self h in
    fst listing = inr []
    /\ In (EvPrint (MsgPaginationError e)) (snd listing)
    /\ forall confirm batch_size,
         let run :=
           V2.delete_all_knowledge_bases cl self confirm batch_size h in
         fst run = inr tt
         /\ In (EvPrint MsgNoKbs) (snd run)
         /\ count is_input (snd run) = 0
         /\ count per_resource (snd run) = 0.
Proof.
  intros cl self h e Hfail He. cbv zeta.
  pose proof (V2_list_knowledge_bases_run cl self h) as Hrun.
  cbv zeta in Hrun. rewrite Hfail, He in Hrun.
  rewrite Hrun. cbn [fst snd].
  split; [reflexivity|]. split.
  { right. apply in_or_app. right. now left. }
  intros confirm batch_size. unfold V2.delete_all_knowledge_bases.
  destruct (delete_all_shape cl (V2.list_knowledge_bases cl self)
              (fun kbs => V2.delete_listed cl self kbs batch_size)
              (V2.dry_run self) confirm h [] _ Hrun)
    as [[_ ->]|[Hne _]]; [|now elim Hne].
  cbn [fst snd]. split; [reflexivity|].
  split; [apply in_or_app; right; now left|].
  destruct (V2_list_knowledge_bases_quiet cl self) as [Hin Hres].
  pose proof (emits_run _ _ _ _ _ Hin Hrun) as Hin'.
  pose proof (emits_run _ _ _ _ _ Hres Hrun) as Hres'.
  rewrite !count_app, (count_none _ _ Hin'), (count_none _ _ Hres').
  split; reflexivity.
Qed.

(** A listing that times out after a first page with two knowledge
    bases. *)
Lemma pagination_failure_witness :
  let cl := Scenario.broken_listing [[Mock.kb1; Mock.kb2]] TimeoutError in
  let self := V2.mkCleaner "us-east-1" false false in
  fst (V2.list_knowledge_bases cl self []) = inr []
  /\ In (EvPrint (MsgPaginationError TimeoutError))
       (snd (V2.list_knowledge_bases cl self []))
  /\ forall confirm batch_size,
       let run := V2.delete_all_knowledge_bases cl self confirm batch_size [] in
       fst run = inr tt
       /\ In (EvPrint MsgNoKbs) (snd run)
       /\ count is_input (snd run) = 0
       /\ count per_resource (snd run) = 0.
Proof.
  cbv zeta.
  apply (pagination_failure_is_an_empty_listing
           (Scenario.broken_listing [[Mock.kb1; Mock.kb2]] TimeoutError)
           (V2.mkCleaner "us-east-1" false false) [] TimeoutError);
    reflexivity.
Defined.

(** *** What a trace shows of the listing *)

Lemma slept_app (t1 t2 : list Event) :
  slept (t1 ++ t2) = (slept t1 + slept t2)%Z.
Proof.
  induction t1 as [|ev t1 IH]; simpl; [reflexivity|].
  destruct ev; rewrite IH; lia.
Qed.

Lemma slept_none (t : list Event) :
  Forall (fun ev => is_sleep ev = false) t -> slept t = 0%Z.
Proof.
  induction 1 as [|ev t Hev _ IH]; simpl; [reflexivity|].
  destruct ev; try discriminate; exact IH.
Qed.

Lemma kb_lines_app (t1 t2 : list Event) :
  kb_lines (t1 ++ t2) = kb_lines t1 ++ kb_lines t2.
Proof.
  induction t1 as [|ev t1 IH]; simpl; [reflexivity|].
  destruct ev as [| | |m]; try exact IH. destruct m; try exact IH.
  simpl. now rewrite IH.
Qed.

Lemma kb_lines_printed (items : list (Z * KbSummary)) :
  kb_lines (map (fun ikb => EvPrint (MsgKbLine (fst ikb) (snd ikb))) items)
  = items.
Proof.
  induction items as [|[i kb] items IH]; simpl; [reflexivity|].
  now rewrite IH.
Qed.

Lemma kb_lines_repeat_call (c : Call) (o : Outcome) (n : nat) :
  kb_lines (repeat (EvCall c o) n) = [].
Proof. induction n as [|n IH]; simpl; [reflexivity | exact IH]. Qed.

Lemma count_repeat (p : Event -> bool) (ev : Event) (n : nat) :
  count p (repeat ev n) = if p ev then n else 0.
Proof.
  induction n as [|n IH]; simpl; [now destruct (p ev)|].
  rewrite count_cons, IH. now destruct (p ev).
Qed.

Lemma slept_repeat_call (c : Call) (o : Outcome) (n : nat) :
  slept (repeat (EvCall c o) n) = 0%Z.
Proof. induction n as [|n IH]; simpl; [reflexivity | exact IH]. Qed.

Lemma V1_list_knowledge_bases_run cl self h :
  let stream :=
    cl_paginate_knowledge_bases cl
      (h ++ [EvPrint (MsgListing (V1.region self))]) in
  snd stream = None ->
  V1.list_knowledge_bases cl self h
  = (inr (List.concat (fst stream)),
     EvPrint (MsgListing (V1.region self))
       :: repeat (EvCall CListKnowledgeBasesPage Ok) (List.length (fst stream))
       ++ EvPrint (MsgFound (List.length (List.concat (fst stream))))
       :: map (fun ikb => EvPrint (MsgKbLine (fst ikb) (snd ikb)))
            (enumerate 1 (List.concat (fst stream)))).
Proof.
  cbv zeta. intros Hok. unfold V1.list_knowledge_bases, catch.
  pose proof (paginate_plain CListKnowledgeBasesPage
                (cl_paginate_knowledge_bases cl)
                (h ++ [EvPrint (MsgListing (V1.region self))])) as Hp.
  rewrite Hok, app_nil_r in Hp.
  rewrite bind_print, (bind_returned _ _ _ _ _ Hp), bind_print.
  unfold bind. rewrite for_each_print. simpl. now rewrite ?app_nil_r.
Qed.

(** One page of the second cleaner's listing. *)
Lemma V2_page_step self (page : list KbSummary) (rest : list (list KbSummary))
    (failure : option exn) (page_num : Z) (acc : list KbSummary) h :
  let per_page := fun page_num =>
    V2.debug_print self "Processing page" ;;
    when (1 <? page_num)%Z (sleep 500) in
  let t1 :=
    EvCall CListKnowledgeBasesPage Ok
      :: (if V2.debug self then [EvPrint (MsgDebug "Processing page")] else [])
      ++ (if (1 <? page_num)%Z then [EvSleep 500] else []) in
  let next :=
    paginate_from CListKnowledgeBasesPage per_page (page_num + 1) rest failure
      (acc ++ page) (h ++ t1) in
  paginate_from CListKnowledgeBasesPage per_page page_num (page :: rest)
    failure acc h
  = (fst next, t1 ++ snd next).
Proof.
  cbv zeta. cbn [paginate_from].
  unfold bind at 1. cbn [emit].
  unfold bind at 1, V2.debug_print, when, print, sleep, emit, ret.
  unfold bind at 1.
  destruct (V2.debug self), (1 <? page_num)%Z; cbn [fst snd app];
    rewrite <- ?app_assoc; cbn [app];
    match goal with
    | |- context [paginate_from ?c ?pp ?k rest failure ?a ?hh] =>
        destruct (paginate_from c pp k rest failure a hh) as [r t]
    end; reflexivity.
Qed.

(** The pages of the second cleaner's listing, read from page number
    [page_num] on: one read per page and half a second of sleep after every
    page but the first. *)
Lemma V2_pages_trace self (pages : list (list KbSummary)) :
  forall page_num acc h,
    (1 <= page_num)%Z ->
    let t :=
      snd (paginate_from CListKnowledgeBasesPage
             (fun page_num =>
                V2.debug_print self "Processing page" ;;
                when (1 <? page_num)%Z (sleep 500))
             page_num pages None acc h) in
    count is_page_read t = List.length pages
    /\ kb_lines t = []
    /\ slept t
       = (500 * (Z.of_nat (List.length pages)
                 - (if (page_num =? 1)%Z && negb (is_empty pages)
                    then 1 else 0)))%Z.
Proof.
  induction pages as [|page rest IH]; intros n acc h Hn; cbv zeta.
  - simpl. rewrite andb_false_r. repeat split.
  - pose proof (V2_page_step self page rest None n acc h) as Hstep.
    cbv zeta in Hstep. rewrite Hstep. cbn [snd].
    match goal with
    | |- context [paginate_from ?c ?pp ?k rest None ?a ?hh] =>
        specialize (IH k a hh ltac:(lia)); cbv zeta in IH;
        set (t := snd (paginate_from c pp k rest None a hh)) in *
    end.
    destruct IH as (Hc & Hl & Hs).
    assert (Hnext : ((n + 1 =? 1)%Z && negb (is_empty rest)) = false).
    { destruct (Z.eqb_spec (n + 1) 1); [lia | reflexivity]. }
    rewrite Hnext in Hs.
    change (is_empty (page :: rest)) with false. cbn [negb].
    rewrite andb_true_r.
    rewrite !count_app, !kb_lines_app, !slept_app, Hc, Hl, Hs.
    rewrite count_cons, !count_app. cbn [is_page_read kb_lines slept].
    rewrite !kb_lines_app, !slept_app.
    cbn [List.length].
    destruct (V2.debug self), (Z.ltb_spec 1 n), (Z.eqb_spec n 1);
      try lia; rewrite ?count_cons, ?count_nil;
      cbn [is_page_read slept kb_lines app]; repeat split; lia.
Qed.

(** Without a failure the listing returns the knowledge bases of all the
    pages, in the order of the pages, after one read per page, and prints
    one line for each, numbered from 1.  The first cleaner does not sleep;
    the second sleeps half a second after every page but the first. *)
Theorem listing_returns_the_pages_in_order :
  forall (cl : Client) (h : History),
    (forall self,
       let stream :=
         cl_paginate_knowledge_bases cl
           (h ++ [EvPrint (MsgListing (V1.region self))]) in
       let run := V1.list_knowledge_bases cl self h in
       snd stream = None ->
       fst run = inr (List.concat (fst stream))
       /\ count is_page_read (snd run) = List.length (fst stream)
       /\ kb_lines (snd run) = enumerate 1 (List.concat (fst stream))
       /\ slept (snd run) = 0%Z)
    /\ (forall self,
          let stream :=
            cl_paginate_knowledge_bases cl
              (h ++ [EvPrint (MsgListing (V2.region self))]) in
          let run := V2.list_knowledge_bases cl self h in
          snd stream = None ->
          fst run = inr (List.concat (fst stream))
          /\ count is_page_read (snd run) = List.length (fst stream)
          /\ kb_lines (snd run) = enumerate 1 (List.concat (fst stream))
          /\ slept (snd run)
             = (500 * Z.of_nat (List.length (fst stream) - 1))%Z).
Proof.
  intros cl h. split; intros self; cbv zeta; intros Hok.
  - rewrite (V1_list_knowledge_bases_run cl self h Hok). cbn [fst snd].
    split; [reflexivity|].
    rewrite count_cons, count_app, count_repeat, count_cons.
    cbn [is_page_read kb_lines slept].
    rewrite kb_lines_app, slept_app, kb_lines_repeat_call, slept_repeat_call.
    cbn [kb_lines slept app]. rewrite kb_lines_printed.
    repeat split.
    + rewrite (count_none is_page_read); [lia|].
      apply Forall_forall. intros ev Hin. apply in_map_iff in Hin.
      now destruct Hin as (x & <- & _).
    + apply slept_none. apply Forall_forall. intros ev Hin.
      apply in_map_iff in Hin. now destruct Hin as (x & <- & _).
  - pose proof (V2_list_knowledge_bases_run cl self h) as Hrun.
    cbv zeta in Hrun. rewrite Hok in Hrun. rewrite Hrun. cbn [fst snd].
    split; [reflexivity|].
    unfold paginate. rewrite Hok.
    match goal with
    | |- context [paginate_from ?c ?pp 1 ?pages None [] ?hh] =>
        pose proof (V2_pages_trace self pages 1%Z [] hh ltac:(lia)) as Hp;
        cbv zeta in Hp; destruct Hp as (Hc & Hl & Hs);
        set (tp := snd (paginate_from c pp 1 pages None [] hh)) in *
    end.
    rewrite count_cons, count_app, count_cons.
    cbn [is_page_read kb_lines slept].
    rewrite kb_lines_app, slept_app. cbn [kb_lines slept].
    rewrite kb_lines_printed, Hc, Hl, Hs.
    repeat split.
    + rewrite (count_none is_page_read); [lia|].
      apply Forall_forall. intros ev Hin. apply in_map_iff in Hin.
      now destruct Hin as (x & <- & _).
    + rewrite slept_none.
      * change (1 =? 1)%Z with true.
        destruct (fst (cl_paginate_knowledge_bases cl _));
          cbn [is_empty negb andb List.length]; lia.
      * apply Forall_forall. intros ev Hin. apply in_map_iff in Hin.
        now destruct Hin as (x & <- & _).
Qed.

(** Three knowledge bases on two pages. *)
Lemma listing_in_order_witness :
  let cl := Scenario.paged [[Mock.kb1; Mock.kb2]; [Mock.kb3]] in
  let run := V2.list_knowledge_bases cl (V2.mkCleaner "us-east-1" false true)
               [] in
  fst run = inr [Mock.kb1; Mock.kb2; Mock.kb3]
  /\ count is_page_read (snd run) = 2
  /\ kb_lines (snd run) = [(1, Mock.kb1); (2, Mock.kb2); (3, Mock.kb3)]%Z
  /\ slept (snd run) = 500%Z.
Proof.
  cbv zeta.
  apply (proj2 (listing_returns_the_pages_in_order
                  (Scenario.paged [[Mock.kb1; Mock.kb2]; [Mock.kb3]]) [])
           (V2.mkCleaner "us-east-1" false true)).
  reflexivity.
Defined.

(* ================================================================= *)
(** ** The retry loop of the deletion of a knowledge base *)

Section KbRetries.

Variable cl : Client.

Lemma V1_kb_attempts_retried kb_id name max_retries :
  forall n a h b t,
    Z.of_nat (a + n) = max_retries ->
    V1.delete_knowledge_base_attempts cl kb_id name max_retries
      (attempts_from a n) h = (inr b, t) ->
    retried 10000 n b t.
Proof.
  induction n as [|n IH]; intros a h b t Hmax Hrun.
  - injection Hrun as <- <-. unfold retried. simpl. repeat split.
  - rewrite attempts_from_succ in Hrun.
    cbn [V1.delete_knowledge_base_attempts] in Hrun.
    rewrite bind_try_call in Hrun.
    destruct (cl_delete_knowledge_base cl kb_id h) as [e|[]];
      cbn [outcome_of] in Hrun.
    + destruct e as [ce| | | | | | |]; try discriminate Hrun.
      destruct (Z.ltb_spec (Z.of_nat a) (max_retries - 1)) as [Hlt|Hge].
      * rewrite !bind_print, bind_sleep in Hrun. cbn [fst snd] in Hrun.
        match type of Hrun with
        | context [V1.delete_knowledge_base_attempts ?c ?k ?nm ?m ?l ?hh] =>
            destruct (V1.delete_knowledge_base_attempts c k nm m l hh)
              as [r t'] eqn:E
        end.
        cbn [fst snd] in Hrun. injection Hrun as -> <-.
        apply IH in E; [|lia].
        unfold retried in *. rewrite !count_cons.
        cbn [accepted_kb_delete is_kb_delete is_wait].
        change (10000 =? 10000)%Z with true.
        destruct b; lia.
      * rewrite !bind_print in Hrun. injection Hrun as <- <-.
        unfold retried. rewrite !count_cons, !count_nil.
        cbn [accepted_kb_delete is_kb_delete is_wait]. lia.
    + rewrite bind_print in Hrun. injection Hrun as <- <-.
      unfold retried. rewrite !count_cons, !count_nil.
      cbn [accepted_kb_delete is_kb_delete is_wait]. lia.
Qed.

Lemma V2_kb_attempts_retried self kb_id name max_retries :
  forall n a h b t,
    Z.of_nat (a + n) = max_retries ->
    V2.delete_knowledge_base_attempts cl self kb_id name max_retries
      (attempts_from a n) h = (inr b, t) ->
    retried 15000 n b t.
Proof.
  induction n as [|n IH]; intros a h b t Hmax Hrun.
  - injection Hrun as <- <-. unfold retried. simpl. repeat split.
  - rewrite attempts_from_succ in Hrun.
    cbn [V2.delete_knowledge_base_attempts] in Hrun.
    rewrite bind_try_debug_call in Hrun. cbv zeta in Hrun.
    assert (Hdbg : forall p : Event -> bool,
               (forall m, p (EvPrint m) = false) ->
               count p (if V2.debug self
                        then [EvPrint (MsgDebug "Attempting to delete KB")]
                        else []) = 0).
    { intros p Hp. destruct (V2.debug self); [|reflexivity].
      rewrite count_cons, Hp. reflexivity. }
    destruct (cl_delete_knowledge_base cl kb_id _) as [e|[]];
      cbn [outcome_of] in Hrun.
    + destruct e as [ce| | | | | | |]; try discriminate Hrun;
        (destruct (Z.ltb_spec (Z.of_nat a) (max_retries - 1)) as [Hlt|Hge];
         [ rewrite ?bind_print, bind_sleep in Hrun; cbn [fst snd] in Hrun;
           match type of Hrun with
           | context [V2.delete_knowledge_base_attempts ?c ?s ?k ?nm ?m ?l ?hh] =>
               destruct (V2.delete_knowledge_base_attempts c s k nm m l hh)
                 as [r t'] eqn:E
           end;
           cbn [fst snd] in Hrun; injection Hrun as -> <-;
           apply IH in E; [|lia];
           unfold retried in *; rewrite !count_app, !count_cons, !count_nil;
           rewrite !Hdbg by reflexivity;
           cbn [accepted_kb_delete is_kb_delete is_wait];
           change (15000 =? 15000)%Z with true;
           destruct b; lia
         | rewrite ?bind_print in Hrun; injection Hrun as <- <-;
           unfold retried; rewrite !count_app, !count_cons, !count_nil;
           rewrite !Hdbg by reflexivity;
           cbn [accepted_kb_delete is_kb_delete is_wait]; lia ]).
    + rewrite bind_print in Hrun. injection Hrun as <- <-.
      unfold retried. rewrite !count_app, !count_cons, !count_nil.
      rewrite !Hdbg by reflexivity.
      cbn [accepted_kb_delete is_kb_delete is_wait]. lia.
Qed.

End KbRetries.

Lemma count_le (p q : Event -> bool) (t : list Event) :
  (forall ev, q ev = true -> p ev = true) -> count q t <= count p t.
Proof.
  intros Hqp. induction t as [|ev t IH]; [constructor|].
  rewrite !count_cons. specialize (Hqp ev).
  destruct (q ev), (p ev); try lia; now discriminate Hqp.
Qed.

Lemma accepted_is_kb_delete ev :
  accepted_kb_delete ev = true -> is_kb_delete ev = true.
Proof. destruct ev as [c o| | |]; [|discriminate..]. now destruct c. Qed.

Lemma retried_after ms n b t0 t :
  count is_kb_delete t0 = 0 -> count (is_wait ms) t0 = 0 ->
  retried ms n b t -> retried ms n b (t0 ++ t).
Proof.
  intros Hk Hw. pose proof (count_le _ _ t0 accepted_is_kb_delete) as Ha.
  unfold retried. rewrite !count_app. destruct b; lia.
Qed.

Lemma retried_range ms max_retries b t :
  (forall n a, Z.of_nat (a + n) = max_retries ->
     n = Z.to_nat max_retries -> a = 0 -> retried ms n b t) ->
  (Z.to_nat max_retries = 0 -> retried ms 0 b t) ->
  retried ms (Z.to_nat max_retries) b t.
Proof.
  intros Hpos Hzero. destruct (Z.to_nat max_retries) as [|n] eqn:E.
  - now apply Hzero.
  - apply (Hpos (S n) 0); [lia | reflexivity | reflexivity].
Qed.

(** What the deletion of the data sources of a knowledge base emits. *)
Lemma V1_children_emits cl (P : Event -> Prop) kb_id dss :
  (forall m, msg_kind m = KPerKb -> P (EvPrint m)) ->
  P (EvSleep 2000) ->
  (forall kb ds o, P (EvCall (CGetDataSource kb ds) o)) ->
  (forall kb ds name config policy o,
     P (EvCall (CUpdateDataSource kb ds name config policy) o)) ->
  (forall kb ds o, P (EvCall (CDeleteDataSource kb ds) o)) ->
  emits P
    (when (negb (is_empty dss))
       (print (MsgFoundDs (List.length dss)) ;;
        for_each dss
          (fun ds =>
             print (MsgDeletingDs (ds_name ds) (dataSourceId ds)) ;;
             deleted <- V1.delete_data_source cl kb_id (dataSourceId ds) 3 ;;
             when (negb deleted) (print MsgContinuing)))).
Proof.
  intros Hm Hs Hg Hu Hd.
  pose proof (V1_delete_data_source_emits cl P Hm Hs Hg Hu Hd) as Hds.
  apply emits_when, emits_bind_unit; [now apply emits_print, Hm|].
  apply emits_for_each. intros ds.
  apply emits_bind_unit; [now apply emits_print, Hm|].
  apply emits_bind; [apply Hds|]. intros deleted.
  apply emits_when. now apply emits_print, Hm.
Qed.

Lemma V2_children_emits cl self (P : Event -> Prop) kb_id dss :
  (forall m, msg_kind m = KDebug -> P (EvPrint m)) ->
  (forall m, msg_kind m = KPerKb -> P (EvPrint m)) ->
  P (EvSleep 3000) ->
  P (EvSleep 5000) ->
  (forall kb ds o, P (EvCall (CGetDataSource kb ds) o)) ->
  (forall kb ds name config policy o,
     P (EvCall (CUpdateDataSource kb ds name config policy) o)) ->
  (forall kb ds o, P (EvCall (CDeleteDataSource kb ds) o)) ->
  emits P
    (when (negb (is_empty dss))
       (print (MsgFoundDs (List.length dss)) ;;
        for_each dss
          (fun ds =>
             print (MsgDeletingDs (ds_name ds) (dataSourceId ds)) ;;
             deleted <-
               V2.delete_data_source_with_timeout cl self kb_id
                 (dataSourceId ds) 3 ;;
             when (negb deleted) (print MsgContinuing)))).
Proof.
  intros Hdbg Hm H3 H5 Hg Hu Hd.
  pose proof (V2_delete_data_source_emits cl P) as Hds.
  apply emits_when, emits_bind_unit; [now apply emits_print, Hm|].
  apply emits_for_each. intros ds.
  apply emits_bind_unit; [now apply emits_print, Hm|].
  apply emits_bind; [apply Hds; assumption|]. intros deleted.
  apply emits_when. now apply emits_print, Hm.
Qed.

Lemma quiet_piece {A} (p : Event -> bool) (m : M A) h r t :
  avoids p m -> m h = (r, t) -> count p t = 0.
Proof. intros Hm E. apply count_none. exact (emits_run _ _ _ _ _ Hm E). Qed.

Lemma V1_delete_knowledge_base_retried cl self kb_id name max_retries h b t :
  V1.dry_run self = false ->
  V1.delete_knowledge_base cl self kb_id name max_retries h = (inr b, t) ->
  retried 10000 (Z.to_nat max_retries) b t.
Proof.
  intros Hdry Hrun. unfold V1.delete_knowledge_base in Hrun.
  rewrite Hdry in Hrun.
  bind_inv Hrun u0 t0 H0 l0. bind_inv Hrun dss t1 H1 l1.
  bind_inv Hrun u2 t2 H2 l2. bind_inv Hrun u3 t3 H3 l3.
  assert (Hquiet : forall p : Event -> bool,
             (forall m, p (EvPrint m) = false) ->
             (forall c o, is_kb_delete (EvCall c o) = false ->
                          p (EvCall c o) = false) ->
             p (EvSleep 2000) = false -> p (EvSleep 5000) = false ->
             count p (((t0 ++ t1) ++ t2) ++ t3) = 0).
  { intros p Hm Hc H2000 H5000. rewrite !count_app.
    rewrite (quiet_piece p _ _ _ _ (emits_print _ _ (Hm _)) H0).
    rewrite (quiet_piece p _ _ _ _
               (V1_list_data_sources_emits cl _
                  (fun m _ => Hm m)
                  (fun kb o => Hc (CListDataSourcesPage kb) o eq_refl) kb_id)
               H1).
    rewrite (quiet_piece p _ _ _ _
               (V1_children_emits cl _ kb_id dss (fun m _ => Hm m) H2000
                  (fun kb ds o => Hc (CGetDataSource kb ds) o eq_refl)
                  (fun kb ds n c pol o =>
                     Hc (CUpdateDataSource kb ds n c pol) o eq_refl)
                  (fun kb ds o => Hc (CDeleteDataSource kb ds) o eq_refl))
               H2).
    assert (Q3 : count p t3 = 0).
    { eapply quiet_piece; [|exact H3]. emits_auto. }
    now rewrite Q3. }
  rewrite !app_assoc. apply retried_after.
  - apply Hquiet; intros; try reflexivity. assumption.
  - apply Hquiet; intros; reflexivity.
  - rewrite range_attempts in Hrun. apply retried_range.
    + intros n a Hmax -> ->.
      eapply V1_kb_attempts_retried; [exact Hmax | exact Hrun].
    + intros Hz. rewrite Hz in Hrun. injection Hrun as <- <-.
      unfold retried. simpl. repeat split.
Qed.

Lemma V2_delete_knowledge_base_retried cl self kb_id name max_retries h b t :
  V2.dry_run self = false ->
  V2.delete_knowledge_base_with_timeout cl self kb_id name max_retries h
  = (inr b, t) ->
  retried 15000 (Z.to_nat max_retries) b t.
Proof.
  intros Hdry Hrun. unfold V2.delete_knowledge_base_with_timeout in Hrun.
  rewrite Hdry in Hrun.
  bind_inv Hrun u0 t0 H0 l0. bind_inv Hrun dss t1 H1 l1.
  bind_inv Hrun u2 t2 H2 l2. bind_inv Hrun u3 t3 H3 l3.
  assert (Hquiet : forall p : Event -> bool,
             (forall m, p (EvPrint m) = false) ->
             (forall c o, is_kb_delete (EvCall c o) = false ->
                          p (EvCall c o) = false) ->
             p (EvSleep 3000) = false -> p (EvSleep 5000) = false ->
             p (EvSleep 8000) = false ->
             count p (((t0 ++ t1) ++ t2) ++ t3) = 0).
  { intros p Hm Hc H3000 H5000 H8000. rewrite !count_app.
    rewrite (quiet_piece p _ _ _ _ (emits_print _ _ (Hm _)) H0).
    rewrite (quiet_piece p _ _ _ _
               (V2_list_data_sources_emits cl _
                  (fun m _ => Hm m) (fun m _ => Hm m)
                  (fun kb o => Hc (CListDataSourcesPage kb) o eq_refl)
                  self kb_id) H1).
    rewrite (quiet_piece p _ _ _ _
               (V2_children_emits cl self _ kb_id dss
                  (fun m _ => Hm m) (fun m _ => Hm m) H3000 H5000
                  (fun kb ds o => Hc (CGetDataSource kb ds) o eq_refl)
                  (fun kb ds n c pol o =>
                     Hc (CUpdateDataSource kb ds n c pol) o eq_refl)
                  (fun kb ds o => Hc (CDeleteDataSource kb ds) o eq_refl))
               H2).
    assert (Q3 : count p t3 = 0).
    { eapply quiet_piece; [|exact H3]. emits_auto. }
    now rewrite Q3. }
  rewrite !app_assoc. apply retried_after.
  - apply Hquiet; intros; try reflexivity. assumption.
  - apply Hquiet; intros; reflexivity.
  - rewrite range_attempts in Hrun. apply retried_range.
    + intros n a Hmax -> ->.
      eapply V2_kb_attempts_retried; [exact Hmax | exact Hrun].
    + intros Hz. rewrite Hz in Hrun. injection Hrun as <- <-.
      unfold retried. simpl. repeat split.
Qed.

(** The retry loop at the end of the deletion of a knowledge base, with the
    dry run off.  When the deletion returns [True] the provider accepted one
    deletion call, the last one, and the cleaner had waited once (ten
    seconds in the first cleaner, fifteen in the second) after each earlier
    call; when it returns [False] it made [max_retries] calls, all refused,
    and waited between them only, not after the last.  With [max_retries]
    zero or negative no deletion call is made for the knowledge base, though
    its data sources have been deleted. *)
Theorem knowledge_base_deletion_is_retried :
  forall (cl : Client) (kb_id name : string) (max_retries : Z) (h : History)
         (b : bool),
    (forall self,
       V1.dry_run self = false ->
       let run := V1.delete_knowledge_base cl self kb_id name max_retries h in
       fst run = inr b ->
       retried 10000 (Z.to_nat max_retries) b (snd run))
    /\ (forall self,
          V2.dry_run self = false ->
          let run :=
            V2.delete_knowledge_base_with_timeout cl self kb_id name
              max_retries h in
          fst run = inr b ->
          retried 15000 (Z.to_nat max_retries) b (snd run)).
Proof.
  intros cl kb_id name max_retries h b. split; intros self Hdry; cbv zeta.
  - destruct (V1.delete_knowledge_base cl self kb_id name max_retries h)
      as [r t] eqn:Hrun.
    cbn [fst snd]. intros ->.
    exact (V1_delete_knowledge_base_retried _ _ _ _ _ _ _ _ Hdry Hrun).
  - destruct (V2.delete_knowledge_base_with_timeout cl self kb_id name
                max_retries h) as [r t] eqn:Hrun.
    cbn [fst snd]. intros ->.
    exact (V2_delete_knowledge_base_retried _ _ _ _ _ _ _ _ Hdry Hrun).
Qed.

(** A knowledge base the provider refuses to delete: three calls, two
    waits. *)
Lemma kb_retry_witness :
  let cl := Mock.stubborn_kb "KB1" [Mock.kb1] [Mock.ds1] in
  let run := V1.delete_knowledge_base cl (V1.mkCleaner "us-east-1" false)
               "KB1" "first" 3 [] in
  fst run = inr false
  /\ retried 10000 3 false (snd run)
  /\ slept (snd run) = (5000 + 2 * 10000)%Z.
Proof.
  cbv zeta. split; [reflexivity|]. split; [|reflexivity].
  apply (proj1 (knowledge_base_deletion_is_retried
                  (Mock.stubborn_kb "KB1" [Mock.kb1] [Mock.ds1])
                  "KB1" "first" 3 [] false)
           (V1.mkCleaner "us-east-1" false));
    reflexivity.
Defined.

(* ================================================================= *)
(** ** What the summary reports *)

(** Rewrites with the fact that the piece of a run described by [H] has no
    event of class [p]; [tac] shows that the computation emits none. *)
Ltac quiet p H tac :=
  match type of H with
  | _ = (_, ?t) =>
      let Q := fresh "Q" in
      assert (Q : count p t = 0)
        by (eapply quiet_piece; [|exact H]; tac);
      rewrite Q; clear Q
  end.

(** The deletion phase of the first cleaner, by cases on its loop. *)
Lemma V1_delete_listed_run cl self kbs h :
  let n := List.length kbs in
  let loop :=
    V1.process_knowledge_bases cl self n (enumerate 1 kbs) 0 0
      (h ++ [EvPrint (MsgStarting n)]) in
  V1.delete_listed cl self kbs h
  = match fst loop with
    | inl e => (inl e, EvPrint (MsgStarting n) :: snd loop)
    | inr c =>
        (inr tt,
         EvPrint (MsgStarting n)
           :: snd loop
           ++ EvPrint MsgSummary
           :: EvPrint (MsgSuccessful (fst c))
           :: EvPrint (MsgFailed (snd c))
           :: (if (0 <? snd c)%Z
               then map EvPrint [MsgHint 0; MsgHint 1; MsgHint 2; MsgHint 3]
               else []))
    end.
Proof.
  cbv zeta. unfold V1.delete_listed. rewrite bind_print.
  destruct (V1.process_knowledge_bases cl self _ _ 0 0 _) as [[e|c] tl] eqn:E.
  - rewrite (bind_raised _ _ _ _ _ E). reflexivity.
  - rewrite (bind_returned _ _ _ _ _ E). rewrite !bind_print. cbn [fst snd].
    destruct (0 <? snd c)%Z; cbn [when]; [rewrite !bind_print|];
      reflexivity.
Qed.

(** The deletion phase of the second cleaner, by cases on the batch starts
    and on its loop. *)
Lemma V2_delete_listed_run cl self kbs batch_size h :
  let n := List.length kbs in
  let opening := [EvPrint (MsgStarting n); EvPrint (MsgBatches batch_size)] in
  V2.delete_listed cl self kbs batch_size h
  = match range_step 0 (Z.of_nat n) batch_size with
    | inl e => (inl e, opening)
    | inr starts =>
        let loop :=
          V2.process_batches cl self kbs batch_size starts 0 0
            (h ++ opening) in
        match fst loop with
        | inl e => (inl e, opening ++ snd loop)
        | inr c =>
            let report :=
              [EvPrint MsgSummary; EvPrint (MsgSuccessful (fst c));
               EvPrint (MsgFailed (snd c))] in
            if (fst c + snd c =? 0)%Z
            then (inl ZeroDivisionError, opening ++ snd loop ++ report)
            else
              (inr tt,
               opening ++ snd loop ++ report
                 ++ EvPrint (MsgSuccessRate (fst c) (fst c + snd c))
                 :: (if (0 <? snd c)%Z
                     then map EvPrint [MsgHint 0; MsgHint 1; MsgHint 2;
                                       MsgHint 3; MsgHint 4]
                     else []))
        end
    end.
Proof.
  cbv zeta. unfold V2.delete_listed. rewrite !bind_print. cbn [fst snd].
  rewrite <- app_assoc. cbn [app].
  destruct (range_step 0 (Z.of_nat (List.length kbs)) batch_size)
    as [e|starts].
  - reflexivity.
  - rewrite bind_ret_l.
    destruct (V2.process_batches cl self kbs batch_size starts 0 0 _)
      as [[e|c] tl] eqn:E.
    + rewrite (bind_raised _ _ _ _ _ E). reflexivity.
    + rewrite (bind_returned _ _ _ _ _ E). cbv zeta.
      rewrite !bind_print. cbn [fst snd].
      destruct (fst c + snd c =? 0)%Z.
      * unfold bind, raise. cbn [fst snd app]. reflexivity.
      * rewrite bind_print. cbn [fst snd].
        destruct (0 <? snd c)%Z; cbn [when]; [rewrite !bind_print|];
          cbn [fst snd app]; reflexivity.
Qed.

Lemma retried_accepted ms n b t :
  retried ms n b t -> count accepted_kb_delete t = if b then 1 else 0.
Proof. unfold retried. destruct b; tauto. Qed.

Lemma V1_process_accepted cl self total items :
  V1.dry_run self = false ->
  forall s f h c t,
    V1.process_knowledge_bases cl self total items s f h = (inr c, t) ->
    fst c = (s + Z.of_nat (count accepted_kb_delete t))%Z.
Proof.
  intros Hdry. induction items as [|[i kb] rest IH]; intros s f h c t Hrun.
  - injection Hrun as <- <-. simpl. lia.
  - simpl in Hrun. bind_inv Hrun u tp Hp l1. bind_inv Hrun deleted tk Hk l2.
    bind_inv Hrun u' tw Hw l3.
    apply IH in Hrun. rewrite Hrun, !count_app.
    apply (V1_delete_knowledge_base_retried _ _ _ _ _ _ _ _ Hdry) in Hk.
    rewrite (retried_accepted _ _ _ _ Hk).
    quiet accepted_kb_delete Hp emits_auto.
    quiet accepted_kb_delete Hw emits_auto.
    destruct deleted; lia.
Qed.

Lemma V2_process_batch_accepted cl self total batch_start batch_len items :
  V2.dry_run self = false ->
  forall s f h c t,
    V2.process_batch cl self total batch_start batch_len items s f h
    = (inr c, t) ->
    fst c = (s + Z.of_nat (count accepted_kb_delete t))%Z.
Proof.
  intros Hdry. induction items as [|[i kb] rest IH]; intros s f h c t Hrun.
  - injection Hrun as <- <-. simpl. lia.
  - simpl in Hrun. bind_inv Hrun u tp Hp l1. bind_inv Hrun deleted tk Hk l2.
    bind_inv Hrun u' tc Hc l3. bind_inv Hrun u'' tw Hw l4.
    apply IH in Hrun. rewrite Hrun, !count_app.
    apply (V2_delete_knowledge_base_retried _ _ _ _ _ _ _ _ Hdry) in Hk.
    rewrite (retried_accepted _ _ _ _ Hk).
    quiet accepted_kb_delete Hp emits_auto.
    quiet accepted_kb_delete Hc emits_auto.
    quiet accepted_kb_delete Hw emits_auto.
    destruct deleted; lia.
Qed.

Lemma V2_process_batches_accepted cl self kbs batch_size starts :
  V2.dry_run self = false ->
  forall s f h c t,
    V2.process_batches cl self kbs batch_size starts s f h = (inr c, t) ->
    fst c = (s + Z.of_nat (count accepted_kb_delete t))%Z.
Proof.
  intros Hdry. induction starts as [|b rest IH]; intros s f h c t Hrun.
  - injection Hrun as <- <-. simpl. lia.
  - simpl in Hrun. bind_inv Hrun u tp Hp l1. bind_inv Hrun counts tb Hb l2.
    bind_inv Hrun u' tw Hw l3.
    apply IH in Hrun. rewrite Hrun, !count_app.
    apply (V2_process_batch_accepted _ _ _ _ _ _ Hdry) in Hb. rewrite Hb.
    quiet accepted_kb_delete Hp emits_auto.
    quiet accepted_kb_delete Hw emits_auto.
    lia.
Qed.

(** A run of [delete_all_knowledge_bases] that returned and shows a line of
    the report went through enumeration and confirmation into the deletion
    phase. *)
Lemma report_reached_phase (cl : Client) (listing : M (list KbSummary))
    (phase : list KbSummary -> M unit) (dry_run confirm : bool)
    (h : History) (ev : Event) :
  avoids is_summary listing ->
  is_summary ev = true ->
  let run :=
    (knowledge_bases <- listing ;;
     if is_empty knowledge_bases then print MsgNoKbs
     else
       go_on <- confirm_deletion cl dry_run confirm
                  (List.length knowledge_bases) ;;
       if negb go_on then ret tt else phase knowledge_bases) h in
  fst run = inr tt ->
  In ev (snd run) ->
  exists kbs t1 tc t3,
    listing h = (inr kbs, t1)
    /\ confirm_deletion cl dry_run confirm (List.length kbs) (h ++ t1)
       = (inr true, tc)
    /\ phase kbs ((h ++ t1) ++ tc) = (inr tt, t3)
    /\ snd run = t1 ++ tc ++ t3
    /\ In ev t3.
Proof.
  intros Hlist Hev. cbv zeta.
  destruct (listing h) as [[e|kbs] t1] eqn:EL.
  { rewrite (bind_raised _ _ _ _ _ EL). discriminate. }
  pose proof (avoided _ _ _ _ _ ev Hlist EL Hev) as Hno1.
  destruct (delete_all_shape cl listing phase dry_run confirm h kbs t1 EL)
    as [[-> ->]|[Hne (rc & tc & EC & Hrun)]].
  - cbn [fst snd]. intros _ Hin. apply in_app_or in Hin as [Hin|[<-|[]]];
      [tauto | discriminate].
  - assert (Hc : avoids is_summary
                   (confirm_deletion cl dry_run confirm (List.length kbs))).
    { apply confirm_deletion_emits; by_kind. }
    pose proof (avoided _ _ _ _ _ ev Hc EC Hev) as Hno2.
    destruct rc as [e|[|]]; cbv iota in Hrun; rewrite Hrun; cbn [fst snd].
    + discriminate.
    + destruct (phase kbs ((h ++ t1) ++ tc)) as [r t3] eqn:EP.
      cbn [fst snd]. intros -> Hin.
      exists kbs, t1, tc, t3. repeat split; try reflexivity; try assumption.
      rewrite !in_app_iff in Hin. tauto.
    + intros _ Hin. rewrite in_app_iff in Hin. tauto.
Qed.

Lemma V1_process_avoids_summary cl self total items s f :
  avoids is_summary (V1.process_knowledge_bases cl self total items s f).
Proof.
  apply V1_process_knowledge_bases_emits; by_kind.
  intros. apply V1_delete_knowledge_base_emits; by_kind.
Qed.

Lemma V2_process_batches_avoid_summary cl self kbs batch_size starts s f :
  avoids is_summary (V2.process_batches cl self kbs batch_size starts s f).
Proof.
  apply V2_process_batches_emits; by_kind.
  intros. apply V2_delete_knowledge_base_emits; by_kind.
Qed.

Lemma count_map_print (p : Event -> bool) (ms : list Msg) :
  (forall m, p (EvPrint m) = false) -> count p (map EvPrint ms) = 0.
Proof.
  intros Hp. apply count_none, Forall_forall. intros ev Hin.
  apply in_map_iff in Hin. destruct Hin as (m & <- & _). apply Hp.
Qed.

(** The report of the first cleaner's deletion phase. *)
Lemma V1_delete_listed_report cl self kbs h t s :
  V1.delete_listed cl self kbs h = (inr tt, t) ->
  In (EvPrint (MsgSuccessful s)) t ->
  exists c tl,
    V1.process_knowledge_bases cl self (List.length kbs) (enumerate 1 kbs) 0 0
      (h ++ [EvPrint (MsgStarting (List.length kbs))]) = (inr c, tl)
    /\ s = fst c
    /\ forall p : Event -> bool,
         (forall m, p (EvPrint m) = false) -> count p t = count p tl.
Proof.
  intros Hrun Hin. pose proof (V1_delete_listed_run cl self kbs h) as E.
  cbv zeta in E. rewrite Hrun in E.
  destruct (V1.process_knowledge_bases cl self _ _ 0 0 _) as [[e|c] tl] eqn:EP;
    cbn [fst snd] in E; [discriminate|].
  injection E as ->. exists c, tl. split; [reflexivity|]. split.
  - pose proof (avoided _ _ _ _ _ (EvPrint (MsgSuccessful s))
                  (V1_process_avoids_summary _ _ _ _ _ _) EP eq_refl) as Hno.
    destruct Hin as [Hin|Hin]; [discriminate|].
    apply in_app_or in Hin as [Hin|Hin]; [tauto|].
    destruct Hin as [Hin|[Hin|[Hin|Hin]]]; try discriminate;
      [now injection Hin|].
    destruct (0 <? snd c)%Z; simpl in Hin; intuition discriminate.
  - intros p Hp. rewrite count_cons, count_app, !count_cons, !Hp.
    destruct (0 <? snd c)%Z; cbn [map];
      rewrite ?count_cons, ?count_nil, ?Hp; lia.
Qed.

(** The report of the second cleaner's deletion phase. *)
Lemma V2_delete_listed_report cl self kbs batch_size h t s :
  V2.delete_listed cl self kbs batch_size h = (inr tt, t) ->
  In (EvPrint (MsgSuccessful s)) t ->
  exists starts c tl,
    range_step 0 (Z.of_nat (List.length kbs)) batch_size = inr starts
    /\ V2.process_batches cl self kbs batch_size starts 0 0
         (h ++ [EvPrint (MsgStarting (List.length kbs));
                EvPrint (MsgBatches batch_size)]) = (inr c, tl)
    /\ s = fst c
    /\ forall p : Event -> bool,
         (forall m, p (EvPrint m) = false) -> count p t = count p tl.
Proof.
  intros Hrun Hin. pose proof (V2_delete_listed_run cl self kbs batch_size h)
    as E.
  cbv zeta in E. rewrite Hrun in E.
  destruct (range_step 0 (Z.of_nat (List.length kbs)) batch_size)
    as [e|starts]; [discriminate|].
  destruct (V2.process_batches cl self kbs batch_size starts 0 0 _)
    as [[e|c] tl] eqn:EP; cbn [fst snd] in E; [discriminate|].
  destruct (fst c + snd c =? 0)%Z; [discriminate|].
  injection E as ->. exists starts, c, tl.
  split; [reflexivity|]. split; [exact EP|]. split.
  - pose proof (avoided _ _ _ _ _ (EvPrint (MsgSuccessful s))
                  (V2_process_batches_avoid_summary _ _ _ _ _ _ _) EP eq_refl)
      as Hno.
    cbn [app] in Hin. destruct Hin as [Hin|[Hin|Hin]]; try discriminate.
    apply in_app_or in Hin as [Hin|Hin]; [tauto|].
    destruct Hin as [Hin|[Hin|[Hin|[Hin|Hin]]]]; try discriminate;
      [now injection Hin|].
    destruct (0 <? snd c)%Z; simpl in Hin; intuition discriminate.
  - intros p Hp. cbn [app].
    rewrite !count_cons, count_app, !count_cons, !Hp.
    destruct (0 <? snd c)%Z; cbn [map];
      rewrite ?count_cons, ?count_nil, ?Hp; lia.
Qed.

(** With the dry run off, the number of successes a completed run reports
    is the number of deletion calls for a knowledge base that the provider
    accepted during that run. *)
Theorem reported_successes_are_accepted_deletions :
  forall (cl : Client) (h : History) (s : Z),
    (forall self confirm,
       V1.dry_run self = false ->
       let run := V1.delete_all_knowledge_bases cl self confirm h in
       fst run = inr tt ->
       In (EvPrint (MsgSuccessful s)) (snd run) ->
       s = Z.of_nat (count accepted_kb_delete (snd run)))
    /\ (forall self confirm batch_size,
          V2.dry_run self = false ->
          let run :=
            V2.delete_all_knowledge_bases cl self confirm batch_size h in
          fst run = inr tt ->
          In (EvPrint (MsgSuccessful s)) (snd run) ->
          s = Z.of_nat (count accepted_kb_delete (snd run))).
Proof.
  intros cl h s. split.
  - intros self confirm Hdry. cbv zeta. intros Hret Hin.
    destruct (report_reached_phase cl (V1.list_knowledge_bases cl self)
                (V1.delete_listed cl self) (V1.dry_run self) confirm h
                (EvPrint (MsgSuccessful s))
                ltac:(apply V1_list_knowledge_bases_emits; by_kind)
                eq_refl Hret Hin)
      as (kbs & t1 & tc & t3 & EL & EC & EP & Ht & Hin3).
    unfold V1.delete_all_knowledge_bases. rewrite Ht.
    destruct (V1_delete_listed_report _ _ _ _ _ _ EP Hin3)
      as (c & tl & Eloop & -> & Hcount).
    rewrite !count_app, (Hcount accepted_kb_delete) by reflexivity.
    quiet accepted_kb_delete EL
      ltac:(apply V1_list_knowledge_bases_emits; by_kind).
    quiet accepted_kb_delete EC ltac:(apply confirm_deletion_emits; by_kind).
    rewrite (V1_process_accepted _ _ _ _ Hdry _ _ _ _ _ Eloop). lia.
  - intros self confirm batch_size Hdry. cbv zeta. intros Hret Hin.
    destruct (report_reached_phase cl (V2.list_knowledge_bases cl self)
                (fun kbs => V2.delete_listed cl self kbs batch_size)
                (V2.dry_run self) confirm h
                (EvPrint (MsgSuccessful s))
                ltac:(apply V2_list_knowledge_bases_emits; by_kind)
                eq_refl Hret Hin)
      as (kbs & t1 & tc & t3 & EL & EC & EP & Ht & Hin3).
    unfold V2.delete_all_knowledge_bases. rewrite Ht.
    destruct (V2_delete_listed_report _ _ _ _ _ _ _ EP Hin3)
      as (starts & c & tl & _ & Eloop & -> & Hcount).
    rewrite !count_app, (Hcount accepted_kb_delete) by reflexivity.
    quiet accepted_kb_delete EL
      ltac:(apply V2_list_knowledge_bases_emits; by_kind).
    quiet accepted_kb_delete EC ltac:(apply confirm_deletion_emits; by_kind).
    rewrite (V2_process_batches_accepted _ _ _ _ _ Hdry _ _ _ _ _ Eloop). lia.
Qed.

(** Two knowledge bases, the second of which cannot be deleted: one
    success reported, one deletion accepted. *)
Lemma reported_successes_witness :
  let cl := Mock.stubborn_kb "KB2" [Mock.kb1; Mock.kb2] [Mock.ds1] in
  let run := V2.delete_all_knowledge_bases cl
               (V2.mkCleaner "us-east-1" false false) true 5 [] in
  fst run = inr tt
  /\ In (EvPrint (MsgSuccessful 1)) (snd run)
  /\ 1%Z = Z.of_nat (count accepted_kb_delete (snd run)).
Proof.
  cbv zeta.
  assert (Hs : In (EvPrint (MsgSuccessful 1))
            (snd (V2.delete_all_knowledge_bases
                    (Mock.stubborn_kb "KB2" [Mock.kb1; Mock.kb2] [Mock.ds1])
                    (V2.mkCleaner "us-east-1" false false) true 5 []))).
  { vm_compute. tauto. }
  split; [reflexivity|]. split; [exact Hs|].
  apply (proj2 (reported_successes_are_accepted_deletions
                  (Mock.stubborn_kb "KB2" [Mock.kb1; Mock.kb2] [Mock.ds1])
                  [] 1%Z)
           (V2.mkCleaner "us-east-1" false false) true 5%Z);
    [reflexivity | reflexivity | exact Hs].
Defined.

(* ================================================================= *)
(** ** What a dry run does *)

Lemma bind_print_ret {A B} (m : Msg) (a : A) (k : A -> M B) h :
  (x <- (print m ;; ret a) ;; k x) h
  = (fst (k a (h ++ [EvPrint m])), EvPrint m :: snd (k a (h ++ [EvPrint m]))).
Proof.
  unfold bind, print, emit, ret. cbn [fst snd app].
  rewrite ?app_nil_r. now destruct (k a (h ++ [EvPrint m])).
Qed.

Lemma V1_dry_process cl self total :
  V1.dry_run self = true ->
  forall items s f h,
    V1.process_knowledge_bases cl self total items s f h
    = (inr ((s + Z.of_nat (List.length items))%Z, f),
       flat_map
         (fun ikb =>
            [EvPrint (MsgProcessing (fst ikb) total (kb_name (snd ikb)));
             EvPrint (MsgDryRun (kb_name (snd ikb))
                        (knowledgeBaseId (snd ikb)))])
         items).
Proof.
  intros Hdry. induction items as [|[i kb] rest IH]; intros s f h.
  - simpl. now rewrite Z.add_0_r.
  - cbn [V1.process_knowledge_bases]. rewrite bind_print.
    unfold V1.delete_knowledge_base. rewrite Hdry, bind_print_ret.
    cbn [negb andb when]. rewrite bind_ret_l, IH.
    cbn [fst snd flat_map app List.length].
    do 2 f_equal. f_equal. lia.
Qed.

Lemma V2_dry_process_batch cl self total batch_start batch_len :
  V2.dry_run self = true ->
  forall items k s f h,
    k + List.length items = batch_len ->
    exists t,
      V2.process_batch cl self total batch_start batch_len
        (enumerate (Z.of_nat k) items) s f h
      = (inr ((s + Z.of_nat (List.length items))%Z, f), t)
      /\ slept t = (2000 * Z.of_nat (List.length items - 1))%Z.
Proof.
  intros Hdry. induction items as [|kb rest IH]; intros k s f h Hlen.
  - exists []. simpl. now rewrite Z.add_0_r.
  - cbn [enumerate V2.process_batch]. rewrite bind_print.
    unfold V2.delete_knowledge_base_with_timeout.
    rewrite Hdry, bind_print_ret. cbn [when]. rewrite bind_print.
    cbn [List.length] in Hlen.
    replace (Z.of_nat k + 1)%Z with (Z.of_nat (S k)) by lia.
    destruct (Z.ltb_spec (Z.of_nat k) (Z.of_nat batch_len - 1)) as [Hlt|Hge].
    + cbn [when]. rewrite bind_sleep.
      match goal with
      | |- context [V2.process_batch _ _ _ _ _ _ ?s' ?f' ?hh] =>
          destruct (IH (S k) s' f' hh ltac:(lia)) as (t & E & Hs)
      end.
      rewrite E. cbn [fst snd]. eexists. split.
      * do 3 f_equal. cbn [List.length]. lia.
      * cbn [app slept]. rewrite Hs. cbn [List.length].
        destruct rest; cbn [List.length] in *; lia.
    + cbn [when]. rewrite bind_ret_l.
      match goal with
      | |- context [V2.process_batch _ _ _ _ _ _ ?s' ?f' ?hh] =>
          destruct (IH (S k) s' f' hh ltac:(lia)) as (t & E & Hs)
      end.
      rewrite E. cbn [fst snd]. eexists. split.
      * do 3 f_equal. cbn [List.length]. lia.
      * cbn [app slept]. rewrite Hs. cbn [List.length].
        destruct rest; cbn [List.length] in *; lia.
Qed.

Lemma bind_batch_delay {B} (b : bool) (k : M B) h :
  let d := if b then [EvPrint MsgWaitBatch; EvSleep 10000] else [] in
  (when b (print MsgWaitBatch ;; sleep 10000) ;; k) h
  = (fst (k (h ++ d)), d ++ snd (k (h ++ d))).
Proof.
  cbv zeta. destruct b; unfold when, bind, print, sleep, emit, ret;
    cbn [fst snd app]; rewrite <- ?app_assoc, ?app_nil_r; cbn [app];
    match goal with |- context [k ?hh] => destruct (k hh) end; reflexivity.
Qed.

Section DryBatches.

Variable cl : Client.
Variable self : V2.BedrockKBCleanerV2.
Hypothesis dry : V2.dry_run self = true.
Variable kbs : list KbSummary.
Variable batch_size : Z.
Hypothesis batch_size_pos : (0 < batch_size)%Z.

(** The batches of a dry run from [start] on: every knowledge base left
    counts as a success, and the run sleeps two seconds after each of them
    but the last of its batch, and ten seconds after each batch but the
    last. *)
Lemma V2_dry_batches :
  forall fuel start s f h,
    (0 <= start)%Z ->
    (Z.to_nat (Z.of_nat (List.length kbs) - start) <= fuel)%nat ->
    let left := Z.to_nat (Z.of_nat (List.length kbs) - start) in
    let groups := ceil_div left (Z.to_nat batch_size) in
    exists t,
      V2.process_batches cl self kbs batch_size
        (range_up fuel start (Z.of_nat (List.length kbs)) batch_size) s f h
      = (inr ((s + Z.of_nat left)%Z, f), t)
      /\ slept t
         = (2000 * (Z.of_nat left - Z.of_nat groups)
            + 10000 * Z.of_nat (groups - 1))%Z.
Proof.
  induction fuel as [|fuel IH]; intros start s f h H0 Hfuel; cbv zeta.
  - replace (Z.to_nat (Z.of_nat (List.length kbs) - start)) with 0%nat by lia.
    rewrite ceil_div_zero by lia. exists []. simpl. now rewrite Z.add_0_r.
  - cbn [range_up].
    destruct (Z.ltb_spec start (Z.of_nat (List.length kbs))) as [Hlt|Hge].
    + cbn [V2.process_batches]. cbv zeta. rewrite bind_print.
      fold (batch_at kbs batch_size start).
      pose proof (batch_at_length kbs batch_size batch_size_pos _ eq_refl
                    start H0 Hlt) as Hlen.
      match goal with
      | |- context [bind (V2.process_batch _ _ ?tot ?bs ?bl (enumerate 0 ?b)
                            ?s' ?f') _ ?hh] =>
          destruct (V2_dry_process_batch cl self tot bs bl dry b 0 s' f' hh
                      eq_refl) as (tb & Eb & Hsb)
      end.
      change (Z.of_nat 0) with 0%Z in Eb.
      rewrite (bind_returned _ _ _ _ _ Eb). cbn [fst snd].
      rewrite (ceil_div_step (Z.to_nat (Z.of_nat (List.length kbs) - start)))
        by lia.
      destruct (Z.ltb_spec
                  (Z.min (start + batch_size) (Z.of_nat (List.length kbs)))
                  (Z.of_nat (List.length kbs))) as [Hmore|Hlast].
      * rewrite bind_batch_delay. cbv zeta.
        match goal with
        | |- context [V2.process_batches _ _ _ _ _ ?s' ?f' ?hh] =>
            destruct (IH (start + batch_size)%Z s' f' hh ltac:(lia)
                        ltac:(lia)) as (t & E & Hs)
        end.
        cbv zeta in E, Hs. rewrite E. cbn [fst snd]. eexists. split.
        { do 3 f_equal. lia. }
        cbn [slept]. rewrite !slept_app. cbn [slept].
        rewrite Hsb, Hs.
        replace (Z.to_nat (Z.of_nat (List.length kbs) - (start + batch_size)))
          with (Z.to_nat (Z.of_nat (List.length kbs) - start)
                - Z.to_nat batch_size)%nat by lia.
        set (g := ceil_div _ _).
        assert (Hg : 1 <= g).
        { subst g. rewrite (ceil_div_step _ (Z.to_nat batch_size)) by lia.
          lia. }
        lia.
      * rewrite bind_batch_delay. cbv zeta.
        rewrite (range_up_exhausted kbs) by lia.
        cbn [V2.process_batches ret fst snd]. eexists. split.
        { do 3 f_equal. lia. }
        cbn [slept app]. rewrite !slept_app. cbn [slept]. rewrite Hsb.
        replace (Z.to_nat (Z.of_nat (List.length kbs) - start)
                 - Z.to_nat batch_size)%nat with 0%nat by lia.
        rewrite ceil_div_zero by lia. lia.
    + replace (Z.to_nat (Z.of_nat (List.length kbs) - start)) with 0%nat
        by lia.
      rewrite ceil_div_zero by lia. exists []. simpl. now rewrite Z.add_0_r.
Qed.

End DryBatches.

(** A run with the prompt skipped, once the listing has returned knowledge
    bases: the deletion phase follows at once. *)
Lemma delete_all_unprompted (cl : Client) (listing : M (list KbSummary))
    (phase : list KbSummary -> M unit) (dry_run confirm : bool)
    (h : History) (kbs : list KbSummary) :
  dry_run || confirm = true ->
  fst (listing h) = inr kbs ->
  kbs <> [] ->
  (knowledge_bases <- listing ;;
   if is_empty knowledge_bases then print MsgNoKbs
   else
     go_on <- confirm_deletion cl dry_run confirm
                (List.length knowledge_bases) ;;
     if negb go_on then ret tt else phase knowledge_bases) h
  = (fst (phase kbs (h ++ snd (listing h))),
     snd (listing h) ++ snd (phase kbs (h ++ snd (listing h)))).
Proof.
  intros Hskip Hkbs Hne.
  destruct (listing h) as [r t1] eqn:EL. cbn [fst snd] in *. subst r.
  destruct (delete_all_shape cl listing phase dry_run confirm h kbs t1 EL)
    as [[-> _]|[_ (rc & tc & EC & Hrun)]]; [now elim Hne|].
  rewrite (confirm_deletion_skipped _ _ _ _ _ Hskip) in EC.
  injection EC as <- <-. cbv iota in Hrun. rewrite Hrun.
  now rewrite app_nil_r.
Qed.

Lemma V2_dry_delete_listed cl self kbs batch_size h :
  V2.dry_run self = true ->
  (0 < batch_size)%Z ->
  kbs <> [] ->
  let n := Z.of_nat (List.length kbs) in
  let groups := ceil_div (List.length kbs) (Z.to_nat batch_size) in
  exists tl,
    V2.delete_listed cl self kbs batch_size h
    = (inr tt,
       [EvPrint (MsgStarting (List.length kbs));
        EvPrint (MsgBatches batch_size)]
         ++ tl
         ++ [EvPrint MsgSummary; EvPrint (MsgSuccessful n);
             EvPrint (MsgFailed 0); EvPrint (MsgSuccessRate n n)])
    /\ slept tl
       = (2000 * (n - Z.of_nat groups) + 10000 * Z.of_nat (groups - 1))%Z
    /\ count is_hint tl = 0.
Proof.
  intros Hdry Hpos Hne. cbv zeta.
  pose proof (V2_delete_listed_run cl self kbs batch_size h) as Hrun.
  cbv zeta in Hrun. unfold range_step in Hrun.
  destruct (Z.eqb_spec batch_size 0) as [?|_]; [lia|].
  destruct (Z.ltb_spec 0 batch_size) as [_|?]; [|lia].
  match type of Hrun with
  | context [V2.process_batches _ _ _ _ (range_up ?fuel _ _ _) _ _ ?hh] =>
      destruct (V2_dry_batches cl self Hdry kbs batch_size Hpos fuel 0 0 0 hh
                  ltac:(lia) ltac:(lia)) as (tl & E & Hs)
  end.
  cbv zeta in E, Hs. rewrite E in Hrun. cbn [fst snd] in Hrun.
  rewrite Z.sub_0_r, Nat2Z.id in E, Hs, Hrun.
  assert (Hn : List.length kbs <> 0) by (destruct kbs; [tauto | discriminate]).
  destruct (Z.eqb_spec (0 + Z.of_nat (List.length kbs) + 0) 0) as [?|_];
    [lia|].
  change (0 <? 0)%Z with false in Hrun.
  rewrite Z.add_0_l, Z.add_0_r in Hrun.
  exists tl. split; [|split].
  - rewrite Hrun. reflexivity.
  - exact Hs.
  - eapply quiet_piece; [|exact E].
    apply V2_process_batches_emits; by_kind.
    intros. apply V2_delete_knowledge_base_emits; by_kind.
Qed.

(** A dry run that finds knowledge bases reports every one of them as a
    success and none as a failure, and prints no hint.  The first cleaner
    prints, after the listing, the announcement, two lines for each
    knowledge base and the summary, and does nothing else; the second one
    (with a positive batch size) also reports a success rate of N out of
    N. *)
Theorem dry_run_reports_every_knowledge_base_as_deleted :
  forall (cl : Client) (confirm : bool) (h : History) (kbs : list KbSummary),
    kbs <> [] ->
    (forall self,
       V1.dry_run self = true ->
       fst (V1.list_knowledge_bases cl self h) = inr kbs ->
       V1.delete_all_knowledge_bases cl self confirm h
       = (inr tt,
          snd (V1.list_knowledge_bases cl self h)
            ++ EvPrint (MsgStarting (List.length kbs))
            :: dry_run_lines kbs
            ++ [EvPrint MsgSummary;
                EvPrint (MsgSuccessful (Z.of_nat (List.length kbs)));
                EvPrint (MsgFailed 0)]))
    /\ (forall self batch_size,
          V2.dry_run self = true ->
          (0 < batch_size)%Z ->
          fst (V2.list_knowledge_bases cl self h) = inr kbs ->
          let run :=
            V2.delete_all_knowledge_bases cl self confirm batch_size h in
          let n := Z.of_nat (List.length kbs) in
          fst run = inr tt
          /\ In (EvPrint (MsgSuccessful n)) (snd run)
          /\ In (EvPrint (MsgFailed 0)) (snd run)
          /\ In (EvPrint (MsgSuccessRate n n)) (snd run)
          /\ count is_hint (snd run) = 0).
Proof.
  intros cl confirm h kbs Hne. split.
  - intros self Hdry Hkbs. unfold V1.delete_all_knowledge_bases.
    rewrite (delete_all_unprompted cl _ (V1.delete_listed cl self) _ _ h kbs)
      by (rewrite ?Hdry; auto).
    rewrite V1_delete_listed_run. cbv zeta.
    rewrite (V1_dry_process _ _ _ Hdry). cbn [fst snd].
    rewrite enumerate_length. change (0 <? 0)%Z with false.
    rewrite Z.add_0_l. reflexivity.
  - intros self batch_size Hdry Hpos Hkbs. cbv zeta.
    unfold V2.delete_all_knowledge_bases.
    rewrite (delete_all_unprompted cl _
               (fun kbs => V2.delete_listed cl self kbs batch_size) _ _ h kbs)
      by (rewrite ?Hdry; auto).
    destruct (V2_dry_delete_listed cl self kbs batch_size
                (h ++ snd (V2.list_knowledge_bases cl self h)) Hdry Hpos Hne)
      as (tl & E & _ & Hhint).
    cbv zeta in E. rewrite E. cbn [fst snd].
    split; [reflexivity|].
    repeat split.
    + apply in_or_app. right. cbn [app]. do 2 right.
      apply in_or_app. right. simpl. tauto.
    + apply in_or_app. right. cbn [app]. do 2 right.
      apply in_or_app. right. simpl. tauto.
    + apply in_or_app. right. cbn [app]. do 2 right.
      apply in_or_app. right. simpl. tauto.
    + rewrite count_app. cbn [app]. rewrite !count_cons, count_app, Hhint.
      rewrite (quiet_piece is_hint (V2.list_knowledge_bases cl self) h
                 (fst (V2.list_knowledge_bases cl self h))
                 (snd (V2.list_knowledge_bases cl self h))).
      * reflexivity.
      * apply V2_list_knowledge_bases_emits; by_kind.
      * now destruct (V2.list_knowledge_bases cl self h).
Qed.

(** A dry run over two knowledge bases. *)
Lemma dry_run_report_witness :
  let cl := Mock.healthy [Mock.kb1; Mock.kb2] [Mock.ds1] "DELETE" in
  V1.delete_all_knowledge_bases cl (V1.mkCleaner "us-east-1" true) false []
  = (inr tt,
     snd (V1.list_knowledge_bases cl (V1.mkCleaner "us-east-1" true) [])
       ++ EvPrint (MsgStarting 2)
       :: dry_run_lines [Mock.kb1; Mock.kb2]
       ++ [EvPrint MsgSummary; EvPrint (MsgSuccessful 2);
           EvPrint (MsgFailed 0)]).
Proof.
  cbv zeta.
  apply (proj1 (dry_run_reports_every_knowledge_base_as_deleted
                  (Mock.healthy [Mock.kb1; Mock.kb2] [Mock.ds1] "DELETE")
                  false [] [Mock.kb1; Mock.kb2] ltac:(discriminate))
           (V1.mkCleaner "us-east-1" true));
    reflexivity.
Defined.

(** A dry run of the second cleaner is paced like a deletion: over N
    knowledge bases in G = ceil(N/B) batches it sleeps two seconds after each
    knowledge base but the last of its batch and ten seconds after each batch
    but the last, that is 2 (N - G) + 10 (G - 1) seconds after the listing. *)
Theorem dry_run_of_the_second_cleaner_still_waits :
  forall (cl : Client) self (confirm : bool) (batch_size : Z) (h : History)
         (kbs : list KbSummary),
    V2.dry_run self = true ->
    (0 < batch_size)%Z ->
    fst (V2.list_knowledge_bases cl self h) = inr kbs ->
    kbs <> [] ->
    let run := V2.delete_all_knowledge_bases cl self confirm batch_size h in
    let n := Z.of_nat (List.length kbs) in
    let groups := ceil_div (List.length kbs) (Z.to_nat batch_size) in
    slept (snd run)
    = (slept (snd (V2.list_knowledge_bases cl self h))
       + 2000 * (n - Z.of_nat groups) + 10000 * Z.of_nat (groups - 1))%Z.
Proof.
  intros cl self confirm batch_size h kbs Hdry Hpos Hkbs Hne. cbv zeta.
  unfold V2.delete_all_knowledge_bases.
  rewrite (delete_all_unprompted cl _
             (fun kbs => V2.delete_listed cl self kbs batch_size) _ _ h kbs)
    by (rewrite ?Hdry; auto).
  destruct (V2_dry_delete_listed cl self kbs batch_size
              (h ++ snd (V2.list_knowledge_bases cl self h)) Hdry Hpos Hne)
    as (tl & E & Hs & _).
  cbv zeta in E, Hs. rewrite E. cbn [fst snd].
  rewrite slept_app. cbn [app slept]. rewrite slept_app, Hs. cbn [slept].
  lia.
Qed.

(** Twelve knowledge bases in batches of five: 2 * 9 + 10 * 2 seconds. *)
Lemma dry_run_waits_witness :
  let cl := Mock.healthy (repeat Mock.kb1 12) [] "DELETE" in
  let run := V2.delete_all_knowledge_bases cl
               (V2.mkCleaner "us-east-1" true false) false 5 [] in
  slept (snd run) = 38000%Z /\ count is_call (snd run) = 1.
Proof.
  cbv zeta. split; [|reflexivity].
  apply (dry_run_of_the_second_cleaner_still_waits
           (Mock.healthy (repeat Mock.kb1 12) [] "DELETE")
           (V2.mkCleaner "us-east-1" true false) false 5 []
           (repeat Mock.kb1 12));
    [reflexivity | reflexivity | reflexivity | discriminate].
Defined.

(* ================================================================= *)
(** ** Runs that complete *)

Section Returns.

Lemma returns_ret {A} (a : A) : returns (ret a).
Proof. intros h. now exists a. Qed.

Lemma returns_emit (ev : Event) : returns (emit ev).
Proof. intros h. now exists tt. Qed.

Lemma returns_bind {A B} (m : M A) (f : A -> M B) :
  returns m -> (forall a, returns (f a)) -> returns (bind m f).
Proof.
  intros Hm Hf h. destruct (Hm h) as (a & Ea).
  destruct (m h) as [r t] eqn:E. cbn [fst] in Ea. subst r.
  rewrite (bind_returned _ _ _ _ _ E). cbn [fst]. apply Hf.
Qed.

Lemma returns_when (b : bool) (m : M unit) : returns m -> returns (when b m).
Proof. intros Hm. destruct b; [exact Hm | apply returns_ret]. Qed.

Lemma returns_for_each {A} (xs : list A) (body : A -> M unit) :
  (forall x, returns (body x)) -> returns (for_each xs body).
Proof.
  intros Hb. induction xs as [|x xs IH]; simpl; [apply returns_ret|].
  apply returns_bind; auto.
Qed.

Lemma returns_raises_only {A} (ok : exn -> bool) (m : M A) :
  returns m -> raises_only ok m.
Proof. intros Hm h e He. destruct (Hm h) as (a & Ea). congruence. Qed.

Lemma raises_only_bind {A B} (ok : exn -> bool) (m : M A) (f : A -> M B) :
  raises_only ok m -> (forall a, raises_only ok (f a)) ->
  raises_only ok (bind m f).
Proof.
  intros Hm Hf h e. destruct (m h) as [[e'|a] t] eqn:E.
  - rewrite (bind_raised _ _ _ _ _ E). cbn [fst]. intros [= <-].
    apply (Hm h). now rewrite E.
  - rewrite (bind_returned _ _ _ _ _ E). cbn [fst]. apply Hf.
Qed.

Lemma raises_only_call {A} (ok : exn -> bool) (c : Call)
    (answer : History -> exn + A) :
  (forall h e, answer h = inl e -> ok e = true) ->
  raises_only ok (call c answer).
Proof. intros Ha h e. cbn [call fst]. apply Ha. Qed.

Lemma raises_only_paginate {A} (ok : exn -> bool) (c : Call)
    (stream : History -> Pages A) :
  (forall h e, snd (stream h) = Some e -> ok e = true) ->
  raises_only ok (paginate c stream (fun _ => ret tt)).
Proof.
  intros Hs h e. rewrite paginate_plain. cbn [fst].
  destruct (snd (stream h)) as [e'|] eqn:E; [|discriminate].
  intros [= <-]. now apply (Hs h).
Qed.

Lemma returns_catch {A} (ok : exn -> bool) (m : M A) (handler : exn -> M A) :
  raises_only ok m ->
  (forall e, ok e = true -> returns (handler e)) ->
  returns (catch m handler).
Proof.
  intros Hm Hh h. destruct (m h) as [[e|a] t] eqn:E.
  - rewrite (catch_raised _ _ _ _ _ E). cbn [fst].
    apply Hh, (Hm h). now rewrite E.
  - rewrite (catch_returned _ _ _ _ _ E). now exists a.
Qed.

Lemma returns_try_call {A B} (c : Call) (answer : History -> exn + A)
    (k : exn + A -> M B) :
  (forall h, returns (k (answer h))) ->
  returns (r <- try_ (call c answer) ;; k r).
Proof. intros Hk h. rewrite bind_try_call. cbn [fst]. apply Hk. Qed.

Lemma returns_try_debug_call {A B} self (message : string) (c : Call)
    (answer : History -> exn + A) (k : exn + A -> M B) :
  (forall h, returns (k (answer h))) ->
  returns (r <- try_ (V2.debug_print self message ;; call c answer) ;; k r).
Proof.
  intros Hk h. rewrite bind_try_debug_call. cbv zeta. cbn [fst]. apply Hk.
Qed.

End Returns.

Create HintDb returns.

#[local] Hint Resolve returns_ret returns_emit returns_bind returns_when
  returns_for_each : returns.

#[local] Hint Extern 1 (returns (print _)) => apply returns_emit : returns.
#[local] Hint Extern 1 (returns (sleep _)) => apply returns_emit : returns.
#[local] Hint Extern 3 (returns (if ?b then _ else _)) => destruct b : returns.

Lemma handled_v1_inv (e : exn) :
  handled_v1 e = true -> exists ce, e = ClientError ce.
Proof. destruct e; try discriminate. now eexists. Qed.

Lemma handled_v2_inv (e : exn) :
  handled_v2 e = true -> (exists ce, e = ClientError ce) \/ e = TimeoutError.
Proof. destruct e; try discriminate; [left; now eexists | now right]. Qed.

Section Tame.

Variable cl : Client.

(** *** First cleaner *)

Section First.

Hypothesis Htame : tame handled_v1 cl.

Lemma V1_list_data_sources_returns kb_id :
  returns (V1.list_data_sources cl kb_id).
Proof.
  unfold V1.list_data_sources.
  apply (returns_catch handled_v1).
  - apply raises_only_paginate. intros h e.
    apply (tame_list_data_sources _ _ Htame).
  - intros e He. destruct (handled_v1_inv e He) as (ce & ->).
    auto with returns.
Qed.

Lemma V1_update_policy_returns kb_id ds_id :
  returns (V1.update_data_source_deletion_policy cl kb_id ds_id).
Proof.
  unfold V1.update_data_source_deletion_policy.
  apply (returns_catch handled_v1).
  - apply raises_only_bind.
    + apply raises_only_call. intros h e.
      apply (tame_get_data_source _ _ Htame).
    + intros d. apply raises_only_bind.
      * apply raises_only_call. intros h e.
        apply (tame_update_data_source _ _ Htame).
      * intros _. apply returns_raises_only. auto with returns.
  - intros e He. destruct (handled_v1_inv e He) as (ce & ->).
    auto with returns.
Qed.

Lemma V1_ds_attempts_return kb_id ds_id max_retries attempts :
  returns (V1.delete_data_source_attempts cl kb_id ds_id max_retries attempts).
Proof.
  induction attempts as [|attempt rest IH];
    cbn [V1.delete_data_source_attempts].
  - apply returns_ret.
  - apply returns_try_call. intros h.
    destruct (cl_delete_data_source cl kb_id ds_id h) as [e|[]] eqn:E.
    + apply (tame_delete_data_source _ _ Htame) in E.
      destruct (handled_v1_inv e E) as (ce & ->).
      pose proof (V1_update_policy_returns kb_id ds_id).
      destruct (_ && _); auto 10 with returns.
    + auto with returns.
Qed.

Lemma V1_kb_attempts_return kb_id name max_retries attempts :
  returns
    (V1.delete_knowledge_base_attempts cl kb_id name max_retries attempts).
Proof.
  induction attempts as [|attempt rest IH];
    cbn [V1.delete_knowledge_base_attempts].
  - apply returns_ret.
  - apply returns_try_call. intros h.
    destruct (cl_delete_knowledge_base cl kb_id h) as [e|[]] eqn:E.
    + apply (tame_delete_knowledge_base _ _ Htame) in E.
      destruct (handled_v1_inv e E) as (ce & ->).
      destruct (_ <? _)%Z; auto 10 with returns.
    + auto with returns.
Qed.

Lemma V1_delete_knowledge_base_returns self kb_id name max_retries :
  returns (V1.delete_knowledge_base cl self kb_id name max_retries).
Proof.
  unfold V1.delete_knowledge_base, V1.delete_data_source.
  pose proof V1_list_data_sources_returns.
  pose proof V1_ds_attempts_return.
  pose proof V1_kb_attempts_return.
  destruct (V1.dry_run self); auto 20 with returns.
Qed.

End First.

(** *** Second cleaner *)

Section Second.

Hypothesis Htame : tame handled_v2 cl.
Variable self : V2.BedrockKBCleanerV2.

Lemma V2_debug_print_returns message : returns (V2.debug_print self message).
Proof. unfold V2.debug_print. auto with returns. Qed.

Lemma V2_list_data_sources_returns kb_id :
  returns (V2.list_data_sources_with_timeout cl self kb_id).
Proof.
  unfold V2.list_data_sources_with_timeout.
  apply (returns_catch handled_v2).
  - apply raises_only_bind;
      [apply returns_raises_only, V2_debug_print_returns|].
    intros _. apply raises_only_bind.
    + apply raises_only_paginate. intros h e.
      apply (tame_list_data_sources _ _ Htame).
    + intros dss. apply returns_raises_only.
      pose proof V2_debug_print_returns. auto with returns.
  - intros e He. destruct (handled_v2_inv e He) as [(ce & ->)| ->];
      auto with returns.
Qed.

Lemma V2_update_policy_returns kb_id ds_id :
  returns (V2.update_data_source_deletion_policy_with_timeout cl self kb_id
             ds_id).
Proof.
  unfold V2.update_data_source_deletion_policy_with_timeout.
  apply (returns_catch handled_v2).
  - apply raises_only_bind;
      [apply returns_raises_only, V2_debug_print_returns|].
    intros _. apply raises_only_bind.
    + apply raises_only_call. intros h e.
      apply (tame_get_data_source _ _ Htame).
    + intros d. apply raises_only_bind.
      * apply raises_only_call. intros h e.
        apply (tame_update_data_source _ _ Htame).
      * intros _. apply returns_raises_only. auto with returns.
  - intros e He. destruct (handled_v2_inv e He) as [(ce & ->)| ->];
      auto with returns.
Qed.

Lemma V2_ds_attempts_return kb_id ds_id max_retries attempts :
  returns (V2.delete_data_source_attempts cl self kb_id ds_id max_retries
             attempts).
Proof.
  induction attempts as [|attempt rest IH];
    cbn [V2.delete_data_source_attempts].
  - apply returns_ret.
  - apply returns_try_debug_call. intros h.
    destruct (cl_delete_data_source cl kb_id ds_id h) as [e|[]] eqn:E.
    + apply (tame_delete_data_source _ _ Htame) in E.
      pose proof (V2_update_policy_returns kb_id ds_id).
      destruct (handled_v2_inv e E) as [(ce & ->)| ->].
      * cbv zeta. destruct (_ && _); auto 10 with returns.
      * destruct (_ <? _)%Z; auto 10 with returns.
    + auto with returns.
Qed.

Lemma V2_kb_attempts_return kb_id name max_retries attempts :
  returns (V2.delete_knowledge_base_attempts cl self kb_id name max_retries
             attempts).
Proof.
  induction attempts as [|attempt rest IH];
    cbn [V2.delete_knowledge_base_attempts].
  - apply returns_ret.
  - apply returns_try_debug_call. intros h.
    destruct (cl_delete_knowledge_base cl kb_id h) as [e|[]] eqn:E.
    + apply (tame_delete_knowledge_base _ _ Htame) in E.
      destruct (handled_v2_inv e E) as [(ce & ->)| ->]; cbv zeta;
        destruct (_ <? _)%Z; auto 10 with returns.
    + auto with returns.
Qed.

Lemma V2_delete_knowledge_base_returns kb_id name max_retries :
  returns (V2.delete_knowledge_base_with_timeout cl self kb_id name
             max_retries).
Proof.
  unfold V2.delete_knowledge_base_with_timeout,
    V2.delete_data_source_with_timeout.
  pose proof V2_list_data_sources_returns.
  pose proof V2_ds_attempts_return.
  pose proof V2_kb_attempts_return.
  destruct (V2.dry_run self); auto 20 with returns.
Qed.

End Second.

End Tame.

(** *** The loops *)

Lemma V1_process_item_lines cl self total items :
  forall s f h c t,
    V1.process_knowledge_bases cl self total items s f h = (inr c, t) ->
    count is_item_line t = List.length items.
Proof.
  induction items as [|[i kb] rest IH]; intros s f h c t Hrun.
  - now injection Hrun as <- <-.
  - simpl in Hrun. bind_inv Hrun u tp Hp l1. bind_inv Hrun deleted tk Hk l2.
    bind_inv Hrun u' tw Hw l3.
    apply IH in Hrun. apply print_run in Hp as [_ ->].
    rewrite !count_app, Hrun.
    quiet is_item_line Hk ltac:(apply V1_delete_knowledge_base_emits; by_kind).
    quiet is_item_line Hw emits_auto.
    reflexivity.
Qed.

Lemma V2_process_batch_item_lines cl self total batch_start batch_len items :
  forall s f h c t,
    V2.process_batch cl self total batch_start batch_len items s f h
    = (inr c, t) ->
    count is_item_line t = List.length items.
Proof.
  induction items as [|[i kb] rest IH]; intros s f h c t Hrun.
  - now injection Hrun as <- <-.
  - simpl in Hrun. bind_inv Hrun u tp Hp l1. bind_inv Hrun deleted tk Hk l2.
    bind_inv Hrun u' tc Hc l3. bind_inv Hrun u'' tw Hw l4.
    apply IH in Hrun. apply print_run in Hp as [_ ->].
    rewrite !count_app, Hrun.
    quiet is_item_line Hk ltac:(apply V2_delete_knowledge_base_emits; by_kind).
    quiet is_item_line Hc emits_auto.
    quiet is_item_line Hw emits_auto.
    reflexivity.
Qed.

Lemma V2_process_batches_item_lines cl self kbs batch_size starts :
  forall s f h c t,
    V2.process_batches cl self kbs batch_size starts s f h = (inr c, t) ->
    count is_item_line t
    = List.length (List.concat (map (batch_at kbs batch_size) starts)).
Proof.
  induction starts as [|b rest IH]; intros s f h c t Hrun.
  - now injection Hrun as <- <-.
  - simpl in Hrun. bind_inv Hrun u tp Hp l1. bind_inv Hrun counts tb Hb l2.
    bind_inv Hrun u' tw Hw l3.
    apply IH in Hrun. apply print_run in Hp as [_ ->].
    apply V2_process_batch_item_lines in Hb. rewrite enumerate_length in Hb.
    change (slice kbs b _) with (batch_at kbs batch_size b) in Hb.
    rewrite !count_app, Hrun, Hb.
    quiet is_item_line Hw emits_auto.
    cbn [map List.concat]. rewrite length_app. reflexivity.
Qed.

Lemma V1_process_returns cl self total :
  tame handled_v1 cl ->
  forall items s f,
    returns (V1.process_knowledge_bases cl self total items s f).
Proof.
  intros Htame. pose proof (V1_delete_knowledge_base_returns cl Htame self).
  induction items as [|[i kb] rest IH]; intros s f;
    cbn [V1.process_knowledge_bases]; auto 10 with returns.
Qed.

Lemma V2_process_batch_returns cl self total batch_start batch_len :
  tame handled_v2 cl ->
  forall items s f,
    returns (V2.process_batch cl self total batch_start batch_len items s f).
Proof.
  intros Htame. pose proof (V2_delete_knowledge_base_returns cl Htame self).
  induction items as [|[i kb] rest IH]; intros s f;
    cbn [V2.process_batch]; auto 10 with returns.
Qed.

Lemma V2_process_batches_return cl self kbs batch_size :
  tame handled_v2 cl ->
  forall starts s f,
    returns (V2.process_batches cl self kbs batch_size starts s f).
Proof.
  intros Htame. pose proof (V2_process_batch_returns cl self) as Hb.
  induction starts as [|b rest IH]; intros s f;
    cbn [V2.process_batches]; cbv zeta; auto 10 with returns.
Qed.

(** The deletion phase of the first cleaner on a tame provider. *)
Lemma V1_delete_listed_completes cl self kbs h :
  tame handled_v1 cl ->
  let run := V1.delete_listed cl self kbs h in
  fst run = inr tt /\ count is_item_line (snd run) = List.length kbs.
Proof.
  intros Htame. cbv zeta. rewrite V1_delete_listed_run. cbv zeta.
  destruct (V1_process_returns cl self (List.length kbs) Htame
              (enumerate 1 kbs) 0%Z 0%Z
              (h ++ [EvPrint (MsgStarting (List.length kbs))])) as (c & Ec).
  destruct (V1.process_knowledge_bases cl self _ _ 0 0 _) as [r tl] eqn:E.
  cbn [fst] in Ec. subst r. cbn [fst snd]. split; [reflexivity|].
  apply V1_process_item_lines in E. rewrite enumerate_length in E.
  rewrite count_cons, count_app, !count_cons, E. cbn [is_item_line].
  destruct (0 <? snd c)%Z; cbn [map];
    rewrite ?count_cons, ?count_nil; cbn [is_item_line]; lia.
Qed.

(** The deletion phase of the second cleaner on a tame provider. *)
Lemma V2_delete_listed_completes cl self kbs batch_size h :
  tame handled_v2 cl ->
  (0 < batch_size)%Z ->
  kbs <> [] ->
  let run := V2.delete_listed cl self kbs batch_size h in
  fst run = inr tt /\ count is_item_line (snd run) = List.length kbs.
Proof.
  intros Htame Hpos Hne. cbv zeta. rewrite V2_delete_listed_run. cbv zeta.
  destruct (batches_partition kbs batch_size Hpos _ eq_refl)
    as (starts & Es & Hcat).
  rewrite Es.
  destruct (V2_process_batches_return cl self kbs batch_size Htame starts
              0%Z 0%Z
              (h ++ [EvPrint (MsgStarting (List.length kbs));
                     EvPrint (MsgBatches batch_size)])) as (c & Ec).
  destruct (V2.process_batches cl self kbs batch_size starts 0 0 _)
    as [r tl] eqn:E.
  cbn [fst] in Ec. subst r. cbn [fst snd].
  pose proof (V2_process_batches_counts _ _ _ _ _ _ _ _ _ _ E) as Hsum.
  pose proof (V2_process_batches_item_lines _ _ _ _ _ _ _ _ _ _ E) as Hlines.
  rewrite Hcat in Hsum, Hlines.
  assert (Hn : List.length kbs <> 0) by (destruct kbs; [tauto | discriminate]).
  destruct (Z.eqb_spec (fst c + snd c) 0) as [?|_]; [lia|].
  cbn [fst snd]. split; [reflexivity|].
  cbn [app]. rewrite !count_cons, count_app, !count_cons, Hlines.
  cbn [is_item_line].
  destruct (0 <? snd c)%Z; cbn [map];
    rewrite ?count_cons, ?count_nil; cbn [is_item_line]; lia.
Qed.


Lemma unwilling_is_tame stubborn kbs dss :
  tame handled_v2 (Scenario.unwilling stubborn kbs dss).
Proof.
  constructor; cbn; intros; try discriminate.
  - now injection H as <-.
  - destruct (String.eqb kb stubborn); [now injection H as <- | discriminate].
Qed.


(* ================================================================= *)
(** ** Flags of the command line *)

(** With [--list-regions] the first cleaner prints the header and its seven
    regions and returns: whatever the other flags are, it creates no client,
    so that neither credentials nor the provider matter, and it exits with
    status 0. *)
Theorem listing_the_regions_needs_no_client :
  forall (cl : Client) (args : V1.Args) (h : History),
    V1.arg_list_regions args = true ->
    V1.main cl args h
    = (inr tt,
       EvPrint MsgRegionsHeader
         :: map (fun region => EvPrint (MsgRegion region)) V1.regions)
    /\ List.length V1.regions = 7
    /\ exit_status (fst (V1.main cl args h)) = 0%Z
    /\ count is_call (snd (V1.main cl args h)) = 0.
Proof.
  intros cl args h Hlist.
  assert (E : V1.main cl args h
              = (inr tt,
                 EvPrint MsgRegionsHeader
                   :: map (fun region => EvPrint (MsgRegion region))
                        V1.regions)).
  { unfold V1.main. rewrite Hlist, bind_print, for_each_print. reflexivity. }
  rewrite E. repeat split.
Qed.

(** The regions are listed without credentials, even together with
    [--confirm]. *)
Lemma list_regions_witness :
  let run := V1.main Mock.no_credentials
               (V1.mkArgs "us-east-1" false true true) [] in
  fst run = inr tt /\ List.length (snd run) = 8.
Proof.
  cbv zeta.
  destruct (listing_the_regions_needs_no_client Mock.no_credentials
              (V1.mkArgs "us-east-1" false true true) [] eq_refl)
    as (E & _).
  rewrite E. split; reflexivity.
Defined.

Lemma V2_init_cleaner cl region dry_run debug h cleaner :
  fst (V2.__init__ cl region dry_run debug h) = inr cleaner ->
  cleaner = V2.mkCleaner region dry_run debug.
Proof.
  rewrite V2_init_run. cbv zeta.
  destruct (cl_create_client cl region h) as [e|[]]; [discriminate|].
  destruct (cl_test_list_knowledge_bases cl _) as [e|[]]; [discriminate|].
  now intros [= <-].
Qed.

Lemma V2_on_failure_exception args e h :
  is_Exception e = true ->
  V2.on_failure args e h
  = (inl (SystemExit 1),
     EvPrint (MsgUnexpected e)
       :: if V2.arg_debug args then [EvPrint MsgTraceback] else []).
Proof.
  intros He. destruct e; try discriminate He; unfold V2.on_failure;
    cbn [is_Exception]; rewrite bind_print;
    destruct (V2.arg_debug args); reflexivity.
Qed.

Lemma V2_init_avoids_per_resource cl region dry_run debug :
  avoids per_resource (V2.__init__ cl region dry_run debug).
Proof. unfold V2.__init__. emits_auto. Qed.

(** With a batch size of zero the second cleaner, once it has found
    knowledge bases and the prompt is skipped, fails on the range of the
    batches with a [ValueError], before any work on a knowledge base: [main]
    reports an unexpected error and exits with status 1. *)
Theorem zero_batch_size_aborts_before_any_deletion :
  forall (cl : Client) (args : V2.Args) (h : History) cleaner
         (kbs : list KbSummary),
    let built :=
      V2.__init__ cl (V2.arg_region args) (V2.arg_dry_run args)
        (V2.arg_debug args) (h ++ banner_v2 args) in
    V2.arg_batch_size args = 0%Z ->
    V2.arg_dry_run args || V2.arg_confirm args = true ->
    fst built = inr cleaner ->
    fst (V2.list_knowledge_bases cl cleaner
           ((h ++ banner_v2 args) ++ snd built))
    = inr kbs ->
    kbs <> [] ->
    let run := V2.main cl args h in
    fst run = inl (SystemExit 1)
    /\ exit_status (fst run) = 1%Z
    /\ In (EvPrint (MsgUnexpected ValueError)) (snd run)
    /\ count per_resource (snd run) = 0.
Proof.
  intros cl args h cleaner kbs. cbv zeta. intros Hzero Hskip Hbuilt Hkbs Hne.
  pose proof (V2_init_cleaner _ _ _ _ _ _ Hbuilt) as Hcl.
  assert (Hdry : V2.dry_run cleaner = V2.arg_dry_run args) by now subst.
  rewrite V2_main_run. cbv zeta. rewrite Hbuilt, Hzero.
  set (h2 := (h ++ banner_v2 args) ++ _) in *.
  assert (Ebatch : V2.delete_all_knowledge_bases cl cleaner
                     (V2.arg_confirm args) 0 h2
                   = (inl ValueError,
                      snd (V2.list_knowledge_bases cl cleaner h2)
                        ++ [EvPrint (MsgStarting (List.length kbs));
                            EvPrint (MsgBatches 0)])).
  { unfold V2.delete_all_knowledge_bases.
    rewrite (delete_all_unprompted cl _
               (fun kbs => V2.delete_listed cl cleaner kbs 0) _ _ h2 kbs)
      by (rewrite ?Hdry; assumption).
    rewrite V2_delete_listed_run. reflexivity. }
  rewrite (catch_raised _ _ _ _ _ Ebatch).
  rewrite !V2_on_failure_exception by reflexivity. cbn [fst snd].
  split; [reflexivity|]. split; [reflexivity|]. split.
  - apply in_or_app. right. apply in_or_app. right.
    apply in_or_app. right. now left.
  - rewrite !count_app, !count_cons, count_nil. cbn [per_resource].
    assert (Q0 : count per_resource (banner_v2 args) = 0).
    { unfold banner_v2. now destruct (V2.arg_debug args). }
    assert (Q1 : count per_resource
                   (snd (V2.__init__ cl (V2.arg_region args)
                           (V2.arg_dry_run args) (V2.arg_debug args)
                           (h ++ banner_v2 args))) = 0).
    { apply count_none. apply V2_init_avoids_per_resource. }
    assert (Q2 : count per_resource
                   (snd (V2.list_knowledge_bases cl cleaner h2)) = 0).
    { apply count_none. apply V2_list_knowledge_bases_emits; by_kind. }
    rewrite Q0, Q1, Q2. now destruct (V2.arg_debug args).
Qed.

(** [--confirm --batch-size 0] on an account with one knowledge base. *)
Lemma zero_batch_size_witness :
  let cl := Mock.healthy [Mock.kb1] [Mock.ds1] "DELETE" in
  let run := V2.main cl (V2.mkArgs "us-east-1" false true false 0) [] in
  fst run = inl (SystemExit 1)
  /\ exit_status (fst run) = 1%Z
  /\ In (EvPrint (MsgUnexpected ValueError)) (snd run)
  /\ count per_resource (snd run) = 0.
Proof.
  cbv zeta.
  apply (zero_batch_size_aborts_before_any_deletion
           (Mock.healthy [Mock.kb1] [Mock.ds1] "DELETE")
           (V2.mkArgs "us-east-1" false true false 0) []
           (V2.mkCleaner "us-east-1" false false) [Mock.kb1]);
    [reflexivity | reflexivity | reflexivity | reflexivity | discriminate].
Defined.

(* ================================================================= *)
(** ** The tally of a run *)

Lemma reported_successes_app (t1 t2 : list Event) :
  reported_successes (t1 ++ t2)
  = reported_successes t1 ++ reported_successes t2.
Proof.
  induction t1 as [|ev t1 IH]; [reflexivity|].
  destruct ev as [| | |[]]; cbn [app reported_successes]; now rewrite ?IH.
Qed.

Lemma reported_failures_app (t1 t2 : list Event) :
  reported_failures (t1 ++ t2)
  = reported_failures t1 ++ reported_failures t2.
Proof.
  induction t1 as [|ev t1 IH]; [reflexivity|].
  destruct ev as [| | |[]]; cbn [app reported_failures]; now rewrite ?IH.
Qed.

(** A piece of a run without a line of the tally adds nothing to it. *)
Lemma tally_quiet (t : list Event) :
  count is_tally t = 0 ->
  count kb_succeeded t = 0 /\ count kb_gave_up t = 0
  /\ count is_item_line t = 0
  /\ reported_successes t = [] /\ reported_failures t = [].
Proof.
  intros H. apply count_none_inv in H.
  induction H as [|ev t Hev _ IH]; [repeat split|].
  destruct IH as (H1 & H2 & H3 & H4 & H5).
  unfold is_tally in Hev. rewrite !orb_false_iff in Hev.
  destruct Hev as (((Hs & Hg) & Hsum) & Hitem).
  rewrite !count_cons, Hs, Hg, Hitem, H1, H2, H3.
  repeat split.
  - destruct ev as [| | |[]]; cbn [reported_successes]; try exact H4.
    discriminate Hsum.
  - destruct ev as [| | |[]]; cbn [reported_failures]; try exact H5.
    discriminate Hsum.
Qed.

Lemma tally_piece {A} (m : M A) h r t :
  avoids is_tally m -> m h = (r, t) ->
  count kb_succeeded t = 0 /\ count kb_gave_up t = 0
  /\ count is_item_line t = 0
  /\ reported_successes t = [] /\ reported_failures t = [].
Proof. intros Hm E. apply tally_quiet. exact (quiet_piece _ _ _ _ _ Hm E). Qed.

(** *** The deletion of one knowledge base *)

Section Outcome.

Variable cl : Client.

Lemma V1_list_data_sources_tally kb_id :
  avoids is_tally (V1.list_data_sources cl kb_id).
Proof. unfold V1.list_data_sources. emits_auto. Qed.

Lemma V1_update_policy_tally kb_id ds_id :
  avoids is_tally (V1.update_data_source_deletion_policy cl kb_id ds_id).
Proof. unfold V1.update_data_source_deletion_policy. emits_auto. Qed.

Lemma V1_ds_attempts_tally kb_id ds_id max_retries attempts :
  avoids is_tally
    (V1.delete_data_source_attempts cl kb_id ds_id max_retries attempts).
Proof.
  induction attempts as [|attempt rest IH]; simpl.
  - apply emits_ret.
  - pose proof V1_update_policy_tally. emits_auto.
Qed.

Lemma V2_list_data_sources_tally self kb_id :
  avoids is_tally (V2.list_data_sources_with_timeout cl self kb_id).
Proof.
  unfold V2.list_data_sources_with_timeout, V2.debug_print. emits_auto.
Qed.

Lemma V2_update_policy_tally self kb_id ds_id :
  avoids is_tally
    (V2.update_data_source_deletion_policy_with_timeout cl self kb_id ds_id).
Proof.
  unfold V2.update_data_source_deletion_policy_with_timeout, V2.debug_print.
  emits_auto.
Qed.

Lemma V2_ds_attempts_tally self kb_id ds_id max_retries attempts :
  avoids is_tally
    (V2.delete_data_source_attempts cl self kb_id ds_id max_retries attempts).
Proof.
  induction attempts as [|attempt rest IH]; simpl.
  - apply emits_ret.
  - pose proof V2_update_policy_tally. unfold V2.debug_print. emits_auto.
Qed.

(** The retry loop that has an attempt left, the last one being attempt
    [max_retries - 1], reports the knowledge base once: as deleted when it
    returns [True], as given up when it returns [False]. *)
Lemma V1_kb_attempts_outcome kb_id name max_retries :
  forall n a h b t,
    Z.of_nat (a + S n) = max_retries ->
    V1.delete_knowledge_base_attempts cl kb_id name max_retries
      (attempts_from a (S n)) h = (inr b, t) ->
    count kb_succeeded t = (if b then 1 else 0)
    /\ count kb_gave_up t = (if b then 0 else 1).
Proof.
  induction n as [|n IH]; intros a h b t Hmax Hrun;
    rewrite attempts_from_succ in Hrun;
    cbn [V1.delete_knowledge_base_attempts] in Hrun;
    rewrite bind_try_call in Hrun;
    (destruct (cl_delete_knowledge_base cl kb_id h) as [e|[]];
     cbn [outcome_of] in Hrun;
     [ destruct e as [ce| | | | | | |]; try discriminate Hrun;
       destruct (Z.ltb_spec (Z.of_nat a) (max_retries - 1)) as [Hlt|Hge]
     | rewrite bind_print in Hrun; injection Hrun as <- <-;
       rewrite !count_cons, !count_nil; cbn [kb_succeeded kb_gave_up];
       split; reflexivity ]).
  - lia.
  - rewrite !bind_print in Hrun. injection Hrun as <- <-.
    rewrite !count_cons, !count_nil. cbn [kb_succeeded kb_gave_up].
    split; reflexivity.
  - rewrite !bind_print, bind_sleep in Hrun. cbn [fst snd] in Hrun.
    match type of Hrun with
    | context [V1.delete_knowledge_base_attempts ?c ?k ?nm ?m ?l ?hh] =>
        destruct (V1.delete_knowledge_base_attempts c k nm m l hh)
          as [r t'] eqn:E
    end.
    cbn [fst snd] in Hrun. injection Hrun as -> <-.
    apply IH in E; [|lia].
    rewrite !count_cons. cbn [kb_succeeded kb_gave_up]. exact E.
  - lia.
Qed.

Lemma V2_kb_attempts_outcome self kb_id name max_retries :
  forall n a h b t,
    Z.of_nat (a + S n) = max_retries ->
    V2.delete_knowledge_base_attempts cl self kb_id name max_retries
      (attempts_from a (S n)) h = (inr b, t) ->
    count kb_succeeded t = (if b then 1 else 0)
    /\ count kb_gave_up t = (if b then 0 else 1).
Proof.
  assert (Hdbg : forall p : Event -> bool,
             (forall message, p (EvPrint (MsgDebug message)) = false) ->
             count p (if V2.debug self
                      then [EvPrint (MsgDebug "Attempting to delete KB")]
                      else []) = 0).
  { intros p Hp. destruct (V2.debug self); [|reflexivity].
    rewrite count_cons, Hp. reflexivity. }
  induction n as [|n IH]; intros a h b t Hmax Hrun;
    rewrite attempts_from_succ in Hrun;
    cbn [V2.delete_knowledge_base_attempts] in Hrun;
    rewrite bind_try_debug_call in Hrun; cbv zeta in Hrun;
    (destruct (cl_delete_knowledge_base cl kb_id _) as [e|[]];
     cbn [outcome_of] in Hrun;
     [ destruct e as [ce| | | | | | |]; try discriminate Hrun;
       destruct (Z.ltb_spec (Z.of_nat a) (max_retries - 1)) as [Hlt|Hge];
       try lia
     | rewrite bind_print in Hrun; injection Hrun as <- <-;
       rewrite !count_app, !count_cons, !count_nil;
       rewrite !Hdbg by reflexivity; cbn [kb_succeeded kb_gave_up];
       split; reflexivity ]);
    try (rewrite ?bind_print in Hrun; injection Hrun as <- <-;
         rewrite !count_app, !count_cons, !count_nil;
         rewrite !Hdbg by reflexivity; cbn [kb_succeeded kb_gave_up];
         split; reflexivity);
    (rewrite ?bind_print, bind_sleep in Hrun; cbn [fst snd] in Hrun;
     match type of Hrun with
     | context [V2.delete_knowledge_base_attempts ?c ?s ?k ?nm ?m ?l ?hh] =>
         destruct (V2.delete_knowledge_base_attempts c s k nm m l hh)
           as [r t'] eqn:E
     end;
     cbn [fst snd] in Hrun; injection Hrun as -> <-;
     apply IH in E; [|lia];
     rewrite !count_app, !count_cons, !count_nil;
     rewrite !Hdbg by reflexivity; cbn [kb_succeeded kb_gave_up];
     rewrite ?Nat.add_0_l; exact E).
Qed.

End Outcome.

Lemma summary_quiet (t : list Event) :
  count is_summary t = 0 ->
  reported_successes t = [] /\ reported_failures t = [].
Proof.
  intros H. apply count_none_inv in H.
  induction H as [|ev t Hev _ IH]; [split; reflexivity|].
  destruct ev as [| | |[]]; cbn [reported_successes reported_failures];
    try exact IH; discriminate Hev.
Qed.

(** Adds to the context that the piece of a run described by [H] has no
    line of the tally; [tac] shows that the computation prints none. *)
Ltac no_tally H tac :=
  match type of H with
  | ?m ?h = (_, ?t) =>
      let Q := fresh "Q" in
      assert (Q : count is_tally t = 0)
        by (eapply quiet_piece; [|exact H]; tac);
      apply tally_quiet in Q;
      let Q1 := fresh "Qs" in
      let Q2 := fresh "Qg" in
      let Q3 := fresh "Qi" in
      let Q4 := fresh "Qrs" in
      let Q5 := fresh "Qrf" in
      destruct Q as (Q1 & Q2 & Q3 & Q4 & Q5)
  end.

(** The deletion of a knowledge base, as the loops call it, reports the
    knowledge base once, as its result says. *)
Lemma V1_delete_knowledge_base_outcome cl self kb_id name h b t :
  V1.delete_knowledge_base cl self kb_id name 3 h = (inr b, t) ->
  count kb_succeeded t = (if b then 1 else 0)
  /\ count kb_gave_up t = (if b then 0 else 1).
Proof.
  unfold V1.delete_knowledge_base. destruct (V1.dry_run self).
  - rewrite bind_print. intros [= <- <-]. split; reflexivity.
  - intros Hrun.
    bind_inv Hrun u0 t0 H0 l0. bind_inv Hrun dss t1 H1 l1.
    bind_inv Hrun u2 t2 H2 l2. bind_inv Hrun u3 t3 H3 l3.
    no_tally H0 emits_auto.
    no_tally H1 ltac:(apply V1_list_data_sources_tally).
    no_tally H2 ltac:(pose proof (V1_ds_attempts_tally cl);
                      unfold V1.delete_data_source; emits_auto).
    no_tally H3 emits_auto.
    rewrite range_attempts in Hrun. change (Z.to_nat 3) with 3 in Hrun.
    apply (V1_kb_attempts_outcome cl kb_id name 3 2 0) in Hrun;
      [|reflexivity].
    rewrite !count_app. lia.
Qed.

Lemma V2_delete_knowledge_base_outcome cl self kb_id name h b t :
  V2.delete_knowledge_base_with_timeout cl self kb_id name 3 h = (inr b, t) ->
  count kb_succeeded t = (if b then 1 else 0)
  /\ count kb_gave_up t = (if b then 0 else 1).
Proof.
  unfold V2.delete_knowledge_base_with_timeout. destruct (V2.dry_run self).
  - rewrite bind_print. intros [= <- <-]. split; reflexivity.
  - intros Hrun.
    bind_inv Hrun u0 t0 H0 l0. bind_inv Hrun dss t1 H1 l1.
    bind_inv Hrun u2 t2 H2 l2. bind_inv Hrun u3 t3 H3 l3.
    no_tally H0 emits_auto.
    no_tally H1 ltac:(apply V2_list_data_sources_tally).
    no_tally H2 ltac:(pose proof (V2_ds_attempts_tally cl self);
                      unfold V2.delete_data_source_with_timeout; emits_auto).
    no_tally H3 emits_auto.
    rewrite range_attempts in Hrun. change (Z.to_nat 3) with 3 in Hrun.
    apply (V2_kb_attempts_outcome cl self kb_id name 3 2 0) in Hrun;
      [|reflexivity].
    rewrite !count_app. lia.
Qed.

(** *** The loops *)

Lemma V1_process_outcomes cl self total items :
  forall s f h c t,
    V1.process_knowledge_bases cl self total items s f h = (inr c, t) ->
    fst c = (s + Z.of_nat (count kb_succeeded t))%Z
    /\ snd c = (f + Z.of_nat (count kb_gave_up t))%Z.
Proof.
  induction items as [|[i kb] rest IH]; intros s f h c t Hrun.
  - injection Hrun as <- <-. simpl. lia.
  - simpl in Hrun. bind_inv Hrun u tp Hp l1. bind_inv Hrun deleted tk Hk l2.
    bind_inv Hrun u' tw Hw l3.
    apply IH in Hrun. destruct Hrun as [-> ->].
    apply V1_delete_knowledge_base_outcome in Hk. destruct Hk as [Hs Hg].
    no_tally Hw emits_auto.
    apply print_run in Hp as [_ ->].
    rewrite !count_app, !count_cons, !count_nil.
    cbn [kb_succeeded kb_gave_up]. destruct deleted; lia.
Qed.

Lemma V2_process_batch_outcomes cl self total batch_start batch_len items :
  forall s f h c t,
    V2.process_batch cl self total batch_start batch_len items s f h
    = (inr c, t) ->
    fst c = (s + Z.of_nat (count kb_succeeded t))%Z
    /\ snd c = (f + Z.of_nat (count kb_gave_up t))%Z.
Proof.
  induction items as [|[i kb] rest IH]; intros s f h c t Hrun.
  - injection Hrun as <- <-. simpl. lia.
  - simpl in Hrun. bind_inv Hrun u tp Hp l1. bind_inv Hrun deleted tk Hk l2.
    bind_inv Hrun u' tc Hc l3. bind_inv Hrun u'' tw Hw l4.
    apply IH in Hrun. destruct Hrun as [-> ->].
    apply V2_delete_knowledge_base_outcome in Hk. destruct Hk as [Hs Hg].
    assert (Hmarks : count kb_succeeded tc = 0 /\ count kb_gave_up tc = 0).
    { destruct deleted; cbn [when] in Hc.
      - apply print_run in Hc as [_ ->]. split; reflexivity.
      - injection Hc as _ <-. split; reflexivity. }
    destruct Hmarks as [Hcs Hcg].
    no_tally Hw emits_auto.
    apply print_run in Hp as [_ ->].
    rewrite !count_app, !count_cons, !count_nil.
    cbn [kb_succeeded kb_gave_up]. destruct deleted; lia.
Qed.

Lemma V2_process_batches_outcomes cl self kbs batch_size starts :
  forall s f h c t,
    V2.process_batches cl self kbs batch_size starts s f h = (inr c, t) ->
    fst c = (s + Z.of_nat (count kb_succeeded t))%Z
    /\ snd c = (f + Z.of_nat (count kb_gave_up t))%Z.
Proof.
  induction starts as [|b rest IH]; intros s f h c t Hrun.
  - injection Hrun as <- <-. simpl. lia.
  - simpl in Hrun. bind_inv Hrun u tp Hp l1. bind_inv Hrun counts tb Hb l2.
    bind_inv Hrun u' tw Hw l3.
    apply IH in Hrun. destruct Hrun as [-> ->].
    apply V2_process_batch_outcomes in Hb. destruct Hb as [-> ->].
    no_tally Hw emits_auto.
    apply print_run in Hp as [_ ->].
    rewrite !count_app, !count_cons, !count_nil.
    cbn [kb_succeeded kb_gave_up]. lia.
Qed.

Lemma counted_after (kbs : list KbSummary) (t0 t : list Event) :
  count is_tally t0 = 0 -> counted kbs t -> counted kbs (t0 ++ t).
Proof.
  intros H0 (Hi & Hsum & Hs & Hf).
  apply tally_quiet in H0. destruct H0 as (Q1 & Q2 & Q3 & Q4 & Q5).
  unfold counted.
  rewrite !count_app, reported_successes_app, reported_failures_app,
    Q1, Q2, Q3, Q4, Q5.
  cbn [app Nat.add]. repeat split; assumption.
Qed.

(** The deletion phase of the first cleaner. *)
Lemma V1_delete_listed_counted cl self kbs h t :
  V1.delete_listed cl self kbs h = (inr tt, t) -> counted kbs t.
Proof.
  intros Hrun. pose proof (V1_delete_listed_run cl self kbs h) as E.
  cbv zeta in E. rewrite Hrun in E.
  destruct (V1.process_knowledge_bases cl self _ _ 0 0 _) as [[e|c] tl] eqn:EP;
    cbn [fst snd] in E; [discriminate|].
  injection E as ->.
  pose proof (V1_process_outcomes _ _ _ _ _ _ _ _ _ EP) as [Hs Hg].
  pose proof (V1_process_counts _ _ _ _ _ _ _ _ _ EP) as Hsum.
  pose proof (V1_process_item_lines _ _ _ _ _ _ _ _ _ EP) as Hlines.
  rewrite enumerate_length in Hsum, Hlines.
  pose proof (quiet_piece _ _ _ _ _
                (V1_process_avoids_summary cl self _ _ _ _) EP) as Hquiet.
  apply summary_quiet in Hquiet. destruct Hquiet as [Hrs Hrf].
  assert (Hhints :
            count is_tally
              (if (0 <? snd c)%Z
               then [EvPrint (MsgHint 0); EvPrint (MsgHint 1);
                     EvPrint (MsgHint 2); EvPrint (MsgHint 3)]
               else []) = 0)
    by (destruct (0 <? snd c)%Z; reflexivity).
  apply tally_quiet in Hhints.
  destruct Hhints as (Q1 & Q2 & Q3 & Q4 & Q5).
  unfold counted.
  rewrite !count_cons, !count_app, !count_cons, Q1, Q2, Q3.
  cbn [kb_succeeded kb_gave_up is_item_line reported_successes
         reported_failures].
  rewrite reported_successes_app, reported_failures_app, Hrs, Hrf.
  cbn [app reported_successes reported_failures]. rewrite Q4, Q5.
  repeat split; try lia.
  - f_equal. lia.
  - f_equal. lia.
Qed.

(** The deletion phase of the second cleaner. *)
Lemma V2_delete_listed_counted cl self kbs batch_size h t :
  V2.delete_listed cl self kbs batch_size h = (inr tt, t) -> counted kbs t.
Proof.
  intros Hrun.
  destruct (V2_delete_listed_counts _ _ _ _ _ _ Hrun)
    as (_ & _ & Hpos & Hne & _).
  pose proof (V2_delete_listed_run cl self kbs batch_size h) as E.
  cbv zeta in E. rewrite Hrun in E.
  destruct (batches_partition kbs batch_size Hpos _ eq_refl)
    as (starts & Es & Hcat).
  rewrite Es in E.
  destruct (V2.process_batches cl self kbs batch_size starts 0 0 _)
    as [[e|c] tl] eqn:EP; cbn [fst snd] in E; [discriminate|].
  destruct (fst c + snd c =? 0)%Z; [discriminate|].
  injection E as ->.
  pose proof (V2_process_batches_outcomes _ _ _ _ _ _ _ _ _ _ EP) as [Hs Hg].
  pose proof (V2_process_batches_counts _ _ _ _ _ _ _ _ _ _ EP) as Hsum.
  pose proof (V2_process_batches_item_lines _ _ _ _ _ _ _ _ _ _ EP) as Hlines.
  rewrite Hcat in Hsum, Hlines.
  pose proof (quiet_piece _ _ _ _ _
                (V2_process_batches_avoid_summary cl self _ _ _ _ _) EP)
    as Hquiet.
  apply summary_quiet in Hquiet. destruct Hquiet as [Hrs Hrf].
  assert (Hhints :
            count is_tally
              (if (0 <? snd c)%Z
               then [EvPrint (MsgHint 0); EvPrint (MsgHint 1);
                     EvPrint (MsgHint 2); EvPrint (MsgHint 3);
                     EvPrint (MsgHint 4)]
               else []) = 0)
    by (destruct (0 <? snd c)%Z; reflexivity).
  apply tally_quiet in Hhints.
  destruct Hhints as (Q1 & Q2 & Q3 & Q4 & Q5).
  unfold counted. cbn [app].
  rewrite !count_cons, !count_app, !count_cons, Q1, Q2, Q3.
  cbn [kb_succeeded kb_gave_up is_item_line reported_successes
         reported_failures].
  rewrite reported_successes_app, reported_failures_app, Hrs, Hrf.
  cbn [app reported_successes reported_failures]. rewrite Q4, Q5.
  repeat split; try lia.
  - f_equal. lia.
  - f_equal. lia.
Qed.

(** *** The run *)

(** The shape both [delete_all_knowledge_bases] share, for a deletion phase
    that counts every knowledge base once. *)
Lemma counted_generic (cl : Client) (listing : M (list KbSummary))
    (phase : list KbSummary -> M unit) (dry_run confirm : bool)
    (h : History) (kbs : list KbSummary) :
  avoids is_tally listing ->
  avoids is_input listing ->
  (forall h' t, phase kbs h' = (inr tt, t) -> counted kbs t) ->
  fst (listing h) = inr kbs ->
  let run :=
    (knowledge_bases <- listing ;;
     if is_empty knowledge_bases then print MsgNoKbs
     else
       go_on <- confirm_deletion cl dry_run confirm
                  (List.length knowledge_bases) ;;
       if negb go_on then ret tt else phase knowledge_bases) h in
  fst run = inr tt ->
  kbs <> [] ->
  dry_run || confirm = true \/ In (EvInput (inr "DELETE")) (snd run) ->
  counted kbs (snd run).
Proof.
  intros Hquiet Hsilent Hphase Hkbs. cbv zeta.
  destruct (listing h) as [r t1] eqn:EL. cbn [fst] in Hkbs. subst r.
  destruct (delete_all_shape cl listing phase dry_run confirm h kbs t1 EL)
    as [[-> _]|[_ (rc & tc & EC & Hrun)]]; [intros _ Hne; now elim Hne|].
  destruct rc as [e|[|]]; cbv iota in Hrun; rewrite Hrun; cbn [fst snd].
  - discriminate.
  - destruct (phase kbs ((h ++ t1) ++ tc)) as [r t3] eqn:EP.
    cbn [fst snd]. intros -> _ _.
    apply counted_after; [exact (quiet_piece _ _ _ _ _ Hquiet EL)|].
    apply counted_after; [|exact (Hphase _ _ EP)].
    eapply quiet_piece; [|exact EC]. apply confirm_deletion_emits; by_kind.
  - intros _ _ [Hskip|Hin].
    + rewrite (confirm_deletion_skipped _ _ _ _ _ Hskip) in EC.
      discriminate.
    + destruct (dry_run || confirm) eqn:Eskip.
      { rewrite (confirm_deletion_skipped _ _ _ _ _ Eskip) in EC.
        discriminate. }
      apply orb_false_elim in Eskip. destruct Eskip as [-> ->].
      rewrite confirm_deletion_prompt in EC. cbv zeta in EC.
      apply in_app_or in Hin. destruct Hin as [Hin|Hin].
      { elim (avoided _ _ _ _ _ (EvInput (inr "DELETE")) Hsilent EL eq_refl
                Hin). }
      destruct (cl_input cl _) as [e|answer]; [discriminate|].
      destruct (String.eqb answer "DELETE") eqn:Eanswer; [discriminate|].
      injection EC as <-. cbn [app In] in Hin.
      destruct Hin as [Hin|[Hin|[Hin|[Hin|[]]]]]; try discriminate Hin.
      injection Hin as ->. discriminate Eanswer.
Qed.

(** C5. A completed run of [delete_all_knowledge_bases] that found the
    knowledge bases [kbs] and went on to delete them (the prompt was skipped
    with [--confirm] or [--dry-run], or answered with DELETE) counts every
    one of them once: it prints one "Processing" line for each; each is then
    reported as deleted (in a dry run: as to be deleted) or as given up; and
    the summary gives, once, the number of the former as successful and the
    number of the latter as failed, which add up to the number of the
    knowledge bases.  In any completed run, the success count and the
    failure count that are reported add up to that number.  This holds for
    both cleaners, whatever the provider answers. *)
Theorem summary_counts_add_up :
  forall (cl : Client) (h : History) (kbs : list KbSummary),
    (forall self confirm,
       let run := V1.delete_all_knowledge_bases cl self confirm h in
       fst (V1.list_knowledge_bases cl self h) = inr kbs ->
       fst run = inr tt ->
       (kbs <> [] ->
        V1.dry_run self || confirm = true
        \/ In (EvInput (inr "DELETE")) (snd run) ->
        counted kbs (snd run))
       /\ (forall s f,
             In (EvPrint (MsgSuccessful s)) (snd run) ->
             In (EvPrint (MsgFailed f)) (snd run) ->
             (s + f = Z.of_nat (List.length kbs))%Z))
    /\ (forall self confirm batch_size,
          let run :=
            V2.delete_all_knowledge_bases cl self confirm batch_size h in
          fst (V2.list_knowledge_bases cl self h) = inr kbs ->
          fst run = inr tt ->
          (kbs <> [] ->
           V2.dry_run self || confirm = true
           \/ In (EvInput (inr "DELETE")) (snd run) ->
           counted kbs (snd run))
          /\ (forall s f,
                In (EvPrint (MsgSuccessful s)) (snd run) ->
                In (EvPrint (MsgFailed f)) (snd run) ->
                (s + f = Z.of_nat (List.length kbs))%Z)).
Proof.
  intros cl h kbs. split.
  - intros self confirm. cbv zeta. intros Hkbs Hret. split.
    + revert Hret. unfold V1.delete_all_knowledge_bases.
      apply counted_generic.
      * apply V1_list_knowledge_bases_emits; by_kind.
      * apply V1_list_knowledge_bases_emits; by_kind.
      * intros h' t. apply V1_delete_listed_counted.
      * exact Hkbs.
    + intros s f. revert Hret. unfold V1.delete_all_knowledge_bases.
      apply summary_generic.
      * apply V1_list_knowledge_bases_emits; by_kind.
      * intros h' t. apply V1_delete_listed_summary.
      * exact Hkbs.
  - intros self confirm batch_size. cbv zeta. intros Hkbs Hret. split.
    + revert Hret. unfold V2.delete_all_knowledge_bases.
      apply (counted_generic cl (V2.list_knowledge_bases cl self)
               (fun kbs => V2.delete_listed cl self kbs batch_size)).
      * apply V2_list_knowledge_bases_emits; by_kind.
      * apply V2_list_knowledge_bases_emits; by_kind.
      * intros h' t. apply V2_delete_listed_counted.
      * exact Hkbs.
    + intros s f. revert Hret. unfold V2.delete_all_knowledge_bases.
      apply (summary_generic cl (V2.list_knowledge_bases cl self)
               (fun kbs => V2.delete_listed cl self kbs batch_size)).
      * apply V2_list_knowledge_bases_emits; by_kind.
      * intros h' t Hrun Hs Hf.
        destruct (V2_delete_listed_counts _ _ _ _ _ _ Hrun)
          as (counts & Hsum & _ & _ & _ & Hrep).
        destruct (Hrep s f Hs Hf) as [-> ->]. exact Hsum.
      * exact Hkbs.
Qed.

(** Two knowledge bases, the second of which cannot be deleted: the first
    cleaner, with DELETE typed at its prompt, and the second, with
    [--confirm], each report one success and one failure. *)
Lemma summary_counts_witness :
  let cl := Mock.stubborn_kb "KB2" [Mock.kb1; Mock.kb2] [Mock.ds1] in
  let run1 :=
    V1.delete_all_knowledge_bases cl (V1.mkCleaner "us-east-1" false) false []
  in
  let run2 :=
    V2.delete_all_knowledge_bases cl (V2.mkCleaner "us-east-1" false false)
      true 5 [] in
  (counted [Mock.kb1; Mock.kb2] (snd run1)
   /\ reported_successes (snd run1) = [1%Z]
   /\ reported_failures (snd run1) = [1%Z])
  /\ (counted [Mock.kb1; Mock.kb2] (snd run2)
      /\ reported_successes (snd run2) = [1%Z]
      /\ reported_failures (snd run2) = [1%Z]).
Proof.
  cbv zeta. split.
  - split; [|vm_compute; split; reflexivity].
    apply (proj1 (proj1 (summary_counts_add_up
                           (Mock.stubborn_kb "KB2" [Mock.kb1; Mock.kb2]
                              [Mock.ds1])
                           [] [Mock.kb1; Mock.kb2])
                    (V1.mkCleaner "us-east-1" false) false
                    eq_refl eq_refl)).
    + discriminate.
    + right. vm_compute. tauto.
  - split; [|vm_compute; split; reflexivity].
    apply (proj1 (proj2 (summary_counts_add_up
                           (Mock.stubborn_kb "KB2" [Mock.kb1; Mock.kb2]
                              [Mock.ds1])
                           [] [Mock.kb1; Mock.kb2])
                    (V2.mkCleaner "us-east-1" false false) true 5%Z
                    eq_refl eq_refl)).
    + discriminate.
    + left. reflexivity.
Defined.

(* ================================================================= *)
(** ** kb_test.py: the endpoint of a collection *)

Lemma string_app_assoc (a b c : string) :
  ((a ++ b) ++ c = a ++ (b ++ c))%string.
Proof. induction a as [|x a IH]; simpl; [reflexivity | now rewrite IH]. Qed.

Lemma split_not_nil (sep : ascii) (s : string) : split sep s <> [].
Proof.
  destruct s as [|c s]; simpl; [discriminate|].
  destruct (Ascii.eqb c sep); [discriminate|].
  destruct (split sep s); discriminate.
Qed.

Lemma split_length (sep : ascii) (s : string) :
  List.length (split sep s) = S (occurrences sep s).
Proof.
  induction s as [|c s IH]; simpl; [reflexivity|].
  destruct (Ascii.eqb c sep); simpl; [now rewrite IH|].
  destruct (split sep s) as [|part parts]; simpl in *;
    [discriminate | exact IH].
Qed.

Lemma split_no_sep (sep : ascii) (s : string) :
  occurs sep s = false -> split sep s = [s].
Proof.
  induction s as [|c s IH]; simpl; [reflexivity|].
  intros H. apply orb_false_elim in H as [Hc Hs].
  rewrite Hc, (IH Hs). reflexivity.
Qed.

Lemma split_app_sep (sep : ascii) (a b : string) :
  occurs sep a = false ->
  split sep (a ++ String sep b)%string = a :: split sep b.
Proof.
  induction a as [|c a IH]; simpl.
  - intros _. now rewrite Ascii.eqb_refl.
  - intros H. apply orb_false_elim in H as [Hc Ha].
    rewrite Hc, (IH Ha). reflexivity.
Qed.

(** The last piece of a split is the last piece of what follows any
    separator. *)
Lemma last_split_app_sep (sep : ascii) (a b d : string) :
  last (split sep (a ++ String sep b)%string) d = last (split sep b) d.
Proof.
  assert (H : exists part parts,
             split sep (a ++ String sep b)%string = part :: parts
             /\ parts <> [] /\ last parts d = last (split sep b) d).
  { induction a as [|c a (part & parts & E & Hne & Hl)]; simpl.
    - rewrite Ascii.eqb_refl. exists EmptyString, (split sep b).
      split; [reflexivity|]. split; [apply split_not_nil | reflexivity].
    - destruct (Ascii.eqb c sep).
      + exists EmptyString, (split sep (a ++ String sep b)%string).
        split; [reflexivity|]. split; [apply split_not_nil|].
        rewrite E. destruct parts; [tauto | exact Hl].
      + rewrite E. exists (String c part), parts. tauto. }
  destruct H as (part & parts & E & Hne & Hl). rewrite E.
  destruct parts; [tauto | exact Hl].
Qed.

(** The endpoint the script derives from the ARN of a collection.  For an
    ARN [arn:aws:aoss:REGION:ACCOUNT:collection/ID], with no colon in the
    region and no slash in the identifier, it is [ID.REGION.aoss.amazonaws.com];
    an ARN parses unless it has fewer than three colons, in which case
    [parts[3]] is out of range. *)
Theorem endpoint_of_a_collection_arn :
  (forall region account id : string,
     occurs ":" region = false ->
     occurs "/" id = false ->
     endpoint_of
       ("arn:aws:aoss:" ++ region ++ ":" ++ account ++ ":collection/"
          ++ id)%string
     = Some (region, (id ++ "." ++ region ++ ".aoss.amazonaws.com")%string))
  /\ (forall arn : string,
        endpoint_of arn = None <-> occurrences ":" arn < 3).
Proof.
  split.
  - intros region account id Hregion Hid.
    set (arn := ("arn:aws:aoss:" ++ region ++ ":" ++ account
                   ++ ":collection/" ++ id)%string).
    assert (Hparts : nth_error (split ":" arn) 3 = Some region).
    { replace arn
        with ("arn" ++ String ":" ("aws" ++ String ":" ("aoss" ++ String ":"
                (region ++ String ":" (account ++ ":collection/" ++ id)))))%string
        by reflexivity.
      rewrite !split_app_sep by (assumption || reflexivity). reflexivity. }
    assert (Hlast : last (split "/" arn) EmptyString = id).
    { replace arn
        with (("arn:aws:aoss:" ++ region ++ ":" ++ account ++ ":collection")
                ++ String "/" id)%string.
      - now rewrite last_split_app_sep, (split_no_sep _ _ Hid).
      - subst arn. now rewrite !string_app_assoc. }
    unfold endpoint_of. fold arn. now rewrite Hparts, Hlast.
  - intros arn. unfold endpoint_of.
    pose proof (split_length ":" arn) as Hlen.
    destruct (nth_error (split ":" arn) 3) as [region|] eqn:E.
    + split; [discriminate|]. intros Hlt.
      assert (Hsome : nth_error (split ":" arn) 3 <> None) by congruence.
      apply nth_error_Some in Hsome. lia.
    + split; [|reflexivity]. intros _.
      apply nth_error_None in E. lia.
Qed.

Lemma endpoint_witness :
  endpoint_of "arn:aws:aoss:us-east-1:406099943223:collection/abc123"
  = Some ("us-east-1", "abc123.us-east-1.aoss.amazonaws.com").
Proof.
  apply (proj1 endpoint_of_a_collection_arn "us-east-1" "406099943223"
           "abc123");
    reflexivity.
Defined.

(* ================================================================= *)
(** ** kb_test.py: facts about runs of the script *)

Section ScriptRuns.

Import Script.
#[local] Open Scope act_scope.

Lemma bind_val {A B} (m : Act A) (f : A -> Act B) log a t :
  m log = (Val a, t) ->
  bind m f log = (fst (f a (log ++ t)), t ++ snd (f a (log ++ t))).
Proof. unfold bind. intros ->. now destruct (f a (log ++ t)). Qed.

Lemma bind_exc {A B} (m : Act A) (f : A -> Act B) log e t :
  m log = (Exc e, t) -> bind m f log = (Exc e, t).
Proof. unfold bind. now intros ->. Qed.

Lemma bind_spin {A B} (m : Act A) (f : A -> Act B) log t :
  m log = (Spin, t) -> bind m f log = (Spin, t).
Proof. unfold bind. now intros ->. Qed.

Lemma bind_ret {A B} (a : A) (f : A -> Act B) log :
  bind (ret a) f log = f a log.
Proof. unfold bind, ret. rewrite app_nil_r. now destruct (f a log). Qed.

Lemma bind_said {B} (l : Line) (k : Act B) log :
  (print l ;; k) log
  = (fst (k (log ++ [Said l])), Said l :: snd (k (log ++ [Said l]))).
Proof. unfold bind, print, emit. now destruct (k (log ++ [Said l])). Qed.

Lemma bind_slept {B} (ms : Z) (k : Act B) log :
  (0 <= ms)%Z ->
  (sleep ms ;; k) log
  = (fst (k (log ++ [Slept ms])), Slept ms :: snd (k (log ++ [Slept ms]))).
Proof.
  intros Hms. unfold bind, sleep, emit.
  destruct (Z.ltb_spec ms 0) as [Hneg|_]; [lia|].
  now destruct (k (log ++ [Slept ms])).
Qed.

Lemma bind_slept_negative {B} (ms : Z) (k : Act B) log :
  (ms < 0)%Z -> (sleep ms ;; k) log = (Exc ValueError, []).
Proof.
  intros Hms. unfold bind, sleep, raise.
  destruct (Z.ltb_spec ms 0) as [_|Hpos]; [reflexivity|lia].
Qed.

Lemma bind_time {B} (k : Z -> Act B) log :
  (now <- time ;; k now) log = k (elapsed log) log.
Proof. unfold bind, time. rewrite app_nil_r. now destruct (k _ log). Qed.

Lemma bind_raise {A B} (e : exn) (f : A -> Act B) log :
  bind (raise e) f log = (Exc e, []).
Proof. reflexivity. Qed.

Lemma bind_assoc {A B C} (m : Act A) (f : A -> Act B) (g : B -> Act C) log :
  bind (bind m f) g log = bind m (fun a => bind (f a) g) log.
Proof.
  unfold bind. destruct (m log) as [[a|e|] t1]; try reflexivity.
  destruct (f a (log ++ t1)) as [[b|e|] t2]; try reflexivity.
  rewrite <- app_assoc. destruct (g b (log ++ t1 ++ t2)) as [r t3].
  now rewrite app_assoc.
Qed.

Lemma bind_call {A B} (w : World) (op : Op) (answer : Log -> exn + A)
    (k : A -> Act B) log :
  let ev := Did op (outcome_of (answer log)) (Z.max 0 (duration w op log)) in
  (x <- call w op answer ;; k x) log
  = match answer log with
    | inl e => (Exc e, [ev])
    | inr a => (fst (k a (log ++ [ev])), ev :: snd (k a (log ++ [ev])))
    end.
Proof.
  cbv zeta. unfold bind, call. destruct (answer log) as [e|a]; cbn [res_of].
  - reflexivity.
  - now destruct (k a _).
Qed.

Lemma call_run {A} (w : World) (op : Op) (answer : Log -> exn + A) log :
  call w op answer log
  = (res_of (answer log),
     [Did op (outcome_of (answer log)) (Z.max 0 (duration w op log))]).
Proof. reflexivity. Qed.

Lemma catch_val {A} (m : Act A) (handler : exn -> Act A) log a t :
  m log = (Val a, t) -> catch m handler log = (Val a, t).
Proof. unfold catch. now intros ->. Qed.

Lemma catch_spin {A} (m : Act A) (handler : exn -> Act A) log t :
  m log = (Spin, t) -> catch m handler log = (Spin, t).
Proof. unfold catch. now intros ->. Qed.

Lemma catch_exc {A} (m : Act A) (handler : exn -> Act A) log e t :
  m log = (Exc e, t) ->
  catch m handler log
  = (fst (handler e (log ++ t)), t ++ snd (handler e (log ++ t))).
Proof. unfold catch. intros ->. now destruct (handler e (log ++ t)). Qed.

Lemma elapsed_app (l1 l2 : Log) :
  elapsed (l1 ++ l2) = (elapsed l1 + elapsed l2)%Z.
Proof.
  induction l1 as [|ev l1 IH]; simpl; [reflexivity|].
  destruct ev; rewrite IH; lia.
Qed.

Lemma script_count_app (p : Ev -> bool) (t1 t2 : list Ev) :
  ScriptProps.count p (t1 ++ t2)
  = ScriptProps.count p t1 + ScriptProps.count p t2.
Proof. unfold ScriptProps.count. now rewrite filter_app, length_app. Qed.

Lemma script_slept_app (t1 t2 : list Ev) :
  ScriptProps.slept (t1 ++ t2)
  = (ScriptProps.slept t1 + ScriptProps.slept t2)%Z.
Proof.
  induction t1 as [|ev t1 IH]; simpl; [reflexivity|].
  destruct ev; rewrite ?IH; lia.
Qed.

Lemma script_count_cons (p : Ev -> bool) (ev : Ev) (t : list Ev) :
  ScriptProps.count p (ev :: t)
  = (if p ev then 1 else 0) + ScriptProps.count p t.
Proof. unfold ScriptProps.count. cbn [filter]. now destruct (p ev). Qed.

End ScriptRuns.

(* ================================================================= *)
(** ** kb_test.py: the bounded loops *)

Section AgentStatus.

Variable r : KbTest.Resource.
Variable expected_status : string.
Variable interval : Z.

Lemma agent_attempts_pending :
  forall attempts polls slept,
    (forall n, polls <= n < polls + List.length attempts ->
               pending_agent expected_status (KbTest.get_status r n) = true) ->
    KbTest.wait_for_agent_status_attempts r expected_status interval attempts
      polls slept
    = KbTest.mkRun (KbTest.Raise TimeoutError) (polls + List.length attempts)
        (slept + interval * Z.of_nat (List.length attempts)).
Proof.
  induction attempts as [|a rest IH]; intros polls slept Hpending.
  - simpl. f_equal; lia.
  - cbn [KbTest.wait_for_agent_status_attempts].
    pose proof (Hpending polls ltac:(cbn [List.length]; lia)) as H0.
    unfold pending_agent in H0.
    destruct (KbTest.get_status r polls) as [e|status].
    + apply andb_prop in H0 as [He Hu]. rewrite He.
      apply negb_true_iff in Hu. rewrite Hu.
      change (existsb (String.eqb "UNKNOWN") ["FAILED"; "DELETING"; "DELETED"])
        with false.
      cbv iota. rewrite IH.
      * cbn [List.length]. f_equal; lia.
      * intros n Hn. apply Hpending. cbn [List.length]. lia.
    + apply andb_prop in H0 as [Hs Ht].
      apply negb_true_iff in Hs. apply negb_true_iff in Ht.
      rewrite Hs, Ht. rewrite IH.
      * cbn [List.length]. f_equal; lia.
      * intros n Hn. apply Hpending. cbn [List.length]. lia.
Qed.

Lemma agent_attempts_reached :
  forall k attempts polls slept,
    k < List.length attempts ->
    (forall n, polls <= n < polls + k ->
               pending_agent expected_status (KbTest.get_status r n) = true) ->
    KbTest.get_status r (polls + k) = inr expected_status ->
    KbTest.wait_for_agent_status_attempts r expected_status interval attempts
      polls slept
    = KbTest.mkRun KbTest.Returned (S (polls + k))
        (slept + interval * Z.of_nat k).
Proof.
  induction k as [|k IH]; intros attempts polls slept Hlen Hpending Hk.
  - destruct attempts as [|a rest]; [cbn in Hlen; lia|].
    cbn [KbTest.wait_for_agent_status_attempts].
    rewrite Nat.add_0_r in Hk. rewrite Hk, String.eqb_refl.
    f_equal; lia.
  - destruct attempts as [|a rest]; [cbn in Hlen; lia|].
    cbn [KbTest.wait_for_agent_status_attempts].
    pose proof (Hpending polls ltac:(lia)) as H0.
    unfold pending_agent in H0.
    assert (Hrest : KbTest.wait_for_agent_status_attempts r expected_status
                      interval rest (S polls) (slept + interval)
                    = KbTest.mkRun KbTest.Returned (S (polls + S k))
                        (slept + interval * Z.of_nat (S k))).
    { rewrite (IH rest (S polls) (slept + interval)%Z).
      - f_equal; lia.
      - cbn [List.length] in Hlen. lia.
      - intros n Hn. apply Hpending. lia.
      - rewrite <- Hk. f_equal. lia. }
    destruct (KbTest.get_status r polls) as [e|status].
    + apply andb_prop in H0 as [He Hu]. rewrite He.
      apply negb_true_iff in Hu. rewrite Hu.
      change (existsb (String.eqb "UNKNOWN") ["FAILED"; "DELETING"; "DELETED"])
        with false.
      cbv iota. exact Hrest.
    + apply andb_prop in H0 as [Hs Ht].
      apply negb_true_iff in Hs. apply negb_true_iff in Ht.
      rewrite Hs, Ht. exact Hrest.
Qed.

End AgentStatus.

(** [wait_for_agent_status], for an interval that [time.sleep] accepts,
    polls at most [max_retries] times.  While the status is neither the
    expected one nor terminal, or the call fails, it sleeps [interval] and
    polls again; once the expected status shows, at poll number k, it
    returns, having slept k intervals; when no poll out of [max_retries]
    shows it, it raises [TimeoutError] after having slept [max_retries]
    intervals, the time its message states.  With [max_retries] zero or
    negative it raises at once, without a poll. *)
Theorem agent_status_wait_gives_up_after_max_retries :
  forall (r : KbTest.Resource) (expected_status : string)
         (max_retries interval : Z),
    (0 <= interval)%Z ->
    ((forall n, n < Z.to_nat max_retries ->
                pending_agent expected_status (KbTest.get_status r n) = true) ->
     KbTest.wait_for_agent_status r expected_status max_retries interval
     = KbTest.mkRun (KbTest.Raise TimeoutError) (Z.to_nat max_retries)
         (interval * Z.of_nat (Z.to_nat max_retries)))
    /\ (forall k,
          k < Z.to_nat max_retries ->
          (forall n, n < k ->
                     pending_agent expected_status (KbTest.get_status r n)
                     = true) ->
          KbTest.get_status r k = inr expected_status ->
          KbTest.wait_for_agent_status r expected_status max_retries interval
          = KbTest.mkRun KbTest.Returned (S k) (interval * Z.of_nat k)).
Proof.
  intros r expected_status max_retries interval _.
  assert (Hlen : List.length (range max_retries) = Z.to_nat max_retries).
  { unfold range. now rewrite length_map, length_seq. }
  unfold KbTest.wait_for_agent_status. split.
  - intros Hpending. rewrite agent_attempts_pending.
    + rewrite Hlen. f_equal.
    + intros n Hn. apply Hpending. lia.
  - intros k Hk Hpending Hreached.
    rewrite (agent_attempts_reached r expected_status interval k).
    + reflexivity.
    + lia.
    + intros n Hn. apply Hpending. lia.
    + exact Hreached.
Qed.

(** An agent that is PREPARED at the third poll; an agent that stays in
    CREATING. *)
Lemma agent_status_witness :
  KbTest.wait_for_agent_status (Mock.settles 2 "PREPARING" "PREPARED")
    "PREPARED" 60 5000
  = KbTest.mkRun KbTest.Returned 3 10000
  /\ KbTest.wait_for_agent_status (Mock.stuck "CREATING") "PREPARED" 60 5000
     = KbTest.mkRun (KbTest.Raise TimeoutError) 60 300000.
Proof.
  split.
  - apply (proj2 (agent_status_wait_gives_up_after_max_retries
                    (Mock.settles 2 "PREPARING" "PREPARED") "PREPARED" 60 5000
                    ltac:(lia))
             2).
    + cbn. lia.
    + intros n Hn. destruct n as [|[|n]]; [reflexivity | reflexivity | lia].
    + reflexivity.
  - apply (proj1 (agent_status_wait_gives_up_after_max_retries
                    (Mock.stuck "CREATING") "PREPARED" 60 5000 ltac:(lia))).
    intros n _. reflexivity.
Defined.

Section AliasReady.

Variable r : KbTest.Resource.
Variable timeout : Z.

Lemma alias_wait_invariant :
  forall fuel elapsed polls slept,
    (slept <= elapsed)%Z ->
    let run := KbTest.wait_for_alias_ready r fuel timeout elapsed polls slept in
    (slept <= KbTest.slept run <= Z.max slept (timeout + 5000))%Z
    /\ polls <= KbTest.polls run
    /\ (KbTest.slept run - slept
        = 5000 * (Z.of_nat (KbTest.polls run) - Z.of_nat polls
                  - (match KbTest.result run with
                     | KbTest.Running => 0
                     | _ => 1
                     end)))%Z.
Proof.
  induction fuel as [|fuel IH]; intros elapsed polls slept Hinv;
    cbn [KbTest.wait_for_alias_ready]; cbv zeta.
  - cbn [KbTest.slept KbTest.polls KbTest.result]. lia.
  - destruct (KbTest.get_status r polls) as [e|status];
      [cbn [KbTest.slept KbTest.polls KbTest.result]; lia|].
    destruct (existsb _ _);
      [cbn [KbTest.slept KbTest.polls KbTest.result]; lia|].
    destruct (String.eqb status "FAILED");
      [cbn [KbTest.slept KbTest.polls KbTest.result]; lia|].
    destruct (Z.ltb_spec timeout
                (elapsed + Z.max 0 (KbTest.latency r polls))) as [Hlt|Hge];
      [cbn [KbTest.slept KbTest.polls KbTest.result]; lia|].
    specialize (IH (elapsed + Z.max 0 (KbTest.latency r polls) + 5000)%Z
                  (S polls) (slept + 5000)%Z ltac:(lia)).
    cbv zeta in IH. destruct IH as (H1 & H2 & H3).
    repeat split; try lia.
Qed.

End AliasReady.

(** [wait_for_alias_ready] looks at the clock only after a poll: it polls at
    least once, also with a timeout that has run out before it starts, and
    then accepts an alias that is ready.  Between two polls it sleeps five
    seconds, so a wait that has ended after n polls has slept 5 (n - 1)
    seconds, and it never sleeps more than five seconds beyond its
    timeout. *)
Theorem alias_wait_polls_before_it_checks_the_clock :
  forall (r : KbTest.Resource) (fuel : nat) (timeout : Z),
    let run := KbTest.wait_for_alias_ready r (S fuel) timeout 0 0 0 in
    1 <= KbTest.polls run
    /\ (0 <= KbTest.slept run <= Z.max 0 (timeout + 5000))%Z
    /\ (KbTest.result run <> KbTest.Running ->
        KbTest.slept run = 5000 * (Z.of_nat (KbTest.polls run) - 1))%Z
    /\ (KbTest.get_status r 0 = inr "READY" ->
        run = KbTest.mkRun KbTest.Returned 1 0).
Proof.
  intros r fuel timeout run.
  pose proof (alias_wait_invariant r timeout (S fuel) 0 0 0 ltac:(lia)) as H.
  cbv zeta in H. fold run in H. destruct H as (H1 & H2 & H3).
  assert (Hpolls : 1 <= KbTest.polls run).
  { subst run. cbn [KbTest.wait_for_alias_ready]. cbv zeta.
    destruct (KbTest.get_status r 0) as [e|status]; [cbn; lia|].
    destruct (existsb _ _); [cbn; lia|].
    destruct (String.eqb status "FAILED"); [cbn; lia|].
    destruct (Z.ltb _ _); [cbn; lia|].
    pose proof (alias_wait_invariant r timeout fuel
                  (0 + Z.max 0 (KbTest.latency r 0) + 5000)%Z 1 (0 + 5000)%Z
                  ltac:(lia)) as H.
    cbv zeta in H. lia. }
  repeat split; try lia.
  - intros Hrun. destruct (KbTest.result run); try lia. now elim Hrun.
  - intros Hready. subst run. cbn [KbTest.wait_for_alias_ready]. cbv zeta.
    rewrite Hready. reflexivity.
Qed.

(* ================================================================= *)
(** ** kb_test.py: the waits without a limit *)

Section Waits.

Import Script ScriptProps.
#[local] Open Scope act_scope.

Variable w : World.

Lemma create_collection_loop_spins (name : string) :
  (forall l, exists collections,
      list_collections w l = inr collections
      /\ find (fun col =>
                 String.eqb (col_name col) name
                 && String.eqb (col_status col) "ACTIVE") collections
         = None) ->
  forall fuel log,
    let run := KbScript.create_collection_loop w fuel name log in
    fst run = Spin
    /\ count is_poll (snd run) = fuel
    /\ slept (snd run) = (10000 * Z.of_nat fuel)%Z.
Proof.
  intros Hpending. induction fuel as [|fuel IH]; intros log; cbv zeta.
  - cbn. repeat split.
  - cbn [KbScript.create_collection_loop]. rewrite bind_call. cbv zeta.
    destruct (Hpending log) as (collections & -> & ->).
    rewrite bind_said, bind_slept by lia. cbn [fst snd].
    match goal with
    | |- context [KbScript.create_collection_loop w fuel name ?l] =>
        destruct (IH l) as (H1 & H2 & H3)
    end.
    repeat split.
    + exact H1.
    + unfold count in *. cbn [filter is_poll List.length]. now rewrite H2.
    + cbn [slept]. rewrite H3. lia.
Qed.

Lemma start_ingestion_loop_spins (kb_id data_source_id job_id : string) :
  (forall l, exists job,
      get_ingestion_job w kb_id data_source_id job_id l = inr job
      /\ existsb (String.eqb (job_status job)) ["COMPLETE"; "FAILED"]
         = false) ->
  forall fuel log,
    let run :=
      KbScript.start_ingestion_loop w fuel kb_id data_source_id job_id log in
    fst run = Spin
    /\ count is_poll (snd run) = fuel
    /\ slept (snd run) = (10000 * Z.of_nat fuel)%Z.
Proof.
  intros Hpending. induction fuel as [|fuel IH]; intros log; cbv zeta.
  - cbn. repeat split.
  - cbn [KbScript.start_ingestion_loop]. rewrite bind_call. cbv zeta.
    destruct (Hpending log) as (job & -> & Hstate).
    rewrite bind_said. cbn [fst snd]. rewrite Hstate.
    rewrite bind_slept by lia. cbn [fst snd].
    match goal with
    | |- context [KbScript.start_ingestion_loop w fuel _ _ _ ?l] =>
        destruct (IH l) as (H1 & H2 & H3)
    end.
    repeat split.
    + exact H1.
    + unfold count in *. cbn [filter is_poll List.length]. now rewrite H2.
    + cbn [slept]. rewrite H3. lia.
Qed.

End Waits.

(** [create_collection] and [start_ingestion] wait without a limit.  While
    no collection of the name is listed as ACTIVE, whatever else its status
    is, [create_collection] has not left its loop after any number of
    rounds, one listing and ten seconds of sleep each; neither has
    [start_ingestion] while the status of the job is neither COMPLETE nor
    FAILED. *)
Theorem collection_and_ingestion_waits_have_no_limit :
  forall (w : Script.World) (fuel : nat) (log : Script.Log),
    (forall name,
        (forall l e, Script.aoss_create_collection w name l = inl e ->
                     Script.is_conflict e = true) ->
        (forall l, exists collections,
            Script.list_collections w l = inr collections
            /\ find (fun col =>
                       String.eqb (Script.col_name col) name
                       && String.eqb (Script.col_status col) "ACTIVE")
                 collections
               = None) ->
        let run := KbScript.create_collection w fuel name log in
        fst run = Script.Spin
        /\ ScriptProps.count ScriptProps.is_poll (snd run) = fuel
        /\ ScriptProps.slept (snd run) = (10000 * Z.of_nat fuel)%Z)
    /\ (forall kb_id data_source_id,
          (forall l, exists job_id,
              Script.start_ingestion_job w kb_id data_source_id l
              = inr job_id) ->
          (forall job_id l, exists job,
              Script.get_ingestion_job w kb_id data_source_id job_id l
              = inr job
              /\ existsb (String.eqb (Script.job_status job))
                   ["COMPLETE"; "FAILED"]
                 = false) ->
          let run := KbScript.start_ingestion w fuel kb_id data_source_id log in
          fst run = Script.Spin
          /\ ScriptProps.count ScriptProps.is_poll (snd run) = fuel
          /\ ScriptProps.slept (snd run) = (10000 * Z.of_nat fuel)%Z).
Proof.
  intros w fuel log. split.
  - intros name Hcreate Hpending. cbv zeta.
    unfold KbScript.create_collection. rewrite bind_said. cbn [fst snd].
    set (log1 := log ++ [Script.Said (Script.LCreatingCollection name)]).
    assert (Hfirst : exists t,
               Script.catch
                 (Script.call w (Script.CreateCollection name)
                    (Script.aoss_create_collection w name))
                 (fun e => if Script.is_conflict e
                           then Script.print Script.LCollectionExists
                           else Script.raise e) log1
               = (Script.Val tt, t)
               /\ ScriptProps.count ScriptProps.is_poll t = 0
               /\ ScriptProps.slept t = 0%Z).
    { unfold Script.catch. rewrite call_run.
      destruct (Script.aoss_create_collection w name log1) as [e|[]] eqn:E.
      - cbn [Script.res_of]. rewrite (Hcreate _ _ E). cbn.
        eexists. repeat split.
      - cbn [Script.res_of]. eexists. repeat split. }
    destruct Hfirst as (t & Hfirst & Hp & Hs).
    rewrite (bind_val _ _ _ _ _ Hfirst). cbn [fst snd].
    pose proof (create_collection_loop_spins w name Hpending fuel (log1 ++ t))
      as Hloop.
    cbv zeta in Hloop. destruct Hloop as (H1 & H2 & H3).
    destruct (KbScript.create_collection_loop w fuel name (log1 ++ t))
      as [res t2] eqn:Eloop.
    cbn [fst snd] in H1, H2, H3. subst res.
    rewrite (bind_spin _ _ _ _ Eloop). cbn [fst snd].
    rewrite script_count_cons, script_count_app.
    cbn [ScriptProps.is_poll ScriptProps.slept]. rewrite script_slept_app.
    rewrite Hp, Hs, H2, H3. repeat split; lia.
  - intros kb_id data_source_id Hstart Hpending. cbv zeta.
    unfold KbScript.start_ingestion. rewrite bind_said. cbn [fst snd].
    rewrite bind_call. cbv zeta.
    destruct (Hstart (log ++ [Script.Said Script.LStartingIngestion]))
      as (job_id & ->).
    rewrite bind_said. cbn [fst snd].
    match goal with
    | |- context [Script.bind (KbScript.start_ingestion_loop w fuel _ _ _) _ ?l]
      => pose proof (start_ingestion_loop_spins w kb_id data_source_id job_id
                       (Hpending job_id) fuel l) as Hloop;
         cbv zeta in Hloop; destruct Hloop as (H1 & H2 & H3);
         destruct (KbScript.start_ingestion_loop w fuel kb_id data_source_id
                     job_id l) as [res t2] eqn:Eloop
    end.
    cbn [fst snd] in H1, H2, H3. subst res.
    rewrite (bind_spin _ _ _ _ Eloop). cbn [fst snd].
    rewrite !script_count_cons. cbn [ScriptProps.is_poll ScriptProps.slept].
    rewrite H2, H3. repeat split; lia.
Qed.

(** A collection that has FAILED and an ingestion job that was STOPPED are
    waited for without end. *)
Lemma waits_without_limit_witness :
  (let run :=
     KbScript.create_collection
       (Stage.collections_are
          [Script.mkCollection "test-genai-1" "FAILED" "arn:aws:aoss:c1"])
       100 "test-genai-1" [] in
   fst run = Script.Spin
   /\ ScriptProps.count ScriptProps.is_poll (snd run) = 100
   /\ ScriptProps.slept (snd run) = (10000 * Z.of_nat 100)%Z)
  /\ (let run :=
        KbScript.start_ingestion
          (Stage.world true [] (inr Stage.ok_response)
             (fun _ => Stage.ok_response)
             (Script.mkIngestionJob "STOPPED" []) Stage.no_answer)
          100 "KB1" "DS1" [] in
      fst run = Script.Spin
      /\ ScriptProps.count ScriptProps.is_poll (snd run) = 100
      /\ ScriptProps.slept (snd run) = (10000 * Z.of_nat 100)%Z).
Proof.
  split.
  - apply (proj1 (collection_and_ingestion_waits_have_no_limit
                    (Stage.collections_are
                       [Script.mkCollection "test-genai-1" "FAILED"
                          "arn:aws:aoss:c1"]) 100 []) "test-genai-1").
    + intros l e H. cbn in H. injection H as <-. reflexivity.
    + intros l. eexists. split; reflexivity.
  - apply (proj2 (collection_and_ingestion_waits_have_no_limit
                    (Stage.world true [] (inr Stage.ok_response)
                       (fun _ => Stage.ok_response)
                       (Script.mkIngestionJob "STOPPED" []) Stage.no_answer)
                    100 []) "KB1" "DS1").
    + intros l. eexists. reflexivity.
    + intros job_id l. eexists. split; reflexivity.
Defined.

(* ================================================================= *)
(** ** kb_test.py: the vector index *)

Section VectorIndex.

Import Script ScriptProps.
#[local] Open Scope act_scope.

Variable w : World.

Hypothesis credentials_raise_exceptions :
  forall l e, get_frozen_credentials w l = inl e -> is_Exception e = true.

Hypothesis put_raises_exceptions :
  forall url l e, requests_put w url l = inl e -> is_Exception e = true.

(** The request for the index, before its [except Exception]. *)
Lemma put_index_run (url : string) (log : Log) :
  let run :=
    (call w GetCredentials (get_frozen_credentials w) ;;
     response <- call w (Put url) (requests_put w url) ;;
     if (status_code response =? 200)%Z then print LIndexCreated
     else if (status_code response =? 400)%Z
             && contains "resource_already_exists_exception" (text response)
          then print LIndexExists
          else raise (OtherException
                        ("Failed to create vector index: "
                           ++ text response)%string)) log in
  (fst run = Val tt \/ exists e, fst run = Exc e /\ is_Exception e = true)
  /\ count is_put (snd run) <= 1
  /\ count is_error_line (snd run) = 0.
Proof.
  cbv zeta. rewrite bind_call. cbv zeta.
  destruct (get_frozen_credentials w log) as [e|[]] eqn:Ecred.
  - cbn [fst snd]. split; [right; eauto|]. split; cbn; lia.
  - rewrite bind_call. cbv zeta.
    destruct (requests_put w url _) as [e|response] eqn:Eput.
    + cbn [fst snd]. split; [right; eauto|]. split; cbn; lia.
    + destruct (status_code response =? 200)%Z.
      * cbn. split; [now left|]. split; cbn; lia.
      * destruct ((status_code response =? 400)%Z && contains _ _).
        -- cbn. split; [now left|]. split; cbn; lia.
        -- cbn. split; [right; eauto|]. split; cbn; lia.
Qed.

End VectorIndex.

(** [create_vector_index] raises only when it cannot tell the endpoint, and
    then asks for nothing: the collection is not listed under its name, its
    ARN is empty, or the ARN has fewer than four fields.  Otherwise it
    returns, whatever becomes of the index: an answer of the endpoint other
    than 200 or the 400 of an index that exists, or an [Exception] raised on
    the way, is printed under its [except Exception], not raised. *)
Theorem index_creation_failures_are_only_printed :
  forall (w : Script.World) (collection_name index_name : string)
         (log : Script.Log) (collections : list Script.CollectionSummary),
    (forall l e, Script.get_frozen_credentials w l = inl e ->
                 is_Exception e = true) ->
    (forall url l e, Script.requests_put w url l = inl e ->
                     is_Exception e = true) ->
    Script.list_collections w
      (log ++ [Script.Said (Script.LCreatingIndex index_name)])
    = inr collections ->
    let run := KbScript.create_vector_index w collection_name index_name log in
    (ScriptProps.resolves collection_name collections = true ->
     fst run = Script.Val tt
     /\ ScriptProps.count ScriptProps.is_put (snd run) <= 1)
    /\ (ScriptProps.resolves collection_name collections = false ->
        (exists what, fst run = Script.Exc (OtherException what))
        /\ ScriptProps.count ScriptProps.is_put (snd run) = 0).
Proof.
  intros w collection_name index_name log collections Hcred Hput Hlist.
  cbv zeta. unfold KbScript.create_vector_index, ScriptProps.resolves.
  rewrite bind_said. cbn [fst snd]. rewrite bind_call. cbv zeta.
  rewrite Hlist.
  destruct (find _ collections) as [col|];
    [|split; [discriminate|]; intros _; cbn [fst snd];
      rewrite !script_count_cons; cbn; split; [eauto|reflexivity]].
  destruct (String.eqb (Script.col_arn col) "");
    [split; [discriminate|]; intros _; cbn [fst snd];
     rewrite !script_count_cons; cbn; split; [eauto|reflexivity]|].
  destruct (endpoint_of (Script.col_arn col)) as [[region endpoint]|];
    [|split; [discriminate|]; intros _; cbn [fst snd];
      rewrite !script_count_cons; cbn; split; [eauto|reflexivity]].
  split; [intros _|discriminate].
  unfold KbScript.except_Exception. cbn [fst snd].
  match goal with
  | |- context [Script.catch ?m _ ?l] =>
      pose proof (put_index_run w Hcred Hput
                    ("https://" ++ endpoint ++ "/" ++ index_name)%string l)
        as Hrun;
      cbv zeta in Hrun; destruct Hrun as (Hres & Hputs & _);
      destruct (m l) as [res t] eqn:Erun
  end.
  cbn [fst snd] in Hres, Hputs. rewrite !script_count_cons.
  cbn [ScriptProps.is_put].
  destruct Hres as [->|(e & -> & He)].
  - rewrite (catch_val _ _ _ _ _ Erun). cbn [fst snd]. split; [reflexivity|lia].
  - rewrite (catch_exc _ _ _ _ _ Erun). rewrite He. cbn [fst snd].
    rewrite script_count_app. cbn. split; [reflexivity|lia].
Qed.

(** The collection is there, but the endpoint answers 403: the index is not
    created, and [create_vector_index] returns. *)
Lemma index_creation_witness :
  let w :=
    Stage.world true
      [Script.mkCollection "test-genai-1" "ACTIVE"
         "arn:aws:aoss:us-east-1:406099943223:collection/c1"]
      (inr (Script.mkResponse 403 "Forbidden" None))
      (fun _ => Stage.ok_response) Stage.done_job Stage.no_answer in
  let run := KbScript.create_vector_index w "test-genai-1" "genai-index" [] in
  fst run = Script.Val tt
  /\ ScriptProps.count ScriptProps.is_put (snd run) <= 1.
Proof.
  cbv zeta.
  apply (proj1 (index_creation_failures_are_only_printed
                  (Stage.world true
                     [Script.mkCollection "test-genai-1" "ACTIVE"
                        "arn:aws:aoss:us-east-1:406099943223:collection/c1"]
                     (inr (Script.mkResponse 403 "Forbidden" None))
                     (fun _ => Stage.ok_response) Stage.done_job
                     Stage.no_answer)
                  "test-genai-1" "genai-index" []
                  [Script.mkCollection "test-genai-1" "ACTIVE"
                     "arn:aws:aoss:us-east-1:406099943223:collection/c1"]
                  ltac:(discriminate) ltac:(discriminate) eq_refl)).
  reflexivity.
Defined.

Section IndexReady.

Import Script ScriptProps.
#[local] Open Scope act_scope.

Variable w : World.
Variables url index_name : string.
Variables timeout interval : Z.

Hypothesis interval_positive : (0 < interval)%Z.

Lemma wait_for_index_ready_loop_step (fuel : nat) (start_time : Z) :
  KbScript.wait_for_index_ready_loop w (S fuel) url index_name timeout
    interval start_time
  = (now <- time ;;
     if (now - start_time <? timeout)%Z then
       response <- call w (Get url) (requests_get w url) ;;
       if (status_code response =? 200)%Z
          && match json response with
             | Some index_info => lists_index index_name index_info
             | None => false
             end
       then print LIndexAvailable
       else
         print (LIndexNotReady (status_code response)) ;;
         sleep interval ;;
         KbScript.wait_for_index_ready_loop w fuel url index_name timeout
           interval start_time
     else raise TimeoutError).
Proof. reflexivity. Qed.

(** Every round of the loop takes at least the time it sleeps, so the
    rounds still to come are bounded by the time that is left. *)
Lemma wait_for_index_ready_loop_bounded :
  forall fuel log start_time,
    (timeout - (elapsed log - start_time) <= interval * Z.of_nat fuel)%Z ->
    let run :=
      KbScript.wait_for_index_ready_loop w (S fuel) url index_name timeout
        interval start_time log in
    fst run <> Spin
    /\ (interval * Z.of_nat (count is_get (snd run))
        < Z.max 0 (timeout - (elapsed log - start_time)) + interval)%Z
    /\ (slept (snd run) <= interval * Z.of_nat (count is_get (snd run)))%Z.
Proof.
  induction fuel as [|fuel IH]; intros log start_time Hleft; cbv zeta;
    rewrite wait_for_index_ready_loop_step, bind_time;
    (destruct (Z.ltb_spec (elapsed log - start_time) timeout) as [Hlt|Hge];
     [|cbn; split; [discriminate|lia]]).
  - lia.
  - rewrite bind_call. cbv zeta.
    destruct (requests_get w url log) as [e|response];
      [cbn [fst snd]; rewrite script_count_cons; cbn;
       split; [discriminate|lia]|].
    destruct ((status_code response =? 200)%Z && _).
    + cbn [fst snd print emit]. rewrite !script_count_cons. cbn.
      split; [discriminate|lia].
    + rewrite bind_said. cbn [fst snd]. rewrite bind_slept by lia.
      cbn [fst snd].
      match goal with
      | |- context [KbScript.wait_for_index_ready_loop w (S fuel) url
                      index_name timeout interval start_time ?l] =>
          specialize (IH l start_time);
          assert (Hl : (elapsed log + interval <= elapsed l)%Z);
          [ rewrite !elapsed_app; cbn [elapsed]; lia |];
          assert (Hl' : (timeout - (elapsed l - start_time)
                         <= interval * Z.of_nat fuel)%Z) by lia;
          specialize (IH Hl'); cbv zeta in IH;
          destruct IH as (H1 & H2 & H3)
      end.
      rewrite !script_count_cons. cbn [is_get slept]. split; [exact H1|].
      remember (count is_get _) as gets eqn:Egets.
      remember (slept (snd _)) as naps eqn:Enaps.
      clear Egets Enaps. destruct gets as [|gets]; [lia|].
      assert (0 <= interval * Z.of_nat gets)%Z
        by (apply Z.mul_nonneg_nonneg; lia).
      lia.
Qed.

End IndexReady.

(** [wait_for_index_ready] with a positive interval is bounded by its
    timeout: having time for n rounds of at least that interval, it has
    ended after n rounds, however long the requests take.  It asks at most
    once per started interval of its timeout, and sleeps no longer than the
    interval per request.  With a timeout that is not positive it asks not
    even once and never reports the index available. *)
Theorem index_wait_is_bounded_by_its_timeout :
  forall (w : Script.World) (fuel : nat) (collection_arn index_name : string)
         (timeout interval : Z) (log : Script.Log),
    (0 < interval)%Z ->
    (timeout <= interval * Z.of_nat fuel)%Z ->
    let run :=
      KbScript.wait_for_index_ready w (S fuel) collection_arn index_name
        timeout interval log in
    fst run <> Script.Spin
    /\ (interval * Z.of_nat (ScriptProps.count ScriptProps.is_get (snd run))
        < Z.max 0 timeout + interval)%Z
    /\ (ScriptProps.slept (snd run)
        <= interval
           * Z.of_nat (ScriptProps.count ScriptProps.is_get (snd run)))%Z
    /\ ((timeout <= 0)%Z ->
        ScriptProps.count ScriptProps.is_get (snd run) = 0
        /\ fst run <> Script.Val tt).
Proof.
  intros w fuel collection_arn index_name timeout interval log Hint Hfuel.
  cbv zeta. unfold KbScript.wait_for_index_ready.
  rewrite bind_said. cbn [fst snd].
  destruct (endpoint_of collection_arn) as [[region endpoint]|];
    [|cbn; repeat split; try discriminate; lia].
  rewrite bind_call. cbv zeta.
  destruct (Script.get_frozen_credentials w _) as [e|[]];
    [cbn; repeat split; try discriminate; lia|].
  rewrite bind_time. cbn [fst snd].
  match goal with
  | |- context [KbScript.wait_for_index_ready_loop w (S fuel) ?url _ _ _
                  (Script.elapsed ?l) ?l] =>
      pose proof (wait_for_index_ready_loop_bounded w url index_name timeout
                    interval Hint fuel l (Script.elapsed l) ltac:(lia))
        as Hloop;
      cbv zeta in Hloop; destruct Hloop as (H1 & H2 & H3);
      assert (H0 : (timeout <= 0)%Z ->
                   KbScript.wait_for_index_ready_loop w (S fuel) url
                     index_name timeout interval (Script.elapsed l) l
                   = (Script.Exc TimeoutError, []))
  end.
  { intros Hle. rewrite wait_for_index_ready_loop_step, bind_time.
    match goal with
    | |- context [(?a <? timeout)%Z] =>
        destruct (Z.ltb_spec a timeout) as [Hlt|Hge]; [lia|reflexivity]
    end. }
  rewrite !script_count_cons. cbn [ScriptProps.is_get ScriptProps.slept].
  replace (timeout - (Script.elapsed _ - Script.elapsed _))%Z with timeout
    in H2 by lia.
  split; [exact H1|]. split; [lia|]. split; [lia|].
  intros Hle. rewrite (H0 Hle). split; [reflexivity|discriminate].
Qed.

(** Two minutes of timeout, five seconds of interval, an endpoint that never
    lists the index. *)
Lemma index_wait_witness :
  let run :=
    KbScript.wait_for_index_ready
      (Stage.collections_are []) 25
      "arn:aws:aoss:us-east-1:406099943223:collection/c1" "genai-index"
      120000 5000 [] in
  fst run <> Script.Spin
  /\ (5000 * Z.of_nat (ScriptProps.count ScriptProps.is_get (snd run))
      < Z.max 0 120000 + 5000)%Z
  /\ (ScriptProps.slept (snd run)
      <= 5000 * Z.of_nat (ScriptProps.count ScriptProps.is_get (snd run)))%Z
  /\ ((120000 <= 0)%Z ->
      ScriptProps.count ScriptProps.is_get (snd run) = 0
      /\ fst run <> Script.Val tt).
Proof.
  apply (index_wait_is_bounded_by_its_timeout (Stage.collections_are []) 24
           "arn:aws:aoss:us-east-1:406099943223:collection/c1" "genai-index"
           120000 5000 []); lia.
Defined.

(* ================================================================= *)
(** ** kb_test.py: the end of an ingestion *)

Section Ingestion.

Import Script ScriptProps.
#[local] Open Scope act_scope.

Variable w : World.
Variable kb_id : string.

Lemma print_chunks_run :
  forall (chunks : list (Z * Chunk)) (log : Log),
    let run :=
      for_each chunks
        (fun ichunk =>
           let text := firstn 300 (chunk_text (snd ichunk)) in
           print (LChunk (fst ichunk)) ;;
           print (LChunkText (strip text)) ;;
           print (LChunkMetadata (chunk_metadata (snd ichunk)))) log in
    fst run = Val tt
    /\ count is_chunk_line (snd run) = List.length chunks
    /\ slept (snd run) = 0%Z.
Proof.
  induction chunks as [|ichunk rest IH]; intros log; cbv zeta.
  - cbn. repeat split.
  - cbn [for_each]. cbv zeta. rewrite bind_assoc, bind_said. cbn [fst snd].
    rewrite bind_assoc, bind_said. cbn [fst snd].
    rewrite bind_said. cbn [fst snd].
    match goal with
    | |- context [for_each rest ?body ?l] =>
        pose proof (IH l) as Hrest; cbv zeta in Hrest;
        destruct Hrest as (H1 & H2 & H3);
        destruct (for_each rest body l) as [res t]
    end.
    cbn [fst snd] in *. subst res.
    rewrite !script_count_cons. cbn [is_chunk_line slept List.length].
    rewrite H2, H3. repeat split.
Qed.

Hypothesis retrieve_raises_exceptions :
  forall l e, retrieve w kb_id l = inl e -> is_Exception e = true.

(** The look at the chunks, under its [except Exception]. *)
Lemma retrieve_chunks_run (log : Log) :
  let run :=
    KbScript.except_Exception
      (chunks <- call w (Retrieve kb_id) (retrieve w kb_id) ;;
       print (LRetrieved (List.length chunks)) ;;
       for_each (enumerate 1 (firstn 5 chunks))
         (fun ichunk =>
            let text := firstn 300 (chunk_text (snd ichunk)) in
            print (LChunk (fst ichunk)) ;;
            print (LChunkText (strip text)) ;;
            print (LChunkMetadata (chunk_metadata (snd ichunk)))))
      (fun e => print (LRetrieveError e)) log in
  fst run = Val tt
  /\ count is_chunk_line (snd run) <= 5
  /\ slept (snd run) = 0%Z.
Proof.
  cbv zeta. unfold KbScript.except_Exception, catch. rewrite bind_call.
  cbv zeta. destruct (retrieve w kb_id log) as [e|chunks] eqn:E.
  - rewrite (retrieve_raises_exceptions _ _ E). cbn. repeat split. lia.
  - rewrite bind_said. cbn [fst snd].
    match goal with
    | |- context [for_each ?xs ?body ?l] =>
        pose proof (print_chunks_run xs l) as Hrun; cbv zeta in Hrun;
        destruct Hrun as (H1 & H2 & H3);
        destruct (for_each xs body l) as [res t]
    end.
    cbn [fst snd] in *. subst res. cbn [fst snd].
    rewrite !script_count_cons. cbn [is_chunk_line slept].
    rewrite H2, H3, enumerate_length, length_firstn. repeat split; lia.
Qed.

End Ingestion.

(** [start_ingestion] fails with the job and with nothing after it.  When
    the job has FAILED it raises, without a look at the chunks.  When the
    job is COMPLETE it returns, also when the retrieval that follows raises
    an [Exception], which is only printed; it prints no more than five of
    the chunks retrieved.  A job that has ended at the first poll costs no
    sleep. *)
Theorem ingestion_fails_only_with_the_job :
  forall (w : Script.World) (fuel : nat) (kb_id data_source_id : string)
         (log : Script.Log) (job : Script.IngestionJob),
    (forall l, exists job_id,
        Script.start_ingestion_job w kb_id data_source_id l = inr job_id) ->
    (forall job_id l,
        Script.get_ingestion_job w kb_id data_source_id job_id l = inr job) ->
    let run := KbScript.start_ingestion w (S fuel) kb_id data_source_id log in
    (Script.job_status job = "FAILED" ->
     fst run = Script.Exc (OtherException "Ingestion failed.")
     /\ ScriptProps.count ScriptProps.is_retrieve (snd run) = 0
     /\ ScriptProps.slept (snd run) = 0%Z)
    /\ (Script.job_status job = "COMPLETE" ->
        (forall l, Script.runtime_client w l = inr tt) ->
        (forall l e, Script.retrieve w kb_id l = inl e ->
                     is_Exception e = true) ->
        fst run = Script.Val tt
        /\ ScriptProps.count ScriptProps.is_chunk_line (snd run) <= 5
        /\ ScriptProps.slept (snd run) = 0%Z).
Proof.
  intros w fuel kb_id data_source_id log job Hstart Hjob. cbv zeta.
  unfold KbScript.start_ingestion. rewrite bind_said. cbn [fst snd].
  rewrite bind_call. cbv zeta.
  destruct (Hstart (log ++ [Script.Said Script.LStartingIngestion]))
    as (job_id & ->).
  rewrite bind_said. cbn [fst snd].
  assert (Hloop : forall l,
             existsb (String.eqb (Script.job_status job))
               ["COMPLETE"; "FAILED"] = true ->
             KbScript.start_ingestion_loop w (S fuel) kb_id data_source_id
               job_id l
             = (Script.Val job,
                [Script.Did
                   (Script.GetIngestionJob kb_id data_source_id job_id) Ok
                   (Z.max 0
                      (Script.duration w
                         (Script.GetIngestionJob kb_id data_source_id job_id)
                         l));
                 Script.Said
                   (Script.LIngestionStatus (Script.job_status job))])).
  { intros l Hend. cbn [KbScript.start_ingestion_loop].
    rewrite bind_call. cbv zeta. rewrite Hjob, bind_said, Hend. reflexivity. }
  split.
  - intros Hfailed.
    rewrite (bind_val _ _ _ _ _ (Hloop _ ltac:(now rewrite Hfailed))).
    cbn [fst snd]. rewrite Hfailed.
    change (String.eqb "FAILED" "COMPLETE") with false. cbv iota.
    rewrite bind_said. cbn [fst snd]. rewrite bind_said. cbn [fst snd].
    rewrite bind_said. cbn [fst snd].
    rewrite !script_count_cons, ?script_count_app. cbn. repeat split.
  - intros Hcomplete Hclient Hretrieve.
    rewrite (bind_val _ _ _ _ _ (Hloop _ ltac:(now rewrite Hcomplete))).
    cbn [fst snd]. rewrite Hcomplete.
    change (String.eqb "COMPLETE" "COMPLETE") with true. cbv iota.
    rewrite bind_said. cbn [fst snd]. rewrite bind_said. cbn [fst snd].
    rewrite bind_said. cbn [fst snd]. rewrite bind_said. cbn [fst snd].
    rewrite bind_call. cbv zeta. rewrite Hclient. cbn [fst snd].
    match goal with
    | |- context [KbScript.except_Exception _ _ ?l] =>
        pose proof (retrieve_chunks_run w kb_id Hretrieve l) as Hrun;
        cbv zeta in Hrun; destruct Hrun as (H1 & H2 & H3)
    end.
    rewrite !script_count_cons, ?script_count_app.
    cbn [ScriptProps.is_chunk_line ScriptProps.slept app].
    rewrite ?script_count_cons. cbn [ScriptProps.is_chunk_line].
    change (ScriptProps.count ScriptProps.is_chunk_line []) with 0.
    rewrite H1, H3. repeat split; lia.
Qed.

(** A job that has failed; a job that is complete. *)
Lemma ingestion_witness :
  (let run :=
     KbScript.start_ingestion
       (Stage.world true [] (inr Stage.ok_response)
          (fun _ => Stage.ok_response)
          (Script.mkIngestionJob "FAILED" ["no access to the bucket"])
          Stage.no_answer)
       1 "KB1" "DS1" [] in
   fst run = Script.Exc (OtherException "Ingestion failed.")
   /\ ScriptProps.count ScriptProps.is_retrieve (snd run) = 0
   /\ ScriptProps.slept (snd run) = 0%Z)
  /\ (let run :=
        KbScript.start_ingestion (Stage.collections_are []) 1 "KB1" "DS1" []
      in
      fst run = Script.Val tt
      /\ ScriptProps.count ScriptProps.is_chunk_line (snd run) <= 5
      /\ ScriptProps.slept (snd run) = 0%Z).
Proof.
  split.
  - apply (proj1 (ingestion_fails_only_with_the_job
                    (Stage.world true [] (inr Stage.ok_response)
                       (fun _ => Stage.ok_response)
                       (Script.mkIngestionJob "FAILED"
                          ["no access to the bucket"])
                       Stage.no_answer)
                    0 "KB1" "DS1" []
                    (Script.mkIngestionJob "FAILED" ["no access to the bucket"])
                    ltac:(intros l; eexists; reflexivity)
                    ltac:(reflexivity))).
    reflexivity.
  - apply (proj2 (ingestion_fails_only_with_the_job
                    (Stage.collections_are []) 0 "KB1" "DS1" [] Stage.done_job
                    ltac:(intros l; eexists; reflexivity)
                    ltac:(reflexivity))).
    + reflexivity.
    + reflexivity.
    + discriminate.
Defined.

(* ================================================================= *)
(** ** kb_test.py: asking the agent *)

Section Invocation.

Import Script ScriptProps.
#[local] Open Scope act_scope.

Variable w : World.

Lemma read_completion_run :
  forall events failure full_response log,
    KbScript.read_completion w events failure full_response log
    = (match failure with
       | Some e => Exc e
       | None => Val (full_response ++ stream_text w events)
       end, []).
Proof.
  induction events as [|event rest IH]; intros failure full_response log.
  - cbn. destruct failure; [reflexivity|]. now rewrite app_nil_r.
  - cbn [KbScript.read_completion stream_text].
    destruct event as [chunk_bytes|]; [|apply IH].
    destruct (String.eqb chunk_bytes ""); rewrite IH;
      destruct failure; try reflexivity.
    now rewrite app_assoc.
Qed.

Hypothesis details_serializable :
  forall e, is_stream_error w e = true -> has_error_response w e = true ->
            serializable_details w e = true.

Lemma invoke_agent_handler_run (e : exn) (log : Log) :
  let run := KbScript.invoke_agent_handler w e log in
  (swallowed w e = true ->
   fst run = Val [] /\ 0 < count is_error_line (snd run))
  /\ (swallowed w e = false -> run = (Exc e, [])).
Proof.
  cbv zeta. unfold KbScript.invoke_agent_handler, swallowed.
  destruct (is_stream_error w e) eqn:Estream.
  - split; [intros _|discriminate].
    destruct (has_error_response w e) eqn:Ehas.
    + rewrite (details_serializable e Estream Ehas). cbn.
      split; [reflexivity|lia].
    + cbn. split; [reflexivity|lia].
  - destruct (is_Exception e); cbn [orb].
    + split; [intros _|discriminate]. cbn. split; [reflexivity|lia].
    + split; [discriminate|reflexivity].
Qed.

(** The [try] block of [invoke_agent] prints no error line. *)
Lemma invoke_agent_body_run (agent_id alias_id question : string) (log : Log) :
  let run :=
    (response <-
       call w (InvokeAgent agent_id alias_id question)
         (runtime_invoke_agent w agent_id alias_id question) ;;
     print LRawResponse ;;
     match completion response with
     | Some (events, failure) =>
         full_response <- KbScript.read_completion w events failure [] ;;
         print LAgentResponse ;;
         print (LText (strip full_response)) ;;
         ret (strip full_response)
     | None =>
         match completionResponse response with
         | Some found =>
             let output := match found with Some t => t | None => [] end in
             print LAgentResponse ;;
             print (LText (strip output)) ;;
             ret (strip output)
         | None =>
             print LUnexpectedStructure ;;
             (if serializable w response then print LDump
              else raise (OtherException "Object is not JSON serializable")) ;;
             ret []
         end
     end) log in
  fst run <> Spin
  /\ count is_error_line (snd run) = 0
  /\ (forall response,
        runtime_invoke_agent w agent_id alias_id question log = inr response ->
        match completion response with
        | Some (events, None) => fst run = Val (strip (stream_text w events))
        | Some (events, Some e) => fst run = Exc e
        | None =>
            match completionResponse response with
            | Some (Some output) => fst run = Val (strip output)
            | Some None => fst run = Val []
            | None =>
                fst run
                = if serializable w response then Val []
                  else Exc (OtherException "Object is not JSON serializable")
            end
        end).
Proof.
  cbv zeta. rewrite bind_call. cbv zeta.
  destruct (runtime_invoke_agent w agent_id alias_id question log)
    as [e|response] eqn:Eanswer.
  - cbn. split; [discriminate|]. split; [reflexivity|]. discriminate.
  - rewrite bind_said. cbn [fst snd].
    assert (Hsame : forall (P : AgentResponse -> Prop),
               P response ->
               forall response', inr response = @inr exn _ response' ->
                                 P response')
      by (now intros P HP response' [= <-]).
    destruct (completion response) as [[events failure]|] eqn:Ecompletion.
    + destruct failure as [e|].
      * rewrite (bind_exc _ _ _ _ _ (read_completion_run events (Some e) [] _)).
        cbn. split; [discriminate|]. split; [reflexivity|].
        apply Hsame. now rewrite Ecompletion.
      * rewrite (bind_val _ _ _ _ _ (read_completion_run events None [] _)).
        cbn. split; [discriminate|]. split; [reflexivity|].
        apply Hsame. now rewrite Ecompletion.
    + destruct (completionResponse response) as [[output|]|] eqn:Efallback.
      * cbn. split; [discriminate|]. split; [reflexivity|].
        apply Hsame. now rewrite Ecompletion, Efallback.
      * cbn. split; [discriminate|]. split; [reflexivity|].
        apply Hsame. now rewrite Ecompletion, Efallback.
      * destruct (serializable w response) eqn:Edumps; cbn;
          (split; [discriminate|]); (split; [reflexivity|]);
          apply Hsame; now rewrite Ecompletion, Efallback, Edumps.
Qed.

End Invocation.

(** [invoke_agent], once it has its client, turns every failure of the
    invocation into an empty answer: an error of the stream and any other
    [Exception], raised by the call or while the answer is read, is printed
    and the empty string returned, so that the caller cannot tell a failed
    invocation from an agent that said nothing.  Only an exception that is
    neither gets out.  An answer streamed to its end is returned stripped of
    the white space around it, the chunks decoded one by one and put
    together in order; without a stream, the text of the fallback is
    returned stripped. *)
Theorem invocation_failures_become_an_empty_answer :
  forall (w : Script.World) (agent_id alias_id question : string)
         (log : Script.Log),
    (forall l, Script.runtime_client w l = inr tt) ->
    (forall e, Script.is_stream_error w e = true ->
               Script.has_error_response w e = true ->
               Script.serializable_details w e = true) ->
    let run := KbScript.invoke_agent w agent_id alias_id question log in
    ((exists answer,
         fst run = Script.Val answer
         /\ (0 < ScriptProps.count ScriptProps.is_error_line (snd run) ->
             answer = []))
     \/ (exists e, fst run = Script.Exc e /\ ScriptProps.swallowed w e = false))
    /\ (forall response,
          (forall l, Script.runtime_invoke_agent w agent_id alias_id question l
                     = inr response) ->
          match Script.completion response with
          | Some (events, None) =>
              fst run = Script.Val (strip (ScriptProps.stream_text w events))
          | Some (events, Some e) =>
              ScriptProps.swallowed w e = true -> fst run = Script.Val []
          | None =>
              match Script.completionResponse response with
              | Some (Some output) => fst run = Script.Val (strip output)
              | _ => fst run = Script.Val []
              end
          end).
Proof.
  intros w agent_id alias_id question log Hclient Hdetails. cbv zeta.
  unfold KbScript.invoke_agent. rewrite bind_said. cbn [fst snd].
  rewrite bind_call. cbv zeta. rewrite Hclient. cbn [fst snd].
  match goal with
  | |- context [Script.catch ?m _ ?l] =>
      pose proof (invoke_agent_body_run w agent_id alias_id question l)
        as Hbody;
      cbv zeta in Hbody; destruct Hbody as (Hspin & Hquiet & Hanswer);
      pose proof (fun e => invoke_agent_handler_run w Hdetails e) as Hhandler;
      destruct (m l) as [[answer|e|] t] eqn:Ebody
  end; cbn [fst snd] in Hspin, Hquiet, Hanswer; [| |now elim Hspin].
  - rewrite (catch_val _ _ _ _ _ Ebody). cbn [fst snd]. split.
    + left. exists answer. split; [reflexivity|].
      rewrite !script_count_cons. cbn [ScriptProps.is_error_line].
      rewrite Hquiet. lia.
    + intros response Hresponse. specialize (Hanswer response (Hresponse _)).
      destruct (Script.completion response) as [[events [e|]]|];
        [discriminate Hanswer | exact Hanswer |].
      destruct (Script.completionResponse response) as [[output|]|];
        [exact Hanswer | exact Hanswer |].
      destruct (Script.serializable w response);
        [exact Hanswer | discriminate Hanswer].
  - rewrite (catch_exc _ _ _ _ _ Ebody). cbn [fst snd].
    match goal with
    | |- context [KbScript.invoke_agent_handler w e ?l] =>
        specialize (Hhandler e l); cbv zeta in Hhandler;
        destruct Hhandler as (Hcaught & Hpassed)
    end.
    split.
    + destruct (ScriptProps.swallowed w e) eqn:Eswallowed.
      * left. exists []. destruct (Hcaught eq_refl) as (-> & _).
        split; reflexivity.
      * right. exists e. rewrite (Hpassed eq_refl). split; [reflexivity|].
        exact Eswallowed.
    + intros response Hresponse. specialize (Hanswer response (Hresponse _)).
      destruct (Script.completion response) as [[events [e'|]]|].
      * injection Hanswer as <-. intros Hswallowed.
        now destruct (Hcaught Hswallowed) as (-> & _).
      * discriminate Hanswer.
      * destruct (Script.completionResponse response) as [[output|]|];
          [discriminate Hanswer | discriminate Hanswer |].
        destruct (Script.serializable w response) eqn:Edumps;
          [discriminate Hanswer|].
        injection Hanswer as ->.
        assert (Hswallowed :
                  ScriptProps.swallowed w
                    (OtherException "Object is not JSON serializable") = true)
          by (unfold ScriptProps.swallowed; cbn [is_Exception];
              apply orb_true_r).
        now destruct (Hcaught Hswallowed) as (-> & _).
Qed.

(** An invocation that is throttled; one that streams an answer in three
    events, the chunks of the first and the last with white space around
    them; one that answers without a stream, between no-break spaces. *)
Lemma invocation_witness :
  fst (KbScript.invoke_agent
         (Stage.world true [] (inr Stage.ok_response)
            (fun _ => Stage.ok_response) Stage.done_job
            (inl (ClientError (mkClientError "ThrottlingException"
                                 "Rate exceeded" "InvokeAgent" ""))))
         "AGENT1" "ALIAS1" "List the mappings" [])
  = Script.Val []
  /\ fst (KbScript.invoke_agent
            (Stage.world true [] (inr Stage.ok_response)
               (fun _ => Stage.ok_response) Stage.done_job
               (inr (Script.mkAgentResponse
                       (Some ([Some " The mappings"; None; Some " are two. "],
                              None))
                       None)))
            "AGENT1" "ALIAS1" "List the mappings" [])
     = Script.Val (Stage.text_of "The mappings are two.")
  /\ fst (KbScript.invoke_agent
            (Stage.world true [] (inr Stage.ok_response)
               (fun _ => Stage.ok_response) Stage.done_job
               (inr (Script.mkAgentResponse None
                       (Some (Some ([160] ++ Stage.text_of "Two." ++ [160])%N)))))
            "AGENT1" "ALIAS1" "List the mappings" [])
     = Script.Val (Stage.text_of "Two.").
Proof.
  split; [|split].
  - destruct (proj1 (invocation_failures_become_an_empty_answer
                       (Stage.world true [] (inr Stage.ok_response)
                          (fun _ => Stage.ok_response) Stage.done_job
                          (inl (ClientError
                                  (mkClientError "ThrottlingException"
                                     "Rate exceeded" "InvokeAgent" ""))))
                       "AGENT1" "ALIAS1" "List the mappings" []
                       ltac:(reflexivity) ltac:(discriminate)))
      as [(answer & Hanswer & Hempty)|(e & He & Hpassed)].
    + rewrite Hanswer. f_equal. apply Hempty. vm_compute. lia.
    + vm_compute in He. discriminate.
  - apply (proj2 (invocation_failures_become_an_empty_answer
                    (Stage.world true [] (inr Stage.ok_response)
                       (fun _ => Stage.ok_response) Stage.done_job
                       (inr (Script.mkAgentResponse
                               (Some ([Some " The mappings"; None;
                                       Some " are two. "], None))
                               None)))
                    "AGENT1" "ALIAS1" "List the mappings" []
                    ltac:(reflexivity) ltac:(discriminate))
             (Script.mkAgentResponse
                (Some ([Some " The mappings"; None; Some " are two. "], None))
                None)).
    reflexivity.
  - apply (proj2 (invocation_failures_become_an_empty_answer
                    (Stage.world true [] (inr Stage.ok_response)
                       (fun _ => Stage.ok_response) Stage.done_job
                       (inr (Script.mkAgentResponse None
                               (Some (Some ([160] ++ Stage.text_of "Two."
                                              ++ [160])%N)))))
                    "AGENT1" "ALIAS1" "List the mappings" []
                    ltac:(reflexivity) ltac:(discriminate))
             (Script.mkAgentResponse None
                (Some (Some ([160] ++ Stage.text_of "Two." ++ [160])%N)))).
    reflexivity.
Defined.

(* ================================================================= *)
(** ** kb_test.py: the action groups *)

Section ActionGroups.

Import Script ScriptProps.
#[local] Open Scope act_scope.

Variable w : World.
Variable agent_id : string.

(** The poll of [wait_for_agent_status], with its [except Exception]. *)
Lemma get_agent_status_run (log : Log) :
  exists res o took,
    KbScript.except_Exception
      (response <- call w (GetAgent agent_id) (get_agent w agent_id) ;;
       ret (match response with Some s => s | None => "UNKNOWN" end))
      (fun _ => ret "UNKNOWN") log
    = (res, [Did (GetAgent agent_id) o took])
    /\ res <> Spin.
Proof.
  unfold KbScript.except_Exception, catch. rewrite bind_call. cbv zeta.
  destruct (get_agent w agent_id log) as [e|response].
  - destruct (is_Exception e); cbn; do 3 eexists; split;
      try reflexivity; discriminate.
  - cbn. do 3 eexists. split; [reflexivity|discriminate].
Qed.

Lemma wait_for_agent_status_attempts_run (expected_status : string)
    (interval : Z) :
  forall attempts log,
    let run :=
      KbScript.wait_for_agent_status_attempts w agent_id expected_status
        interval attempts log in
    fst run <> Spin
    /\ count is_get_agent (snd run) <= List.length attempts
    /\ count is_poll (snd run) = 0
    /\ count is_prepare (snd run) = 0
    /\ (attempts <> [] -> 1 <= count is_get_agent (snd run)).
Proof.
  induction attempts as [|attempt rest IH]; intros log; cbv zeta.
  - cbn. split; [discriminate|]. split; [lia|]. split; [reflexivity|].
    split; [reflexivity|]. intros Hne. now elim Hne.
  - cbn [KbScript.wait_for_agent_status_attempts List.length].
    destruct (get_agent_status_run log) as (res & o & took & Hpoll & Hres).
    destruct res as [current_status|e|]; [| |now elim Hres].
    + rewrite (bind_val _ _ _ _ _ Hpoll). cbn [fst snd app].
      rewrite bind_said. cbn [fst snd].
      rewrite !script_count_cons. cbn [is_get_agent is_poll is_prepare].
      destruct (String.eqb current_status expected_status);
        [cbn; split; [discriminate|]; split; [lia|]; split; [reflexivity|];
         split; [reflexivity|]; intros _; lia|].
      destruct (existsb _ _);
        [cbn; split; [discriminate|]; split; [lia|]; split; [reflexivity|];
         split; [reflexivity|]; intros _; lia|].
      destruct (Z.ltb_spec interval 0) as [Hneg|Hpos].
      * rewrite bind_slept_negative by exact Hneg. cbn.
        split; [discriminate|]. split; [lia|]. split; [reflexivity|].
        split; [reflexivity|]. intros _. lia.
      * rewrite bind_slept by exact Hpos. cbn [fst snd].
        match goal with
        | |- context [KbScript.wait_for_agent_status_attempts w agent_id
                        expected_status interval rest ?l] =>
            destruct (IH l) as (H1 & H2 & H3 & H4 & _)
        end.
        rewrite !script_count_cons. cbn [is_get_agent is_poll is_prepare].
        split; [exact H1|]. split; [lia|]. split; [lia|]. split; [lia|].
        intros _. lia.
    + rewrite (bind_exc _ _ _ _ _ Hpoll). cbn.
      split; [discriminate|]. split; [lia|]. split; [reflexivity|].
      split; [reflexivity|]. intros _. lia.
Qed.

(** An action group that is there already is announced and gives no
    identifier. *)
Lemma create_action_group_conflict (signature name : string) (log : Log) :
  (exists ce,
      create_agent_action_group w agent_id signature name log
      = inl (ClientError ce)
      /\ contains "ConflictException" (str_client_error ce) = true) ->
  exists e took,
    KbScript.create_action_group w agent_id signature name log
    = (Val None,
       [Did (CreateAgentActionGroup agent_id signature name) (Raised e) took;
        Said (LActionGroupExists name)]).
Proof.
  intros (ce & Hce & Hconflict).
  unfold KbScript.create_action_group, catch. rewrite bind_call. cbv zeta.
  rewrite Hce, Hconflict. cbn. do 2 eexists. reflexivity.
Qed.

End ActionGroups.



(* ================================================================= *)
(** ** kb_test.py: the policies *)

Section Policies.

Import Script ScriptProps.
#[local] Open Scope act_scope.

Variable w : World.

Hypothesis security_policies_conflict :
  forall name type l e,
    create_security_policy w name type l = inl e -> is_conflict e = true.

Hypothesis access_policies_conflict :
  forall name l e,
    create_access_policy w name l = inl e -> is_conflict e = true.

Hypothesis access_policies_listed :
  forall l, exists existing, list_access_policies w l = inr existing.

Hypothesis updates_without_changes :
  forall name version l e,
    update_access_policy w name version l = inl e -> no_changes e = true.

Lemma security_policy_run (name type : string) (created present : Line)
    (log : Log) :
  exists o took line,
    catch
      (call w (CreateSecurityPolicy name type)
         (create_security_policy w name type) ;;
       print created)
      (fun e => if is_conflict e then print present else raise e) log
    = (Val tt, [Did (CreateSecurityPolicy name type) o took; Said line]).
Proof.
  unfold catch. rewrite bind_call. cbv zeta.
  destruct (create_security_policy w name type log) as [e|[]] eqn:E.
  - rewrite (security_policies_conflict _ _ _ _ E). cbn.
    do 3 eexists. reflexivity.
  - cbn. do 3 eexists. reflexivity.
Qed.

(** The update of the data access policy, with its
    [except aoss.exceptions.ValidationException]. *)
Lemma update_access_policy_run (policy_name current_version : string)
    (log : Log) :
  exists o took line,
    catch
      (call w (UpdateAccessPolicy policy_name current_version)
         (update_access_policy w policy_name current_version) ;;
       print LDataUpdated)
      (fun e' =>
         match e' with
         | ClientError ce =>
             if String.eqb (error_code ce) "ValidationException"
             then
               if contains "No changes detected" (str_client_error ce)
               then print LNoChanges
               else raise e'
             else raise e'
         | _ => raise e'
         end) log
    = (Val tt,
       [Did (UpdateAccessPolicy policy_name current_version) o took;
        Said line]).
Proof.
  unfold catch. rewrite bind_call. cbv zeta.
  destruct (update_access_policy w policy_name current_version log)
    as [e|[]] eqn:E.
  - pose proof (updates_without_changes _ _ _ _ E) as Hno.
    unfold no_changes in Hno. destruct e as [ce| | | | | | |];
      try discriminate Hno.
    apply andb_prop in Hno as [Hcode Htext]. cbn [fst snd res_of].
    rewrite Hcode, Htext. cbn. do 3 eexists. reflexivity.
  - cbn. do 3 eexists. reflexivity.
Qed.

(** The creation of the data access policy, with its update when the policy
    is there already. *)
Lemma data_policy_run (policy_name : string) (log : Log) :
  exists t,
    catch
      (call w (CreateAccessPolicy policy_name)
         (create_access_policy w policy_name) ;;
       print LDataCreated)
      (fun e =>
         if is_conflict e then
           print LDataExists ;;
           existing <- call w ListAccessPolicies (list_access_policies w) ;;
           match KbScript.current_version_of policy_name existing with
           | Some current_version =>
               if String.eqb current_version "" then print LCouldNotFind
               else
                 catch
                   (call w (UpdateAccessPolicy policy_name current_version)
                      (update_access_policy w policy_name current_version) ;;
                    print LDataUpdated)
                   (fun e' =>
                      match e' with
                      | ClientError ce =>
                          if String.eqb (error_code ce) "ValidationException"
                          then
                            if contains "No changes detected"
                                 (str_client_error ce)
                            then print LNoChanges
                            else raise e'
                          else raise e'
                      | _ => raise e'
                      end)
           | None => print LCouldNotFind
           end
         else raise e) log
    = (Val tt, t)
    /\ count is_update t <= 1
    /\ (forall name version o took,
          In (Did (UpdateAccessPolicy name version) o took) t ->
          version <> ""
          /\ (exists e took',
                In (Did (CreateAccessPolicy name) (Raised e) took') t)
          /\ exists l existing,
               list_access_policies w l = inr existing
               /\ KbScript.current_version_of name existing = Some version).
Proof.
  unfold catch at 1. rewrite bind_call. cbv zeta.
  destruct (create_access_policy w policy_name log) as [e|[]] eqn:E.
  - rewrite (access_policies_conflict _ _ _ E). cbn [fst snd res_of outcome_of].
    rewrite bind_said. cbn [fst snd]. rewrite bind_call. cbv zeta.
    match goal with
    | |- context [list_access_policies w ?l] =>
        destruct (access_policies_listed l) as (existing & Hlisted);
        rewrite Hlisted
    end.
    destruct (KbScript.current_version_of policy_name existing)
      as [current_version|] eqn:Eversion.
    + destruct (String.eqb_spec current_version "") as [->|Hversion].
      * cbn. eexists. split; [reflexivity|]. split; [cbn; lia|].
        intros name version o took Hin. cbn in Hin.
        repeat (destruct Hin as [Hin|Hin]; try discriminate Hin).
        contradiction.
      * match goal with
        | |- context [catch _ _ ?l] =>
            destruct (update_access_policy_run policy_name current_version l)
              as (o' & took' & line & Hupdate)
        end.
        rewrite Hupdate. cbn [fst snd app].
        eexists. split; [reflexivity|]. split; [cbn; lia|].
        intros name version o took Hin. cbn [In] in Hin.
        repeat (destruct Hin as [Hin|Hin]; try discriminate Hin);
          [|contradiction].
        injection Hin as <- <- _ _. split; [exact Hversion|]. split.
        -- do 2 eexists. left. reflexivity.
        -- eauto.
    + cbn. eexists. split; [reflexivity|]. split; [cbn; lia|].
      intros name version o took Hin. cbn in Hin.
      repeat (destruct Hin as [Hin|Hin]; try discriminate Hin).
      contradiction.
  - cbn. eexists. split; [reflexivity|]. split; [cbn; lia|].
    intros name version o took Hin. cbn in Hin.
    repeat (destruct Hin as [Hin|Hin]; try discriminate Hin).
    contradiction.
Qed.

End Policies.


